(** * Counted B-tree (cbtree): a shallow embedding of the index access method

    The development follows the C sources of the counted B-tree:
    - [cbtree.h]    page opaque data, tuples, the meta record, the path stack;
    - [cbtsearch.c] root lookup and the rank descent;
    - [cbtinsert.c] insertion, count propagation and page split;
    - [cbtvacuum.c] the maintenance sweep (tuple and page deletion);
    - [cbtbuild.c]  bulk construction and the meta page.

    Integers are [Z] with the wrap-around of their C type written out.
    A relation is the list of its blocks together with the cached meta record
    ([rd_amcache]).  A buffer is identified with the block it holds, so that
    every pointer into a buffer page ([opaque], [tuple], [metad], ...) is a
    read or a write of the relation at that block: aliasing between the
    pointers of the C code is aliasing in the store.  Buffer locks and pins
    are not represented: the model is the sequential behaviour of the code
    on a relation with local buffers, where [LockBuffer] returns at once
    (see [cbt_change_children] for the one place where this matters).

    The page layer ([PageAddItem], [PageGetFreeSpace], [PageIndexTupleDelete],
    ...) belongs to the host database; it is modelled by its effect on the
    line-pointer array of a page, with the block size [BLCKSZ] as the only
    parameter. *)

From Stdlib Require Import ZArith List Bool Lia.
Import ListNotations.
Local Open Scope Z_scope.

(** ** Machine integers *)

Definition uint32 (x : Z) : Z := x mod 4294967296.
Definition uint16 (x : Z) : Z := x mod 65536.

Definition BlockNumber := Z.
Definition OffsetNumber := Z.
Definition Buffer := Z.

Definition InvalidBlockNumber : BlockNumber := 4294967295.
Definition InvalidOffsetNumber : OffsetNumber := 0.
(** A buffer is the number of the block it holds; the invalid buffer is a
    value that is no block number. *)
Definition InvalidBuffer : Buffer := -1.
Definition BufferIsValid (b : Buffer) : bool := negb (b =? InvalidBuffer).
Definition BufferIsInvalid (b : Buffer) : bool := b =? InvalidBuffer.
Definition BufferGetBlockNumber (b : Buffer) : BlockNumber := b.

Definition OffsetNumberNext (o : OffsetNumber) : OffsetNumber := uint16 (1 + o).

(** ** cbtree.h *)

Definition CBT_LEAF : Z := 1.
Definition CBT_ROOT : Z := 2.
Definition CBT_META : Z := 4.
Definition CBT_DELETED : Z := 8.
Definition CBT_HALF_DEAD : Z := 16.

Definition CBT_METAPAGE : BlockNumber := 0.
Definition CBT_MAGIC : Z := 0x0451253.
Definition P_FIRSTOFFSET : OffsetNumber := 1.
Definition CBT_LEAF_LEVEL : Z := 1.
Definition CBTREE_DEFAULT_FILLFACTOR : Z := 90.
Definition CBTREE_NONLEAF_FILLFACTOR : Z := 70.

Inductive access : Type := CBT_READ | CBT_WRITE.

Definition access_eqb (a b : access) : bool :=
  match a, b with
  | CBT_READ, CBT_READ | CBT_WRITE, CBT_WRITE => true
  | _, _ => false
  end.

Record ItemPointerData : Type := mkItemPointer
  { ip_blkid : BlockNumber; ip_posid : OffsetNumber }.

Definition ItemPointerSet (blk : BlockNumber) (off : OffsetNumber) : ItemPointerData :=
  mkItemPointer blk off.
Definition ItemPointerIsValid (p : ItemPointerData) : bool :=
  negb (ip_posid p =? 0).
Definition ItemPointerGetBlockNumber (p : ItemPointerData) : BlockNumber := ip_blkid p.
Definition ItemPointerGetOffsetNumber (p : ItemPointerData) : OffsetNumber := ip_posid p.

Record CBTTupleData : Type := mkTuple
  { itemptr : ItemPointerData; childcnt : Z }.

Record CBTPageOpaqueData : Type := mkOpaque
  { cbto_prev : BlockNumber;
    cbto_next : BlockNumber;
    cbto_parent : ItemPointerData;
    level : Z;
    cbto_flags : Z }.

Record CBTMetaPageData : Type := mkMeta
  { cbtm_magic : Z; cbtm_root : BlockNumber; cbtm_level : Z }.

Record CBTStackData : Type := mkFrame
  { cbts_blkno : BlockNumber;
    cbts_offset : OffsetNumber;
    total_count : Z }.

(** The path stack: the head is the frame pushed last, the tail is the chain
    of [cbts_parent] pointers; the empty list is the NULL stack. *)
Definition CBTStack := list CBTStackData.

Definition has_flag (flags bit : Z) : bool := negb (Z.land flags bit =? 0).

Definition P_LEFTMOST (o : CBTPageOpaqueData) : bool := cbto_prev o =? InvalidBlockNumber.
Definition P_RIGHTMOST (o : CBTPageOpaqueData) : bool := cbto_next o =? InvalidBlockNumber.
Definition P_ISLEAF (o : CBTPageOpaqueData) : bool := has_flag (cbto_flags o) CBT_LEAF.
Definition P_ISROOT (o : CBTPageOpaqueData) : bool := has_flag (cbto_flags o) CBT_ROOT.
Definition P_ISDELETED (o : CBTPageOpaqueData) : bool := has_flag (cbto_flags o) CBT_DELETED.
Definition P_IGNORE (o : CBTPageOpaqueData) : bool :=
  has_flag (cbto_flags o) (Z.lor CBT_DELETED CBT_HALF_DEAD).
Definition P_ISMETA (o : CBTPageOpaqueData) : bool := has_flag (cbto_flags o) CBT_META.

(** ** The page layer *)

(** A line pointer with the tuple it addresses; [lp_dead] is the LP_DEAD
    state tested by [ItemIdIsDead]. *)
Record ItemIdData : Type := mkItem
  { lp_dead : bool; lp_tuple : CBTTupleData }.

Definition ItemIdIsDead (i : ItemIdData) : bool := lp_dead i.

(** A page: the line-pointer array in offset order, the special area, and
    the contents seen as a meta record (read on the meta page only). *)
Record Page : Type := mkPage
  { pd_items : list ItemIdData;
    pd_opaque : CBTPageOpaqueData;
    pd_meta : CBTMetaPageData }.

Definition zero_opaque : CBTPageOpaqueData :=
  mkOpaque 0 0 (mkItemPointer 0 0) 0 0.
Definition zero_meta : CBTMetaPageData := mkMeta 0 0 0.
(** An all-zero block, as [ReadBuffer(rel, P_NEW)] hands it out. *)
Definition zero_page : Page := mkPage [] zero_opaque zero_meta.

Definition set_items (p : Page) (l : list ItemIdData) : Page :=
  mkPage l (pd_opaque p) (pd_meta p).
Definition set_opaque (p : Page) (o : CBTPageOpaqueData) : Page :=
  mkPage (pd_items p) o (pd_meta p).
Definition set_meta (p : Page) (m : CBTMetaPageData) : Page :=
  mkPage (pd_items p) (pd_opaque p) m.

Definition set_prev (o : CBTPageOpaqueData) (b : BlockNumber) : CBTPageOpaqueData :=
  mkOpaque b (cbto_next o) (cbto_parent o) (level o) (cbto_flags o).
Definition set_next (o : CBTPageOpaqueData) (b : BlockNumber) : CBTPageOpaqueData :=
  mkOpaque (cbto_prev o) b (cbto_parent o) (level o) (cbto_flags o).
Definition set_parent (o : CBTPageOpaqueData) (p : ItemPointerData) : CBTPageOpaqueData :=
  mkOpaque (cbto_prev o) (cbto_next o) p (level o) (cbto_flags o).
Definition set_level (o : CBTPageOpaqueData) (l : Z) : CBTPageOpaqueData :=
  mkOpaque (cbto_prev o) (cbto_next o) (cbto_parent o) l (cbto_flags o).
Definition set_flags (o : CBTPageOpaqueData) (f : Z) : CBTPageOpaqueData :=
  mkOpaque (cbto_prev o) (cbto_next o) (cbto_parent o) (level o) f.

Definition PageGetMaxOffsetNumber (p : Page) : OffsetNumber :=
  Z.of_nat (length (pd_items p)).

(** [PageGetItemId] followed by [PageGetItem]; [None] stands for an offset
    outside [1 .. maxoff], where the C code reads an undefined line pointer. *)
Definition PageGetItemId (p : Page) (off : OffsetNumber) : option ItemIdData :=
  if (1 <=? off) && (off <=? PageGetMaxOffsetNumber p)
  then nth_error (pd_items p) (Z.to_nat (off - 1)) else None.

Definition PageGetItem (p : Page) (off : OffsetNumber) : option CBTTupleData :=
  option_map lp_tuple (PageGetItemId p off).

Fixpoint list_insert {A : Type} (n : nat) (x : A) (l : list A) : list A :=
  match n, l with
  | O, _ => x :: l
  | S n', y :: l' => y :: list_insert n' x l'
  | S _, [] => [x]
  end.

Fixpoint list_remove {A : Type} (n : nat) (l : list A) : list A :=
  match n, l with
  | _, [] => []
  | O, _ :: l' => l'
  | S n', y :: l' => y :: list_remove n' l'
  end.

Fixpoint list_update {A : Type} (n : nat) (f : A -> A) (l : list A) : list A :=
  match n, l with
  | _, [] => []
  | O, y :: l' => f y :: l'
  | S n', y :: l' => y :: list_update n' f l'
  end.

(** ** The relation and the effects of the code *)

Record Relation : Type := mkRel
  { rd_pages : list Page;
    rd_amcache : option CBTMetaPageData }.

Definition RelationGetNumberOfBlocks (rel : Relation) : Z :=
  Z.of_nat (length (rd_pages rel)).

Definition block_exists (rel : Relation) (blk : BlockNumber) : bool :=
  (0 <=? blk) && (blk <? RelationGetNumberOfBlocks rel).

(** The page of a block of the relation (a zero page outside it). *)
Definition BufferGetPage (rel : Relation) (buf : Buffer) : Page :=
  if block_exists rel buf then nth (Z.to_nat buf) (rd_pages rel) zero_page
  else zero_page.

Definition modify_page (buf : Buffer) (f : Page -> Page) (rel : Relation) : Relation :=
  if block_exists rel buf
  then mkRel (list_update (Z.to_nat buf) f (rd_pages rel)) (rd_amcache rel)
  else rel.

Definition write_page (buf : Buffer) (p : Page) (rel : Relation) : Relation :=
  modify_page buf (fun _ => p) rel.

Definition modify_opaque (buf : Buffer) (f : CBTPageOpaqueData -> CBTPageOpaqueData)
  (rel : Relation) : Relation :=
  modify_page buf (fun p => set_opaque p (f (pd_opaque p))) rel.

Definition modify_meta (buf : Buffer) (f : CBTMetaPageData -> CBTMetaPageData)
  (rel : Relation) : Relation :=
  modify_page buf (fun p => set_meta p (f (pd_meta p))) rel.

Definition set_amcache (c : option CBTMetaPageData) (rel : Relation) : Relation :=
  mkRel (rd_pages rel) c.

(** What stops an operation: the [elog(ERROR)] and [ereport(ERROR)] of the
    code and of the page layer, and [ERR_undefined] for the places where the
    C code dereferences NULL or reads a line pointer that is not there. *)
Inductive error : Type :=
| ERR_read_block          (* ReadBuffer past the end of the relation *)
| ERR_not_cbtree          (* index is not a cbtree *)
| ERR_no_live_root        (* no live root page found *)
| ERR_root_level          (* root page has an unexpected level *)
| ERR_sibling_mismatch    (* right sibling's left-link doesn't match *)
| ERR_add_item            (* failed to add item to the index page *)
| ERR_invalid_offnum      (* invalid index offnum *)
| ERR_contains_data       (* index already contains data *)
| ERR_undefined.

(** The outcome of a run over a state [S]: a value and the state it leaves,
    an error and the state at the point of the error, or a loop cut by the
    fuel. *)
Inductive outcome (S A : Type) : Type :=
| Ok (a : A) (s : S)
| Err (e : error) (s : S)
| OutOfFuel.

Arguments Ok {S A} a s.
Arguments Err {S A} e s.
Arguments OutOfFuel {S A}.

Definition ST (S A : Type) : Type := S -> outcome S A.

(** The code of the index works on the relation. *)
Definition M (A : Type) : Type := ST Relation A.

Definition ret {S A : Type} (a : A) : ST S A := fun s => Ok a s.

Definition bind {S A B : Type} (m : ST S A) (k : A -> ST S B) : ST S B :=
  fun s =>
    match m s with
    | Ok a s' => k a s'
    | Err e s' => Err e s'
    | OutOfFuel => OutOfFuel
    end.

Definition raise {S A : Type} (e : error) : ST S A := fun s => Err e s.
Definition get {S : Type} : ST S S := fun s => Ok s s.
Definition update {S : Type} (f : S -> S) : ST S unit := fun s => Ok tt (f s).
Definition out_of_fuel {S A : Type} : ST S A := fun _ => OutOfFuel.

Notation "x <- m ;; k" := (bind m (fun x => k))
  (at level 61, m at next level, right associativity).
Notation "m ;;; k" := (bind m (fun _ => k))
  (at level 61, right associativity).

Section Geometry.

(** The block size of the host database, in bytes. *)
Variable BLCKSZ : Z.

Definition SizeOfPageHeaderData : Z := 24.
Definition sizeof_ItemIdData : Z := 4.
(** [MAXALIGN(sizeof(CBTPageOpaqueData))] and [MAXALIGN(sizeof(CBTTupleData))]. *)
Definition SizeOfSpecial : Z := 24.
Definition itemsz : Z := 16.

(** Bytes between the end of the line-pointer array and the tuple area. *)
Definition page_hole (p : Page) : Z :=
  BLCKSZ - SizeOfPageHeaderData - SizeOfSpecial
  - (sizeof_ItemIdData + itemsz) * Z.of_nat (length (pd_items p)).

Definition PageGetFreeSpace (p : Page) : Z :=
  if page_hole p <? sizeof_ItemIdData then 0 else page_hole p - sizeof_ItemIdData.

(** [PageAddItem(page, item, itemsz, off, false, false)]: the tuple is put at
    offset [off], the line pointers from [off] on move up by one.  An offset
    past [maxoff + 1], or a page without room, leaves the page as it is and
    returns [InvalidOffsetNumber].  [off = InvalidOffsetNumber] appends. *)
Definition PageAddItem (p : Page) (t : CBTTupleData) (off : OffsetNumber)
  : OffsetNumber * Page :=
  let limit := PageGetMaxOffsetNumber p + 1 in
  let off' := if off =? InvalidOffsetNumber then limit else off in
  if (limit <? off') || (off' <? 1) then (InvalidOffsetNumber, p)
  else if page_hole p <? sizeof_ItemIdData + itemsz then (InvalidOffsetNumber, p)
  else (off', set_items p (list_insert (Z.to_nat (off' - 1)) (mkItem false t) (pd_items p))).

(** [PageIndexTupleDelete]: [None] is its "invalid index offnum" error. *)
Definition PageIndexTupleDelete (p : Page) (off : OffsetNumber) : option Page :=
  if (off <=? 0) || (PageGetMaxOffsetNumber p <? off) then None
  else Some (set_items p (list_remove (Z.to_nat (off - 1)) (pd_items p))).

(** [CBTInitPage] (cbtbuild.c): [PageInit] zeroes the page, the special area
    is zeroed again and receives the flags. *)
Definition CBTInitPage (flags : Z) : Page :=
  mkPage [] (set_flags zero_opaque flags) zero_meta.

Definition CBTFormTuple (itptr : ItemPointerData) (childcount : Z) : CBTTupleData :=
  mkTuple (ItemPointerSet (ItemPointerGetBlockNumber itptr)
                          (ItemPointerGetOffsetNumber itptr)) childcount.

(** [ReadBuffer]: an existing block, or, for [P_NEW] (the invalid block
    number), a fresh all-zero block at the end of the relation. *)
Definition ReadBuffer (blkno : BlockNumber) : M Buffer :=
  fun rel =>
    if blkno =? InvalidBlockNumber then
      Ok (RelationGetNumberOfBlocks rel)
         (mkRel (rd_pages rel ++ [zero_page]) (rd_amcache rel))
    else if block_exists rel blkno then Ok blkno rel
    else Err ERR_read_block rel.

(** [cbt_get_buffer] (cbtinsert.c): read an existing block, or extend the
    relation by a block initialised as an empty leaf page. *)
Definition cbt_get_buffer (blkno : BlockNumber) (acc : access) : M Buffer :=
  if negb (blkno =? InvalidBlockNumber) then ReadBuffer blkno
  else
    buf <- ReadBuffer InvalidBlockNumber ;;
    update (write_page buf (CBTInitPage CBT_LEAF)) ;;;
    ret buf.

(** ** cbtsearch.c *)

(** The loop of [cbt_getroot] that steps right over dead root pages. *)
Fixpoint cbt_getroot_live (fuel : nat) (rootblkno : BlockNumber) : M (Buffer * BlockNumber) :=
  match fuel with
  | O => out_of_fuel
  | S fuel' =>
      rootbuf <- ReadBuffer rootblkno ;;
      rel <- get ;;
      let rootopaque := pd_opaque (BufferGetPage rel rootbuf) in
      if negb (P_IGNORE rootopaque) then ret (rootbuf, rootblkno)
      else if P_RIGHTMOST rootopaque then raise ERR_no_live_root
      else cbt_getroot_live fuel' (cbto_next rootopaque)
  end.

Fixpoint cbt_getroot (fuel : nat) (acc : access) : M Buffer :=
  match fuel with
  | O => out_of_fuel
  | S fuel' =>
      rel0 <- get ;;
      cached <-
        match rd_amcache rel0 with
        | Some metad =>
            let rootblkno := cbtm_root metad in
            let rootlevel := cbtm_level metad in
            rootbuf <- cbt_get_buffer rootblkno CBT_READ ;;
            rel <- get ;;
            let rootopaque := pd_opaque (BufferGetPage rel rootbuf) in
            if negb (P_IGNORE rootopaque) && (level rootopaque =? rootlevel)
               && P_LEFTMOST rootopaque && P_RIGHTMOST rootopaque
            then ret (Some rootbuf)
            else update (set_amcache None) ;;; ret None
        | None => ret None
        end ;;
      match cached with
      | Some rootbuf => ret rootbuf
      | None =>
          metabuf <- cbt_get_buffer CBT_METAPAGE CBT_READ ;;
          rel <- get ;;
          let metapg := BufferGetPage rel metabuf in
          let metad := pd_meta metapg in
          if negb (P_ISMETA (pd_opaque metapg)) || negb (cbtm_magic metad =? CBT_MAGIC)
          then raise ERR_not_cbtree
          else if cbtm_root metad =? InvalidBlockNumber then
            match acc with
            | CBT_READ => ret InvalidBuffer
            | CBT_WRITE =>
                rel1 <- get ;;
                if negb (cbtm_root (pd_meta (BufferGetPage rel1 metabuf)) =? InvalidBlockNumber)
                then cbt_getroot fuel' acc
                else
                  rootbuf <- cbt_get_buffer InvalidBlockNumber CBT_WRITE ;;
                  let rootblkno := BufferGetBlockNumber rootbuf in
                  update (modify_opaque rootbuf (fun o =>
                    set_level
                      (set_flags (set_next (set_prev o InvalidBlockNumber) InvalidBlockNumber)
                                 (Z.lor CBT_LEAF CBT_ROOT))
                      CBT_LEAF_LEVEL)) ;;;
                  update (modify_meta metabuf (fun m =>
                    mkMeta (cbtm_magic m) rootblkno 1)) ;;;
                  ret rootbuf
            end
          else
            let rootblkno := cbtm_root metad in
            let rootlevel := cbtm_level metad in
            update (set_amcache (Some metad)) ;;;
            r <- cbt_getroot_live fuel' rootblkno ;;
            let '(rootbuf, rootblkno') := r in
            rel2 <- get ;;
            if negb (level (pd_opaque (BufferGetPage rel2 rootbuf)) =? rootlevel)
            then raise ERR_root_level
            else ret rootbuf
      end
  end.

(** The scan of [cbt_search_in_page], on the line pointers from [offset] on. *)
Fixpoint cbt_search_in_page_from (items : list ItemIdData) (offset maxoff : OffsetNumber)
  (leftcount pos : Z) (blkno : BlockNumber) (stack : CBTStack) : CBTStack :=
  match items with
  | [] => []
  | curid :: rest =>
      let tuple := lp_tuple curid in
      let leftcount' :=
        if ItemIdIsDead curid then leftcount else uint32 (leftcount + childcnt tuple) in
      if negb (ItemIdIsDead curid) && (pos <=? leftcount') then
        mkFrame blkno offset (uint32 (leftcount' - childcnt tuple)) :: stack
      else if offset =? maxoff then []
      else cbt_search_in_page_from rest (OffsetNumberNext offset) maxoff
             leftcount' pos blkno stack
  end.

Definition cbt_search_in_page (rel : Relation) (pagebuf : Buffer) (pos : Z)
  (stack : CBTStack) : CBTStack :=
  let page := BufferGetPage rel pagebuf in
  let maxoff := PageGetMaxOffsetNumber page in
  if maxoff <? P_FIRSTOFFSET then []
  else
    let leftcount := match stack with [] => 0 | top :: _ => total_count top end in
    cbt_search_in_page_from (pd_items page) P_FIRSTOFFSET maxoff leftcount pos
      (BufferGetBlockNumber pagebuf) stack.

(** The descent of [cbt_search], from the page in [buf]. *)
Fixpoint cbt_search_descend (fuel : nat) (pos : Z) (buf : Buffer) (stack : CBTStack)
  : M (CBTStack * Buffer) :=
  match fuel with
  | O => out_of_fuel
  | S fuel' =>
      rel <- get ;;
      let page := BufferGetPage rel buf in
      let opaque := pd_opaque page in
      match cbt_search_in_page rel buf pos stack with
      | [] => ret ([], buf)
      | top :: parents =>
          if P_ISLEAF opaque then ret (top :: parents, buf)
          else
            match PageGetItem page (cbts_offset top) with
            | None => raise ERR_undefined
            | Some cbttuple =>
                let blkno := ItemPointerGetBlockNumber (itemptr cbttuple) in
                buf' <- ReadBuffer blkno ;;
                cbt_search_descend fuel' pos buf' (top :: parents)
            end
      end
  end.

Definition cbt_search (fuel : nat) (pos : Z) (acc : access) : M (CBTStack * Buffer) :=
  buf <- cbt_getroot fuel acc ;;
  if negb (BufferIsValid buf) then ret ([], buf)
  else cbt_search_descend fuel pos buf [].

(** The scan state kept between calls of [cbtgettuple]. *)
Record CBTScanOpaqueData : Type := mkScan { first_scan : bool }.

(** [cbt_first]: the result flag, the heap pointer stored in the scan
    ([xs_ctup.t_self]) when the flag is true, and the scan state. *)
Definition cbt_first (fuel : nat) (so : CBTScanOpaqueData) (searchnull : bool) (sk_argument : Z)
  : M (bool * option ItemPointerData * CBTScanOpaqueData) :=
  if negb (first_scan so) then ret (false, None, so)
  else if searchnull then ret (false, None, so)
  else
    let pos := uint32 sk_argument in
    r <- cbt_search fuel pos CBT_READ ;;
    let '(stack, buf) := r in
    match stack with
    | [] => ret (false, None, so)
    | top :: _ =>
        if negb (BufferIsValid buf) then ret (false, None, so)
        else
          rel <- get ;;
          match PageGetItem (BufferGetPage rel buf) (cbts_offset top) with
          | None => raise ERR_undefined
          | Some tuple => ret (true, Some (itemptr tuple), mkScan false)
          end
    end.

(** [cbtbeginscan]: the scan opaque of a new scan. *)
Definition cbtbeginscan : CBTScanOpaqueData := mkScan true.

(** [cbtgettuple]: the next tuple of the scan ([xs_recheck] is always false). *)
Definition cbtgettuple (fuel : nat) (so : CBTScanOpaqueData) (searchnull : bool)
  (sk_argument : Z) : M (bool * option ItemPointerData * CBTScanOpaqueData) :=
  cbt_first fuel so searchnull sk_argument.

(** ** cbtinsert.c *)

(** The sum of the counts of the live tuples of the root page. *)
Fixpoint cbt_find_totalcnt_from (items : list ItemIdData) (total_cnt : Z) : Z :=
  match items with
  | [] => total_cnt
  | curid :: rest =>
      cbt_find_totalcnt_from rest
        (if ItemIdIsDead curid then total_cnt
         else uint32 (total_cnt + childcnt (lp_tuple curid)))
  end.

Definition cbt_find_totalcnt (fuel : nat) : M Z :=
  rootbuf <- cbt_getroot fuel CBT_READ ;;
  if BufferIsInvalid rootbuf then ret 0
  else
    rel <- get ;;
    let rootpage := BufferGetPage rel rootbuf in
    if PageGetMaxOffsetNumber rootpage =? 0 then ret 0
    else ret (cbt_find_totalcnt_from (pd_items rootpage) 0).

Definition set_childcnt (c : Z) (i : ItemIdData) : ItemIdData :=
  mkItem (lp_dead i) (mkTuple (itemptr (lp_tuple i)) c).

Definition add_childcnt (change : Z) (i : ItemIdData) : ItemIdData :=
  set_childcnt (uint32 (childcnt (lp_tuple i) + change)) i.

(** A write through a tuple pointer obtained from [PageGetItem(page, off)]. *)
Definition modify_tuple (buf : Buffer) (off : OffsetNumber) (f : ItemIdData -> ItemIdData)
  : M unit :=
  rel <- get ;;
  match PageGetItemId (BufferGetPage rel buf) off with
  | None => raise ERR_undefined
  | Some _ =>
      update (modify_page buf (fun p =>
        set_items p (list_update (Z.to_nat (off - 1)) f (pd_items p))))
  end.

(** [cbt_change_children] writes the parent pointer of a child page.  The C
    code takes the exclusive lock of the child buffer for the write
    ([cbt_get_buffer] with [CBT_WRITE], cbtinsert.c line 187).  In the split
    of an internal page one of the children is the page on the path of the
    insert, which the same backend still holds exclusively (the leaf since
    [cbt_search], a page above since line 452): on shared buffers this
    second [LockBuffer] never returns.  On local buffers (a temporary
    relation) [LockBuffer] does nothing, and that run is the one modelled
    here.  The split of a leaf does not call this function. *)
Definition cbt_change_children (child : ItemPointerData) (parentblkno : BlockNumber)
  (parentoffset : OffsetNumber) : M unit :=
  childbuf <- cbt_get_buffer (ItemPointerGetBlockNumber child) CBT_WRITE ;;
  update (modify_opaque childbuf (fun o =>
    set_parent o (ItemPointerSet parentblkno parentoffset))).

Fixpoint cbt_change_parent (stack : CBTStack) (change : Z) : M unit :=
  match stack with
  | [] => ret tt
  | top :: parents =>
      buf <- cbt_get_buffer (cbts_blkno top) CBT_WRITE ;;
      modify_tuple buf (cbts_offset top) (add_childcnt change) ;;;
      cbt_change_parent parents change
  end.

(** The variables of [cbt_split_page] that its transfer loop updates.  The
    left half is built in the temporary page [sx_left]; the right half is
    built in place in the new buffer. *)
Record SplitXfer : Type := mkXfer
  { sx_left : Page;
    sx_leftoff : OffsetNumber;
    sx_rightoff : OffsetNumber;
    sx_newitemoff : OffsetNumber;
    sx_leftcount : Z;
    sx_rightcount : Z;
    sx_item : option CBTTupleData;
    sx_i : OffsetNumber }.

Definition xfer_new_left (newitem : CBTTupleData) (st : SplitXfer) : SplitXfer :=
  mkXfer (snd (PageAddItem (sx_left st) newitem (sx_leftoff st)))
         (OffsetNumberNext (sx_leftoff st)) (sx_rightoff st)
         (sx_leftoff st)
         (uint32 (sx_leftcount st + childcnt newitem)) (sx_rightcount st)
         (sx_item st) (sx_i st).

Definition xfer_new_right (rbuf : Buffer) (newitem : CBTTupleData) (cnt : Z)
  (st : SplitXfer) : M SplitXfer :=
  update (modify_page rbuf (fun p => snd (PageAddItem p newitem (sx_rightoff st)))) ;;;
  ret (mkXfer (sx_left st) (sx_leftoff st) (OffsetNumberNext (sx_rightoff st))
              (sx_rightoff st)
              (sx_leftcount st) (uint32 (sx_rightcount st + cnt))
              (sx_item st) (sx_i st)).

(** A tuple of the original page goes to the left half. *)
Definition xfer_old_left (origbuf : Buffer) (item : CBTTupleData) (is_leaf : bool)
  (st : SplitXfer) : M SplitXfer :=
  let left' := snd (PageAddItem (sx_left st) item (sx_leftoff st)) in
  (if negb is_leaf
   then cbt_change_children (itemptr item) (BufferGetBlockNumber origbuf) (sx_leftoff st)
   else ret tt) ;;;
  ret (mkXfer left' (OffsetNumberNext (sx_leftoff st)) (sx_rightoff st)
              (sx_newitemoff st)
              (uint32 (sx_leftcount st + childcnt item)) (sx_rightcount st)
              (Some item) (sx_i st)).

(** A tuple of the original page goes to the right half. *)
Definition xfer_old_right (rbuf : Buffer) (item : CBTTupleData) (is_leaf : bool)
  (st : SplitXfer) : M SplitXfer :=
  update (modify_page rbuf (fun p => snd (PageAddItem p item (sx_rightoff st)))) ;;;
  (if negb is_leaf
   then cbt_change_children (itemptr item) (BufferGetBlockNumber rbuf) (sx_rightoff st)
   else ret tt) ;;;
  ret (mkXfer (sx_left st) (sx_leftoff st) (OffsetNumberNext (sx_rightoff st))
              (sx_newitemoff st)
              (sx_leftcount st) (uint32 (sx_rightcount st + childcnt item))
              (Some item) (sx_i st)).

Definition xfer_next (st : SplitXfer) : SplitXfer :=
  mkXfer (sx_left st) (sx_leftoff st) (sx_rightoff st) (sx_newitemoff st)
         (sx_leftcount st) (sx_rightcount st) (sx_item st)
         (OffsetNumberNext (sx_i st)).

(** The loop of [cbt_split_page] over the tuples of the original page. *)
Fixpoint cbt_split_transfer (n : nat) (origbuf rbuf : Buffer) (newitem : CBTTupleData)
  (newitemonleft : bool) (firstright : OffsetNumber) (is_leaf : bool)
  (st : SplitXfer) : M SplitXfer :=
  match n with
  | O => ret st
  | S n' =>
      let i := sx_i st in
      rel <- get ;;
      match PageGetItem (BufferGetPage rel origbuf) i with
      | None => raise ERR_undefined
      | Some item =>
          st1 <-
            (if i =? sx_newitemoff st then
               if newitemonleft then ret (xfer_new_left newitem st)
               else xfer_new_right rbuf newitem (childcnt newitem) st
             else ret st) ;;
          st2 <-
            (if i <? firstright
             then xfer_old_left origbuf item is_leaf st1
             else xfer_old_right rbuf item is_leaf st1) ;;
          cbt_split_transfer n' origbuf rbuf newitem newitemonleft firstright is_leaf
            (xfer_next st2)
      end
  end.

(** The transfer of [cbt_split_page]: the loop, then the new tuple when it
    goes past the last tuple of the original page. *)
Definition cbt_split_distribute (origbuf rbuf : Buffer) (newitem : CBTTupleData)
  (newitemoff : OffsetNumber) (lopaque : CBTPageOpaqueData) : M (bool * SplitXfer) :=
  rel <- get ;;
  let origpage := BufferGetPage rel origbuf in
  let maxoff := PageGetMaxOffsetNumber origpage in
  let newitemonleft := newitemoff <=? maxoff / 2 in
  let firstright := uint16 (maxoff / 2 + 1) in
  let is_leaf := P_ISLEAF (pd_opaque origpage) in
  st <- cbt_split_transfer (Z.to_nat maxoff) origbuf rbuf newitem newitemonleft
          firstright is_leaf
          (mkXfer (set_opaque (CBTInitPage CBT_LEAF) lopaque)
                  P_FIRSTOFFSET P_FIRSTOFFSET newitemoff 0 0 None P_FIRSTOFFSET) ;;
  if sx_i st <=? sx_newitemoff st then
    match sx_item st with
    | None => raise ERR_undefined
    | Some item =>
        st' <- xfer_new_right rbuf newitem (childcnt item) st ;;
        ret (newitemonleft, st')
    end
  else ret (newitemonleft, st).

Definition bump_offset (f : CBTStackData) : CBTStackData :=
  mkFrame (cbts_blkno f) (uint16 (cbts_offset f + 1)) (total_count f).

Fixpoint cbt_insert_on_page (fuel : nat) (stack : CBTStack) (newtup : CBTTupleData)
  (buf : Buffer) {struct fuel} : M (CBTStack * Buffer) :=
  match fuel with
  | O => out_of_fuel
  | S fuel' =>
      stack' <-
        match stack with
        | [] =>
            update (write_page buf (CBTInitPage CBT_ROOT)) ;;;
            ret [mkFrame (BufferGetBlockNumber buf) P_FIRSTOFFSET 0]
        | _ => ret stack
        end ;;
      rel <- get ;;
      if PageGetFreeSpace (BufferGetPage rel buf) <? itemsz then
        r <- cbt_split_page fuel' buf newtup stack' ;;
        ret (match stack with [] => [] | _ => fst r end, snd r)
      else
        match stack' with
        | [] => raise ERR_undefined
        | top :: _ =>
            update (modify_page buf (fun p =>
              snd (PageAddItem p newtup (cbts_offset top)))) ;;;
            ret (stack, buf)
        end
  end

with cbt_split_page (fuel : nat) (origbuf : Buffer) (newitem : CBTTupleData)
  (stack : CBTStack) {struct fuel} : M (CBTStack * Buffer) :=
  match fuel with
  | O => out_of_fuel
  | S fuel' =>
      match stack with
      | [] => raise ERR_undefined
      | top :: stack_parent =>
          let newitemoff := cbts_offset top in
          rbuf <- cbt_get_buffer InvalidBlockNumber CBT_WRITE ;;
          let origpagenumber := BufferGetBlockNumber origbuf in
          let rightpagenumber := BufferGetBlockNumber rbuf in
          rel <- get ;;
          let oopaque := pd_opaque (BufferGetPage rel origbuf) in
          let lflags := Z.ldiff (cbto_flags oopaque) CBT_ROOT in
          let lopaque :=
            mkOpaque (cbto_prev oopaque) rightpagenumber
                     (cbto_parent (pd_opaque (CBTInitPage CBT_LEAF)))
                     (level oopaque) lflags in
          update (modify_opaque rbuf (fun o =>
            mkOpaque origpagenumber (cbto_next oopaque) (cbto_parent o)
                     (level oopaque) lflags)) ;;;
          d <- cbt_split_distribute origbuf rbuf newitem newitemoff lopaque ;;
          let '(newitemonleft, st) := d in
          let leftcount := sx_leftcount st in
          let rightcount := sx_rightcount st in
          (* now update the parent tuple *)
          pp <-
            match stack_parent with
            | [] =>
                metabuf <- cbt_get_buffer CBT_METAPAGE CBT_WRITE ;;
                parent <- cbt_get_buffer InvalidBlockNumber CBT_WRITE ;;
                let parentblkno := BufferGetBlockNumber parent in
                rel1 <- get ;;
                let parentlevel :=
                  uint32 (level (pd_opaque (BufferGetPage rel1 origbuf)) + 1) in
                update (modify_opaque parent (fun o =>
                  set_level
                    (set_flags (set_next (set_prev o InvalidBlockNumber) InvalidBlockNumber)
                               CBT_ROOT)
                    parentlevel)) ;;;
                update (modify_meta metabuf (fun m =>
                  mkMeta (cbtm_magic m) parentblkno parentlevel)) ;;;
                let parenttuple :=
                  CBTFormTuple (ItemPointerSet origpagenumber P_FIRSTOFFSET) leftcount in
                r <- cbt_insert_on_page fuel' [mkFrame parentblkno P_FIRSTOFFSET 0]
                       parenttuple parent ;;
                update (modify_opaque origbuf (fun o =>
                  set_parent o (ItemPointerSet parentblkno P_FIRSTOFFSET))) ;;;
                ret r
            | ptop :: _ =>
                parent <- cbt_get_buffer (cbts_blkno ptop) CBT_WRITE ;;
                modify_tuple parent (cbts_offset ptop) (set_childcnt leftcount) ;;;
                ret (stack_parent, parent)
            end ;;
          let '(pstack, parent) := pp in
          let newparenttuple :=
            CBTFormTuple (ItemPointerSet (BufferGetBlockNumber rbuf) P_FIRSTOFFSET)
                         rightcount in
          match pstack with
          | [] => raise ERR_undefined
          | ptop :: pparents =>
              r <- cbt_insert_on_page fuel' (bump_offset ptop :: pparents)
                     newparenttuple parent ;;
              let pstack' := fst r in
              match pstack' with
              | [] => raise ERR_undefined
              | ptop' :: _ =>
                  update (modify_opaque rbuf (fun o =>
                    set_parent o (ItemPointerSet (cbts_blkno ptop') (cbts_offset ptop')))) ;;;
                  (* the right sibling, if any *)
                  rel2 <- get ;;
                  let oopaque2 := pd_opaque (BufferGetPage rel2 origbuf) in
                  sbuf <-
                    (if negb (P_RIGHTMOST oopaque2) then
                       sbuf <- cbt_get_buffer (cbto_next oopaque2) CBT_WRITE ;;
                       rel3 <- get ;;
                       if negb (cbto_prev (pd_opaque (BufferGetPage rel3 sbuf))
                                =? origpagenumber)
                       then update (write_page rbuf zero_page) ;;;
                            raise ERR_sibling_mismatch
                       else ret (Some sbuf)
                     else ret None) ;;
                  (* PageRestoreTempPage(leftpage, origpage) *)
                  update (write_page origbuf (sx_left st)) ;;;
                  rel4 <- get ;;
                  (if negb (P_RIGHTMOST (pd_opaque (BufferGetPage rel4 rbuf))) then
                     match sbuf with
                     | None => raise ERR_undefined
                     | Some sb =>
                         update (modify_opaque sb (fun o => set_prev o rightpagenumber))
                     end
                   else ret tt) ;;;
                  if newitemonleft
                  then ret (mkFrame origpagenumber (sx_newitemoff st) (total_count top)
                              :: pstack', origbuf)
                  else ret (mkFrame rightpagenumber (sx_newitemoff st) (total_count top)
                              :: pstack', rbuf)
              end
          end
      end
  end.

Definition cbt_insert_tuple (fuel : nat) (position : Z) (itmptr : ItemPointerData)
  : M unit :=
  r <- cbt_search fuel position CBT_WRITE ;;
  let '(stack0, insertionbuf0) := r in
  r' <-
    (if BufferIsInvalid insertionbuf0 || match stack0 with [] => true | _ => false end
     then
       newpos <- cbt_find_totalcnt fuel ;;
       if newpos =? 0 then
         insertionbuf <- cbt_getroot fuel CBT_READ ;;
         if BufferIsInvalid insertionbuf then raise ERR_undefined
         else ret ([mkFrame (BufferGetBlockNumber insertionbuf) P_FIRSTOFFSET 0],
                   insertionbuf)
       else
         r1 <- cbt_search fuel newpos CBT_WRITE ;;
         match fst r1 with
         | [] => raise ERR_undefined
         | top :: parents => ret (bump_offset top :: parents, snd r1)
         end
     else ret (stack0, insertionbuf0)) ;;
  let '(stack, insertionbuf) := r' in
  let itup := CBTFormTuple itmptr 1 in
  match stack with
  | [] => raise ERR_undefined
  | _ :: stack_parent =>
      cbt_change_parent stack_parent 1 ;;;
      cbt_insert_on_page fuel stack itup insertionbuf ;;;
      ret tt
  end.

(** [cbtinsert]: the position is the first index column. *)
Definition cbtinsert (fuel : nat) (values0 : Z) (ht_ctid : ItemPointerData) : M bool :=
  cbt_insert_tuple fuel (uint32 values0) ht_ctid ;;;
  ret true.

(** ** cbtvacuum.c *)

(** The counters of [IndexBulkDeleteResult] that the sweep increments. *)
Record CBTVacStats : Type := mkStats
  { tuples_removed : Z; pages_deleted : Z }.

Fixpoint cbt_reduce_parent (fuel : nat) (parent : ItemPointerData) (change : Z) : M unit :=
  if negb (ItemPointerIsValid parent) then ret tt
  else
    match fuel with
    | O => out_of_fuel
    | S fuel' =>
        buf <- cbt_get_buffer (ItemPointerGetBlockNumber parent) CBT_WRITE ;;
        modify_tuple buf (ItemPointerGetOffsetNumber parent) (add_childcnt change) ;;;
        rel <- get ;;
        cbt_reduce_parent fuel' (cbto_parent (pd_opaque (BufferGetPage rel buf))) change
    end.

(** [cbt_delitem_vacuum] and [cbt_delpage_vacuum].  The [Assert] of
    [cbt_delpage_vacuum] (cbtvacuum.c line 368: the page without parent
    pointer is the root named by the meta page) is compiled out of a
    production build and is not part of the model. *)
Fixpoint cbt_delitem_vacuum (fuel : nat) (buf : Buffer) (itemindex : OffsetNumber)
  (stats : CBTVacStats) {struct fuel} : M CBTVacStats :=
  match fuel with
  | O => out_of_fuel
  | S fuel' =>
      rel <- get ;;
      cbt_reduce_parent fuel' (cbto_parent (pd_opaque (BufferGetPage rel buf))) (-1) ;;;
      rel1 <- get ;;
      match PageIndexTupleDelete (BufferGetPage rel1 buf) itemindex with
      | None => raise ERR_invalid_offnum
      | Some page' =>
          update (write_page buf page') ;;;
          let stats1 := mkStats (tuples_removed stats + 1) (pages_deleted stats) in
          if PageGetMaxOffsetNumber page' =? 0
          then cbt_delpage_vacuum fuel' buf stats1
          else ret stats1
      end
  end

with cbt_delpage_vacuum (fuel : nat) (buf : Buffer) (stats : CBTVacStats)
  {struct fuel} : M CBTVacStats :=
  match fuel with
  | O => out_of_fuel
  | S fuel' =>
      rel <- get ;;
      let parentptr := cbto_parent (pd_opaque (BufferGetPage rel buf)) in
      stats1 <-
        (if negb (ItemPointerIsValid parentptr) then
           (* The root is empty, update meta page *)
           metabuf <- cbt_get_buffer CBT_METAPAGE CBT_READ ;;
           update (modify_meta metabuf (fun m =>
             mkMeta (cbtm_magic m) InvalidBlockNumber (cbtm_level m))) ;;;
           ret stats
         else
           parentbuf <- cbt_get_buffer (ItemPointerGetBlockNumber parentptr) CBT_WRITE ;;
           cbt_delitem_vacuum fuel' parentbuf (ItemPointerGetOffsetNumber parentptr) stats) ;;
      update (modify_opaque buf (fun o =>
        set_flags o (Z.lor (cbto_flags o) CBT_DELETED))) ;;;
      ret (mkStats (tuples_removed stats1) (pages_deleted stats1 + 1))
  end.

(** The loop of [cbtvacuumpage] over the offsets [offnum .. maxoff]; [n] is
    the number of offsets left. *)
Fixpoint cbtvacuumpage_items (fuel : nat) (n : nat) (callback : ItemPointerData -> bool)
  (buf : Buffer) (offnum tupledeleted : OffsetNumber) (stats : CBTVacStats)
  : M CBTVacStats :=
  match n with
  | O => ret stats
  | S n' =>
      rel <- get ;;
      match PageGetItem (BufferGetPage rel buf) (uint16 (offnum - tupledeleted)) with
      | None => raise ERR_undefined
      | Some itup =>
          if callback (itemptr itup) then
            stats' <- cbt_delitem_vacuum fuel buf (uint16 (offnum - tupledeleted)) stats ;;
            cbtvacuumpage_items fuel n' callback buf (OffsetNumberNext offnum)
              (uint16 (tupledeleted + 1)) stats'
          else
            cbtvacuumpage_items fuel n' callback buf (OffsetNumberNext offnum)
              tupledeleted stats
      end
  end.

Definition cbtvacuumpage (fuel : nat) (callback : option (ItemPointerData -> bool))
  (blkno : BlockNumber) (stats : CBTVacStats) : M CBTVacStats :=
  buf <- cbt_get_buffer blkno CBT_READ ;;
  rel <- get ;;
  let page := BufferGetPage rel buf in
  if P_ISLEAF (pd_opaque page) then
    match callback with
    | Some cb =>
        cbtvacuumpage_items fuel (Z.to_nat (PageGetMaxOffsetNumber page)) cb buf
          P_FIRSTOFFSET 0 stats
    | None => ret stats
    end
  else ret stats.

(** The inner loop of [cbtvacuumscan]: the blocks [blkno .. num_pages - 1]. *)
Fixpoint cbtvacuumscan_pages (fuel : nat) (n : nat)
  (callback : option (ItemPointerData -> bool)) (blkno : BlockNumber)
  (stats : CBTVacStats) : M CBTVacStats :=
  match n with
  | O => ret stats
  | S n' =>
      stats' <- cbtvacuumpage fuel callback blkno stats ;;
      cbtvacuumscan_pages fuel n' callback (blkno + 1) stats'
  end.

(** The outer loop of [cbtvacuumscan], which reads the relation length again
    after each pass. *)
Fixpoint cbtvacuumscan_from (fuel : nat) (passes : nat)
  (callback : option (ItemPointerData -> bool)) (blkno : BlockNumber)
  (stats : CBTVacStats) : M CBTVacStats :=
  rel <- get ;;
  let num_pages := RelationGetNumberOfBlocks rel in
  if num_pages <=? blkno then ret stats
  else
    match passes with
    | O => out_of_fuel
    | S passes' =>
        stats' <- cbtvacuumscan_pages fuel (Z.to_nat (num_pages - blkno)) callback
                    blkno stats ;;
        cbtvacuumscan_from fuel passes' callback num_pages stats'
    end.

(** [cbtvacuumscan] works on the caller's statistics.  Of the two counters
    it resets [pages_deleted] before the scan (lines 160-162) and never
    [tuples_removed], which goes on from the value it is given. *)
Definition cbtvacuumscan (fuel : nat) (stats : CBTVacStats)
  (callback : option (ItemPointerData -> bool)) : M CBTVacStats :=
  cbtvacuumscan_from fuel fuel callback (CBT_METAPAGE + 1)
    (mkStats (tuples_removed stats) 0).

(** [cbtbulkdelete]: [stats] is the caller's struct, [None] for NULL, in
    which case a zeroed one is allocated (lines 66-67). *)
Definition cbtbulkdelete (fuel : nat) (stats : option CBTVacStats)
  (callback : option (ItemPointerData -> bool)) : M CBTVacStats :=
  let stats :=
    match stats with
    | None => mkStats 0 0
    | Some stats => stats
    end in
  cbtvacuumscan fuel stats callback.

(** ** cbtbuild.c *)

Record CBTPageState : Type := mkPageState
  { cbtps_page : Page;
    cbtps_maxfill : Z;
    cbtps_blockno : BlockNumber;
    cbtps_lastoff : OffsetNumber;
    cbtps_level : Z;
    cbtps_total_count : Z }.

(** The build state.  [leaf_pagestate] is the chain of open page states from
    the leaf level upward (the [cbtps_parent] pointers); the empty chain is
    NULL.  [cbtbs_disk] is the main fork written so far.

    The C code sets [cbtps_parent] of the leaf page state to NULL
    (cbtbuild.c line 195) but never initialises it in a page state above
    the leaf level: [cbt_build_add_tuple] allocates that state with [palloc],
    which does not zero, and [cbt_init_pagestate] (lines 328-343) fills in
    every field but this one; lines 226 and 151 then read it.  The chain
    takes the unset pointer for NULL, which is what the read gives when the
    allocated memory happens to be zero.  A build that closes no leaf (every
    record on one leaf) allocates no such page state and does not depend on
    this; every build with more than one leaf is modelled under it. *)
Record CBTBuildState : Type := mkBuild
  { indtuples : Z;
    cbtbs_pages_alloced : BlockNumber;
    cbtbs_pages_written : BlockNumber;
    cbtbs_disk : list Page }.

Definition B (A : Type) : Type := ST CBTBuildState A.

Definition cbt_newpage (lvl : Z) : Page :=
  let page := CBTInitPage (if CBT_LEAF_LEVEL <? lvl then 0 else CBT_LEAF) in
  set_opaque page
    (set_level
       (set_parent
          (set_next (set_prev (pd_opaque page) InvalidBlockNumber) InvalidBlockNumber)
          (ItemPointerSet InvalidBlockNumber InvalidOffsetNumber))
       lvl).

(** [RelationGetTargetPageFreeSpace(index, fillfactor)] of an index without
    storage options ([cbtoptions] returns NULL). *)
Definition RelationGetTargetPageFreeSpace (fillfactor : Z) : Z :=
  BLCKSZ * (100 - fillfactor) / 100.

Definition cbt_init_pagestate (lvl : Z) : B CBTPageState :=
  bstate <- get ;;
  let blockno := uint32 (cbtbs_pages_alloced bstate + 1) in
  update (fun b => mkBuild (indtuples b) blockno (cbtbs_pages_written b) (cbtbs_disk b)) ;;;
  ret (mkPageState (cbt_newpage lvl)
         (if CBT_LEAF_LEVEL <? lvl
          then BLCKSZ * (100 - CBTREE_NONLEAF_FILLFACTOR) / 100
          else RelationGetTargetPageFreeSpace CBTREE_DEFAULT_FILLFACTOR)
         blockno (P_FIRSTOFFSET - 1) lvl 0).

(** [smgrextend] and [smgrwrite] of one block of the main fork. *)
Definition smgr_put (blkno : BlockNumber) (page : Page) (disk : list Page) : list Page :=
  if blkno <? Z.of_nat (length disk)
  then list_update (Z.to_nat blkno) (fun _ => page) disk
  else disk ++ repeat zero_page (Z.to_nat blkno - length disk) ++ [page].

(** The zero-filling loop of [cbt_writepage]. *)
Fixpoint cbt_writepage_fill (n : nat) (b : CBTBuildState) : CBTBuildState :=
  match n with
  | O => b
  | S n' =>
      cbt_writepage_fill n'
        (mkBuild (indtuples b) (cbtbs_pages_alloced b) (cbtbs_pages_written b + 1)
                 (smgr_put (cbtbs_pages_written b) zero_page (cbtbs_disk b)))
  end.

Definition cbt_writepage (page : Page) (blkno : BlockNumber) : B unit :=
  b0 <- get ;;
  update (cbt_writepage_fill (Z.to_nat (blkno - cbtbs_pages_written b0))) ;;;
  b <- get ;;
  if blkno =? cbtbs_pages_written b then
    update (fun b => mkBuild (indtuples b) (cbtbs_pages_alloced b)
                       (cbtbs_pages_written b + 1) (smgr_put blkno page (cbtbs_disk b)))
  else
    update (fun b => mkBuild (indtuples b) (cbtbs_pages_alloced b)
                       (cbtbs_pages_written b) (smgr_put blkno page (cbtbs_disk b))).

Fixpoint cbt_build_add_tuple (fuel : nat) (pagestate : list CBTPageState)
  (newtuple : CBTTupleData) : B (list CBTPageState) :=
  match fuel with
  | O => out_of_fuel
  | S fuel' =>
      chain <-
        match pagestate with
        | [] => ps <- cbt_init_pagestate CBT_LEAF_LEVEL ;; ret [ps]
        | _ => ret pagestate
        end ;;
      match chain with
      | [] => raise ERR_undefined
      | ps :: parents =>
          let page := cbtps_page ps in
          let tuplesz := itemsz in
          let pgspace := PageGetFreeSpace page in
          chain' <-
            (if (pgspace <? tuplesz)
                || ((pgspace <? cbtps_maxfill ps) && (1 <? cbtps_lastoff ps))
             then
               let oblkno := cbtps_blockno ps in
               parents1 <-
                 match parents with
                 | [] => pps <- cbt_init_pagestate (uint32 (cbtps_level ps + 1)) ;; ret [pps]
                 | _ => ret parents
                 end ;;
               let parenttuple :=
                 CBTFormTuple (ItemPointerSet oblkno P_FIRSTOFFSET) (cbtps_total_count ps) in
               parents2 <- cbt_build_add_tuple fuel' parents1 parenttuple ;;
               match parents2 with
               | [] => raise ERR_undefined
               | pps :: _ =>
                   let opage := set_opaque page
                     (set_parent (pd_opaque page)
                        (ItemPointerSet (cbtps_blockno pps) (cbtps_lastoff pps))) in
                   nps <- cbt_init_pagestate (cbtps_level ps) ;;
                   let nblkno := cbtps_blockno nps in
                   let opage' := set_opaque opage (set_next (pd_opaque opage) nblkno) in
                   let npage := set_opaque (cbtps_page nps)
                     (set_next (set_prev (pd_opaque (cbtps_page nps)) oblkno)
                               InvalidBlockNumber) in
                   cbt_writepage opage' oblkno ;;;
                   ret (mkPageState npage (cbtps_maxfill nps) (cbtps_blockno nps)
                          (cbtps_lastoff nps) (cbtps_level nps) (cbtps_total_count nps)
                        :: parents2)
               end
             else ret (ps :: parents)) ;;
          match chain' with
          | [] => raise ERR_undefined
          | ps' :: parents' =>
              let lastoff := OffsetNumberNext (cbtps_lastoff ps') in
              let r := PageAddItem (cbtps_page ps') newtuple lastoff in
              if fst r =? InvalidOffsetNumber then raise ERR_add_item
              else
                update (fun b => mkBuild (indtuples b + 1) (cbtbs_pages_alloced b)
                                   (cbtbs_pages_written b) (cbtbs_disk b)) ;;;
                ret (mkPageState (snd r) (cbtps_maxfill ps') (cbtps_blockno ps') lastoff
                       (cbtps_level ps')
                       (uint32 (cbtps_total_count ps' + childcnt newtuple))
                     :: parents')
          end
      end
  end.

Definition cbtbuildCallback (fuel : nat) (leaf_pagestate : list CBTPageState)
  (t_self : ItemPointerData) : B (list CBTPageState) :=
  cbt_build_add_tuple fuel leaf_pagestate (CBTFormTuple t_self 1).

Definition CBTFillMetaPage (root : BlockNumber) (lvl : Z) : Page :=
  set_meta (CBTInitPage CBT_META) (mkMeta CBT_MAGIC root lvl).

(** The loop of [cbt_finish_upper_level] over the open page states. *)
Fixpoint cbt_finish_levels (fuel : nat) (pagestate : list CBTPageState)
  (lvl : Z) (rootblkno : BlockNumber) : B (Z * BlockNumber) :=
  match pagestate with
  | [] => ret (lvl, rootblkno)
  | ps :: parents =>
      match fuel with
      | O => out_of_fuel
      | S fuel' =>
          let lvl' := uint32 (lvl + 1) in
          r <-
            match parents with
            | [] =>
                let rootopaque := pd_opaque (cbtps_page ps) in
                ret (set_opaque (cbtps_page ps)
                       (set_flags rootopaque (Z.lor (cbto_flags rootopaque) CBT_ROOT)),
                     parents)
            | _ =>
                let parenttuple :=
                  CBTFormTuple (ItemPointerSet (cbtps_blockno ps) P_FIRSTOFFSET)
                               (cbtps_total_count ps) in
                parents' <- cbt_build_add_tuple fuel' parents parenttuple ;;
                ret (cbtps_page ps, parents')
            end ;;
          cbt_writepage (fst r) (cbtps_blockno ps) ;;;
          cbt_finish_levels fuel' (snd r) lvl' (cbtps_blockno ps)
      end
  end.

Definition cbt_finish_upper_level (fuel : nat) (leaf_pagestate : list CBTPageState)
  : B unit :=
  r <- cbt_finish_levels fuel leaf_pagestate 0 InvalidBlockNumber ;;
  let '(lvl, rootblkno) := r in
  let metapage := CBTFillMetaPage rootblkno lvl in
  update (fun b => mkBuild (indtuples b) (cbtbs_pages_alloced b) (cbtbs_pages_written b)
                     (smgr_put CBT_METAPAGE metapage (cbtbs_disk b))).

(** [IndexBuildHeapScan]: the callback on every heap tuple, in heap order. *)
Fixpoint IndexBuildHeapScan (fuel : nat) (heap : list ItemPointerData)
  (leaf_pagestate : list CBTPageState) : B (list CBTPageState) :=
  match heap with
  | [] => ret leaf_pagestate
  | htup :: rest =>
      chain <- cbtbuildCallback fuel leaf_pagestate htup ;;
      IndexBuildHeapScan fuel rest chain
  end.

(** [cbtbuild]: the index relation it leaves, with the number of index
    tuples it reports. *)
Definition cbtbuild (fuel : nat) (heap : list ItemPointerData) (index : Relation)
  : outcome Relation Z :=
  if negb (RelationGetNumberOfBlocks index =? 0) then Err ERR_contains_data index
  else
    let buildstate := mkBuild 0 CBT_METAPAGE 0 (rd_pages index) in
    match (chain <- IndexBuildHeapScan fuel heap [] ;;
           cbt_finish_upper_level fuel chain) buildstate with
    | Ok _ b => Ok (indtuples b) (mkRel (cbtbs_disk b) (rd_amcache index))
    | Err e b => Err e (mkRel (cbtbs_disk b) (rd_amcache index))
    | OutOfFuel => OutOfFuel
    end.

(** [cbtbuildempty]: the init fork it writes. *)
Definition cbtbuildempty : list Page :=
  smgr_put CBT_METAPAGE (CBTFillMetaPage InvalidBlockNumber 0) [].

(** ** Runs of the public operations *)

(** [cbtinsert] of the records of a list, the first at position [pos], the
    next at [pos + 1], and so on. *)
Fixpoint cbtinsert_all (fuel : nat) (pos : Z) (records : list ItemPointerData) : M unit :=
  match records with
  | [] => ret tt
  | r :: rest => cbtinsert fuel pos r ;;; cbtinsert_all fuel (pos + 1) rest
  end.

(** One [cbtgettuple] of a fresh scan for rank [pos]: the heap pointer it
    stores, or [None] when it reports no tuple. *)
Definition cbt_fetch (fuel : nat) (pos : Z) (rel : Relation) : option ItemPointerData :=
  match cbt_first fuel (mkScan true) false pos rel with
  | Ok (true, Some tid, _) _ => Some tid
  | _ => None
  end.

End Geometry.

(** The relation an operation leaves when it completes. *)
Definition completes {A : Type} (o : outcome Relation A) : option Relation :=
  match o with
  | Ok _ rel => Some rel
  | _ => None
  end.

(** The index as created on an empty heap: the meta page alone. *)
Definition cbt_empty_index : Relation :=
  mkRel [CBTFillMetaPage InvalidBlockNumber 0] None.

(** The [i]-th heap record. *)
Definition heap_tid (i : Z) : ItemPointerData := mkItemPointer 0 i.
Definition heap_tids (n : nat) : list ItemPointerData :=
  map (fun i => heap_tid (Z.of_nat i)) (seq 1 n).

(** The relation left by inserting the first [n] heap records, one at a
    time, the [i]-th at position [i], into the empty index. *)
Definition after_inserts (BLCKSZ : Z) (fuel : nat) (n : nat) : option Relation :=
  completes (cbtinsert_all BLCKSZ fuel 1 (heap_tids n) cbt_empty_index).

(** The relation left by a bulk build over the first [n] heap records. *)
Definition after_build (BLCKSZ : Z) (fuel : nat) (n : nat) : option Relation :=
  completes (cbtbuild BLCKSZ fuel (heap_tids n) (mkRel [] None)).

(** An observation of the relation an operation leaves. *)
Definition observe {A : Type} (f : Relation -> A) (o : option Relation) : option A :=
  option_map f o.

(** The value an operation returns when it completes. *)
Definition returned {A : Type} (o : outcome Relation A) : option A :=
  match o with
  | Ok a _ => Some a
  | _ => None
  end.

(** The error that stops an operation, with the relation at that point. *)
Definition failed {A : Type} (o : outcome Relation A) : option (error * Relation) :=
  match o with
  | Err e rel => Some (e, rel)
  | _ => None
  end.

(** The block and offset named by the leaf frame of the stack that a search
    returns; [None] for the NULL stack. *)
Definition leaf_frame (o : outcome Relation (CBTStack * Buffer))
  : option (option (BlockNumber * OffsetNumber)) :=
  option_map (fun r => match fst r with
                       | [] => None
                       | top :: _ => Some (cbts_blkno top, cbts_offset top)
                       end) (returned o).

(** The internal tuple that names block [blk] with count [cnt]. *)
Definition downlink (blk : BlockNumber) (cnt : Z) : CBTTupleData :=
  mkTuple (mkItemPointer blk 1) cnt.

(** A removal callback that selects the heap records [lo .. hi]. *)
Definition remove_range (lo hi : Z) (tid : ItemPointerData) : bool :=
  (lo <=? ip_posid tid) && (ip_posid tid <=? hi).

(** A first sweep (the caller has no statistics yet). *)
Definition then_sweep (fuel : nat) (callback : ItemPointerData -> bool)
  (o : option Relation) : option Relation :=
  match o with
  | Some rel => completes (cbtbulkdelete fuel None (Some callback) rel)
  | None => None
  end.

Definition then_insert (BLCKSZ : Z) (fuel : nat) (pos : Z) (tid : ItemPointerData)
  (o : option Relation) : option Relation :=
  match o with
  | Some rel => completes (cbtinsert BLCKSZ fuel pos tid rel)
  | None => None
  end.

(** [cbtinsert] of the records of a list, one after the other, each at
    position [pos]. *)
Fixpoint then_inserts (BLCKSZ : Z) (fuel : nat) (pos : Z) (records : list ItemPointerData)
  (o : option Relation) : option Relation :=
  match records with
  | [] => o
  | r :: rest => then_inserts BLCKSZ fuel pos rest (then_insert BLCKSZ fuel pos r o)
  end.

(** The relation with the previous-page link of block [blk] overwritten by
    [back]: a damaged sibling link. *)
Definition damage_prev (blk back : BlockNumber) (rel : Relation) : Relation :=
  modify_opaque blk (fun o => set_prev o back) rel.

(** The root page [cbt_getroot] creates on first use: an empty page that is
    leaf and root, alone on its level. *)
Definition fresh_root : Page :=
  mkPage [] (mkOpaque InvalidBlockNumber InvalidBlockNumber (mkItemPointer 0 0)
               CBT_LEAF_LEVEL (Z.lor CBT_LEAF CBT_ROOT)) zero_meta.

(** A full root leaf of four records on blocks of 128 bytes, with the fresh
    block that a split of it has just allocated. *)
Definition split_example : Relation :=
  mkRel [CBTFillMetaPage 1 1;
         set_items fresh_root
           (map (fun i => mkItem false (mkTuple (heap_tid i) 1)) [1; 2; 3; 4]);
         CBTInitPage CBT_LEAF] None.

(** The tree that five inserts leave on blocks of 128 bytes: a root over two
    leaves, with the meta record cached before the root split. *)
Definition two_leaf_example : Relation :=
  mkRel [CBTFillMetaPage 3 2;
         mkPage (map (fun i => mkItem false (mkTuple (heap_tid i) 1)) [1; 2])
           (mkOpaque InvalidBlockNumber 2 (mkItemPointer 0 0) 1 CBT_LEAF) zero_meta;
         mkPage (map (fun i => mkItem false (mkTuple (heap_tid i) 1)) [3; 4; 5])
           (mkOpaque 1 InvalidBlockNumber (mkItemPointer 3 2) 1 CBT_LEAF) zero_meta;
         mkPage [mkItem false (mkTuple (mkItemPointer 1 1) 2);
                 mkItem false (mkTuple (mkItemPointer 2 1) 3)]
           (mkOpaque InvalidBlockNumber InvalidBlockNumber (mkItemPointer 0 0) 2 CBT_ROOT)
           zero_meta]
        (Some (mkMeta CBT_MAGIC 1 1)).

(** A full leaf (block 1) with a right sibling (block 2) whose previous-page
    link is [back], under a root with room, on blocks of 128 bytes. *)
Definition sibling_example (back : BlockNumber) : Relation :=
  mkRel [CBTFillMetaPage 3 2;
         mkPage (map (fun i => mkItem false (mkTuple (heap_tid i) 1)) [1; 2; 3; 4])
           (mkOpaque InvalidBlockNumber 2 (mkItemPointer 3 1) 1 CBT_LEAF) zero_meta;
         mkPage (map (fun i => mkItem false (mkTuple (heap_tid i) 1)) [5; 6])
           (mkOpaque back InvalidBlockNumber (mkItemPointer 3 2) 1 CBT_LEAF) zero_meta;
         mkPage [mkItem false (mkTuple (mkItemPointer 1 1) 4);
                 mkItem false (mkTuple (mkItemPointer 2 1) 2)]
           (mkOpaque InvalidBlockNumber InvalidBlockNumber (mkItemPointer 0 0) 2 CBT_ROOT)
           zero_meta]
        None.

(** A leaf (block 1) that is the only child of an internal page (block 2),
    itself the first of the two children of the root (block 3). *)
Definition spine_example : Relation :=
  mkRel [CBTFillMetaPage 3 3;
         mkPage [mkItem false (mkTuple (heap_tid 1) 1)]
           (mkOpaque InvalidBlockNumber 4 (mkItemPointer 2 1) 1 CBT_LEAF) zero_meta;
         mkPage [mkItem false (mkTuple (mkItemPointer 1 1) 1)]
           (mkOpaque InvalidBlockNumber 5 (mkItemPointer 3 1) 2 0) zero_meta;
         mkPage [mkItem false (mkTuple (mkItemPointer 2 1) 1);
                 mkItem false (mkTuple (mkItemPointer 5 1) 2)]
           (mkOpaque InvalidBlockNumber InvalidBlockNumber (mkItemPointer 0 0) 3 CBT_ROOT)
           zero_meta;
         mkPage [mkItem false (mkTuple (heap_tid 2) 1); mkItem false (mkTuple (heap_tid 3) 1)]
           (mkOpaque 1 InvalidBlockNumber (mkItemPointer 5 1) 1 CBT_LEAF) zero_meta;
         mkPage [mkItem false (mkTuple (mkItemPointer 4 1) 2)]
           (mkOpaque 2 InvalidBlockNumber (mkItemPointer 3 2) 2 0) zero_meta]
        None.

Definition dead_root_example : Relation :=
  mkRel [CBTFillMetaPage 1 1;
         set_opaque fresh_root (mkOpaque InvalidBlockNumber 2 (mkItemPointer 0 0) 1
                                  (Z.lor CBT_LEAF CBT_DELETED));
         fresh_root] None.

(** A root leaf of three records, with room for a fourth on blocks of 128
    bytes. *)
Definition root_leaf_example : Relation :=
  mkRel [CBTFillMetaPage 1 1;
         set_items fresh_root
           (map (fun i => mkItem false (mkTuple (heap_tid i) 1)) [1; 2; 3])] None.

(** A full root leaf of four records on blocks of 128 bytes. *)
Definition full_root_leaf_example : Relation :=
  mkRel [CBTFillMetaPage 1 1;
         set_items fresh_root
           (map (fun i => mkItem false (mkTuple (heap_tid i) 1)) [1; 2; 3; 4])] None.

(** * Specification vocabulary *)

(** The tuples of a page, in offset order. *)
Definition page_tuples (p : Page) : list CBTTupleData := map lp_tuple (pd_items p).

Fixpoint sum_childcnt (l : list CBTTupleData) : Z :=
  match l with
  | [] => 0
  | t :: l' => childcnt t + sum_childcnt l'
  end.

(** Line pointers as [PageAddItem] makes them. *)
Definition live_items (l : list CBTTupleData) : list ItemIdData := map (mkItem false) l.

(** A live leaf entry: where it is stored and the heap record it names. *)
Record entry : Type := mkEntry
  { en_blkno : BlockNumber; en_offset : OffsetNumber; en_tid : ItemPointerData }.

Fixpoint leaf_entries (blk : BlockNumber) (off : OffsetNumber) (items : list ItemIdData)
  : list entry :=
  match items with
  | [] => []
  | it :: rest =>
      (if lp_dead it then [] else [mkEntry blk off (itemptr (lp_tuple it))])
      ++ leaf_entries blk (off + 1) rest
  end.

Definition child_of (it : ItemIdData) : BlockNumber := ip_blkid (itemptr (lp_tuple it)).

(** The live leaf entries below a page, in rank order; [h] bounds the height. *)
Fixpoint live_entries (h : nat) (rel : Relation) (blk : BlockNumber) : list entry :=
  match h with
  | O => []
  | S h' =>
      let page := BufferGetPage rel blk in
      if P_ISLEAF (pd_opaque page) then leaf_entries blk 1 (pd_items page)
      else flat_map (fun it => if lp_dead it then [] else live_entries h' rel (child_of it))
             (pd_items page)
  end.

(** The count invariant below a page: a live leaf tuple counts 1, a live
    internal tuple counts the live leaf entries below the child it names.
    Every page below is a block of the relation and its line pointers are
    numbered by 16-bit offsets. *)
Fixpoint counted (h : nat) (rel : Relation) (blk : BlockNumber) : bool :=
  match h with
  | O => false
  | S h' =>
      block_exists rel blk && negb (blk =? InvalidBlockNumber) &&
      let page := BufferGetPage rel blk in
      (PageGetMaxOffsetNumber page <? 65535) &&
      if P_ISLEAF (pd_opaque page) then
        forallb (fun it => lp_dead it || (childcnt (lp_tuple it) =? 1)) (pd_items page)
      else
        forallb (fun it => lp_dead it ||
                   (counted h' rel (child_of it) &&
                    (childcnt (lp_tuple it)
                     =? Z.of_nat (length (live_entries h' rel (child_of it))))))
                (pd_items page)
  end.

(** Every live tuple below a page has a count from 1 to the largest 32-bit
    value: no emptied page is still linked. *)
Fixpoint populated (h : nat) (rel : Relation) (blk : BlockNumber) : bool :=
  match h with
  | O => false
  | S h' =>
      let page := BufferGetPage rel blk in
      forallb (fun it => lp_dead it ||
                 ((1 <=? childcnt (lp_tuple it)) && (childcnt (lp_tuple it) <? 4294967296)
                  && (P_ISLEAF (pd_opaque page) || populated h' rel (child_of it))))
              (pd_items page)
  end.

(** The line pointer that a live leaf entry stands for. *)
Definition entry_at (rel : Relation) (e : entry) : Prop :=
  P_ISLEAF (pd_opaque (BufferGetPage rel (en_blkno e))) = true
  /\ exists c, PageGetItemId (BufferGetPage rel (en_blkno e)) (en_offset e)
               = Some (mkItem false (mkTuple (en_tid e) c)).

(** The entries of a page from those of its line pointers. *)
Fixpoint page_ents (ent : OffsetNumber -> ItemIdData -> list entry)
  (off : OffsetNumber) (items : list ItemIdData) : list entry :=
  match items with
  | [] => []
  | it :: rest => ent off it ++ page_ents ent (off + 1) rest
  end.

Definition metad_of (rel : Relation) : CBTMetaPageData :=
  pd_meta (BufferGetPage rel CBT_METAPAGE).

(** The test of [cbt_getroot] on the page named by a cached meta record. *)
Definition cache_accepts (rel : Relation) (c : CBTMetaPageData) : bool :=
  let rootopaque := pd_opaque (BufferGetPage rel (cbtm_root c)) in
  negb (P_IGNORE rootopaque) && (level rootopaque =? cbtm_level c)
  && P_LEFTMOST rootopaque && P_RIGHTMOST rootopaque.

(** A cached meta record names a block of the relation, and it is stale only
    in a way [cbt_getroot] detects: if its page passes the test, it is the
    root named by the meta page. *)
Definition cache_ok (rel : Relation) : bool :=
  match rd_amcache rel with
  | None => true
  | Some c =>
      negb (cbtm_root c =? InvalidBlockNumber)
      && block_exists rel (cbtm_root c)
      && (negb (cache_accepts rel c) || (cbtm_root c =? cbtm_root (metad_of rel)))
  end.

(** A counted tree of height at most [h]: a meta page that names no root, or
    a live root page of the recorded level under which the count invariant
    holds. *)
Definition cbt_tree (h : nat) (rel : Relation) : bool :=
  (0 <? RelationGetNumberOfBlocks rel)
  && P_ISMETA (pd_opaque (BufferGetPage rel CBT_METAPAGE))
  && (cbtm_magic (metad_of rel) =? CBT_MAGIC)
  && cache_ok rel
  && ((cbtm_root (metad_of rel) =? InvalidBlockNumber)
      || (let root := cbtm_root (metad_of rel) in
          negb (P_IGNORE (pd_opaque (BufferGetPage rel root)))
          && (level (pd_opaque (BufferGetPage rel root)) =? cbtm_level (metad_of rel))
          && counted h rel root)).

(** The live leaf entries of the tree, in rank order. *)
Definition tree_entries (h : nat) (rel : Relation) : list entry :=
  if cbtm_root (metad_of rel) =? InvalidBlockNumber then []
  else live_entries h rel (cbtm_root (metad_of rel)).

(** The tuple at a parent locator names the page [blk]. *)
Definition locator_names (rel : Relation) (loc : ItemPointerData) (blk : BlockNumber) : bool :=
  ItemPointerIsValid loc
  && match PageGetItem (BufferGetPage rel (ip_blkid loc)) (ip_posid loc) with
     | Some t => ip_blkid (itemptr t) =? blk
     | None => false
     end.

(** The parent locator of page [blk] identifies a tuple that references it. *)
Definition parent_locator_ok (rel : Relation) (blk : BlockNumber) : bool :=
  locator_names rel (cbto_parent (pd_opaque (BufferGetPage rel blk))) blk.

(** The entries of the line pointers of a leaf page and of an internal page,
    so that [live_entries] is [page_ents] of them. *)
Definition leaf_ent (blk : BlockNumber) (off : OffsetNumber) (it : ItemIdData) : list entry :=
  if lp_dead it then [] else [mkEntry blk off (itemptr (lp_tuple it))].

Definition child_ent (h : nat) (rel : Relation) (off : OffsetNumber) (it : ItemIdData)
  : list entry :=
  if lp_dead it then [] else live_entries h rel (child_of it).

(** A dead line pointer stands for no entry, a live one for as many entries
    as its tuple counts. *)
Definition ent_weighs (ent : OffsetNumber -> ItemIdData -> list entry) (it : ItemIdData)
  : Prop :=
  forall o, (lp_dead it = true -> ent o it = [])
            /\ (lp_dead it = false -> Z.of_nat (length (ent o it)) = childcnt (lp_tuple it)).

(** The left count a page search starts from: [stack->total_count], or 0. *)
Definition stack_count (stack : CBTStack) : Z :=
  match stack with [] => 0 | top :: _ => total_count top end.

(** What [cbt_tree] says, one fact at a time. *)
Record tree_facts (h : nat) (rel : Relation) : Prop :=
  { tf_meta : block_exists rel CBT_METAPAGE = true;
    tf_flag : P_ISMETA (pd_opaque (BufferGetPage rel CBT_METAPAGE)) = true;
    tf_magic : cbtm_magic (metad_of rel) = CBT_MAGIC;
    tf_cache : cache_ok rel = true;
    tf_root : cbtm_root (metad_of rel) <> InvalidBlockNumber ->
              P_IGNORE (pd_opaque (BufferGetPage rel (cbtm_root (metad_of rel)))) = false
              /\ level (pd_opaque (BufferGetPage rel (cbtm_root (metad_of rel))))
                 = cbtm_level (metad_of rel)
              /\ counted h rel (cbtm_root (metad_of rel)) = true }.

(** The links of a page: everything in its special area but the parent
    locator. *)
Definition links (o : CBTPageOpaqueData) : Z * Z * Z * Z :=
  (cbto_prev o, cbto_next o, level o, cbto_flags o).

(** What a run keeps while a page is split with the new right page [rbuf]:
    every block is still there with its links, and with its line pointers
    unless it is [rbuf]. *)
Definition split_frame (rbuf : Buffer) (rel rel' : Relation) : Prop :=
  forall b, block_exists rel b = true ->
    block_exists rel' b = true
    /\ links (pd_opaque (BufferGetPage rel' b)) = links (pd_opaque (BufferGetPage rel b))
    /\ (b <> rbuf -> pd_items (BufferGetPage rel' b) = pd_items (BufferGetPage rel b)).

Definition links_kept (rel rel' : Relation) : Prop :=
  forall b, block_exists rel b = true ->
    block_exists rel' b = true
    /\ links (pd_opaque (BufferGetPage rel' b)) = links (pd_opaque (BufferGetPage rel b)).

(** A line pointer without the count of its tuple. *)
Definition strip (it : ItemIdData) : bool * ItemPointerData :=
  (lp_dead it, itemptr (lp_tuple it)).

Definition page_ptrs (p : Page) : list (bool * ItemPointerData) := map strip (pd_items p).

(** The chain of parent pointers above a page: each pointer names a tuple
    of an existing page, the last page has no valid pointer. *)
Definition blocks (chain : list (BlockNumber * OffsetNumber)) : list BlockNumber :=
  map fst chain.

Fixpoint spine (rel : Relation) (blk : BlockNumber) (chain : list (BlockNumber * OffsetNumber))
  : Prop :=
  match chain with
  | [] => ItemPointerIsValid (cbto_parent (pd_opaque (BufferGetPage rel blk))) = false
  | (pb, po) :: rest =>
      cbto_parent (pd_opaque (BufferGetPage rel blk)) = mkItemPointer pb po
      /\ po <> 0
      /\ block_exists rel pb = true /\ pb <> InvalidBlockNumber
      /\ PageGetItemId (BufferGetPage rel pb) po <> None
      /\ spine rel pb rest
  end.

(** What the removal of tuple [idx] of page [buf] leaves: the tuple is gone;
    if it was the only one, the page is flagged deleted and the same holds of
    the tuple its parent pointer names, or the meta page names no root when
    there is no pointer; a page that keeps a tuple keeps its special area. *)
Fixpoint cascade (rel rel' : Relation) (buf : Buffer) (idx : OffsetNumber)
  (chain : list (BlockNumber * OffsetNumber)) : Prop :=
  page_ptrs (BufferGetPage rel' buf)
  = list_remove (Z.to_nat (idx - 1)) (page_ptrs (BufferGetPage rel buf))
  /\ if PageGetMaxOffsetNumber (BufferGetPage rel buf) =? 1
     then P_ISDELETED (pd_opaque (BufferGetPage rel' buf)) = true
          /\ match chain with
             | [] => cbtm_root (metad_of rel') = InvalidBlockNumber
             | (pb, po) :: rest => cascade rel rel' pb po rest
             end
     else pd_opaque (BufferGetPage rel' buf) = pd_opaque (BufferGetPage rel buf).

(** Two relations show the same line pointers and special areas on the
    blocks [bs]. *)
Definition agree_on (bs : list BlockNumber) (r r' : Relation) : Prop :=
  forall b, In b bs ->
    block_exists r' b = block_exists r b
    /\ pd_opaque (BufferGetPage r' b) = pd_opaque (BufferGetPage r b)
    /\ page_ptrs (BufferGetPage r' b) = page_ptrs (BufferGetPage r b).

(** The second relation differs from the first in tuple counts on the
    blocks [bs] only. *)
Definition counts_only (bs : list BlockNumber) (r r' : Relation) : Prop :=
  forall b,
    block_exists r' b = block_exists r b
    /\ pd_opaque (BufferGetPage r' b) = pd_opaque (BufferGetPage r b)
    /\ page_ptrs (BufferGetPage r' b) = page_ptrs (BufferGetPage r b)
    /\ (~ In b bs -> pd_items (BufferGetPage r' b) = pd_items (BufferGetPage r b)).

(** ** Invariants of the transfer loop of [cbt_split_page] *)

Section TransferInvariant.

Variables (origbuf rbuf : Buffer) (newitem : CBTTupleData) (newitemoff : OffsetNumber)
          (its : list CBTTupleData) (is_leaf : bool).

(** The midpoint [maxoff / 2] of the page that is split. *)
Definition xfer_mid : Z := Z.of_nat (length its) / 2.
Definition xfer_onleft : bool := newitemoff <=? xfer_mid.
(** The new tuple has been placed once the loop is past its offset. *)
Definition xfer_placed (pre : list CBTTupleData) : bool :=
  newitemoff <=? Z.of_nat (length pre).

(** On an internal page every tuple names a block of the relation. *)
Definition xfer_children_ok (rel : Relation) : Prop :=
  is_leaf = false ->
  Forall (fun t => block_exists rel (ip_blkid (itemptr t)) = true
                   /\ ip_blkid (itemptr t) <> InvalidBlockNumber) its.

Definition xfer_store_ok (rel : Relation) (Rt : list CBTTupleData) : Prop :=
  block_exists rel origbuf = true /\ block_exists rel rbuf = true
  /\ page_tuples (BufferGetPage rel origbuf) = its
  /\ pd_items (BufferGetPage rel rbuf) = live_items Rt
  /\ xfer_children_ok rel.

(** The two halves under construction hold the tuples [Lt] and [Rt]. *)
Record xfer_phys (st : SplitXfer) (rel : Relation) (Lt Rt : list CBTTupleData) : Prop :=
  { ph_store : xfer_store_ok rel Rt;
    ph_left : pd_items (sx_left st) = live_items Lt;
    ph_leftoff : sx_leftoff st = Z.of_nat (length Lt) + 1;
    ph_rightoff : sx_rightoff st = Z.of_nat (length Rt) + 1;
    ph_lc : sx_leftcount st = uint32 (sum_childcnt Lt);
    ph_rc : sx_rightcount st = uint32 (sum_childcnt Rt) }.

(** After the tuples [pre] of the original page, the halves together are
    [pre] with the new tuple at its offset, if the loop is past it. *)
Record xfer_logic (pre : list CBTTupleData) (st : SplitXfer)
  (Lt Rt : list CBTTupleData) : Prop :=
  { lg_concat : Lt ++ Rt = if xfer_placed pre
                           then list_insert (Z.to_nat (newitemoff - 1)) newitem pre
                           else pre;
    lg_len : Z.of_nat (length Lt)
             = Z.min (Z.of_nat (length pre)) xfer_mid
               + (if xfer_onleft && xfer_placed pre then 1 else 0);
    lg_newitemoff : sx_newitemoff st
                    = if xfer_placed pre
                      then (if xfer_onleft then newitemoff else newitemoff - xfer_mid)
                      else newitemoff;
    lg_i : sx_i st = Z.of_nat (length pre) + 1;
    lg_item : pre <> [] -> sx_item st = Some (last pre newitem) }.

End TransferInvariant.

(** ** Vocabulary of the further properties *)

(** The sum of the counts of the live line pointers of a page. *)
Fixpoint live_count (items : list ItemIdData) : Z :=
  match items with
  | [] => 0
  | it :: rest => (if lp_dead it then 0 else childcnt (lp_tuple it)) + live_count rest
  end.

(** The walk of [cbt_getroot] to the right over dead root pages: from [blk]
    over the pages [dead], each deleted or half dead and with a right
    sibling, to the page [last]. *)
Fixpoint right_walk (rel : Relation) (blk : BlockNumber) (dead : list BlockNumber)
  (last : BlockNumber) : Prop :=
  match dead with
  | [] => blk = last
  | d :: rest =>
      blk = d /\ block_exists rel d = true /\ d <> InvalidBlockNumber
      /\ P_IGNORE (pd_opaque (BufferGetPage rel d)) = true
      /\ P_RIGHTMOST (pd_opaque (BufferGetPage rel d)) = false
      /\ right_walk rel (cbto_next (pd_opaque (BufferGetPage rel d))) rest last
  end.

(** The line pointers a removal callback does not select. *)
Definition unselected (cb : ItemPointerData -> bool) (items : list ItemIdData)
  : list ItemIdData :=
  filter (fun it => negb (cb (itemptr (lp_tuple it)))) items.

(** A parentless page after the sweep has emptied it: no line pointer, the
    deleted flag. *)
Definition swept_empty (p : Page) : Page :=
  set_opaque (set_items p [])
    (set_flags (pd_opaque p) (Z.lor (cbto_flags (pd_opaque p)) CBT_DELETED)).

(** The meta page once the root pointer is cleared. *)
Definition rootless_meta (p : Page) : Page :=
  set_meta p (mkMeta (cbtm_magic (pd_meta p)) InvalidBlockNumber (cbtm_level (pd_meta p))).

(** The count of removed tuples in the statistics a sweep is given: that of
    the caller's struct, zero when the caller passes none. *)
Definition removed_before (stats : option CBTVacStats) : Z :=
  match stats with
  | None => 0
  | Some stats => tuples_removed stats
  end.

(** The callback of a sweep selects no line pointer of a leaf page: every
    block after the meta page that is flagged as a leaf holds fewer than
    65535 line pointers, none of them selected. *)
Definition selects_nothing (callback : option (ItemPointerData -> bool)) (rel : Relation)
  : Prop :=
  match callback with
  | None => True
  | Some cb =>
      forall blk, 1 <= blk < RelationGetNumberOfBlocks rel ->
        P_ISLEAF (pd_opaque (BufferGetPage rel blk)) = true ->
        Z.of_nat (length (pd_items (BufferGetPage rel blk))) < 65535
        /\ forall it, In it (pd_items (BufferGetPage rel blk)) ->
                      cb (itemptr (lp_tuple it)) = false
  end.

(** A line pointer as an insert makes it: live, its tuple counting 1. *)
Definition record_item (it : ItemIdData) : bool :=
  negb (lp_dead it) && (childcnt (lp_tuple it) =? 1).

(** The offset at which [cbt_insert_tuple] puts a tuple for position [pos]
    on a root leaf of [n] records. *)
Definition insert_offset (pos n : Z) : OffsetNumber := Z.max 1 (Z.min pos (n + 1)).

(** A tree that is one root leaf of live records. *)
Definition root_leaf_of_records (rel : Relation) : bool :=
  cbt_tree 1 rel
  && negb (cbtm_root (metad_of rel) =? InvalidBlockNumber)
  && P_ISLEAF (pd_opaque (BufferGetPage rel (cbtm_root (metad_of rel))))
  && forallb record_item (pd_items (BufferGetPage rel (cbtm_root (metad_of rel)))).

(** The free space of a page of [i] tuples. *)
Definition leaf_space (BLCKSZ : Z) (i : Z) : Z :=
  let hole := BLCKSZ - SizeOfPageHeaderData - SizeOfSpecial
              - (sizeof_ItemIdData + itemsz) * i in
  if hole <? sizeof_ItemIdData then 0 else hole - sizeof_ItemIdData.

(** The test of [cbt_build_add_tuple] on a leaf under construction that
    holds [i] tuples: the page takes one more and is not closed. *)
Definition leaf_takes (BLCKSZ : Z) (i : Z) : bool :=
  negb ((leaf_space BLCKSZ i <? itemsz)
        || ((leaf_space BLCKSZ i
             <? RelationGetTargetPageFreeSpace BLCKSZ CBTREE_DEFAULT_FILLFACTOR)
            && (1 <? i))).

(** The line pointers of the records of a heap, in heap order. *)
Definition records (heap : list ItemPointerData) : list ItemIdData :=
  map (fun t => mkItem false (mkTuple t 1)) heap.

(** The leaf that is the whole tree of a small build. *)
Definition built_root_leaf (heap : list ItemPointerData) : Page :=
  mkPage (records heap)
    (mkOpaque InvalidBlockNumber InvalidBlockNumber (mkItemPointer InvalidBlockNumber 0)
       CBT_LEAF_LEVEL (Z.lor CBT_LEAF CBT_ROOT))
    zero_meta.

(** The open page state of the first leaf of a build after the records
    [done]. *)
Definition open_leaf (BLCKSZ : Z) (done : list ItemPointerData) : CBTPageState :=
  mkPageState (set_items (cbt_newpage CBT_LEAF_LEVEL) (records done))
    (RelationGetTargetPageFreeSpace BLCKSZ CBTREE_DEFAULT_FILLFACTOR)
    1 (Z.of_nat (length done)) CBT_LEAF_LEVEL (Z.of_nat (length done)).

(** Line pointers none of which is marked dead. *)
Definition all_live (items : list ItemIdData) : bool :=
  forallb (fun it => negb (lp_dead it)) items.

(** The second relation is the first with other live line pointers on the
    page [rbuf]. *)
Definition items_rewritten (rbuf : Buffer) (rel rel' : Relation) : Prop :=
  exists its',
    all_live its' = true
    /\ rel' = modify_page rbuf (fun p => set_items p its') rel.

(** The relation with one more block. *)
Definition extend (rel : Relation) (p : Page) : Relation :=
  mkRel (rd_pages rel ++ [p]) (rd_amcache rel).

(** The tuples of a page of records all count 1. *)
Definition unit_counts (l : list CBTTupleData) : Prop := Forall (fun t => childcnt t = 1) l.

(** The pages after the split of the root leaf [root] into the halves [Lt]
    and [Rt]: the left half on [root], the right half on the first new block,
    the new root with a tuple for each on the second. *)
Definition root_leaf_divided (rel rel' : Relation) (root : BlockNumber)
  (Lt Rt : list CBTTupleData) : Prop :=
  let N := RelationGetNumberOfBlocks rel in
  let p := BufferGetPage rel root in
  let n := Z.of_nat (length (pd_items p)) in
  cbtm_root (metad_of rel') = N + 1
  /\ unit_counts (Lt ++ Rt)
  /\ Z.of_nat (length (Lt ++ Rt)) = n + 1
  /\ n / 2 <= Z.of_nat (length Lt) <= n / 2 + 1
  /\ pd_items (BufferGetPage rel' root) = live_items Lt
  /\ pd_opaque (BufferGetPage rel' root)
     = mkOpaque (cbto_prev (pd_opaque p)) N (mkItemPointer 0 0) (level (pd_opaque p))
         (Z.ldiff (cbto_flags (pd_opaque p)) CBT_ROOT)
  /\ pd_items (BufferGetPage rel' N) = live_items Rt
  /\ pd_opaque (BufferGetPage rel' N)
     = mkOpaque root InvalidBlockNumber (mkItemPointer (N + 1) 2) (level (pd_opaque p))
         (Z.ldiff (cbto_flags (pd_opaque p)) CBT_ROOT)
  /\ map (fun it => (lp_dead it, itemptr (lp_tuple it)))
       (pd_items (BufferGetPage rel' (N + 1)))
     = [(false, mkItemPointer root 1); (false, mkItemPointer N 1)]
  /\ cbto_flags (pd_opaque (BufferGetPage rel' (N + 1))) = CBT_ROOT.

(** The blocks of the pages below a page, the page first; [h] bounds the
    height. *)
Fixpoint tree_blocks (h : nat) (rel : Relation) (blk : BlockNumber) : list BlockNumber :=
  match h with
  | O => []
  | S h' =>
      blk :: (if P_ISLEAF (pd_opaque (BufferGetPage rel blk)) then []
              else flat_map (fun it => if lp_dead it then []
                                       else tree_blocks h' rel (child_of it))
                     (pd_items (BufferGetPage rel blk)))
  end.

(** What [modify_tuple] with [add_childcnt 1] does to a page. *)
Definition bump_tuple (off : OffsetNumber) (p : Page) : Page :=
  set_items p (list_update (Z.to_nat (off - 1)) (add_childcnt 1) (pd_items p)).

(** What [PageAddItem] of a new record at an offset in range does to a page
    with room. *)
Definition add_record (off : OffsetNumber) (tid : ItemPointerData) (p : Page) : Page :=
  set_items p (list_insert (Z.to_nat (off - 1)) (mkItem false (mkTuple tid 1)) (pd_items p)).

(** The page of block [b] after the counts at the frames [parents] went up
    by one. *)
Fixpoint bumped (parents : CBTStack) (b : BlockNumber) (p : Page) : Page :=
  match parents with
  | [] => p
  | f :: rest => if b =? cbts_blkno f then bump_tuple (cbts_offset f) p else bumped rest b p
  end.

(** The page of block [b] after an insertion along a path: the record put at
    the leaf frame [top], [delta] offsets further, and the counts at the
    frames above it up by one. *)
Definition path_page (top : CBTStackData) (parents : CBTStack) (delta : Z)
  (tid : ItemPointerData) (b : BlockNumber) (p : Page) : Page :=
  if b =? cbts_blkno top then add_record (cbts_offset top + delta) tid p
  else bumped parents b p.

(** The heap pointers of the live line pointers of a leaf. *)
Definition live_tids (items : list ItemIdData) : list ItemPointerData :=
  flat_map (fun it => if lp_dead it then [] else [itemptr (lp_tuple it)]) items.

(** The frames [parents], from the parent of the leaf [leaf] up to the page
    [blk], are a path of the tree: each is the offset of the live tuple that
    names the page below.  The last argument is the number of entries below
    [blk] that come before those of the leaf. *)
Inductive on_path (rel : Relation) (leaf : BlockNumber)
  : nat -> BlockNumber -> CBTStack -> nat -> Prop :=
| path_leaf h :
    P_ISLEAF (pd_opaque (BufferGetPage rel leaf)) = true ->
    on_path rel leaf (S h) leaf [] 0
| path_node h blk pre it post fj parents r :
    P_ISLEAF (pd_opaque (BufferGetPage rel blk)) = false ->
    pd_items (BufferGetPage rel blk) = pre ++ it :: post ->
    lp_dead it = false ->
    cbts_blkno fj = blk ->
    cbts_offset fj = 1 + Z.of_nat (length pre) ->
    on_path rel leaf h (child_of it) parents r ->
    on_path rel leaf (S h) blk (parents ++ [fj])
      (length (flat_map (fun x => if lp_dead x then [] else live_entries h rel (child_of x))
                 pre) + r).

(** The second relation is the first with the pages of an insertion along a
    path. *)
Definition inserted_along (top : CBTStackData) (parents : CBTStack) (delta : Z)
  (tid : ItemPointerData) (rel rel' : Relation) : Prop :=
  rd_amcache rel' = rd_amcache rel
  /\ RelationGetNumberOfBlocks rel' = RelationGetNumberOfBlocks rel
  /\ forall b, BufferGetPage rel' b = path_page top parents delta tid b (BufferGetPage rel b).

(** A test on every element of a list together with its offset. *)
Fixpoint forallb_at {A : Type} (f : Z -> A -> bool) (off : Z) (l : list A) : bool :=
  match l with
  | [] => true
  | x :: rest => f off x && forallb_at f (off + 1) rest
  end.

(** The parent locator [loc] is the tuple at offset [off] of page [blk]. *)
Definition parent_is (loc : ItemPointerData) (blk : BlockNumber) (off : OffsetNumber) : bool :=
  (ip_blkid loc =? blk) && (ip_posid loc =? off).

(** The pages below a page are linked: a leaf holds live tuples of count 1
    only, an internal page holds live tuples only, and the parent locator of
    the child that a tuple names is that tuple. *)
Fixpoint linked (h : nat) (rel : Relation) (blk : BlockNumber) : bool :=
  match h with
  | O => true
  | S h' =>
      let page := BufferGetPage rel blk in
      if P_ISLEAF (pd_opaque page) then forallb record_item (pd_items page)
      else forallb_at
             (fun off it =>
                negb (lp_dead it)
                && parent_is (cbto_parent (pd_opaque (BufferGetPage rel (child_of it)))) blk off
                && linked h' rel (child_of it))
             1 (pd_items page)
  end.

(** What [modify_tuple] with [add_childcnt (-1)] does to a page. *)
Definition drop_tuple (off : OffsetNumber) (p : Page) : Page :=
  set_items p (list_update (Z.to_nat (off - 1)) (add_childcnt (-1)) (pd_items p)).

(** The page of block [b] after the counts at the locators [chain] went down
    by one. *)
Fixpoint dropped (chain : list ItemPointerData) (b : BlockNumber) (p : Page) : Page :=
  match chain with
  | [] => p
  | loc :: rest => if b =? ip_blkid loc then drop_tuple (ip_posid loc) p else dropped rest b p
  end.

(** The page of block [b] after the tuple at offset [off] of the leaf [leaf]
    is deleted and the counts at the locators [chain] went down by one. *)
Definition delete_page (leaf : BlockNumber) (off : OffsetNumber) (chain : list ItemPointerData)
  (b : BlockNumber) (p : Page) : Page :=
  if b =? leaf then set_items p (list_remove (Z.to_nat (off - 1)) (pd_items p))
  else dropped chain b p.

(** The parent locators from page [blk] upward are [chain], and end on a tuple
    of page [top] ([blk] itself when there is none). *)
Fixpoint chain_from (rel : Relation) (blk : BlockNumber) (chain : list ItemPointerData)
  (top : BlockNumber) : Prop :=
  match chain with
  | [] => blk = top
  | loc :: rest =>
      cbto_parent (pd_opaque (BufferGetPage rel blk)) = loc
      /\ ItemPointerIsValid loc = true
      /\ chain_from rel (ip_blkid loc) rest top
  end.

(** What of a line pointer the sweep leaves as it is. *)
Definition shape (it : ItemIdData) : bool * ItemPointerData :=
  (lp_dead it, itemptr (lp_tuple it)).

(** The pages after an insertion that put a record for [tid] on the leaf
    [L] and split nothing: the special areas are as they were, the leaf has
    the new record among the former ones, the other leaves are as they were,
    and the tuples of the other pages name the same pages. *)
Definition leaf_gained (rel rel' : Relation) (L : BlockNumber) (tid : ItemPointerData)
  : Prop :=
  (forall b, pd_opaque (BufferGetPage rel' b) = pd_opaque (BufferGetPage rel b))
  /\ (exists i, pd_items (BufferGetPage rel' L)
                = list_insert i (mkItem false (mkTuple tid 1))
                    (pd_items (BufferGetPage rel L)))
  /\ (forall b, b <> L ->
        map shape (pd_items (BufferGetPage rel' b))
        = map shape (pd_items (BufferGetPage rel b)))
  /\ (forall b, b <> L -> P_ISLEAF (pd_opaque (BufferGetPage rel b)) = true ->
        pd_items (BufferGetPage rel' b) = pd_items (BufferGetPage rel b)).

(** What the sweep relies on below the page [root]: the count invariant, the
    parent locators, pages reached once each, no parent of [root], and a
    number of entries that 32 bits hold. *)
Definition sweepable (h : nat) (rel : Relation) (root : BlockNumber) : Prop :=
  counted h rel root = true
  /\ linked h rel root = true
  /\ NoDup (tree_blocks h rel root)
  /\ ItemPointerIsValid (cbto_parent (pd_opaque (BufferGetPage rel root))) = false
  /\ Z.of_nat (length (live_entries h rel root)) <= 4294967296.

(** What deletions on the leaf [L] leave as it is: the cached meta record,
    the number of blocks, the special area and meta record of every page,
    the tuples of every other leaf, and all of an internal tuple but its
    count. *)
Definition vac_frame (L : BlockNumber) (rel rel' : Relation) : Prop :=
  rd_amcache rel' = rd_amcache rel
  /\ RelationGetNumberOfBlocks rel' = RelationGetNumberOfBlocks rel
  /\ forall b,
       pd_opaque (BufferGetPage rel' b) = pd_opaque (BufferGetPage rel b)
       /\ pd_meta (BufferGetPage rel' b) = pd_meta (BufferGetPage rel b)
       /\ (b <> L ->
           map shape (pd_items (BufferGetPage rel' b))
           = map shape (pd_items (BufferGetPage rel b))
           /\ (P_ISLEAF (pd_opaque (BufferGetPage rel b)) = true ->
               pd_items (BufferGetPage rel' b) = pd_items (BufferGetPage rel b))).

(** The relation [rel] is [rel0] once the sweep has passed the blocks
    [1 .. b - 1]: the leaves among them hold the tuples that the callback
    does not select, the other leaves the tuples they held, and an internal
    tuple differs by its count at most. *)
Definition swept_to (cb : ItemPointerData -> bool) (b : BlockNumber) (rel0 rel : Relation)
  : Prop :=
  rd_amcache rel = rd_amcache rel0
  /\ RelationGetNumberOfBlocks rel = RelationGetNumberOfBlocks rel0
  /\ forall blk,
       pd_opaque (BufferGetPage rel blk) = pd_opaque (BufferGetPage rel0 blk)
       /\ pd_meta (BufferGetPage rel blk) = pd_meta (BufferGetPage rel0 blk)
       /\ if P_ISLEAF (pd_opaque (BufferGetPage rel0 blk))
          then pd_items (BufferGetPage rel blk)
               = if (1 <=? blk) && (blk <? b)
                 then unselected cb (pd_items (BufferGetPage rel0 blk))
                 else pd_items (BufferGetPage rel0 blk)
          else map shape (pd_items (BufferGetPage rel blk))
               = map shape (pd_items (BufferGetPage rel0 blk)).

(** The relation after the split of the leaf [L] below the tuple at offset
    [poff] of page [pb]: the halves [Lt] and [Rt] on [L] and on the new
    block, the count of the left half in the tuple of [L], a tuple for the
    new block after it, and elsewhere the pages as they were but for the
    previous-page link of the right sibling. *)
Definition leaf_split_state (rel rel' : Relation) (L pb : BlockNumber) (poff : OffsetNumber)
  (Lt Rt : list CBTTupleData) (cR : Z) : Prop :=
  let N := RelationGetNumberOfBlocks rel in
  rd_amcache rel' = rd_amcache rel
  /\ RelationGetNumberOfBlocks rel' = N + 1
  /\ pd_items (BufferGetPage rel' L) = live_items Lt
  /\ cbto_flags (pd_opaque (BufferGetPage rel' L))
     = Z.ldiff (cbto_flags (pd_opaque (BufferGetPage rel L))) CBT_ROOT
  /\ cbto_next (pd_opaque (BufferGetPage rel' L)) = N
  /\ pd_items (BufferGetPage rel' N) = live_items Rt
  /\ cbto_flags (pd_opaque (BufferGetPage rel' N))
     = Z.ldiff (cbto_flags (pd_opaque (BufferGetPage rel L))) CBT_ROOT
  /\ pd_items (BufferGetPage rel' pb)
     = list_insert (Z.to_nat poff) (mkItem false (mkTuple (mkItemPointer N 1) cR))
         (list_update (Z.to_nat (poff - 1)) (set_childcnt (uint32 (sum_childcnt Lt)))
            (pd_items (BufferGetPage rel pb)))
  /\ cbto_prev (pd_opaque (BufferGetPage rel' N)) = L
  /\ cbto_next (pd_opaque (BufferGetPage rel' N))
     = cbto_next (pd_opaque (BufferGetPage rel L))
  /\ forall b, b <> L -> b <> N ->
       pd_meta (BufferGetPage rel' b) = pd_meta (BufferGetPage rel b)
       /\ cbto_flags (pd_opaque (BufferGetPage rel' b))
          = cbto_flags (pd_opaque (BufferGetPage rel b))
       /\ level (pd_opaque (BufferGetPage rel' b)) = level (pd_opaque (BufferGetPage rel b))
       /\ cbto_next (pd_opaque (BufferGetPage rel' b))
          = cbto_next (pd_opaque (BufferGetPage rel b))
       /\ (cbto_prev (pd_opaque (BufferGetPage rel' b))
           = cbto_prev (pd_opaque (BufferGetPage rel b))
           \/ (cbto_prev (pd_opaque (BufferGetPage rel b)) = L
               /\ cbto_prev (pd_opaque (BufferGetPage rel' b)) = N))
       /\ (b <> pb -> pd_items (BufferGetPage rel' b) = pd_items (BufferGetPage rel b)).

(** The line pointers of block [b] after the leaf [L] below the frame [pf]
    was split into the halves [Lt], kept on [L], and [Rt], put on the new
    block [N]: the tuple of [L] counts [cL], a tuple for [N] that counts [cR]
    follows it, and the counts at the frames [above] went up by one. *)
Definition split_items (L N : BlockNumber) (pf : CBTStackData) (above : CBTStack)
  (Lt : list CBTTupleData) (cL cR : Z) (b : BlockNumber) (p : Page) : list ItemIdData :=
  if b =? L then live_items Lt
  else if b =? cbts_blkno pf then
    list_insert (Z.to_nat (cbts_offset pf)) (mkItem false (mkTuple (mkItemPointer N 1) cR))
      (list_update (Z.to_nat (cbts_offset pf - 1)) (set_childcnt cL) (pd_items p))
  else pd_items (bumped above b p).

(** The pages after an insertion that split the leaf [L] of a tree of height
    [h] onto the new block [N]: the halves on [L] and [N], the links between
    them and to the former right sibling, the tuple for [N] after the tuple
    of [L], and the other pages as they were but for counts. *)
Definition leaf_divided (h : nat) (rel rel' : Relation) (L : BlockNumber) : Prop :=
  let N := RelationGetNumberOfBlocks rel in
  let p := BufferGetPage rel L in
  let n := Z.of_nat (length (pd_items p)) in
  let s := cbto_next (pd_opaque p) in
  (exists Lt Rt : list CBTTupleData,
     unit_counts (Lt ++ Rt)
     /\ Z.of_nat (length Lt) + Z.of_nat (length Rt) = n + 1
     /\ n / 2 <= Z.of_nat (length Lt) <= n / 2 + 1
     /\ pd_items (BufferGetPage rel' L) = live_items Lt
     /\ pd_items (BufferGetPage rel' N) = live_items Rt)
  /\ P_ISLEAF (pd_opaque (BufferGetPage rel' L)) = true
  /\ P_ISLEAF (pd_opaque (BufferGetPage rel' N)) = true
  /\ cbto_next (pd_opaque (BufferGetPage rel' L)) = N
  /\ (s <> L -> cbto_prev (pd_opaque (BufferGetPage rel' L)) = cbto_prev (pd_opaque p))
  /\ cbto_prev (pd_opaque (BufferGetPage rel' N)) = L
  /\ cbto_next (pd_opaque (BufferGetPage rel' N)) = s
  /\ (P_RIGHTMOST (pd_opaque p) = false ->
      cbto_prev (pd_opaque (BufferGetPage rel' s)) = N)
  /\ (forall b, b <> L -> b <> N ->
        cbto_flags (pd_opaque (BufferGetPage rel' b))
        = cbto_flags (pd_opaque (BufferGetPage rel b))
        /\ cbto_next (pd_opaque (BufferGetPage rel' b))
           = cbto_next (pd_opaque (BufferGetPage rel b))
        /\ (cbto_prev (pd_opaque (BufferGetPage rel' b))
            = cbto_prev (pd_opaque (BufferGetPage rel b))
            \/ (cbto_prev (pd_opaque (BufferGetPage rel b)) = L
                /\ cbto_prev (pd_opaque (BufferGetPage rel' b)) = N)))
  /\ (forall b, b <> L -> b <> N ->
        P_ISLEAF (pd_opaque (BufferGetPage rel b)) = true ->
        pd_items (BufferGetPage rel' b) = pd_items (BufferGetPage rel b))
  /\ exists pb pre it post,
       In pb (tree_blocks h rel (cbtm_root (metad_of rel)))
       /\ P_ISLEAF (pd_opaque (BufferGetPage rel pb)) = false
       /\ pd_items (BufferGetPage rel pb) = pre ++ it :: post
       /\ lp_dead it = false
       /\ child_of it = L
       /\ map shape (pd_items (BufferGetPage rel' pb))
          = map shape (pre ++ it :: mkItem false (mkTuple (mkItemPointer N 1) 0) :: post)
       /\ forall b, b <> pb -> b <> N ->
            P_ISLEAF (pd_opaque (BufferGetPage rel b)) = false ->
            map shape (pd_items (BufferGetPage rel' b))
            = map shape (pd_items (BufferGetPage rel b)).

(** The number of tuples that fit on a page of [BLCKSZ] bytes. *)
Definition leaf_capacity (BLCKSZ : Z) : Z := (BLCKSZ - 48) / 20.

(** A leaf as insertions leave it: not block 0, live records only, at least
    half full and not over full, and linked to a right sibling, if any, that
    links back to it. *)
Definition leaf_ok (BLCKSZ : Z) (rel : Relation) (b : BlockNumber) : Prop :=
  let o := pd_opaque (BufferGetPage rel b) in
  let n := Z.of_nat (length (pd_items (BufferGetPage rel b))) in
  b <> CBT_METAPAGE
  /\ P_ISLEAF o = true
  /\ forallb record_item (pd_items (BufferGetPage rel b)) = true
  /\ leaf_capacity BLCKSZ / 2 <= n <= leaf_capacity BLCKSZ
  /\ cbto_next o <> b
  /\ (P_RIGHTMOST o = true
      \/ (block_exists rel (cbto_next o) = true
          /\ cbto_prev (pd_opaque (BufferGetPage rel (cbto_next o))) = b)).

(** A tree that is one root leaf of live records, not over full. *)
Definition single_leaf (BLCKSZ : Z) (rel : Relation) : Prop :=
  let root := cbtm_root (metad_of rel) in
  root_leaf_of_records rel = true
  /\ root <> CBT_METAPAGE
  /\ P_RIGHTMOST (pd_opaque (BufferGetPage rel root)) = true
  /\ Z.of_nat (length (pd_items (BufferGetPage rel root))) <= leaf_capacity BLCKSZ.

(** A counted tree that is an internal root over leaves: every tuple of the
    root is live and names a leaf as insertions leave it, and no page is
    named twice. *)
Definition leaves_below_root (BLCKSZ : Z) (rel : Relation) : Prop :=
  let root := cbtm_root (metad_of rel) in
  cbt_tree 2 rel = true
  /\ root <> InvalidBlockNumber
  /\ P_ISLEAF (pd_opaque (BufferGetPage rel root)) = false
  /\ NoDup (tree_blocks 2 rel root)
  /\ pd_items (BufferGetPage rel root) <> []
  /\ all_live (pd_items (BufferGetPage rel root)) = true
  /\ forall it, In it (pd_items (BufferGetPage rel root)) ->
       leaf_ok BLCKSZ rel (child_of it).

(** The trees that insertions into the empty index leave while the root has
    room. *)
Definition positional (BLCKSZ : Z) (rel : Relation) : Prop :=
  single_leaf BLCKSZ rel \/ leaves_below_root BLCKSZ rel.

(** [cbtinsert] of the records of a list, one after the other, each at its
    own position. *)
Fixpoint cbtinsert_each (BLCKSZ : Z) (fuel : nat) (ops : list (Z * ItemPointerData))
  : M unit :=
  match ops with
  | [] => ret tt
  | op :: rest => cbtinsert BLCKSZ fuel (fst op) (snd op) ;;; cbtinsert_each BLCKSZ fuel rest
  end.

(** The list that insertions by position build from [l]: each record goes to
    its position, counted from 1, or to the end when the position is past
    the end. *)
Fixpoint inserted_at (ops : list (Z * ItemPointerData)) (l : list ItemPointerData)
  : list ItemPointerData :=
  match ops with
  | [] => l
  | op :: rest =>
      inserted_at rest
        (list_insert (Z.to_nat (Z.min (uint32 (fst op)) (Z.of_nat (length l) + 1) - 1))
           (snd op) l)
  end.

(** * Properties *)

(** Closed facts about runs of the model are settled by evaluation. *)
Ltac by_evaluation :=
  repeat match goal with |- _ /\ _ => split end; vm_compute; reflexivity.

(** One step of a run: unfold the monad and reduce. *)
Ltac mred := unfold bind, ret, get, update, raise, out_of_fuel; cbv beta iota.

(** ** Lists *)

Lemma length_list_update {A} n (f : A -> A) l : length (list_update n f l) = length l.
Proof. revert n; induction l; destruct n; simpl; auto. Qed.

Lemma nth_list_update_same {A} n (f : A -> A) l d :
  (n < length l)%nat -> nth n (list_update n f l) d = f (nth n l d).
Proof. revert n; induction l; destruct n; simpl; intros; try lia; auto. apply IHl; lia. Qed.

Lemma nth_list_update_other {A} n k (f : A -> A) l d :
  n <> k -> nth k (list_update n f l) d = nth k l d.
Proof. revert n k; induction l; destruct n, k; simpl; intros; try congruence; auto. Qed.

Lemma list_update_last {A} (l : list A) (x : A) f :
  list_update (length l) f (l ++ [x]) = l ++ [f x].
Proof. induction l; simpl; congruence. Qed.

Lemma list_insert_length {A} (l : list A) x : list_insert (length l) x l = l ++ [x].
Proof. induction l; simpl; congruence. Qed.

Lemma list_insert_app_l {A} k (x y : A) l :
  (k <= length l)%nat -> list_insert k x (l ++ [y]) = list_insert k x l ++ [y].
Proof.
  revert k; induction l; intros k H; destruct k; simpl in *; try lia; auto.
  rewrite IHl by lia. reflexivity.
Qed.

Lemma length_list_insert {A} k (x : A) l : length (list_insert k x l) = S (length l).
Proof. revert k; induction l; destruct k; simpl; auto. Qed.

Lemma list_insert_snoc_mid {A} (l : list A) a x :
  list_insert (length l) a (l ++ [x]) = l ++ [a; x].
Proof. induction l; simpl; congruence. Qed.

Lemma firstn_list_insert_lt {A} k j (a : A) l :
  (j <= k)%nat -> (j <= length l)%nat ->
  firstn (S k) (list_insert j a l) = list_insert j a (firstn k l)
  /\ skipn (S k) (list_insert j a l) = skipn k l.
Proof.
  revert k j. induction l as [|y l IH]; intros k j Hjk Hj.
  - cbn [length] in Hj. assert (j = 0)%nat by lia. subst j.
    cbn. rewrite firstn_nil, skipn_nil. destruct k; auto.
  - destruct j.
    + cbn [list_insert firstn skipn]. auto.
    + destruct k; [lia|].
      cbn [list_insert firstn skipn length] in *.
      destruct (IH k j ltac:(lia) ltac:(lia)) as [H1 H2].
      rewrite H1, H2. auto.
Qed.

Lemma firstn_list_insert_ge {A} k j (a : A) l :
  (k <= j)%nat -> (j <= length l)%nat ->
  firstn k (list_insert j a l) = firstn k l
  /\ skipn k (list_insert j a l) = list_insert (j - k) a (skipn k l).
Proof.
  revert k j. induction l as [|y l IH]; intros k j Hkj Hj.
  - cbn [length] in Hj. assert (j = 0)%nat by lia. subst j.
    assert (k = 0)%nat by lia. subst k. auto.
  - destruct k.
    + cbn [firstn skipn]. rewrite Nat.sub_0_r. auto.
    + destruct j; [lia|]. cbn [list_insert firstn skipn length] in *.
      destruct (IH k j ltac:(lia) ltac:(lia)) as [H1 H2].
      rewrite H1, H2. auto.
Qed.

Lemma length_snoc {A} (l : list A) x : Z.of_nat (length (l ++ [x])) = Z.of_nat (length l) + 1.
Proof. rewrite length_app. simpl. lia. Qed.

Lemma last_snoc {A} (l : list A) x d : last (l ++ [x]) d = x.
Proof. induction l; simpl; auto. destruct (l ++ [x]) eqn:E; auto. destruct l; discriminate. Qed.

Lemma sum_childcnt_app l1 l2 : sum_childcnt (l1 ++ l2) = sum_childcnt l1 + sum_childcnt l2.
Proof. induction l1; simpl; lia. Qed.

Lemma sum_childcnt_insert k x l :
  sum_childcnt (list_insert k x l) = childcnt x + sum_childcnt l.
Proof. revert k; induction l; destruct k; simpl; auto; try lia. rewrite IHl. lia. Qed.

Lemma sum_snoc l t : sum_childcnt (l ++ [t]) = sum_childcnt l + childcnt t.
Proof. rewrite sum_childcnt_app. simpl. lia. Qed.

(** ** The store *)

Lemma bind_Ok {S A B} (mm : ST S A) (k : A -> ST S B) s b s' :
  bind mm k s = Ok b s' -> exists a s1, mm s = Ok a s1 /\ k a s1 = Ok b s'.
Proof.
  unfold bind. destruct (mm s) as [a s1| |]; try discriminate. eauto.
Qed.

Lemma block_exists_iff rel blk :
  block_exists rel blk = true <-> 0 <= blk < Z.of_nat (length (rd_pages rel)).
Proof.
  unfold block_exists, RelationGetNumberOfBlocks.
  rewrite andb_true_iff, Z.leb_le, Z.ltb_lt. tauto.
Qed.

Lemma BufferGetPage_head p l c : BufferGetPage (mkRel (p :: l) c) 0 = p.
Proof. reflexivity. Qed.

Lemma BufferGetPage_last l p c :
  BufferGetPage (mkRel (l ++ [p]) c) (Z.of_nat (length l)) = p.
Proof.
  unfold BufferGetPage.
  assert (H : block_exists (mkRel (l ++ [p]) c) (Z.of_nat (length l)) = true).
  { apply block_exists_iff. simpl. rewrite length_app. simpl. lia. }
  rewrite H. simpl. rewrite Nat2Z.id.
  rewrite app_nth2 by lia. rewrite Nat.sub_diag. reflexivity.
Qed.

Lemma modify_page_last l p c f :
  modify_page (Z.of_nat (length l)) f (mkRel (l ++ [p]) c) = mkRel (l ++ [f p]) c.
Proof.
  unfold modify_page.
  assert (H : block_exists (mkRel (l ++ [p]) c) (Z.of_nat (length l)) = true).
  { apply block_exists_iff. simpl. rewrite length_app. simpl. lia. }
  rewrite H. simpl. rewrite Nat2Z.id, list_update_last. reflexivity.
Qed.

Lemma modify_page_head p l c f :
  modify_page 0 f (mkRel (p :: l) c) = mkRel (f p :: l) c.
Proof. reflexivity. Qed.

Lemma modify_opaque_last l p c f :
  modify_opaque (Z.of_nat (length l)) f (mkRel (l ++ [p]) c)
  = mkRel (l ++ [set_opaque p (f (pd_opaque p))]) c.
Proof. unfold modify_opaque. apply modify_page_last. Qed.

Lemma modify_meta_head p l c f :
  modify_meta 0 f (mkRel (p :: l) c) = mkRel (set_meta p (f (pd_meta p)) :: l) c.
Proof. reflexivity. Qed.

Lemma block_exists_modify b f rel blk :
  block_exists (modify_page b f rel) blk = block_exists rel blk.
Proof.
  unfold modify_page. destruct (block_exists rel b); [|reflexivity].
  unfold block_exists, RelationGetNumberOfBlocks. cbn [rd_pages].
  rewrite length_list_update. reflexivity.
Qed.

Lemma BufferGetPage_modify_same b f rel :
  block_exists rel b = true ->
  BufferGetPage (modify_page b f rel) b = f (BufferGetPage rel b).
Proof.
  intros H. unfold BufferGetPage. rewrite block_exists_modify, H.
  unfold modify_page. rewrite H. cbn [rd_pages].
  apply nth_list_update_same. apply block_exists_iff in H. lia.
Qed.

Lemma BufferGetPage_modify_other b f rel blk :
  b <> blk ->
  BufferGetPage (modify_page b f rel) blk = BufferGetPage rel blk.
Proof.
  intros H. unfold BufferGetPage. rewrite block_exists_modify.
  destruct (block_exists rel blk) eqn:E; [|reflexivity].
  unfold modify_page. destruct (block_exists rel b) eqn:E'; [|reflexivity].
  cbn [rd_pages]. apply nth_list_update_other.
  apply block_exists_iff in E, E'. lia.
Qed.

Lemma BufferGetPage_modify b f rel blk :
  BufferGetPage (modify_page b f rel) blk
  = if (b =? blk) && block_exists rel b then f (BufferGetPage rel blk)
    else BufferGetPage rel blk.
Proof.
  destruct (b =? blk) eqn:E.
  - apply Z.eqb_eq in E. subst. cbn [andb].
    destruct (block_exists rel blk) eqn:E'.
    + apply BufferGetPage_modify_same; assumption.
    + unfold modify_page. rewrite E'. reflexivity.
  - apply Z.eqb_neq in E. cbn [andb]. apply BufferGetPage_modify_other; assumption.
Qed.

Lemma pd_items_modify_opaque b f rel blk :
  pd_items (BufferGetPage (modify_opaque b f rel) blk) = pd_items (BufferGetPage rel blk).
Proof.
  unfold modify_opaque. rewrite BufferGetPage_modify.
  destruct (_ && _); reflexivity.
Qed.

Lemma blocks_modify b f rel :
  RelationGetNumberOfBlocks (modify_page b f rel) = RelationGetNumberOfBlocks rel.
Proof.
  unfold modify_page. destruct (block_exists rel b); [|reflexivity].
  unfold RelationGetNumberOfBlocks. cbn [rd_pages]. rewrite length_list_update. reflexivity.
Qed.

Lemma ReadBuffer_new rel :
  ReadBuffer InvalidBlockNumber rel
  = Ok (RelationGetNumberOfBlocks rel) (mkRel (rd_pages rel ++ [zero_page]) (rd_amcache rel)).
Proof. reflexivity. Qed.

Lemma ReadBuffer_old rel blk :
  block_exists rel blk = true -> blk <> InvalidBlockNumber ->
  ReadBuffer blk rel = Ok blk rel.
Proof.
  intros H1 H2. unfold ReadBuffer. rewrite H1.
  apply Z.eqb_neq in H2. rewrite H2. reflexivity.
Qed.

Lemma cbt_get_buffer_new acc l c :
  cbt_get_buffer InvalidBlockNumber acc (mkRel l c)
  = Ok (Z.of_nat (length l)) (mkRel (l ++ [CBTInitPage CBT_LEAF]) c).
Proof.
  unfold cbt_get_buffer. change (negb (InvalidBlockNumber =? InvalidBlockNumber)) with false.
  cbv iota. unfold bind. rewrite ReadBuffer_new. mred.
  unfold RelationGetNumberOfBlocks. cbn [rd_pages rd_amcache].
  unfold write_page. rewrite modify_page_last. reflexivity.
Qed.

Lemma cbt_get_buffer_old acc rel blk :
  block_exists rel blk = true -> blk <> InvalidBlockNumber ->
  cbt_get_buffer blk acc rel = Ok blk rel.
Proof.
  intros H1 H2. unfold cbt_get_buffer.
  destruct (blk =? InvalidBlockNumber) eqn:E.
  - apply Z.eqb_eq in E. contradiction.
  - cbn [negb]. apply ReadBuffer_old; assumption.
Qed.

Lemma cbt_change_children_ok rel child pb po :
  block_exists rel (ip_blkid child) = true -> ip_blkid child <> InvalidBlockNumber ->
  cbt_change_children child pb po rel
  = Ok tt (modify_opaque (ip_blkid child) (fun o => set_parent o (ItemPointerSet pb po)) rel).
Proof.
  intros H1 H2. unfold cbt_change_children, bind, ItemPointerGetBlockNumber.
  rewrite cbt_get_buffer_old by assumption. reflexivity.
Qed.

(** ** The page layer *)

Lemma uint32_add_l a b : uint32 (uint32 a + b) = uint32 (a + b).
Proof. unfold uint32. apply Z.add_mod_idemp_l. lia. Qed.

Lemma OffsetNumberNext_small o : 0 <= o < 65535 -> OffsetNumberNext o = o + 1.
Proof. intros H. unfold OffsetNumberNext, uint16. rewrite Z.mod_small; lia. Qed.

Lemma page_tuples_live l p : page_tuples (set_items p (live_items l)) = l.
Proof.
  unfold page_tuples, live_items. cbn [set_items pd_items]. rewrite map_map.
  cbn [lp_tuple]. apply map_id.
Qed.

Lemma page_tuples_length pg :
  PageGetMaxOffsetNumber pg = Z.of_nat (length (page_tuples pg)).
Proof. unfold PageGetMaxOffsetNumber, page_tuples. rewrite length_map. reflexivity. Qed.

Lemma page_tuples_items pg l : pd_items pg = live_items l -> page_tuples pg = l.
Proof.
  intros H. unfold page_tuples. rewrite H. unfold live_items. rewrite map_map.
  cbn [lp_tuple]. apply map_id.
Qed.

Lemma PageAddItem_append BLCKSZ p t :
  48 + 20 * (Z.of_nat (length (pd_items p)) + 1) <= BLCKSZ ->
  PageAddItem BLCKSZ p t (Z.of_nat (length (pd_items p)) + 1)
  = (Z.of_nat (length (pd_items p)) + 1, set_items p (pd_items p ++ [mkItem false t])).
Proof.
  intros H. unfold PageAddItem, PageGetMaxOffsetNumber, InvalidOffsetNumber.
  set (len := Z.of_nat (length (pd_items p))) in *.
  assert (Hlen : 0 <= len) by (unfold len; lia).
  replace (len + 1 =? 0) with false by (symmetry; apply Z.eqb_neq; lia).
  replace (len + 1 <? len + 1) with false by (symmetry; apply Z.ltb_ge; lia).
  replace (len + 1 <? 1) with false by (symmetry; apply Z.ltb_ge; lia).
  cbn [orb].
  unfold page_hole, sizeof_ItemIdData, itemsz, SizeOfPageHeaderData, SizeOfSpecial.
  fold len.
  replace (_ <? 4 + 16) with false by (symmetry; apply Z.ltb_ge; lia).
  replace (len + 1 - 1) with len by lia. unfold len. rewrite Nat2Z.id.
  rewrite list_insert_length. reflexivity.
Qed.

Lemma PageAddItem_opaque BLCKSZ p t off :
  pd_opaque (snd (PageAddItem BLCKSZ p t off)) = pd_opaque p.
Proof.
  unfold PageAddItem. destruct (_ || _); [reflexivity|].
  destruct (_ <? _); reflexivity.
Qed.

Lemma PageGetItem_tuples pg off pre x rest :
  page_tuples pg = pre ++ x :: rest -> off = Z.of_nat (length pre) + 1 ->
  PageGetItem pg off = Some x.
Proof.
  intros Ht ->. unfold PageGetItem, PageGetItemId, PageGetMaxOffsetNumber.
  assert (Hlen : length (pd_items pg) = length (pre ++ x :: rest)).
  { rewrite <- Ht. unfold page_tuples. symmetry. apply length_map. }
  rewrite length_app in Hlen. cbn [length] in Hlen.
  replace (1 <=? _) with true by (symmetry; apply Z.leb_le; lia).
  replace (_ <=? _) with true by (symmetry; apply Z.leb_le; lia).
  cbn [andb]. replace (Z.of_nat (length pre) + 1 - 1) with (Z.of_nat (length pre)) by lia.
  rewrite Nat2Z.id. rewrite <- nth_error_map. fold (page_tuples pg). rewrite Ht.
  rewrite nth_error_app2 by lia. rewrite Nat.sub_diag. reflexivity.
Qed.

(** ** Bulk build of nothing *)

(** C9.  Bulk build on an empty enumeration of records, and [cbtbuildempty],
    write a meta record that names no root (the invalid block number) and
    records height 0; the relation they leave holds the meta page and no
    tree page. *)
Theorem cbtbuild_empty_heap :
  forall (BLCKSZ : Z) (fuel : nat) (cache : option CBTMetaPageData),
    cbtbuild BLCKSZ fuel [] (mkRel [] cache)
      = Ok 0 (mkRel [CBTFillMetaPage InvalidBlockNumber 0] cache)
    /\ cbtbuildempty = [CBTFillMetaPage InvalidBlockNumber 0]
    /\ cbtm_root (pd_meta (CBTFillMetaPage InvalidBlockNumber 0)) = InvalidBlockNumber
    /\ cbtm_level (pd_meta (CBTFillMetaPage InvalidBlockNumber 0)) = 0
    /\ cbtm_magic (pd_meta (CBTFillMetaPage InvalidBlockNumber 0)) = CBT_MAGIC
    /\ P_ISMETA (pd_opaque (CBTFillMetaPage InvalidBlockNumber 0)) = true
    /\ pd_items (CBTFillMetaPage InvalidBlockNumber 0) = [].
Proof.
  intros BLCKSZ fuel cache.
  repeat split.
  destruct fuel; reflexivity.
Qed.

(** ** The round trip through repeated inserts *)

(** C3.  With four tuples to a page ([BLCKSZ = 128]), eleven records are
    inserted one at a time at positions 1 to 11.  Ranks 1 to 10 read back
    the records in insertion order, rank 11 reads back nothing, while the
    bulk build of the same records reads back the eleventh at rank 11.
    The same happens with 1177 records on pages of 1024 bytes (48 tuples to
    a page).  The eleventh insert splits the root with the new separator
    past its last tuple; the split adds the count of the last old tuple to
    the right half instead of the count of the separator. *)
Theorem cbtinsert_roundtrip_rank_lost :
  observe (fun rel => map (fun k => cbt_fetch 8 k rel) [1; 2; 3; 4; 5; 6; 7; 8; 9; 10])
          (after_inserts 128 8 11)
    = Some (map Some (heap_tids 10))
  /\ observe (cbt_fetch 8 11) (after_inserts 128 8 11) = Some None
  /\ observe (cbt_fetch 8 11) (after_build 128 8 11) = Some (Some (heap_tid 11))
  /\ observe (cbt_fetch 8 1176) (after_inserts 1024 8 1177) = Some (Some (heap_tid 1176))
  /\ observe (cbt_fetch 8 1177) (after_inserts 1024 8 1177) = Some None
  /\ observe (cbt_fetch 8 1177) (after_build 1024 8 1177) = Some (Some (heap_tid 1177)).
Proof.
  by_evaluation.
Qed.

(** ** The count invariant on reachable trees *)

(** C2.  Two reachable trees on which an internal count is not the number
    of live leaf entries below it.  After the eleven inserts above, the root
    (block 8) counts 6 entries under its second child (block 7), which holds
    7.  After five inserts and a sweep that removes the first record, the
    root (block 3) still counts 2 entries under its first child (block 1),
    which holds 1: the split left that page without a parent locator, so the
    sweep had no count to decrement.  The same two defects with larger
    pages: after 1177 inserts on pages of 1024 bytes the root (block 52)
    counts 600 entries under block 51, which holds 601; after 408 inserts on
    pages of 8192 bytes and a sweep that removes the first record the root
    counts 203 entries under block 1, which holds 202. *)
Theorem cbt_count_invariant_broken :
  observe (fun rel => (cbtm_root (metad_of rel),
                       PageGetItem (BufferGetPage rel 8) 2,
                       length (live_entries 2 rel 7),
                       cbt_tree 3 rel))
          (after_inserts 128 8 11)
    = Some (8, Some (mkTuple (mkItemPointer 7 1) 6), 7%nat, false)
  /\ observe (cbt_tree 2) (after_inserts 128 8 5) = Some true
  /\ observe (fun rel => (cbtm_root (metad_of rel),
                          PageGetItem (BufferGetPage rel 3) 1,
                          live_entries 1 rel 1,
                          cbt_tree 2 rel))
             (then_sweep 8 (remove_range 1 1) (after_inserts 128 8 5))
     = Some (3, Some (mkTuple (mkItemPointer 1 1) 2),
             [mkEntry 1 1 (heap_tid 2)], false)
  /\ observe (fun rel => (cbtm_root (metad_of rel),
                          page_tuples (BufferGetPage rel 52),
                          map (fun it => length (live_entries 2 rel (child_of it)))
                              (pd_items (BufferGetPage rel 52)),
                          cbt_tree 3 rel))
             (after_inserts 1024 8 1177)
     = Some (52, [mkTuple (mkItemPointer 3 1) 576; mkTuple (mkItemPointer 51 1) 600],
             [576%nat; 601%nat], false)
  /\ observe (fun rel => (cbtm_root (metad_of rel),
                          PageGetItem (BufferGetPage rel 3) 1,
                          length (live_entries 1 rel 1),
                          cbt_tree 2 rel))
             (then_sweep 8 (remove_range 1 1) (after_inserts 8192 8 408))
     = Some (3, Some (mkTuple (mkItemPointer 1 1) 203), 202%nat, false).
Proof.
  by_evaluation.
Qed.

(** ** Parent locators on reachable trees *)

(** C5.  After five inserts with four tuples to a page the root leaf has
    split: block 1 is the left half, neither root nor deleted, the first
    tuple of the root (block 3) references it, and its parent locator is the
    zeroed, invalid pointer.  Three more inserts at rank 1 split block 1
    again; the separator of the new page (block 4) goes to offset 2 of the
    root and moves the tuple of block 2 to offset 3, while the parent
    locator of block 2 still says offset 2.  The bulk build leaves the last
    page of every level (here block 4) without a parent locator.  On pages
    of 8192 bytes the first split comes with the 408th insert and leaves
    block 1 in the same state. *)
Theorem cbt_parent_locator_broken :
  observe (fun rel => (cbtm_root (metad_of rel),
                       PageGetItem (BufferGetPage rel 3) 1,
                       cbto_parent (pd_opaque (BufferGetPage rel 1)),
                       P_ISROOT (pd_opaque (BufferGetPage rel 1)),
                       P_ISDELETED (pd_opaque (BufferGetPage rel 1)),
                       parent_locator_ok rel 1, parent_locator_ok rel 2))
          (after_inserts 128 8 5)
    = Some (3, Some (mkTuple (mkItemPointer 1 1) 2), mkItemPointer 0 0,
            false, false, false, true)
  /\ observe (fun rel => (map child_of (pd_items (BufferGetPage rel 3)),
                          cbto_parent (pd_opaque (BufferGetPage rel 2)),
                          parent_locator_ok rel 2))
             (then_insert 128 8 1 (heap_tid 8)
                (then_insert 128 8 1 (heap_tid 7)
                   (then_insert 128 8 1 (heap_tid 6) (after_inserts 128 8 5))))
     = Some ([1; 4; 2], mkItemPointer 3 2, false)
  /\ observe (fun rel => (cbtm_root (metad_of rel),
                          map child_of (pd_items (BufferGetPage rel 5)),
                          map child_of (pd_items (BufferGetPage rel 6)),
                          cbto_parent (pd_opaque (BufferGetPage rel 4)),
                          parent_locator_ok rel 4))
             (after_build 128 8 11)
     = Some (5, [2; 6], [4], mkItemPointer InvalidBlockNumber 0, false)
  /\ observe (fun rel => (cbtm_root (metad_of rel),
                          PageGetItem (BufferGetPage rel 3) 1,
                          cbto_parent (pd_opaque (BufferGetPage rel 1)),
                          P_ISROOT (pd_opaque (BufferGetPage rel 1)),
                          P_ISDELETED (pd_opaque (BufferGetPage rel 1)),
                          parent_locator_ok rel 1))
             (after_inserts 8192 8 408)
     = Some (3, Some (mkTuple (mkItemPointer 1 1) 203), mkItemPointer 0 0,
             false, false, false).
Proof.
  by_evaluation.
Qed.

(** ** Rank search on reachable trees *)

(** C1.  Reachable trees on which [cbt_search] does not return the entry
    of the rank it is asked for.  With four tuples to a page
    ([BLCKSZ = 128]), five inserts and a sweep that removes the first record
    leave four live leaf entries, the records 2 to 5 in rank order, the
    first on block 1 and the others on block 2; the root still counts two
    entries under block 1 and three under block 2.  The search for rank 1
    returns the leaf frame of the first entry, the search for rank 2
    returns the empty stack (NULL), the searches for ranks 3 and 4 return
    the leaf frames of the second and third entry, and the search for rank
    5, which is past the live count, returns the leaf frame of the fourth
    entry.  After eleven inserts the tree holds the eleven records in rank
    order, the eleventh at offset 3 of block 6; the search for rank 10
    returns the frame of the tenth entry and the search for rank 11 returns
    NULL, in either access mode: the counts of the root sum to ten.  The
    same on pages of 8192 bytes, where 408 inserts and a sweep of the first
    record leave 407 entries, of which number 203 is the first tuple of
    block 2: the search for rank 203 returns NULL, the search for rank 204
    returns that tuple, and the search for rank 408 returns a frame; and on
    pages of 1024 bytes, where after 1177 inserts the search for rank 1177
    returns NULL. *)
Theorem cbt_search_rank_lost :
  observe (fun rel => (tree_entries 2 rel,
                       page_tuples (BufferGetPage rel (cbtm_root (metad_of rel))),
                       map (fun k => leaf_frame (cbt_search 8 k CBT_READ rel)) [1; 2; 3; 4; 5]))
          (then_sweep 8 (remove_range 1 1) (after_inserts 128 8 5))
    = Some ([mkEntry 1 1 (heap_tid 2); mkEntry 2 1 (heap_tid 3);
             mkEntry 2 2 (heap_tid 4); mkEntry 2 3 (heap_tid 5)],
            [downlink 1 2; downlink 2 3],
            [Some (Some (1, 1)); Some None; Some (Some (2, 1)); Some (Some (2, 2));
             Some (Some (2, 3))])
  /\ observe (fun rel => (map en_tid (tree_entries 3 rel),
                          nth_error (tree_entries 3 rel) 10,
                          page_tuples (BufferGetPage rel (cbtm_root (metad_of rel))),
                          leaf_frame (cbt_search 8 10 CBT_READ rel),
                          leaf_frame (cbt_search 8 11 CBT_READ rel),
                          leaf_frame (cbt_search 8 11 CBT_WRITE rel)))
             (after_inserts 128 8 11)
     = Some (heap_tids 11, Some (mkEntry 6 3 (heap_tid 11)),
             [downlink 3 4; downlink 7 6],
             Some (Some (6, 2)), Some None, Some None)
  /\ observe (fun rel => (length (tree_entries 2 rel),
                          nth_error (tree_entries 2 rel) 202,
                          page_tuples (BufferGetPage rel (cbtm_root (metad_of rel))),
                          map (fun k => leaf_frame (cbt_search 8 k CBT_READ rel))
                              [202; 203; 204; 408]))
             (then_sweep 8 (remove_range 1 1) (after_inserts 8192 8 408))
     = Some (407%nat, Some (mkEntry 2 1 (heap_tid 204)),
             [downlink 1 203; downlink 2 205],
             [Some (Some (1, 202)); Some None; Some (Some (2, 1)); Some (Some (2, 205))])
  /\ observe (fun rel => (length (tree_entries 3 rel),
                          nth_error (tree_entries 3 rel) 1176,
                          leaf_frame (cbt_search 8 1176 CBT_READ rel),
                          leaf_frame (cbt_search 8 1177 CBT_READ rel)))
             (after_inserts 1024 8 1177)
     = Some (1177%nat, Some (mkEntry 50 25 (heap_tid 1177)),
             Some (Some (50, 24)), Some None).
Proof.
  by_evaluation.
Qed.

(** ** The counts of a split on a reachable tree *)


(** ** Page deletion on reachable trees *)

(** C6.  Sweeps that empty a leaf which is not the root.  First with four
    tuples to a page ([BLCKSZ = 128]).  After five inserts block 1 is the left half of the
    split root leaf: not the root (block 3), without parent pointer, named
    by the first tuple of the root.  A sweep that removes the records 1 and
    2 empties it and flags it deleted; both tuples of the root page stay,
    the root pointer of the meta page is set to the invalid block number,
    and no scan finds the records 3, 4 and 5, which are still on block 2.
    After three more inserts at rank 1 the root names the blocks 1, 4 and 2
    in this order while the parent pointer of block 2 still says offset 2.
    A sweep that removes the records 3, 4 and 5 empties block 2 and flags
    it deleted; the tuple removed from the root is the one of block 4,
    which is not deleted and holds the records 1 and 2, and the tuple of
    block 2 stays, with count 3.  The tree no longer holds the records 1
    and 2.  The same on pages of 8192 bytes.  After 408 inserts block 1,
    the left half of the split root leaf, holds the records 1 to 203; a
    sweep that removes them flags it deleted and sets the root pointer of
    the meta page to the invalid block number, with both tuples in the root
    page (block 3) and 205 records on block 2 that no scan finds.  After
    205 more inserts at rank 1 the root names the blocks 1, 4 and 2 and the
    parent pointer of block 2 still says offset 2; a sweep that removes the
    records 204 to 408 empties block 2, and the tuple removed from the root
    is the one of block 4, which holds 204 records. *)
Theorem cbt_vacuum_page_deletion_broken :
  observe (fun rel => (cbtm_root (metad_of rel),
                       P_ISROOT (pd_opaque (BufferGetPage rel 1)),
                       cbto_parent (pd_opaque (BufferGetPage rel 1)),
                       page_tuples (BufferGetPage rel 3)))
          (after_inserts 128 8 5)
    = Some (3, false, mkItemPointer 0 0, [downlink 1 2; downlink 2 3])
  /\ observe (fun rel => (cbtm_root (metad_of rel),
                          pd_items (BufferGetPage rel 1),
                          P_ISDELETED (pd_opaque (BufferGetPage rel 1)),
                          page_tuples (BufferGetPage rel 3),
                          map itemptr (page_tuples (BufferGetPage rel 2)),
                          map (fun k => cbt_fetch 8 k rel) [1; 2; 3]))
             (then_sweep 8 (remove_range 1 2) (after_inserts 128 8 5))
     = Some (InvalidBlockNumber, [], true, [downlink 1 2; downlink 2 3],
             [heap_tid 3; heap_tid 4; heap_tid 5], [None; None; None])
  /\ observe (fun rel => (page_tuples (BufferGetPage rel 3),
                          cbto_parent (pd_opaque (BufferGetPage rel 2))))
             (then_insert 128 8 1 (heap_tid 8)
                (then_insert 128 8 1 (heap_tid 7)
                   (then_insert 128 8 1 (heap_tid 6) (after_inserts 128 8 5))))
     = Some ([downlink 1 3; downlink 4 2; downlink 2 3], mkItemPointer 3 2)
  /\ observe (fun rel => (cbtm_root (metad_of rel),
                          pd_items (BufferGetPage rel 2),
                          P_ISDELETED (pd_opaque (BufferGetPage rel 2)),
                          page_tuples (BufferGetPage rel 3),
                          map itemptr (page_tuples (BufferGetPage rel 4)),
                          P_ISDELETED (pd_opaque (BufferGetPage rel 4)),
                          map en_tid (tree_entries 2 rel)))
             (then_sweep 8 (remove_range 3 5)
                (then_insert 128 8 1 (heap_tid 8)
                   (then_insert 128 8 1 (heap_tid 7)
                      (then_insert 128 8 1 (heap_tid 6) (after_inserts 128 8 5)))))
     = Some (3, [], true, [downlink 1 3; downlink 2 3],
             [heap_tid 1; heap_tid 2], false,
             [heap_tid 8; heap_tid 7; heap_tid 6])
  /\ observe (fun rel => (cbtm_root (metad_of rel),
                          P_ISROOT (pd_opaque (BufferGetPage rel 1)),
                          cbto_parent (pd_opaque (BufferGetPage rel 1)),
                          page_tuples (BufferGetPage rel 3)))
             (after_inserts 8192 8 408)
     = Some (3, false, mkItemPointer 0 0, [downlink 1 203; downlink 2 205])
  /\ observe (fun rel => (cbtm_root (metad_of rel),
                          pd_items (BufferGetPage rel 1),
                          P_ISDELETED (pd_opaque (BufferGetPage rel 1)),
                          page_tuples (BufferGetPage rel 3),
                          length (pd_items (BufferGetPage rel 2)),
                          map (fun k => cbt_fetch 8 k rel) [1; 205]))
             (then_sweep 8 (remove_range 1 203) (after_inserts 8192 8 408))
     = Some (InvalidBlockNumber, [], true, [downlink 1 203; downlink 2 205],
             205%nat, [None; None])
  /\ observe (fun rel => (page_tuples (BufferGetPage rel 3),
                          cbto_parent (pd_opaque (BufferGetPage rel 2))))
             (then_inserts 8192 8 1 (skipn 408 (heap_tids 613)) (after_inserts 8192 8 408))
     = Some ([downlink 1 204; downlink 4 204; downlink 2 205], mkItemPointer 3 2)
  /\ observe (fun rel => (cbtm_root (metad_of rel),
                          pd_items (BufferGetPage rel 2),
                          P_ISDELETED (pd_opaque (BufferGetPage rel 2)),
                          page_tuples (BufferGetPage rel 3),
                          length (pd_items (BufferGetPage rel 4)),
                          P_ISDELETED (pd_opaque (BufferGetPage rel 4)),
                          length (tree_entries 2 rel)))
             (then_sweep 8 (remove_range 204 408)
                (then_inserts 8192 8 1 (skipn 408 (heap_tids 613))
                   (after_inserts 8192 8 408)))
     = Some (3, [], true, [downlink 1 204; downlink 2 205], 204%nat, false, 204%nat).
Proof.
  by_evaluation.
Qed.

(** ** A split that stops at the sibling check *)

(** C8.  An insert that splits a full leaf whose right sibling does not
    link back to it.  With four tuples to a page ([BLCKSZ = 128]), five
    inserts and two more at rank 1 leave the records 7, 6, 1, 2 on block 1,
    which is full, and the records 3, 4, 5 on block 2, its right sibling,
    under the root (block 3) with counts 4 and 3.  The previous-page link of
    block 2 is then damaged (9 for 1); the tree is still counted and a scan
    finds each of the seven records at its rank.  The insert of an eighth
    record at rank 1 stops with the "left-link doesn't match" error.  At
    that point the link of block 2 is still 9 and block 1 still holds its
    four records, without the new one; the root page holds the tuple of
    block 1 with count 3, a tuple for the new block 4 with count 2, and the
    tuple of block 2; block 4 is all zeroes.  Scans for the ranks 4 and 5
    now find nothing, and the ranks 6 and 7 give the records 3 and 4.
    [cbt_split_page] called on block 1 of the damaged tree with the stack
    of that insert leaves the same root page and the same zeroed block.
    The same on pages of 8192 bytes: 408 inserts and 204 more at rank 1
    fill block 1 with 407 records; with the link of block 2 damaged, the
    next insert at rank 1 stops with the error, block 1 still holds 407
    records, the root page names the zeroed block 4 with count 204 between
    the tuples of blocks 1 and 2, and the scans for the ranks 205, 206 and
    407, which gave the records 1, 2 and 203, find nothing. *)
Theorem cbt_split_page_half_done :
  observe (fun rel => (cbt_tree 2 (damage_prev 2 9 rel),
                       cbto_next (pd_opaque (BufferGetPage (damage_prev 2 9 rel) 1)),
                       cbto_prev (pd_opaque (BufferGetPage (damage_prev 2 9 rel) 2)),
                       map itemptr (page_tuples (BufferGetPage (damage_prev 2 9 rel) 1)),
                       page_tuples (BufferGetPage (damage_prev 2 9 rel) 3),
                       map (fun k => cbt_fetch 8 k (damage_prev 2 9 rel)) [1; 2; 3; 4; 5; 6; 7]))
          (then_inserts 128 8 1 [heap_tid 6; heap_tid 7] (after_inserts 128 8 5))
    = Some (true, 2, 9, map heap_tid [7; 6; 1; 2], [downlink 1 4; downlink 2 3],
            map (fun i => Some (heap_tid i)) [7; 6; 1; 2; 3; 4; 5])
  /\ observe (fun rel =>
                option_map (fun r => (fst r,
                                      cbto_prev (pd_opaque (BufferGetPage (snd r) 2)),
                                      map itemptr (page_tuples (BufferGetPage (snd r) 1)),
                                      page_tuples (BufferGetPage (snd r) 3),
                                      BufferGetPage (snd r) 4,
                                      map (fun k => cbt_fetch 8 k (snd r)) [1; 2; 3; 4; 5; 6; 7]))
                  (failed (cbtinsert 128 8 1 (heap_tid 8) (damage_prev 2 9 rel))))
             (then_inserts 128 8 1 [heap_tid 6; heap_tid 7] (after_inserts 128 8 5))
     = Some (Some (ERR_sibling_mismatch, 9, map heap_tid [7; 6; 1; 2],
                   [downlink 1 3; downlink 4 2; downlink 2 3], zero_page,
                   [Some (heap_tid 7); Some (heap_tid 6); Some (heap_tid 1); None; None;
                    Some (heap_tid 3); Some (heap_tid 4)]))
  /\ observe (fun rel =>
                option_map (fun r => (fst r, page_tuples (BufferGetPage (snd r) 3),
                                      BufferGetPage (snd r) 4))
                  (failed (cbt_split_page 128 8 1 (mkTuple (heap_tid 8) 1)
                             [mkFrame 1 1 0; mkFrame 3 1 0] (damage_prev 2 9 rel))))
             (then_inserts 128 8 1 [heap_tid 6; heap_tid 7] (after_inserts 128 8 5))
     = Some (Some (ERR_sibling_mismatch,
                   [downlink 1 3; downlink 4 2; downlink 2 3], zero_page))
  /\ observe (fun rel => (cbt_tree 2 (damage_prev 2 9 rel),
                          length (pd_items (BufferGetPage rel 1)),
                          page_tuples (BufferGetPage rel 3),
                          map (fun k => cbt_fetch 8 k (damage_prev 2 9 rel)) [204; 205; 206; 407]))
             (then_inserts 8192 8 1 (skipn 408 (heap_tids 612)) (after_inserts 8192 8 408))
     = Some (true, 407%nat, [downlink 1 407; downlink 2 205],
             map (fun i => Some (heap_tid i)) [409; 1; 2; 203])
  /\ observe (fun rel =>
                option_map (fun r => (fst r,
                                      cbto_prev (pd_opaque (BufferGetPage (snd r) 2)),
                                      length (pd_items (BufferGetPage (snd r) 1)),
                                      page_tuples (BufferGetPage (snd r) 3),
                                      BufferGetPage (snd r) 4,
                                      map (fun k => cbt_fetch 8 k (snd r)) [204; 205; 206; 407]))
                  (failed (cbtinsert 8192 8 1 (heap_tid 613) (damage_prev 2 9 rel))))
             (then_inserts 8192 8 1 (skipn 408 (heap_tids 612)) (after_inserts 8192 8 408))
     = Some (Some (ERR_sibling_mismatch, 9, 407%nat,
                   [downlink 1 204; downlink 4 204; downlink 2 205], zero_page,
                   [Some (heap_tid 409); None; None; None])).
Proof.
  by_evaluation.
Qed.

(** ** Position 0 on a reachable tree *)

(** C10.  A reachable, non-empty tree on which the search for position 0
    and the search for position 1 return different entries.  With four
    tuples to a page ([BLCKSZ = 128]), twenty-three inserts and a sweep that removes the
    records 2, 3 and 4 leave a tree of height 4 with twenty live leaf
    entries, the first of which is record 1, at offset 1 of block 1.  The
    sweep has emptied block 2 and removed its tuple from block 3, which
    keeps the tuple of block 1 with count 1; the first tuple of block 8,
    which names block 3, now has count 0, while record 1 is still below
    block 3.  [cbt_search] for position 0 returns the leaf frame of record
    1 and [cbt_first] with key 0 returns record 1; for position 1 they
    pass over the tuple of count 0 and return the frame at offset 1 of
    block 4, and record 5. *)
Theorem cbt_search_rank_zero_differs :
  observe (fun rel => (nth_error (tree_entries 4 rel) 0,
                       leaf_frame (cbt_search 8 0 CBT_READ rel),
                       leaf_frame (cbt_search 8 1 CBT_READ rel),
                       cbt_fetch 8 0 rel, cbt_fetch 8 1 rel,
                       PageGetItem (BufferGetPage rel 8) 1,
                       map en_tid (live_entries 2 rel 3)))
          (then_sweep 8 (remove_range 2 4) (after_inserts 128 8 23))
    = Some (Some (mkEntry 1 1 (heap_tid 1)), Some (Some (1, 1)), Some (Some (4, 1)),
            Some (heap_tid 1), Some (heap_tid 5),
            Some (downlink 3 0), [heap_tid 1])
  /\ observe (fun rel => (cbtm_level (metad_of rel), length (tree_entries 4 rel),
                          pd_items (BufferGetPage rel 2),
                          page_tuples (BufferGetPage rel 3),
                          PageGetItem (BufferGetPage rel 4) 1))
             (then_sweep 8 (remove_range 2 4) (after_inserts 128 8 23))
     = Some (4, 20%nat, [], [downlink 1 1], Some (mkTuple (heap_tid 5) 1)).
Proof.
  by_evaluation.
Qed.

(** ** The first insert *)

Section FirstInsert.
Variables (meta : Page) (rest : list Page).
Hypothesis Hflag : P_ISMETA (pd_opaque meta) = true.
Hypothesis Hmagic : cbtm_magic (pd_meta meta) = CBT_MAGIC.
Hypothesis Hroot : cbtm_root (pd_meta meta) = InvalidBlockNumber.
Hypothesis Hsize : Z.of_nat (length (meta :: rest)) < InvalidBlockNumber.

Let n := Z.of_nat (length (meta :: rest)).
Let meta' := set_meta meta (mkMeta CBT_MAGIC n 1).

Lemma getroot_creates fuel :
  cbt_getroot (S fuel) CBT_WRITE (mkRel (meta :: rest) None)
  = Ok n (mkRel (meta' :: rest ++ [fresh_root]) None).
Proof.
  cbn [cbt_getroot]. mred. cbn [rd_amcache]. cbv beta iota.
  rewrite cbt_get_buffer_old by (reflexivity || discriminate).
  cbv beta iota. rewrite BufferGetPage_head. rewrite Hflag, Hmagic, Hroot.
  change (negb true || negb (CBT_MAGIC =? CBT_MAGIC)) with false. cbv iota.
  change (InvalidBlockNumber =? InvalidBlockNumber) with true. cbv beta iota.
  rewrite BufferGetPage_head, Hroot.
  change (negb (InvalidBlockNumber =? InvalidBlockNumber)) with false. cbv beta iota.
  rewrite cbt_get_buffer_new. cbv beta iota.
  change (meta :: rest) with ([meta] ++ rest) at 2.
  change ((meta :: rest) ++ [CBTInitPage CBT_LEAF]) with ((meta :: rest) ++ [CBTInitPage CBT_LEAF]).
  rewrite modify_opaque_last. cbn [app]. 
  unfold CBT_METAPAGE. rewrite modify_meta_head.
  unfold BufferGetBlockNumber. rewrite Hmagic. reflexivity.
Qed.

Let rel1 := mkRel (meta' :: rest ++ [fresh_root]) None.
Let rel2 := mkRel (meta' :: rest ++ [fresh_root]) (Some (mkMeta CBT_MAGIC n 1)).

Lemma n_valid : n <> InvalidBlockNumber /\ n <> InvalidBuffer /\ 0 <= n.
Proof. unfold n, InvalidBuffer in *. repeat split; lia. Qed.

Lemma n_exists c : block_exists (mkRel (meta' :: rest ++ [fresh_root]) c) n = true.
Proof.
  apply block_exists_iff. unfold n. cbn [rd_pages length]. rewrite length_app.
  cbn [length]. lia.
Qed.

Lemma root_page c : BufferGetPage (mkRel (meta' :: rest ++ [fresh_root]) c) n = fresh_root.
Proof.
  unfold n. change (meta' :: rest ++ [fresh_root]) with ((meta' :: rest) ++ [fresh_root]).
  change (length (meta :: rest)) with (length (meta' :: rest)).
  apply BufferGetPage_last.
Qed.

Lemma search_empty_root fuel :
  cbt_search (S fuel) 1 CBT_WRITE (mkRel (meta :: rest) None) = Ok ([], n) rel1.
Proof.
  unfold cbt_search. unfold bind at 1. rewrite getroot_creates.
  destruct n_valid as (_ & Hb & _).
  unfold BufferIsValid. apply Z.eqb_neq in Hb. rewrite Hb. cbn [negb].
  cbn [cbt_search_descend]. mred. fold rel1.
  unfold cbt_search_in_page. unfold rel1. rewrite root_page. reflexivity.
Qed.

Lemma getroot_reads_meta fuel :
  cbt_getroot (S (S fuel)) CBT_READ rel1 = Ok n rel2.
Proof.
  destruct n_valid as (Hn & Hb & Hpos).
  cbn [cbt_getroot]. mred. unfold rel1. cbn [rd_amcache]. cbv beta iota.
  rewrite cbt_get_buffer_old by (reflexivity || discriminate).
  cbv beta iota. rewrite BufferGetPage_head.
  change (pd_opaque meta') with (pd_opaque meta).
  change (pd_meta meta') with (mkMeta CBT_MAGIC n 1).
  cbn [cbtm_magic cbtm_root cbtm_level].
  rewrite Hflag.
  change (negb true || negb (CBT_MAGIC =? CBT_MAGIC)) with false. cbv iota.
  apply Z.eqb_neq in Hn. rewrite Hn. cbv beta iota.
  cbn [cbt_getroot_live]. mred.
  unfold set_amcache. cbn [rd_pages].
  rewrite ReadBuffer_old; [ | apply n_exists | apply Z.eqb_neq; exact Hn ].
  cbv beta iota. rewrite root_page.
  change (negb (P_IGNORE (pd_opaque fresh_root))) with true. cbv beta iota.
  rewrite ?root_page. reflexivity.
Qed.

Lemma getroot_reads_cache fuel :
  cbt_getroot (S fuel) CBT_READ rel2 = Ok n rel2.
Proof.
  destruct n_valid as (Hn & Hb & Hpos).
  cbn [cbt_getroot]. mred. unfold rel2. cbn [rd_amcache]. cbv beta iota.
  cbn [cbtm_root cbtm_level].
  rewrite cbt_get_buffer_old; [ | apply n_exists | exact Hn ].
  cbv beta iota. rewrite root_page. reflexivity.
Qed.

Variable BLCKSZ : Z.
Hypothesis Hroom : 68 <= BLCKSZ.

Lemma fresh_root_room : (PageGetFreeSpace BLCKSZ fresh_root <? itemsz) = false.
Proof.
  unfold PageGetFreeSpace, page_hole, fresh_root, itemsz, sizeof_ItemIdData,
    SizeOfPageHeaderData, SizeOfSpecial. cbn [pd_items length].
  destruct (_ <? 4) eqn:E.
  - apply Z.ltb_lt in E. exfalso. clear - Hroom E. lia.
  - apply Z.ltb_ge. lia.
Qed.

Lemma fresh_root_add t :
  PageAddItem BLCKSZ fresh_root t 1
  = (1, set_items fresh_root [mkItem false t]).
Proof.
  unfold PageAddItem. cbn [PageGetMaxOffsetNumber fresh_root pd_items length].
  change (1 =? InvalidOffsetNumber) with false. cbv iota.
  change ((Z.of_nat 0 + 1 <? 1) || (1 <? 1)) with false. cbv iota.
  unfold page_hole, itemsz, sizeof_ItemIdData, SizeOfPageHeaderData, SizeOfSpecial.
  cbn [fresh_root pd_items length].
  destruct (_ <? 4 + 16) eqn:E.
  - apply Z.ltb_lt in E. exfalso. clear - Hroom E. lia.
  - reflexivity.
Qed.

Lemma insert_first itmptr fuel :
  cbt_insert_tuple BLCKSZ (S (S fuel)) 1 itmptr (mkRel (meta :: rest) None)
  = Ok tt (mkRel (meta' :: rest ++ [set_items fresh_root [mkItem false (mkTuple itmptr 1)]])
             (Some (mkMeta CBT_MAGIC n 1))).
Proof.
  destruct n_valid as (Hn & Hb & Hpos).
  unfold cbt_insert_tuple.
  unfold bind at 1. rewrite search_empty_root.
  unfold BufferIsInvalid at 1. apply Z.eqb_neq in Hb. rewrite Hb. cbn [orb].
  unfold bind at 1. unfold bind at 1. unfold cbt_find_totalcnt.
  unfold bind at 1. fold rel1. rewrite getroot_reads_meta.
  unfold BufferIsInvalid at 1. rewrite Hb.
  mred. unfold rel2 at 1. rewrite root_page.
  change (PageGetMaxOffsetNumber fresh_root =? 0) with true. cbv beta iota.
  change (0 =? 0) with true. cbv beta iota.
  fold rel2. rewrite getroot_reads_cache.
  unfold BufferIsInvalid. rewrite Hb. cbv iota.
  cbn [cbt_change_parent]. cbv beta iota.
  cbn [cbt_insert_on_page]. mred.
  unfold rel2. rewrite root_page. rewrite fresh_root_room.
  cbn [cbts_offset]. unfold P_FIRSTOFFSET.
  change (meta' :: rest ++ [fresh_root]) with ((meta' :: rest) ++ [fresh_root]).
  unfold n at 1. change (length (meta :: rest)) with (length (meta' :: rest)).
  rewrite modify_page_last. rewrite fresh_root_add.
  destruct itmptr. reflexivity.
Qed.

End FirstInsert.

(** C7.  Inserting at rank 1 into an empty tree (a meta page that names no
    root, and no cached root) completes; it leaves a fresh page, appended to
    the relation, that is leaf and root and holds exactly one tuple, of
    count 1, for the inserted record, and a meta record that names this page
    as the root of a tree of height 1. *)
Theorem cbt_insert_into_empty_tree :
  forall (BLCKSZ : Z) (meta : Page) (rest : list Page) (itmptr : ItemPointerData)
         (fuel : nat),
    68 <= BLCKSZ ->
    P_ISMETA (pd_opaque meta) = true ->
    cbtm_magic (pd_meta meta) = CBT_MAGIC ->
    cbtm_root (pd_meta meta) = InvalidBlockNumber ->
    Z.of_nat (S (length rest)) < InvalidBlockNumber ->
    cbt_insert_tuple BLCKSZ (S (S fuel)) 1 itmptr (mkRel (meta :: rest) None)
    = Ok tt
        (mkRel (set_meta meta (mkMeta CBT_MAGIC (Z.of_nat (S (length rest))) 1)
                  :: rest
                  ++ [mkPage [mkItem false (mkTuple itmptr 1)]
                        (mkOpaque InvalidBlockNumber InvalidBlockNumber
                           (mkItemPointer 0 0) CBT_LEAF_LEVEL (Z.lor CBT_LEAF CBT_ROOT))
                        zero_meta])
               (Some (mkMeta CBT_MAGIC (Z.of_nat (S (length rest))) 1))).
Proof.
  intros BLCKSZ meta rest itmptr fuel Hroom Hflag Hmagic Hroot Hsize.
  exact (insert_first meta rest Hflag Hmagic Hroot Hsize BLCKSZ Hroom itmptr fuel).
Qed.

Lemma cbt_insert_into_empty_tree_witness :
  cbt_insert_tuple 8192 2 1 (heap_tid 1) cbt_empty_index
  = Ok tt
      (mkRel [CBTFillMetaPage 1 1;
              mkPage [mkItem false (mkTuple (heap_tid 1) 1)]
                (mkOpaque InvalidBlockNumber InvalidBlockNumber
                   (mkItemPointer 0 0) 1 3) zero_meta]
             (Some (mkMeta CBT_MAGIC 1 1))).
Proof.
  apply (cbt_insert_into_empty_tree 8192 (CBTFillMetaPage InvalidBlockNumber 0) []
           (heap_tid 1) 0).
  - lia.
  - reflexivity.
  - reflexivity.
  - reflexivity.
  - reflexivity.
Defined.

(** ** The transfer of a page split *)

Section Transfer.
Variables (BLCKSZ : Z) (origbuf rbuf : Buffer) (newitem : CBTTupleData)
          (newitemoff : OffsetNumber) (its : list CBTTupleData) (is_leaf : bool).
Local Abbreviation n := (Z.of_nat (length its)).
Local Abbreviation m := (xfer_mid its).
Local Abbreviation onleft := (xfer_onleft newitemoff its).
Local Abbreviation placed := (xfer_placed newitemoff).
Local Abbreviation p_of pre := (Z.of_nat (length pre)) (only parsing).
Local Abbreviation children_ok := (xfer_children_ok its is_leaf).
Local Abbreviation store_ok := (xfer_store_ok origbuf rbuf its is_leaf).
Local Abbreviation phys := (xfer_phys origbuf rbuf its is_leaf).
Local Abbreviation logic := (xfer_logic newitem newitemoff its).
Hypothesis Hdistinct : origbuf <> rbuf.
Hypothesis Hn2 : 2 <= n.
Hypothesis Hfit : 48 + 20 * n <= BLCKSZ.
Hypothesis Hn16 : n < 65534.
Hypothesis Hoff : 1 <= newitemoff <= n + 1.

Lemma store_ok_modify_opaque rel Rt c f :
  store_ok rel Rt -> store_ok (modify_opaque c f rel) Rt.
Proof.
  intros (H1 & H2 & H3 & H4 & H5). unfold xfer_store_ok, modify_opaque.
  rewrite !block_exists_modify. repeat split; auto.
  - unfold page_tuples. fold (modify_opaque c f rel). rewrite pd_items_modify_opaque. exact H3.
  - fold (modify_opaque c f rel). rewrite pd_items_modify_opaque. exact H4.
  - intros Hl. specialize (H5 Hl). eapply Forall_impl; [|exact H5].
    intros t [Ha Hb]. rewrite block_exists_modify. auto.
Qed.

Lemma store_ok_add_right rel Rt t :
  store_ok rel Rt ->
  Z.of_nat (length Rt) + 1 <= n ->
  store_ok (modify_page rbuf (fun p => snd (PageAddItem BLCKSZ p t (Z.of_nat (length Rt) + 1))) rel)
           (Rt ++ [t]).
Proof.
  intros (H1 & H2 & H3 & H4 & H5) Hroom. unfold xfer_store_ok.
  rewrite !block_exists_modify. repeat split; auto.
  - rewrite BufferGetPage_modify_other by auto. exact H3.
  - rewrite BufferGetPage_modify_same by assumption.
    assert (Hl : length (pd_items (BufferGetPage rel rbuf)) = length Rt).
    { rewrite H4. unfold live_items. apply length_map. }
    rewrite <- Hl. rewrite PageAddItem_append by (rewrite Hl; lia).
    cbn [snd set_items pd_items]. rewrite H4. unfold live_items. rewrite map_app. reflexivity.
  - intros Hl. specialize (H5 Hl). eapply Forall_impl; [|exact H5].
    intros t' [Ha Hb]. rewrite block_exists_modify. auto.
Qed.


Lemma m_bounds : 1 <= m /\ m + 1 <= n /\ 2 * m <= n.
Proof.
  unfold xfer_mid. pose proof (Z.div_mod n 2 ltac:(lia)) as H.
  pose proof (Z.mod_pos_bound n 2 ltac:(lia)) as H'. lia.
Qed.



(** adding a tuple to the temporary left page *)
Lemma phys_left st rel Lt Rt t newoff item ii :
  phys st rel Lt Rt -> Z.of_nat (length Lt) + 1 <= n ->
  phys (mkXfer (snd (PageAddItem BLCKSZ (sx_left st) t (sx_leftoff st)))
               (OffsetNumberNext (sx_leftoff st)) (sx_rightoff st) newoff
               (uint32 (sx_leftcount st + childcnt t)) (sx_rightcount st) item ii)
       rel (Lt ++ [t]) Rt.
Proof.
  intros [H1 H2 H3 H4 H5 H6] Hroom.
  assert (Hl : length (pd_items (sx_left st)) = length Lt).
  { rewrite H2. unfold live_items. apply length_map. }
  split; cbn [sx_left sx_leftoff sx_rightoff sx_leftcount sx_rightcount]; auto.
  - rewrite H3, <- Hl. rewrite PageAddItem_append by (rewrite Hl; lia).
    cbn [snd set_items pd_items]. rewrite H2. unfold live_items. rewrite map_app. reflexivity.
  - rewrite H3, length_snoc. rewrite OffsetNumberNext_small by lia. reflexivity.
  - rewrite H5, uint32_add_l, sum_snoc. reflexivity.
Qed.

(** adding a tuple to the right page, in the new buffer *)
Lemma phys_right st rel Lt Rt t cnt newoff item ii :
  phys st rel Lt Rt -> Z.of_nat (length Rt) + 1 <= n ->
  cnt = childcnt t ->
  phys (mkXfer (sx_left st) (sx_leftoff st) (OffsetNumberNext (sx_rightoff st)) newoff
               (sx_leftcount st) (uint32 (sx_rightcount st + cnt)) item ii)
       (modify_page rbuf (fun p => snd (PageAddItem BLCKSZ p t (sx_rightoff st))) rel)
       Lt (Rt ++ [t]).
Proof.
  intros [H1 H2 H3 H4 H5 H6] Hroom ->.
  split; cbn [sx_left sx_leftoff sx_rightoff sx_leftcount sx_rightcount]; auto.
  - rewrite H4. apply store_ok_add_right; assumption.
  - rewrite H4, length_snoc. rewrite OffsetNumberNext_small by lia. reflexivity.
  - rewrite H6, uint32_add_l, sum_snoc. reflexivity.
Qed.

Lemma phys_children st rel Lt Rt c f :
  phys st rel Lt Rt -> phys st (modify_opaque c f rel) Lt Rt.
Proof.
  intros [H1 H2 H3 H4 H5 H6]. split; auto. apply store_ok_modify_opaque; assumption.
Qed.

Lemma phys_ext st st' rel Lt Rt :
  phys st rel Lt Rt ->
  sx_left st' = sx_left st -> sx_leftoff st' = sx_leftoff st ->
  sx_rightoff st' = sx_rightoff st -> sx_leftcount st' = sx_leftcount st ->
  sx_rightcount st' = sx_rightcount st ->
  phys st' rel Lt Rt.
Proof.
  intros [H1 H2 H3 H4 H5 H6] E1 E2 E3 E4 E5. split; congruence.
Qed.


Lemma old_left_ok st rel Lt Rt x :
  phys st rel Lt Rt -> Z.of_nat (length Lt) + 1 <= n ->
  (is_leaf = false -> block_exists rel (ip_blkid (itemptr x)) = true
                      /\ ip_blkid (itemptr x) <> InvalidBlockNumber) ->
  exists st' rel',
    xfer_old_left BLCKSZ origbuf x is_leaf st rel = Ok st' rel'
    /\ phys st' rel' (Lt ++ [x]) Rt
    /\ sx_newitemoff st' = sx_newitemoff st /\ sx_item st' = Some x /\ sx_i st' = sx_i st.
Proof.
  intros Hp Hroom Hc. unfold xfer_old_left.
  destruct (negb is_leaf) eqn:El.
  2:{ mred. eexists _, _. split; [reflexivity|]. split; [|auto].
      apply phys_left; assumption. }
  - apply negb_true_iff in El. destruct (Hc El) as [Hc1 Hc2].
    unfold bind. rewrite cbt_change_children_ok by assumption. mred.
    eexists _, _. split; [reflexivity|]. split; [|auto].
    apply phys_left; [|assumption]. apply phys_children. assumption.
Qed.

Lemma old_right_ok st rel Lt Rt x :
  phys st rel Lt Rt -> Z.of_nat (length Rt) + 1 <= n ->
  (is_leaf = false -> block_exists rel (ip_blkid (itemptr x)) = true
                      /\ ip_blkid (itemptr x) <> InvalidBlockNumber) ->
  exists st' rel',
    xfer_old_right BLCKSZ rbuf x is_leaf st rel = Ok st' rel'
    /\ phys st' rel' Lt (Rt ++ [x])
    /\ sx_newitemoff st' = sx_newitemoff st /\ sx_item st' = Some x /\ sx_i st' = sx_i st.
Proof.
  intros Hp Hroom Hc. unfold xfer_old_right.
  pose proof (phys_right st rel Lt Rt x (childcnt x) (sx_newitemoff st) (Some x) (sx_i st)
                Hp Hroom eq_refl) as Hp'.
  destruct (negb is_leaf) eqn:El.
  2:{ mred. eexists _, _. split; [reflexivity|]. split; [|auto]. exact Hp'. }
  - apply negb_true_iff in El. destruct (Hc El) as [Hc1 Hc2].
    unfold bind at 1. unfold update at 1. unfold bind.
    rewrite cbt_change_children_ok; [ | rewrite block_exists_modify; assumption | assumption ].
    mred. eexists _, _. split; [reflexivity|]. split; [|auto].
    destruct Hp' as [H1 H2 H3 H4 H5 H6]. split; auto.
    apply store_ok_modify_opaque. exact H1.
Qed.






Lemma xfer_new_right_run t cnt st rel :
  xfer_new_right BLCKSZ rbuf t cnt st rel
  = Ok (mkXfer (sx_left st) (sx_leftoff st) (OffsetNumberNext (sx_rightoff st))
               (sx_rightoff st) (sx_leftcount st) (uint32 (sx_rightcount st + cnt))
               (sx_item st) (sx_i st))
       (modify_page rbuf (fun p => snd (PageAddItem BLCKSZ p t (sx_rightoff st))) rel).
Proof. reflexivity. Qed.

Lemma transfer_step k pre x rest st rel Lt Rt :
  its = pre ++ x :: rest ->
  phys st rel Lt Rt -> logic pre st Lt Rt ->
  exists st' rel' Lt' Rt',
    cbt_split_transfer BLCKSZ (S k) origbuf rbuf newitem onleft (m + 1) is_leaf st rel
    = cbt_split_transfer BLCKSZ k origbuf rbuf newitem onleft (m + 1) is_leaf st' rel'
    /\ phys st' rel' Lt' Rt' /\ logic (pre ++ [x]) st' Lt' Rt'.
Proof.
  intros Hits Hphys [Hc Hl Hno Hi Hit].
  pose proof m_bounds as (Hm1 & Hm2 & Hm3).
  assert (Hp : p_of pre + 1 + Z.of_nat (length rest) = n).
  { rewrite Hits, length_app. cbn [length]. lia. }
  assert (Hp0 : 0 <= p_of pre) by lia.
  assert (Hget : PageGetItem (BufferGetPage rel origbuf) (sx_i st) = Some x).
  { destruct Hphys as [(_ & _ & Ht & _) _ _ _ _ _].
    eapply PageGetItem_tuples; [rewrite Ht; exact Hits | exact Hi]. }
  assert (Hchild : forall rel', (forall b, block_exists rel' b = block_exists rel b) ->
             is_leaf = false -> block_exists rel' (ip_blkid (itemptr x)) = true
                                /\ ip_blkid (itemptr x) <> InvalidBlockNumber).
  { intros rel' Hsame Hl'. destruct Hphys as [(_ & _ & _ & _ & Hch) _ _ _ _ _].
    specialize (Hch Hl'). rewrite Forall_forall in Hch. rewrite Hsame.
    apply Hch. rewrite Hits. apply in_or_app. right. left. reflexivity. }
  assert (Htot : Z.of_nat (length Lt) + Z.of_nat (length Rt)
                 = p_of pre + (if placed pre then 1 else 0)).
  { apply (f_equal (@length _)) in Hc. rewrite length_app in Hc.
    destruct (placed pre); [rewrite length_list_insert in Hc|]; lia. }
  assert (Hplaced' : placed (pre ++ [x]) = (newitemoff <=? p_of pre + 1)).
  { unfold xfer_placed. rewrite length_snoc. reflexivity. }
  assert (Hp' : p_of (pre ++ [x]) = p_of pre + 1).
  { apply length_snoc. }
  cbn [cbt_split_transfer]. unfold bind at 1. unfold get at 1. cbv beta iota.
  rewrite Hget. rewrite Hi.
  unfold xfer_placed in Hc, Hl, Hno, Htot.
  destruct (newitemoff <=? p_of pre) eqn:Epl.
  - (* the new tuple is in place already *)
    apply Z.leb_le in Epl.
    replace (p_of pre + 1 =? sx_newitemoff st) with false
      by (symmetry; apply Z.eqb_neq; rewrite Hno; destruct onleft; lia).
    unfold bind at 1. unfold ret at 1.
    assert (Hpl1 : (newitemoff <=? p_of pre + 1) = true) by (apply Z.leb_le; lia).
    destruct (p_of pre + 1 <? m + 1) eqn:Elr.
    + apply Z.ltb_lt in Elr.
      assert (Hol : onleft = true) by (unfold xfer_onleft; apply Z.leb_le; lia).
      rewrite Hol in *. cbn [andb] in Hl.
      assert (HR : Rt = []) by (destruct Rt; [reflexivity | cbn [length] in Htot; lia]).
      subst Rt. rewrite app_nil_r in Hc.
      destruct (old_left_ok st rel Lt [] x Hphys ltac:(lia) (Hchild rel (fun _ => eq_refl)))
        as (st' & rel' & Hrun & Hphys' & Hn' & Hitem' & Hi').
      unfold bind at 1. rewrite Hrun.
      exists (xfer_next st'), rel', (Lt ++ [x]), [].
      split; [reflexivity|]. split.
      * eapply phys_ext; [exact Hphys'|reflexivity..].
      * split; unfold xfer_placed; rewrite ?Hp', ?Hpl1, ?Hol; cbn [andb xfer_next sx_newitemoff sx_i sx_item].
        -- rewrite app_nil_r, Hc. symmetry. apply list_insert_app_l. lia.
        -- rewrite ?length_snoc. lia.
        -- rewrite Hn', Hno. reflexivity.
        -- rewrite Hi', Hi. apply OffsetNumberNext_small. lia.
        -- intros _. rewrite Hitem', last_snoc. reflexivity.
    + apply Z.ltb_ge in Elr.
      destruct (old_right_ok st rel Lt Rt x Hphys ltac:(destruct (onleft && true); lia)
                  (Hchild rel (fun _ => eq_refl)))
        as (st' & rel' & Hrun & Hphys' & Hn' & Hitem' & Hi').
      unfold bind at 1. rewrite Hrun.
      exists (xfer_next st'), rel', Lt, (Rt ++ [x]).
      split; [reflexivity|]. split.
      * eapply phys_ext; [exact Hphys'|reflexivity..].
      * split; unfold xfer_placed; rewrite ?Hp', ?Hpl1; cbn [xfer_next sx_newitemoff sx_i sx_item].
        -- rewrite app_assoc, Hc. symmetry. apply list_insert_app_l. lia.
        -- rewrite Hl. lia.
        -- rewrite Hn', Hno. reflexivity.
        -- rewrite Hi', Hi. apply OffsetNumberNext_small. lia.
        -- intros _. rewrite Hitem', last_snoc. reflexivity.
  - (* the new tuple is not placed yet *)
    apply Z.leb_gt in Epl. rewrite Hno.
    replace (onleft && false) with false in Hl by (destruct onleft; reflexivity).
    destruct (p_of pre + 1 =? newitemoff) eqn:Enew.
    + apply Z.eqb_eq in Enew.
      assert (Hpl1 : (newitemoff <=? p_of pre + 1) = true) by (apply Z.leb_le; lia).
      assert (Hk : Z.to_nat (newitemoff - 1) = length pre) by lia.
      destruct onleft eqn:Eol.
      * (* new tuple then old tuple, both on the left *)
        pose proof Eol as Hol. unfold xfer_onleft in Eol. apply Z.leb_le in Eol.
        assert (HR : Rt = []) by (destruct Rt; [reflexivity | cbn [length] in Htot; lia]).
        subst Rt. rewrite app_nil_r in Hc. subst Lt.
        unfold bind at 1. unfold ret at 1.
        replace (p_of pre + 1 <? m + 1) with true by (symmetry; apply Z.ltb_lt; lia).
        pose proof (phys_left st rel pre [] newitem (sx_leftoff st) (sx_item st) (sx_i st)
                      Hphys ltac:(lia)) as Hphys1.
        fold (xfer_new_left BLCKSZ newitem st) in Hphys1.
        destruct (old_left_ok _ rel _ [] x Hphys1
                    ltac:(rewrite length_snoc; lia)
                    (Hchild rel (fun _ => eq_refl)))
          as (st' & rel' & Hrun & Hphys' & Hn' & Hitem' & Hi').
        unfold bind at 1. rewrite Hrun.
        exists (xfer_next st'), rel', ((pre ++ [newitem]) ++ [x]), [].
        split; [reflexivity|]. split.
        -- eapply phys_ext; [exact Hphys'|reflexivity..].
        -- split; unfold xfer_placed; rewrite ?Hp', ?Hpl1, ?Hol; cbn [andb xfer_next sx_newitemoff sx_i sx_item].
           ++ rewrite app_nil_r, Hk, list_insert_snoc_mid, <- app_assoc. reflexivity.
           ++ rewrite ?length_snoc. lia.
           ++ rewrite Hn'. cbn [xfer_new_left sx_newitemoff].
              destruct Hphys as [_ _ Hlo _ _ _]. rewrite Hlo. lia.
           ++ rewrite Hi'. cbn [xfer_new_left sx_i]. rewrite Hi.
              apply OffsetNumberNext_small. lia.
           ++ intros _. rewrite Hitem', last_snoc. reflexivity.
      * (* new tuple then old tuple, both on the right *)
        pose proof Eol as Hol. unfold xfer_onleft in Eol. apply Z.leb_gt in Eol.
        pose proof (phys_right st rel Lt Rt newitem (childcnt newitem) (sx_rightoff st)
                      (sx_item st) (sx_i st) Hphys ltac:(lia) eq_refl) as Hphys1.
        unfold bind at 1. rewrite xfer_new_right_run.
        replace (p_of pre + 1 <? m + 1) with false by (symmetry; apply Z.ltb_ge; lia).
        match type of Hphys1 with phys ?s ?r _ _ =>
          destruct (old_right_ok s r Lt (Rt ++ [newitem]) x Hphys1
                      ltac:(rewrite length_snoc; lia)
                      (Hchild r (fun b => block_exists_modify _ _ _ b)))
            as (st' & rel' & Hrun & Hphys' & Hn' & Hitem' & Hi')
        end.
        unfold bind at 1. rewrite Hrun.
        exists (xfer_next st'), rel', Lt, ((Rt ++ [newitem]) ++ [x]).
        split; [reflexivity|]. split.
        -- eapply phys_ext; [exact Hphys'|reflexivity..].
        -- split; unfold xfer_placed; rewrite ?Hp', ?Hpl1, ?Hol; cbn [andb xfer_next sx_newitemoff sx_i sx_item].
           ++ rewrite Hk, list_insert_snoc_mid. rewrite <- (app_assoc Rt).
              rewrite app_assoc, Hc. reflexivity.
           ++ rewrite Hl. lia.
           ++ rewrite Hn'. cbn [sx_newitemoff].
              destruct Hphys as [_ _ _ Hro _ _]. rewrite Hro. lia.
           ++ rewrite Hi'. cbn [sx_i]. rewrite Hi. apply OffsetNumberNext_small. lia.
           ++ intros _. rewrite Hitem', last_snoc. reflexivity.
    + apply Z.eqb_neq in Enew.
      assert (Hpl1 : (newitemoff <=? p_of pre + 1) = false) by (apply Z.leb_gt; lia).
      unfold bind at 1. unfold ret at 1.
      destruct (p_of pre + 1 <? m + 1) eqn:Elr.
      * apply Z.ltb_lt in Elr.
        assert (HR : Rt = []) by (destruct Rt; [reflexivity | cbn [length] in Htot; lia]).
        subst Rt. rewrite app_nil_r in Hc. subst Lt.
        destruct (old_left_ok st rel pre [] x Hphys ltac:(lia)
                    (Hchild rel (fun _ => eq_refl)))
          as (st' & rel' & Hrun & Hphys' & Hn' & Hitem' & Hi').
        unfold bind at 1. rewrite Hrun.
        exists (xfer_next st'), rel', (pre ++ [x]), [].
        split; [reflexivity|]. split.
        -- eapply phys_ext; [exact Hphys'|reflexivity..].
        -- split; unfold xfer_placed; rewrite ?Hp', ?Hpl1;
             replace (onleft && false) with false by (destruct onleft; reflexivity);
             cbn [andb xfer_next sx_newitemoff sx_i sx_item].
           ++ rewrite app_nil_r. reflexivity.
           ++ rewrite ?length_snoc. lia.
           ++ rewrite Hn', Hno. reflexivity.
           ++ rewrite Hi', Hi. apply OffsetNumberNext_small. lia.
           ++ intros _. rewrite Hitem', last_snoc. reflexivity.
      * apply Z.ltb_ge in Elr.
        destruct (old_right_ok st rel Lt Rt x Hphys ltac:(lia)
                    (Hchild rel (fun _ => eq_refl)))
          as (st' & rel' & Hrun & Hphys' & Hn' & Hitem' & Hi').
        unfold bind at 1. rewrite Hrun.
        exists (xfer_next st'), rel', Lt, (Rt ++ [x]).
        split; [reflexivity|]. split.
        -- eapply phys_ext; [exact Hphys'|reflexivity..].
        -- split; unfold xfer_placed; rewrite ?Hp', ?Hpl1;
             replace (onleft && false) with false by (destruct onleft; reflexivity);
             cbn [andb xfer_next sx_newitemoff sx_i sx_item].
           ++ rewrite app_assoc, Hc. reflexivity.
           ++ rewrite Hl. lia.
           ++ rewrite Hn', Hno. reflexivity.
           ++ rewrite Hi', Hi. apply OffsetNumberNext_small. lia.
           ++ intros _. rewrite Hitem', last_snoc. reflexivity.
Qed.


Lemma transfer_loop rest :
  forall pre st rel Lt Rt,
    its = pre ++ rest ->
    phys st rel Lt Rt -> logic pre st Lt Rt ->
    exists st' rel' Lt' Rt',
      cbt_split_transfer BLCKSZ (length rest) origbuf rbuf newitem onleft (m + 1) is_leaf st rel
      = Ok st' rel'
      /\ phys st' rel' Lt' Rt' /\ logic its st' Lt' Rt'.
Proof.
  induction rest as [|x rest IH]; intros pre st rel Lt Rt Hits Hphys Hlog.
  - rewrite app_nil_r in Hits. subst pre. exists st, rel, Lt, Rt. auto.
  - destruct (transfer_step (length rest) pre x rest st rel Lt Rt Hits Hphys Hlog)
      as (st1 & rel1 & Lt1 & Rt1 & Hrun & Hphys1 & Hlog1).
    cbn [length]. rewrite Hrun.
    apply (IH (pre ++ [x]) st1 rel1 Lt1 Rt1); auto.
    rewrite <- app_assoc. exact Hits.
Qed.

End Transfer.

Lemma transfer_left_opaque BLCKSZ origbuf rbuf newitem onleft firstright is_leaf k :
  forall st rel st' rel',
    cbt_split_transfer BLCKSZ k origbuf rbuf newitem onleft firstright is_leaf st rel
    = Ok st' rel' ->
    pd_opaque (sx_left st') = pd_opaque (sx_left st).
Proof.
  induction k as [|k IH]; intros st rel st' rel' H.
  - cbn in H. inversion H. reflexivity.
  - cbn [cbt_split_transfer] in H.
    apply bind_Ok in H. destruct H as (r0 & s0 & Hg & H). inversion Hg; subst r0 s0.
    destruct (PageGetItem _ _) as [item|]; [|discriminate].
    apply bind_Ok in H. destruct H as (st1 & s1 & H1 & H).
    apply bind_Ok in H. destruct H as (st2 & s2 & H2 & H).
    apply IH in H. rewrite H. cbn [xfer_next sx_left].
    assert (E1 : pd_opaque (sx_left st1) = pd_opaque (sx_left st)).
    { destruct (_ =? _); [|inversion H1; reflexivity].
      destruct onleft.
      - inversion H1. cbn [xfer_new_left sx_left]. apply PageAddItem_opaque.
      - inversion H1. reflexivity. }
    rewrite <- E1.
    destruct (_ <? _).
    + unfold xfer_old_left in H2. apply bind_Ok in H2. destruct H2 as (u & s3 & _ & H2).
      inversion H2. cbn [sx_left]. apply PageAddItem_opaque.
    + unfold xfer_old_right in H2. apply bind_Ok in H2. destruct H2 as (u & s3 & _ & H2).
      apply bind_Ok in H2. destruct H2 as (u' & s4 & _ & H2).
      inversion H2. reflexivity.
Qed.

(** The run of the transfer of [cbt_split_page]: the tuples [Lt] of the
    temporary left page and [Rt] of the right page, and the counts. *)
Lemma cbt_split_distribute_run :
  forall (BLCKSZ : Z) (rel : Relation) (origbuf rbuf : Buffer) (newitem : CBTTupleData)
         (newitemoff : OffsetNumber) (lopaque : CBTPageOpaqueData),
    let its := page_tuples (BufferGetPage rel origbuf) in
    let n := Z.of_nat (length its) in
    block_exists rel origbuf = true ->
    block_exists rel rbuf = true ->
    origbuf <> rbuf ->
    pd_items (BufferGetPage rel rbuf) = [] ->
    2 <= n -> 48 + 20 * n <= BLCKSZ -> n < 65534 ->
    1 <= newitemoff <= n + 1 ->
    (P_ISLEAF (pd_opaque (BufferGetPage rel origbuf)) = false ->
     Forall (fun t => block_exists rel (ip_blkid (itemptr t)) = true
                      /\ ip_blkid (itemptr t) <> InvalidBlockNumber) its) ->
    exists st rel' Lt Rt,
      cbt_split_distribute BLCKSZ origbuf rbuf newitem newitemoff lopaque rel
      = Ok (newitemoff <=? n / 2, st) rel'
      /\ page_tuples (sx_left st) = Lt
      /\ page_tuples (BufferGetPage rel' rbuf) = Rt
      /\ Lt ++ Rt = list_insert (Z.to_nat (newitemoff - 1)) newitem its
      /\ Z.of_nat (length Lt) = n / 2 + (if newitemoff <=? n / 2 then 1 else 0)
      /\ sx_newitemoff st
         = (if newitemoff <=? n / 2 then newitemoff else newitemoff - n / 2)
      /\ page_tuples (BufferGetPage rel' origbuf) = its
      /\ pd_opaque (sx_left st) = lopaque
      /\ sx_leftcount st = uint32 (sum_childcnt Lt)
      /\ sx_rightcount st
         = (if newitemoff <=? n then uint32 (sum_childcnt Rt)
            else uint32 (sum_childcnt Rt - childcnt newitem
                         + childcnt (last its newitem))).
Proof.
  intros BLCKSZ rel origbuf rbuf newitem newitemoff lopaque its n
         Hex1 Hex2 Hdist Hempty Hn2 Hfit Hn16 Hoff Hchildren.
  set (is_leaf := P_ISLEAF (pd_opaque (BufferGetPage rel origbuf))) in *.
  change (n / 2) with (xfer_mid its).
  set (st0 := mkXfer (set_opaque (CBTInitPage CBT_LEAF) lopaque)
                P_FIRSTOFFSET P_FIRSTOFFSET newitemoff 0 0 None P_FIRSTOFFSET).
  pose proof (m_bounds its Hn2) as (Hm1 & Hm2 & Hm3).
  assert (Hphys0 : xfer_phys origbuf rbuf its is_leaf st0 rel [] []).
  { split; try reflexivity. repeat split; auto. }
  assert (Hlog0 : xfer_logic newitem newitemoff its [] st0 [] []).
  { split; unfold xfer_placed; cbn [length Z.of_nat app];
      replace (newitemoff <=? 0) with false by (symmetry; apply Z.leb_gt; lia);
      rewrite ?andb_false_r; try reflexivity.
    - lia.
    - congruence. }
  destruct (transfer_loop BLCKSZ origbuf rbuf newitem newitemoff its is_leaf
              Hdist Hn2 Hfit Hn16 Hoff its [] st0 rel [] [] eq_refl Hphys0 Hlog0)
    as (st & rel1 & Lt & Rt & Hrun & Hphys & Hlog).
  pose proof (transfer_left_opaque _ _ _ _ _ _ _ _ _ _ _ _ Hrun) as Hopq.
  cbn [st0 sx_left set_opaque pd_opaque] in Hopq.
  unfold cbt_split_distribute. unfold bind at 1. unfold get at 1. cbv beta iota zeta.
  rewrite page_tuples_length, Nat2Z.id. fold its.
  change (Z.of_nat (length its) / 2) with (xfer_mid its).
  replace (uint16 (xfer_mid its + 1)) with (xfer_mid its + 1)
    by (unfold uint16; rewrite Z.mod_small; lia).
  fold is_leaf. fold st0. unfold bind at 1.
  unfold xfer_onleft in Hrun. rewrite Hrun.
  destruct Hlog as [Hc Hl Hno Hi Hit].
  unfold xfer_onleft, xfer_placed in Hc, Hl, Hno.
  destruct Hphys as [Hst HL Hlo Hro Hlc Hrc].
  set (m := xfer_mid its) in *.
  assert (Hits_ne : its <> []).
  { intros E. unfold n in Hn2. rewrite E in Hn2. cbn in Hn2. lia. }
  assert (Htot : Z.of_nat (length Lt) + Z.of_nat (length Rt)
                 = n + (if newitemoff <=? n then 1 else 0)).
  { apply (f_equal (@length _)) in Hc. rewrite length_app in Hc. fold n in Hc.
    destruct (newitemoff <=? n); [rewrite length_list_insert in Hc|]; unfold n; lia. }
  fold n in Hc, Hl, Hno, Hi.
  destruct (newitemoff <=? n) eqn:Epl.
  - (* the new tuple was placed inside the loop *)
    apply Z.leb_le in Epl.
    assert (Hmin : Z.min n m = m) by lia. rewrite Hmin in Hl.
    rewrite andb_true_r in Hl.
    rewrite Hi, Hno.
    match goal with |- context [n + 1 <=? ?x] =>
      replace (n + 1 <=? x) with false
        by (symmetry; apply Z.leb_gt; destruct (newitemoff <=? m) eqn:E;
            [apply Z.leb_le in E|]; lia)
    end.
    unfold ret. exists st, rel1, Lt, Rt. split; [reflexivity|].
    destruct Hst as (Hs1 & Hs2 & Hs3 & Hs4 & Hs5).
    split; [exact (page_tuples_items _ _ HL)|].
    split; [exact (page_tuples_items _ _ Hs4)|].
    split; [exact Hc|]. split; [exact Hl|]. split; [exact Hno|].
    split; [exact Hs3|]. split; [exact Hopq|]. split; [exact Hlc|]. exact Hrc.
  - (* the new tuple goes past the last tuple of the page *)
    apply Z.leb_gt in Epl.
    assert (Enew : newitemoff = n + 1) by lia.
    assert (Eol : (newitemoff <=? m) = false) by (apply Z.leb_gt; lia).
    rewrite Eol in *. cbn [andb] in Hl.
    assert (Hmin : Z.min n m = m) by lia. rewrite Hmin in Hl.
    rewrite Hi, Hno.
    replace (n + 1 <=? newitemoff) with true by (symmetry; apply Z.leb_le; lia).
    rewrite (Hit Hits_ne). unfold bind. rewrite xfer_new_right_run. unfold ret.
    eexists _, _, Lt, (Rt ++ [newitem]). split; [reflexivity|].
    cbn [sx_left sx_newitemoff sx_leftcount sx_rightcount].
    pose proof (store_ok_add_right BLCKSZ origbuf rbuf its is_leaf Hdist Hfit rel1 Rt newitem
                  Hst ltac:(fold n; lia)) as Hst'.
    rewrite <- Hro in Hst'.
    destruct Hst' as (Hs1 & Hs2 & Hs3 & Hs4 & Hs5).
    assert (Hc' : Lt ++ Rt ++ [newitem] = list_insert (Z.to_nat (newitemoff - 1)) newitem its).
    { rewrite app_assoc, Hc. replace (Z.to_nat (newitemoff - 1)) with (length its)
        by (unfold n in *; lia). symmetry. apply list_insert_length. }
    split; [exact (page_tuples_items _ _ HL)|].
    split; [exact (page_tuples_items _ _ Hs4)|].
    split; [exact Hc'|]. split; [exact Hl|].
    split; [rewrite Hro; lia|].
    split; [exact Hs3|]. split; [exact Hopq|]. split; [exact Hlc|].
    rewrite Hrc, uint32_add_l, sum_snoc. f_equal. lia.
Qed.


(** X25.  The transfer of [cbt_split_page], for a page of [n >= 2] tuples
    that fit a block, a fresh right page and a target offset in
    [1 .. n + 1]: the tuples of the left page followed by those of the right
    page are the [n] tuples of the original page in their order with the new
    tuple at its target offset; the tuples before the midpoint [n / 2] are
    on the left page and the others on the right page, the new tuple on the
    left exactly when its offset is at most the midpoint; the counts of the
    tuples on the two pages sum to the counts of the original page plus the
    count of the new tuple.  (The running sum [rightcount] that goes to the
    parent is the sum of the right page except when the new tuple goes past
    the last tuple of the page, where it takes the count of that last
    tuple for the count of the new one.) *)
Theorem cbt_split_distribution :
  forall (BLCKSZ : Z) (rel : Relation) (origbuf rbuf : Buffer) (newitem : CBTTupleData)
         (newitemoff : OffsetNumber) (lopaque : CBTPageOpaqueData),
    let its := page_tuples (BufferGetPage rel origbuf) in
    let n := Z.of_nat (length its) in
    block_exists rel origbuf = true ->
    block_exists rel rbuf = true ->
    origbuf <> rbuf ->
    pd_items (BufferGetPage rel rbuf) = [] ->
    2 <= n -> 48 + 20 * n <= BLCKSZ -> n < 65534 ->
    1 <= newitemoff <= n + 1 ->
    (P_ISLEAF (pd_opaque (BufferGetPage rel origbuf)) = false ->
     Forall (fun t => block_exists rel (ip_blkid (itemptr t)) = true
                      /\ ip_blkid (itemptr t) <> InvalidBlockNumber) its) ->
    exists st rel',
      cbt_split_distribute BLCKSZ origbuf rbuf newitem newitemoff lopaque rel
      = Ok (newitemoff <=? n / 2, st) rel'
      /\ let L := page_tuples (sx_left st) in
         let R := page_tuples (BufferGetPage rel' rbuf) in
         L ++ R = list_insert (Z.to_nat (newitemoff - 1)) newitem its
         /\ L = (if newitemoff <=? n / 2
                 then list_insert (Z.to_nat (newitemoff - 1)) newitem
                        (firstn (Z.to_nat (n / 2)) its)
                 else firstn (Z.to_nat (n / 2)) its)
         /\ R = (if newitemoff <=? n / 2
                 then skipn (Z.to_nat (n / 2)) its
                 else list_insert (Z.to_nat (newitemoff - 1 - n / 2)) newitem
                        (skipn (Z.to_nat (n / 2)) its))
         /\ sum_childcnt L + sum_childcnt R = sum_childcnt its + childcnt newitem
         /\ sx_newitemoff st
            = (if newitemoff <=? n / 2 then newitemoff else newitemoff - n / 2)
         /\ page_tuples (BufferGetPage rel' origbuf) = its
         /\ pd_opaque (sx_left st) = lopaque
         /\ sx_leftcount st = uint32 (sum_childcnt L)
         /\ sx_rightcount st
            = (if newitemoff <=? n then uint32 (sum_childcnt R)
               else uint32 (sum_childcnt R - childcnt newitem
                            + childcnt (last its newitem))).
Proof.
  intros BLCKSZ rel origbuf rbuf newitem newitemoff lopaque its n
         Hex1 Hex2 Hdist Hempty Hn2 Hfit Hn16 Hoff Hchildren.
  destruct (cbt_split_distribute_run BLCKSZ rel origbuf rbuf newitem newitemoff lopaque
              Hex1 Hex2 Hdist Hempty Hn2 Hfit Hn16 Hoff Hchildren)
    as (st & rel' & Lt & Rt & Hrun & HL & HR & Hc & Hl & Hno & Ho & Hopq & Hlc & Hrc).
  fold its n in Hrun, Hc, Hl, Hno, Ho, Hrc.
  exists st, rel'. split; [exact Hrun|]. cbv zeta. rewrite HL, HR. fold its n.
  set (m := n / 2) in *.
  pose proof (m_bounds its Hn2) as (Hm1 & Hm2 & _).
  unfold xfer_mid in Hm1, Hm2. fold n m in Hm1, Hm2.
  assert (EL : Lt = firstn (length Lt) (Lt ++ Rt))
    by (rewrite firstn_app, Nat.sub_diag, firstn_all; cbn; rewrite app_nil_r; reflexivity).
  assert (ER : Rt = skipn (length Lt) (Lt ++ Rt))
    by (rewrite skipn_app, Nat.sub_diag, skipn_all; reflexivity).
  rewrite Hc in EL, ER.
  split; [exact Hc|].
  assert (Hhalves :
            Lt = (if newitemoff <=? m
                  then list_insert (Z.to_nat (newitemoff - 1)) newitem (firstn (Z.to_nat m) its)
                  else firstn (Z.to_nat m) its)
            /\ Rt = (if newitemoff <=? m then skipn (Z.to_nat m) its
                     else list_insert (Z.to_nat (newitemoff - 1 - m)) newitem
                            (skipn (Z.to_nat m) its))).
  { destruct (newitemoff <=? m) eqn:Eol.
    - apply Z.leb_le in Eol.
      assert (HlL : length Lt = S (Z.to_nat m)) by lia.
      destruct (firstn_list_insert_lt (Z.to_nat m) (Z.to_nat (newitemoff - 1)) newitem its
                  ltac:(lia) ltac:(unfold n in *; lia)) as [F1 F2].
      rewrite HlL in EL, ER. rewrite F1 in EL. rewrite F2 in ER. auto.
    - apply Z.leb_gt in Eol.
      assert (HlL : length Lt = Z.to_nat m) by lia.
      destruct (firstn_list_insert_ge (Z.to_nat m) (Z.to_nat (newitemoff - 1)) newitem its
                  ltac:(lia) ltac:(unfold n in *; lia)) as [F1 F2].
      rewrite HlL in EL, ER. rewrite F1 in EL. rewrite F2 in ER.
      replace (Z.to_nat (newitemoff - 1) - Z.to_nat m)%nat
        with (Z.to_nat (newitemoff - 1 - m)) in ER by lia. auto. }
  destruct Hhalves as [E1 E2].
  split; [exact E1|]. split; [exact E2|].
  split; [rewrite <- sum_childcnt_app, Hc, sum_childcnt_insert; lia|].
  split; [exact Hno|]. split; [exact Ho|]. split; [exact Hopq|].
  split; [exact Hlc | exact Hrc].
Qed.

Lemma cbt_split_distribution_witness :
  exists st rel',
    cbt_split_distribute 128 1 2 (mkTuple (heap_tid 5) 1) 5 zero_opaque split_example
    = Ok (false, st) rel'
    /\ page_tuples (sx_left st) = [mkTuple (heap_tid 1) 1; mkTuple (heap_tid 2) 1]
    /\ page_tuples (BufferGetPage rel' 2)
       = [mkTuple (heap_tid 3) 1; mkTuple (heap_tid 4) 1; mkTuple (heap_tid 5) 1].
Proof.
  destruct (cbt_split_distribution 128 split_example 1 2 (mkTuple (heap_tid 5) 1) 5
              zero_opaque)
    as (st & rel' & Hrun & _ & HL & HR & _).
  - reflexivity.
  - reflexivity.
  - lia.
  - reflexivity.
  - vm_compute. discriminate.
  - vm_compute. discriminate.
  - vm_compute. reflexivity.
  - vm_compute. split; discriminate.
  - intros H. vm_compute in H. discriminate H.
  - exists st, rel'. split; [exact Hrun|]. split; [exact HL | exact HR].
Defined.

(** ** Rank search *)

Lemma uint32_small x : 0 <= x < 4294967296 -> uint32 x = x.
Proof. intros H. unfold uint32. apply Z.mod_small. exact H. Qed.

Section InPage.

Variable ent : OffsetNumber -> ItemIdData -> list entry.
Variables (blk : BlockNumber) (stack : CBTStack) (pos : Z).

Lemma search_in_page_from_spec :
  forall items off L,
    (forall it, In it items -> ent_weighs ent it) ->
    0 <= L < pos ->
    L + Z.of_nat (length (page_ents ent off items)) < 4294967296 ->
    0 <= off -> off + Z.of_nat (length items) <= 65535 ->
    match nth_error (page_ents ent off items) (Z.to_nat (pos - L - 1)) with
    | None =>
        cbt_search_in_page_from items off (off + Z.of_nat (length items) - 1) L pos blk stack
        = []
    | Some e =>
        exists j it L',
          nth_error items j = Some it /\ lp_dead it = false
          /\ L <= L' < pos /\ pos <= L' + childcnt (lp_tuple it)
          /\ L' + childcnt (lp_tuple it) <= L + Z.of_nat (length (page_ents ent off items))
          /\ cbt_search_in_page_from items off (off + Z.of_nat (length items) - 1) L pos
               blk stack
             = mkFrame blk (off + Z.of_nat j) L' :: stack
          /\ nth_error (ent (off + Z.of_nat j) it) (Z.to_nat (pos - L' - 1)) = Some e
    end.
Proof.
  induction items as [|it rest IH]; intros off L Hw HL Hbound Hoff Hlen.
  - cbn. destruct (Z.to_nat (pos - L - 1)); reflexivity.
  - cbn [page_ents cbt_search_in_page_from length] in *.
    assert (Hwit : ent_weighs ent it) by (apply Hw; left; reflexivity).
    assert (Hwrest : forall it', In it' rest -> ent_weighs ent it')
      by (intros it' Hin; apply Hw; right; exact Hin).
    replace (off + Z.of_nat (S (length rest)) - 1)
      with (off + 1 + Z.of_nat (length rest) - 1) by lia.
    assert (Hnext : OffsetNumberNext off = off + 1)
      by (apply OffsetNumberNext_small; lia).
    assert (Hlast : (off =? off + 1 + Z.of_nat (length rest) - 1)
                    = match rest with [] => true | _ => false end).
    { destruct rest; cbn [length].
      - apply Z.eqb_eq. lia.
      - apply Z.eqb_neq. lia. }
    rewrite length_app in Hbound.
    unfold ItemIdIsDead.
    destruct (lp_dead it) eqn:Edead.
    + (* a dead line pointer is skipped *)
      destruct (Hwit off) as [Hd _]. rewrite (Hd Edead) in *. cbn [app length] in *.
      cbn [negb andb]. rewrite Hlast.
      destruct rest as [|it2 rest2].
      * cbn. destruct (Z.to_nat (pos - L - 1)); reflexivity.
      * rewrite Hnext.
        specialize (IH (off + 1) L Hwrest HL ltac:(lia) ltac:(lia) ltac:(cbn [length] in *; lia)).
        destruct (nth_error _ _) as [e|] eqn:En.
        -- destruct IH as (j & it' & L' & H1 & H2 & H3 & H4 & Hb & H5 & H6).
           exists (S j), it', L'. cbn [nth_error].
           replace (off + Z.of_nat (S j)) with (off + 1 + Z.of_nat j) by lia.
           repeat split; auto; lia.
        -- exact IH.
    + (* a live tuple adds its count *)
      destruct (Hwit off) as [_ Hl]. specialize (Hl Edead).
      set (c := childcnt (lp_tuple it)) in *.
      assert (Hc0 : 0 <= c) by lia.
      rewrite (uint32_small (L + c)) by lia.
      cbn [negb andb].
      destruct (pos <=? L + c) eqn:Ehit.
      * apply Z.leb_le in Ehit.
        rewrite nth_error_app1 by lia.
        destruct (nth_error (ent off it) (Z.to_nat (pos - L - 1))) as [e|] eqn:En.
        -- exists O, it, L. cbn [nth_error].
           replace (L + c - c) with L by lia. rewrite (uint32_small L) by lia.
           replace (off + Z.of_nat 0) with off by lia.
           rewrite length_app.
           repeat split; auto; lia.
        -- apply nth_error_None in En. lia.
      * apply Z.leb_gt in Ehit.
        rewrite nth_error_app2 by lia.
        replace (Z.to_nat (pos - L - 1) - length (ent off it))%nat
          with (Z.to_nat (pos - (L + c) - 1)) by lia.
        rewrite Hlast.
        destruct rest as [|it2 rest2].
        -- cbn. destruct (Z.to_nat (pos - (L + c) - 1)); reflexivity.
        -- rewrite Hnext.
           specialize (IH (off + 1) (L + c) Hwrest ltac:(lia) ltac:(lia) ltac:(lia)
                         ltac:(cbn [length] in *; lia)).
           destruct (nth_error _ _) as [e|] eqn:En.
           ++ destruct IH as (j & it' & L' & H1 & H2 & H3 & H4 & Hb & H5 & H6).
              exists (S j), it', L'. cbn [nth_error].
              replace (off + Z.of_nat (S j)) with (off + 1 + Z.of_nat j) by lia.
              rewrite length_app.
              repeat split; auto; lia.
           ++ exact IH.
Qed.

End InPage.

Lemma leaf_entries_page_ents blk items :
  forall off, leaf_entries blk off items = page_ents (leaf_ent blk) off items.
Proof. induction items; intros off; cbn; [reflexivity|]. rewrite IHitems. reflexivity. Qed.

Lemma flat_map_page_ents h rel items :
  forall off,
    flat_map (fun it => if lp_dead it then [] else live_entries h rel (child_of it)) items
    = page_ents (child_ent h rel) off items.
Proof. induction items; intros off; cbn; [reflexivity|]. rewrite (IHitems (off + 1)). reflexivity. Qed.

Lemma counted_S h rel blk :
  counted (S h) rel blk = true ->
  block_exists rel blk = true /\ blk <> InvalidBlockNumber
  /\ PageGetMaxOffsetNumber (BufferGetPage rel blk) < 65535
  /\ (if P_ISLEAF (pd_opaque (BufferGetPage rel blk))
      then forall it, In it (pd_items (BufferGetPage rel blk)) ->
                      lp_dead it = false -> childcnt (lp_tuple it) = 1
      else forall it, In it (pd_items (BufferGetPage rel blk)) ->
                      lp_dead it = false ->
                      counted h rel (child_of it) = true
                      /\ childcnt (lp_tuple it)
                         = Z.of_nat (length (live_entries h rel (child_of it)))).
Proof.
  cbn [counted]. intros H.
  apply andb_true_iff in H. destruct H as [H H3].
  apply andb_true_iff in H. destruct H as [H1 H2].
  apply andb_true_iff in H3. destruct H3 as [H3 H4].
  apply negb_true_iff, Z.eqb_neq in H2. apply Z.ltb_lt in H3.
  repeat split; auto.
  destruct (P_ISLEAF _).
  - rewrite forallb_forall in H4. intros it Hin Hd. specialize (H4 it Hin).
    rewrite Hd in H4. cbn in H4. apply Z.eqb_eq in H4. exact H4.
  - rewrite forallb_forall in H4. intros it Hin Hd. specialize (H4 it Hin).
    rewrite Hd in H4. cbn [orb] in H4. apply andb_true_iff in H4. destruct H4 as [Ha Hb].
    apply Z.eqb_eq in Hb. auto.
Qed.

Lemma PageGetItemId_nth pg j it :
  nth_error (pd_items pg) j = Some it ->
  PageGetItemId pg (1 + Z.of_nat j) = Some it.
Proof.
  intros H. unfold PageGetItemId, PageGetMaxOffsetNumber.
  assert (Hj : (j < length (pd_items pg))%nat) by (apply nth_error_Some; congruence).
  replace (1 <=? 1 + Z.of_nat j) with true by (symmetry; apply Z.leb_le; lia).
  replace (1 + Z.of_nat j <=? Z.of_nat (length (pd_items pg))) with true
    by (symmetry; apply Z.leb_le; lia).
  cbn [andb]. replace (1 + Z.of_nat j - 1) with (Z.of_nat j) by lia.
  rewrite Nat2Z.id. exact H.
Qed.

Lemma cbt_search_descend_spec :
  forall h rel blk stack k fuel,
    counted h rel blk = true -> (h <= fuel)%nat ->
    0 <= stack_count stack < k ->
    stack_count stack + Z.of_nat (length (live_entries h rel blk)) < 4294967296 ->
    match nth_error (live_entries h rel blk) (Z.to_nat (k - stack_count stack - 1)) with
    | Some e =>
        exists parents,
          cbt_search_descend fuel k blk stack rel
          = Ok (mkFrame (en_blkno e) (en_offset e) (k - 1) :: parents, en_blkno e) rel
          /\ entry_at rel e
    | None =>
        exists buf, cbt_search_descend fuel k blk stack rel = Ok ([], buf) rel
    end.
Proof.
  induction h as [|h IH]; intros rel blk stack k fuel Hc Hfuel HL Hbound.
  - discriminate Hc.
  - destruct fuel as [|fuel]; [lia|].
    destruct (counted_S _ _ _ Hc) as (Hex & Hinv & Hmax & Hitems).
    cbn [cbt_search_descend live_entries] in *. mred.
    unfold cbt_search_in_page. fold (stack_count stack).
    set (page := BufferGetPage rel blk) in *.
    unfold PageGetMaxOffsetNumber in *. unfold P_FIRSTOFFSET, BufferGetBlockNumber.
    destruct (pd_items page) as [|it0 rest0] eqn:Eitems.
    { cbn. replace (if P_ISLEAF (pd_opaque page) then [] else []) with (@nil entry)
        by (destruct (P_ISLEAF _); reflexivity).
      destruct (Z.to_nat _); cbn; eauto. }
    replace (Z.of_nat (length (it0 :: rest0)) <? 1) with false
      by (symmetry; apply Z.ltb_ge; cbn [length]; lia).
    rewrite <- Eitems in *. clear Eitems it0 rest0.
    replace (Z.of_nat (length (pd_items page)))
      with (1 + Z.of_nat (length (pd_items page)) - 1) by lia.
    destruct (P_ISLEAF (pd_opaque page)) eqn:Eleaf.
    + (* a leaf page *)
      rewrite leaf_entries_page_ents in *.
      pose proof (search_in_page_from_spec (leaf_ent blk) blk stack k (pd_items page) 1
                    (stack_count stack)) as Hsp.
      destruct (nth_error _ _) as [e|] eqn:En.
      * destruct Hsp as (j & it & L' & H1 & H2 & H3 & H4 & Hb & H5 & H6); try lia.
        { intros it Hin o. unfold leaf_ent. split; intros Hd; rewrite Hd; [reflexivity|].
          cbn. rewrite (Hitems it Hin Hd). reflexivity. }
        rewrite H5. exists stack.
        unfold leaf_ent in H6. rewrite H2 in H6.
        assert (Hcnt : childcnt (lp_tuple it) = 1)
          by (apply Hitems; [eapply nth_error_In; exact H1 | exact H2]).
        replace (Z.to_nat (k - L' - 1)) with O in H6 by lia.
        assert (He : e = mkEntry blk (1 + Z.of_nat j) (itemptr (lp_tuple it)))
          by (unfold nth_error in H6; congruence).
        subst e. unfold entry_at. cbn [en_blkno en_offset en_tid].
        replace L' with (k - 1) by lia.
        split; [reflexivity|]. split; [exact Eleaf|].
        exists (childcnt (lp_tuple it)). fold page.
        rewrite (PageGetItemId_nth _ _ _ H1).
        destruct it as [d [tid c]]. cbn in *. subst d. reflexivity.
      * rewrite Hsp; try lia; eauto.
        intros it Hin o. unfold leaf_ent. split; intros Hd; rewrite Hd; [reflexivity|].
        cbn. rewrite (Hitems it Hin Hd). reflexivity.
    + (* an internal page *)
      rewrite (flat_map_page_ents h rel (pd_items page) 1) in *.
      pose proof (search_in_page_from_spec (child_ent h rel) blk stack k (pd_items page) 1
                    (stack_count stack)) as Hsp.
      assert (Hw : forall it, In it (pd_items page) -> ent_weighs (child_ent h rel) it).
      { intros it Hin o. unfold child_ent. split; intros Hd; rewrite Hd; [reflexivity|].
        destruct (Hitems it Hin Hd) as [_ Hcnt]. rewrite Hcnt. reflexivity. }
      destruct (nth_error _ _) as [e|] eqn:En.
      * destruct Hsp as (j & it & L' & H1 & H2 & H3 & H4 & Hb & H5 & H6); try lia; auto.
        rewrite H5. cbn [cbts_offset].
        unfold PageGetItem. rewrite (PageGetItemId_nth _ _ _ H1). cbn [option_map].
        destruct (Hitems it (nth_error_In _ _ H1) H2) as [Hcc Hcnt].
        unfold ItemPointerGetBlockNumber. fold (child_of it).
        destruct h as [|h']; [discriminate Hcc|].
        destruct (counted_S _ _ _ Hcc) as (Hex' & Hinv' & _ & _).
        rewrite ReadBuffer_old by assumption.
        unfold child_ent in H6. rewrite H2 in H6.
        specialize (IH rel (child_of it) (mkFrame blk (1 + Z.of_nat j) L' :: stack) k fuel
                      Hcc ltac:(lia)).
        cbn [stack_count total_count] in IH.
        specialize (IH ltac:(lia) ltac:(lia)).
        rewrite H6 in IH. exact IH.
      * rewrite Hsp; try lia; eauto.
Qed.

(** *** The root *)

Lemma BufferGetPage_amcache pages c c' blk :
  BufferGetPage (mkRel pages c) blk = BufferGetPage (mkRel pages c') blk.
Proof. reflexivity. Qed.

Lemma live_entries_amcache h pages c c' :
  forall blk, live_entries h (mkRel pages c) blk = live_entries h (mkRel pages c') blk.
Proof.
  induction h as [|h IH]; intros blk; [reflexivity|].
  cbn [live_entries]. rewrite (BufferGetPage_amcache pages c c').
  destruct (P_ISLEAF _); [reflexivity|].
  apply flat_map_ext. intros it. rewrite IH. reflexivity.
Qed.

Lemma forallb_pointwise {A : Type} (f g : A -> bool) l :
  (forall x, f x = g x) -> forallb f l = forallb g l.
Proof. intros H. induction l as [|x l IH]; cbn; [reflexivity|]. rewrite H, IH. reflexivity. Qed.

Lemma counted_amcache h pages c c' :
  forall blk, counted h (mkRel pages c) blk = counted h (mkRel pages c') blk.
Proof.
  induction h as [|h IH]; intros blk; [reflexivity|].
  cbn [counted]. rewrite (BufferGetPage_amcache pages c c').
  change (block_exists (mkRel pages c) blk) with (block_exists (mkRel pages c') blk).
  f_equal. f_equal. destruct (P_ISLEAF _); [reflexivity|].
  apply forallb_pointwise. intros it. rewrite IH, (live_entries_amcache h pages c c'). reflexivity.
Qed.

Lemma entry_at_amcache pages c c' e :
  entry_at (mkRel pages c) e -> entry_at (mkRel pages c') e.
Proof. intros H. exact H. Qed.

Lemma cbt_tree_facts h rel : cbt_tree h rel = true -> tree_facts h rel.
Proof.
  unfold cbt_tree. intros H.
  apply andb_true_iff in H. destruct H as [H H5].
  apply andb_true_iff in H. destruct H as [H H4].
  apply andb_true_iff in H. destruct H as [H H3].
  apply andb_true_iff in H. destruct H as [H1 H2].
  apply Z.ltb_lt in H1. apply Z.eqb_eq in H3.
  constructor; auto.
  - apply block_exists_iff. unfold CBT_METAPAGE, RelationGetNumberOfBlocks in *. lia.
  - intros Hr. apply Z.eqb_neq in Hr. rewrite Hr in H5. cbn [orb] in H5.
    apply andb_true_iff in H5. destruct H5 as [H5 H7].
    apply andb_true_iff in H5. destruct H5 as [H5 H6].
    apply negb_true_iff in H5. apply Z.eqb_eq in H6. auto.
Qed.

Lemma getroot_uncached h pages acc fuel :
  let rel := mkRel pages None in
  cbt_tree h rel = true ->
  cbtm_root (metad_of rel) <> InvalidBlockNumber ->
  cbt_getroot (S (S fuel)) acc rel
  = Ok (cbtm_root (metad_of rel)) (mkRel pages (Some (metad_of rel))).
Proof.
  intros rel Ht Hr. destruct (cbt_tree_facts _ _ Ht) as [Hm Hf Hg _ Hroot].
  destruct (Hroot Hr) as (Hi & Hl & Hc).
  destruct h as [|h]; [discriminate Hc|].
  destruct (counted_S _ _ _ Hc) as (Hex & _ & _ & _).
  cbn [cbt_getroot]. mred. unfold rel at 1. cbn [rd_amcache]. cbv beta iota.
  rewrite cbt_get_buffer_old by (assumption || discriminate).
  cbv beta iota. fold (metad_of rel). rewrite Hf, Hg.
  change (negb true || negb (CBT_MAGIC =? CBT_MAGIC)) with false. cbv iota.
  pose proof Hr as Hr'. apply Z.eqb_neq in Hr'. rewrite Hr'. cbv beta iota.
  cbn [cbt_getroot_live]. mred.
  unfold set_amcache. unfold rel at 2. cbn [rd_pages].
  rewrite ReadBuffer_old; [ | exact Hex | exact Hr ].
  cbv beta iota.
  rewrite (BufferGetPage_amcache pages (Some (metad_of rel)) None). fold rel.
  rewrite Hi. cbn [negb]. cbv beta iota.
  rewrite (BufferGetPage_amcache pages (Some (metad_of rel)) None). fold rel.
  rewrite Hl, Z.eqb_refl. reflexivity.
Qed.

Lemma getroot_rejected_cache pages c acc fuel :
  cbtm_root c <> InvalidBlockNumber ->
  block_exists (mkRel pages (Some c)) (cbtm_root c) = true ->
  cache_accepts (mkRel pages (Some c)) c = false ->
  cbt_getroot (S fuel) acc (mkRel pages (Some c))
  = cbt_getroot (S fuel) acc (mkRel pages None).
Proof.
  intros Hn Hex Hrej.
  cbn [cbt_getroot]. mred. cbn [rd_amcache]. cbv beta iota.
  rewrite cbt_get_buffer_old by assumption. cbv beta iota.
  unfold cache_accepts in Hrej. cbv zeta in Hrej. rewrite Hrej. cbv beta iota.
  reflexivity.
Qed.

Lemma getroot_accepted_cache pages c acc fuel :
  cbtm_root c <> InvalidBlockNumber ->
  block_exists (mkRel pages (Some c)) (cbtm_root c) = true ->
  cache_accepts (mkRel pages (Some c)) c = true ->
  cbt_getroot (S fuel) acc (mkRel pages (Some c)) = Ok (cbtm_root c) (mkRel pages (Some c)).
Proof.
  intros Hn Hex Hrej.
  cbn [cbt_getroot]. mred. cbn [rd_amcache]. cbv beta iota.
  rewrite cbt_get_buffer_old by assumption. cbv beta iota.
  unfold cache_accepts in Hrej. cbv zeta in Hrej. rewrite Hrej. cbv beta iota.
  reflexivity.
Qed.

Lemma cache_ok_facts pages c :
  cache_ok (mkRel pages (Some c)) = true ->
  cbtm_root c <> InvalidBlockNumber
  /\ block_exists (mkRel pages (Some c)) (cbtm_root c) = true
  /\ (cache_accepts (mkRel pages (Some c)) c = true ->
      cbtm_root c = cbtm_root (metad_of (mkRel pages (Some c)))).
Proof.
  unfold cache_ok. cbn [rd_amcache]. intros H.
  apply andb_true_iff in H. destruct H as [H H3].
  apply andb_true_iff in H. destruct H as [H1 H2].
  apply negb_true_iff, Z.eqb_neq in H1. repeat split; auto.
  intros Ha. rewrite Ha in H3. cbn in H3. apply Z.eqb_eq in H3. exact H3.
Qed.

Lemma cbt_tree_amcache h pages c :
  cbt_tree h (mkRel pages c) = true -> cbt_tree h (mkRel pages None) = true.
Proof.
  unfold cbt_tree. intros H.
  apply andb_true_iff in H. destruct H as [H H5].
  apply andb_true_iff in H. destruct H as [H H4].
  apply andb_true_iff in H. destruct H as [H H3].
  apply andb_true_iff in H. destruct H as [H1 H2].
  change (RelationGetNumberOfBlocks (mkRel pages None))
    with (RelationGetNumberOfBlocks (mkRel pages c)).
  change (metad_of (mkRel pages None)) with (metad_of (mkRel pages c)).
  rewrite !(BufferGetPage_amcache pages None c).
  rewrite (counted_amcache h pages None c).
  rewrite H1, H2, H3, H5. reflexivity.
Qed.

Lemma getroot_present h rel acc fuel :
  cbt_tree h rel = true ->
  cbtm_root (metad_of rel) <> InvalidBlockNumber ->
  exists c, cbt_getroot (S (S fuel)) acc rel
            = Ok (cbtm_root (metad_of rel)) (mkRel (rd_pages rel) c).
Proof.
  destruct rel as [pages [c|]]; intros Ht Hr.
  - destruct (cbt_tree_facts _ _ Ht) as [_ _ _ Hc _].
    destruct (cache_ok_facts _ _ Hc) as (H1 & H2 & H3).
    destruct (cache_accepts (mkRel pages (Some c)) c) eqn:Ea.
    + rewrite getroot_accepted_cache by assumption.
      rewrite (H3 eq_refl). eauto.
    + rewrite getroot_rejected_cache by assumption.
      rewrite (getroot_uncached h) by (eauto using cbt_tree_amcache). eauto.
  - rewrite (getroot_uncached h) by assumption. eauto.
Qed.

Lemma getroot_absent_uncached h pages fuel :
  let rel := mkRel pages None in
  cbt_tree h rel = true ->
  cbtm_root (metad_of rel) = InvalidBlockNumber ->
  cbt_getroot (S fuel) CBT_READ rel = Ok InvalidBuffer rel
  /\ exists rel',
       cbt_getroot (S fuel) CBT_WRITE rel = Ok (RelationGetNumberOfBlocks rel) rel'
       /\ pd_items (BufferGetPage rel' (RelationGetNumberOfBlocks rel)) = [].
Proof.
  intros rel Ht Hr. destruct (cbt_tree_facts _ _ Ht) as [Hm Hf Hg _ _].
  split.
  - cbn [cbt_getroot]. mred. unfold rel at 1. cbn [rd_amcache]. cbv beta iota.
    rewrite cbt_get_buffer_old by (assumption || discriminate).
    cbv beta iota. fold (metad_of rel). rewrite Hf, Hg, Hr. reflexivity.
  - eexists. cbn [cbt_getroot]. mred. unfold rel at 1. cbn [rd_amcache]. cbv beta iota.
    rewrite cbt_get_buffer_old by (assumption || discriminate).
    cbv beta iota. fold (metad_of rel). rewrite Hf, Hg, Hr.
    change (negb true || negb (CBT_MAGIC =? CBT_MAGIC)) with false. cbv iota.
    change (InvalidBlockNumber =? InvalidBlockNumber) with true. cbv beta iota.
    fold (metad_of rel). rewrite Hr.
    change (negb (InvalidBlockNumber =? InvalidBlockNumber)) with false. cbv beta iota.
    unfold rel at 1. rewrite cbt_get_buffer_new. cbv beta iota.
    split; [reflexivity|].
    rewrite modify_opaque_last.
    unfold BufferGetBlockNumber, modify_meta.
    rewrite BufferGetPage_modify_other.
    + unfold RelationGetNumberOfBlocks, rel. cbn [rd_pages].
      rewrite BufferGetPage_last. reflexivity.
    + unfold CBT_METAPAGE, RelationGetNumberOfBlocks, rel. cbn [rd_pages].
      apply block_exists_iff in Hm. unfold RelationGetNumberOfBlocks, rel in Hm.
      cbn [rd_pages] in Hm. unfold CBT_METAPAGE in Hm. lia.
Qed.


Lemma cbt_search_from_root h rel acc fuel :
  cbt_tree h rel = true ->
  cbtm_root (metad_of rel) <> InvalidBlockNumber ->
  (h < fuel)%nat ->
  counted h rel (cbtm_root (metad_of rel)) = true
  /\ exists c, forall k,
       cbt_search fuel k acc rel
       = cbt_search_descend fuel k (cbtm_root (metad_of rel)) [] (mkRel (rd_pages rel) c).
Proof.
  intros Ht Eroot Hfuel.
  destruct (cbt_tree_facts _ _ Ht) as [_ _ _ _ Hroot].
  destruct (Hroot Eroot) as (_ & _ & Hc).
  split; [exact Hc|].
  destruct h as [|h']; [discriminate Hc|].
  destruct fuel as [|[|fuel]]; try lia.
  destruct (getroot_present (S h') rel acc fuel Ht Eroot) as [c Hget].
  assert (Hvalid : BufferIsValid (cbtm_root (metad_of rel)) = true).
  { destruct (counted_S _ _ _ Hc) as (Hex & _).
    apply block_exists_iff in Hex.
    unfold BufferIsValid, InvalidBuffer. apply negb_true_iff, Z.eqb_neq. lia. }
  exists c. intros k. unfold cbt_search, bind at 1. rewrite Hget, Hvalid. reflexivity.
Qed.


Lemma two_leaf_example_reached : after_inserts 128 100 5 = Some two_leaf_example.
Proof. vm_compute. reflexivity. Qed.


(** ** Position 0 *)

Lemma populated_S h rel blk :
  populated (S h) rel blk = true ->
  forall it, In it (pd_items (BufferGetPage rel blk)) -> lp_dead it = false ->
    1 <= childcnt (lp_tuple it) < 4294967296
    /\ (P_ISLEAF (pd_opaque (BufferGetPage rel blk)) = false ->
        populated h rel (child_of it) = true).
Proof.
  cbn [populated]. intros H it Hin Hd.
  rewrite forallb_forall in H. specialize (H it Hin). rewrite Hd in H. cbn [orb] in H.
  apply andb_true_iff in H. destruct H as [H H3].
  apply andb_true_iff in H. destruct H as [H1 H2].
  apply Z.leb_le in H1. apply Z.ltb_lt in H2.
  split; [lia|]. intros Hl. rewrite Hl in H3. exact H3.
Qed.

Lemma populated_amcache h pages c c' :
  forall blk, populated h (mkRel pages c) blk = populated h (mkRel pages c') blk.
Proof.
  induction h as [|h IH]; intros blk; [reflexivity|].
  cbn [populated]. rewrite (BufferGetPage_amcache pages c c').
  apply forallb_pointwise. intros it. rewrite IH. reflexivity.
Qed.

(** On a page whose live tuples have nonzero counts, the scan from a left
    count of 0 stops at the same tuple for position 0 and for position 1. *)
Lemma search_in_page_from_zero_one blk stack maxoff :
  forall items off,
    (forall it, In it items -> lp_dead it = false ->
                1 <= childcnt (lp_tuple it) < 4294967296) ->
    0 <= off -> off + Z.of_nat (length items) <= 65535 ->
    cbt_search_in_page_from items off maxoff 0 0 blk stack
    = cbt_search_in_page_from items off maxoff 0 1 blk stack
    /\ (cbt_search_in_page_from items off maxoff 0 1 blk stack = []
        \/ exists j it,
             nth_error items j = Some it /\ lp_dead it = false
             /\ cbt_search_in_page_from items off maxoff 0 1 blk stack
                = mkFrame blk (off + Z.of_nat j) 0 :: stack).
Proof.
  induction items as [|it rest IH]; intros off Hpop Hoff Hlen.
  - split; [reflexivity | left; reflexivity].
  - cbn [cbt_search_in_page_from length] in *. unfold ItemIdIsDead.
    destruct (lp_dead it) eqn:Ed; cbn [negb andb].
    + destruct (off =? maxoff); [split; [reflexivity | left; reflexivity]|].
      rewrite OffsetNumberNext_small by lia.
      destruct (IH (off + 1)) as [He Hr]; try lia.
      { intros it' Hin. apply Hpop. right. exact Hin. }
      split; [exact He|]. destruct Hr as [Hr | (j & it' & H1 & H2 & H3)]; [left; exact Hr|].
      right. exists (S j), it'. cbn [nth_error].
      replace (off + Z.of_nat (S j)) with (off + 1 + Z.of_nat j) by lia. auto.
    + destruct (Hpop it (or_introl eq_refl) Ed) as [H1 H2].
      rewrite (uint32_small (0 + childcnt (lp_tuple it))) by lia.
      replace (0 <=? 0 + childcnt (lp_tuple it)) with true by (symmetry; apply Z.leb_le; lia).
      replace (1 <=? 0 + childcnt (lp_tuple it)) with true by (symmetry; apply Z.leb_le; lia).
      split; [reflexivity|]. right. exists O, it. cbn [nth_error].
      replace (0 + childcnt (lp_tuple it) - childcnt (lp_tuple it)) with 0 by lia.
      replace (off + Z.of_nat 0) with off by lia. auto.
Qed.

Lemma cbt_search_descend_zero_one :
  forall h rel blk stack fuel,
    counted h rel blk = true -> populated h rel blk = true ->
    stack_count stack = 0 ->
    cbt_search_descend fuel 0 blk stack rel = cbt_search_descend fuel 1 blk stack rel.
Proof.
  induction h as [|h IH]; intros rel blk stack fuel Hc Hp Hs.
  - discriminate Hc.
  - destruct fuel as [|fuel]; [reflexivity|].
    destruct (counted_S _ _ _ Hc) as (Hex & Hinv & Hmax & Hitems).
    pose proof (populated_S _ _ _ Hp) as Hpop.
    cbn [cbt_search_descend]. mred.
    unfold cbt_search_in_page. fold (stack_count stack). rewrite Hs.
    set (page := BufferGetPage rel blk) in *.
    destruct (PageGetMaxOffsetNumber page <? P_FIRSTOFFSET); [reflexivity|].
    unfold PageGetMaxOffsetNumber in Hmax. unfold P_FIRSTOFFSET, BufferGetBlockNumber.
    destruct (search_in_page_from_zero_one blk stack (PageGetMaxOffsetNumber page)
                (pd_items page) 1) as [He Hr]; try lia.
    { intros it Hin Hd. apply (Hpop it Hin Hd). }
    rewrite He. destruct Hr as [Hr | (j & it & H1 & H2 & Hr)]; rewrite Hr; [reflexivity|].
    destruct (P_ISLEAF (pd_opaque page)) eqn:Eleaf; [reflexivity|].
    cbn [cbts_offset]. unfold PageGetItem. rewrite (PageGetItemId_nth _ _ _ H1).
    cbn [option_map]. unfold ItemPointerGetBlockNumber. fold (child_of it).
    destruct (Hitems it (nth_error_In _ _ H1) H2) as [Hcc _].
    destruct (Hpop it (nth_error_In _ _ H1) H2) as [_ Hpc]. specialize (Hpc eq_refl).
    destruct h as [|h']; [discriminate Hcc|].
    destruct (counted_S _ _ _ Hcc) as (Hex' & Hinv' & _ & _).
    rewrite ReadBuffer_old by assumption.
    apply (IH rel (child_of it)); auto.
Qed.

Lemma entry_at_block rel e : entry_at rel e -> block_exists rel (en_blkno e) = true.
Proof.
  intros [_ [c H]]. unfold BufferGetPage in H.
  destruct (block_exists rel (en_blkno e)); [reflexivity|].
  unfold PageGetItemId in H. cbn [zero_page pd_items] in H.
  destruct ((1 <=? en_offset e) && (en_offset e <=? PageGetMaxOffsetNumber zero_page));
    [|discriminate H].
  destruct (Z.to_nat (en_offset e - 1)); discriminate H.
Qed.

(** The search of a populated counted tree for position 0 and for position 1. *)
Lemma cbt_search_zero_one h rel acc fuel :
  cbt_tree h rel = true ->
  populated h rel (cbtm_root (metad_of rel)) = true ->
  tree_entries h rel <> [] ->
  Z.of_nat (length (tree_entries h rel)) < 4294967296 ->
  (h < fuel)%nat ->
  exists e parents c,
    nth_error (tree_entries h rel) 0 = Some e
    /\ entry_at rel e
    /\ cbt_search fuel 0 acc rel
       = Ok (mkFrame (en_blkno e) (en_offset e) 0 :: parents, en_blkno e)
            (mkRel (rd_pages rel) c)
    /\ cbt_search fuel 1 acc rel = cbt_search fuel 0 acc rel.
Proof.
  intros Ht Hp Hne Hlen Hfuel. unfold tree_entries in *.
  destruct (cbtm_root (metad_of rel) =? InvalidBlockNumber) eqn:Eroot;
    [contradiction Hne; reflexivity|].
  apply Z.eqb_neq in Eroot.
  destruct (cbt_search_from_root h rel acc fuel Ht Eroot Hfuel) as (Hc & c & Hrun).
  rewrite !Hrun. clear Hrun.
  destruct rel as [pages c0]. cbn [rd_pages] in *.
  set (root := cbtm_root (metad_of (mkRel pages c0))) in *.
  rewrite (counted_amcache h pages c0 c) in Hc.
  rewrite (populated_amcache h pages c0 c) in Hp.
  rewrite (cbt_search_descend_zero_one h (mkRel pages c) root [] fuel Hc Hp eq_refl).
  pose proof (cbt_search_descend_spec h (mkRel pages c) root [] 1 fuel Hc) as Hd.
  rewrite (live_entries_amcache h pages c c0) in Hd.
  cbn [stack_count] in Hd. change (Z.to_nat (1 - 0 - 1)) with O in Hd.
  specialize (Hd ltac:(lia) ltac:(lia) ltac:(lia)).
  destruct (live_entries h (mkRel pages c0) root) as [|e rest]; [contradiction Hne; reflexivity|].
  cbn [nth_error] in *. destruct Hd as (parents & Hs & He).
  exists e, parents, c. repeat split; try assumption; apply He.
Qed.

(** X28. On a tree with at least one and fewer than 2^32 live leaf entries
    that is counted and in which every live tuple has a nonzero count, a
    search for position 0 is not answered with "not found": [cbt_search]
    returns for position 0 exactly what it returns for position 1, a stack
    whose leaf frame is the first live leaf entry, and [cbt_first] with key
    0 returns the heap pointer of that entry, as it does with key 1. *)
Theorem cbt_search_rank_zero (h : nat) (rel : Relation) (acc : access) (fuel : nat) :
  cbt_tree h rel = true ->
  populated h rel (cbtm_root (metad_of rel)) = true ->
  tree_entries h rel <> [] ->
  Z.of_nat (length (tree_entries h rel)) < 4294967296 ->
  (h < fuel)%nat ->
  exists e parents c c',
    nth_error (tree_entries h rel) 0 = Some e
    /\ cbt_search fuel 0 acc rel
       = Ok (mkFrame (en_blkno e) (en_offset e) 0 :: parents, en_blkno e)
            (mkRel (rd_pages rel) c)
    /\ cbt_search fuel 0 acc rel = cbt_search fuel 1 acc rel
    /\ cbt_first fuel (mkScan true) false 0 rel
       = Ok (true, Some (en_tid e), mkScan false) (mkRel (rd_pages rel) c')
    /\ cbt_first fuel (mkScan true) false 0 rel = cbt_first fuel (mkScan true) false 1 rel.
Proof.
  intros Ht Hp Hne Hlen Hfuel.
  destruct (cbt_search_zero_one h rel acc fuel Ht Hp Hne Hlen Hfuel)
    as (e & parents & c & Hnth & Hat & Hs0 & Hs1).
  destruct (cbt_search_zero_one h rel CBT_READ fuel Ht Hp Hne Hlen Hfuel)
    as (e' & parents' & c' & Hnth' & _ & Hr0 & Hr1).
  assert (e' = e) by congruence. subst e'.
  exists e, parents, c, c'.
  split; [exact Hnth|]. split; [exact Hs0|]. split; [symmetry; exact Hs1|].
  assert (Hfirst : forall key, key = 0 \/ key = 1 ->
            cbt_first fuel (mkScan true) false key rel
            = Ok (true, Some (en_tid e), mkScan false) (mkRel (rd_pages rel) c')).
  { intros key Hkey. unfold cbt_first. cbn [first_scan negb]. cbv iota.
    replace (uint32 key) with key by (destruct Hkey; subst key; reflexivity).
    unfold bind at 1.
    replace (cbt_search fuel key CBT_READ rel) with (cbt_search fuel 0 CBT_READ rel)
      by (destruct Hkey; subst key; [reflexivity | symmetry; exact Hr1]).
    rewrite Hr0. cbv beta iota.
    pose proof (entry_at_block _ _ Hat) as Hex. apply block_exists_iff in Hex.
    replace (BufferIsValid (en_blkno e)) with true
      by (unfold BufferIsValid, InvalidBuffer; symmetry; apply negb_true_iff, Z.eqb_neq; lia).
    cbn [negb]. mred. cbn [cbts_offset].
    destruct Hat as [_ [cnt Hitem]].
    destruct rel as [pages c0]. cbn [rd_pages].
    rewrite (BufferGetPage_amcache pages c' c0).
    unfold PageGetItem. rewrite Hitem. reflexivity. }
  split; [apply Hfirst; left; reflexivity|].
  rewrite !Hfirst by auto. reflexivity.
Qed.

Lemma cbt_search_rank_zero_witness :
  exists parents c c',
    cbt_search 3 0 CBT_READ two_leaf_example
    = Ok (mkFrame 1 1 0 :: parents, 1) (mkRel (rd_pages two_leaf_example) c)
    /\ cbt_search 3 0 CBT_READ two_leaf_example = cbt_search 3 1 CBT_READ two_leaf_example
    /\ cbt_first 3 (mkScan true) false 0 two_leaf_example
       = Ok (true, Some (heap_tid 1), mkScan false) (mkRel (rd_pages two_leaf_example) c').
Proof.
  destruct (cbt_search_rank_zero 2 two_leaf_example CBT_READ 3)
    as (e & parents & c & c' & Hnth & Hs & Heq & Hf & _).
  - vm_compute. reflexivity.
  - vm_compute. reflexivity.
  - vm_compute. discriminate.
  - vm_compute. reflexivity.
  - lia.
  - vm_compute in Hnth. injection Hnth as He. subst e.
    exists parents, c, c'. split; [exact Hs|]. split; [exact Heq | exact Hf].
Defined.

(** ** The sibling link in a page split *)

Lemma split_frame_refl rbuf rel : split_frame rbuf rel rel.
Proof. intros b H. auto. Qed.

Lemma split_frame_trans rbuf r1 r2 r3 :
  split_frame rbuf r1 r2 -> split_frame rbuf r2 r3 -> split_frame rbuf r1 r3.
Proof.
  intros H12 H23 b Hb.
  destruct (H12 b Hb) as (E1 & L1 & I1). destruct (H23 b E1) as (E2 & L2 & I2).
  split; [exact E2|]. split; [congruence|]. intros Hn. rewrite I2, I1; auto.
Qed.

Lemma split_frame_modify rbuf b f rel :
  (forall p, links (pd_opaque (f p)) = links (pd_opaque p)) ->
  (b = rbuf \/ forall p, pd_items (f p) = pd_items p) ->
  split_frame rbuf rel (modify_page b f rel).
Proof.
  intros Hl Hi blk Hex. rewrite block_exists_modify. split; [exact Hex|].
  rewrite BufferGetPage_modify.
  destruct ((b =? blk) && block_exists rel b) eqn:E.
  - apply andb_true_iff in E. destruct E as [E _]. apply Z.eqb_eq in E. subst blk.
    split; [apply Hl|]. intros Hn. destruct Hi as [Hi|Hi]; [contradiction | apply Hi].
  - auto.
Qed.

Lemma block_exists_app l p c b :
  block_exists (mkRel l c) b = true -> block_exists (mkRel (l ++ [p]) c) b = true.
Proof.
  rewrite !block_exists_iff. cbn [rd_pages]. rewrite length_app. cbn [length]. lia.
Qed.

Lemma BufferGetPage_app l p c b :
  block_exists (mkRel l c) b = true ->
  BufferGetPage (mkRel (l ++ [p]) c) b = BufferGetPage (mkRel l c) b.
Proof.
  intros H. unfold BufferGetPage. rewrite H, (block_exists_app _ _ _ _ H).
  cbn [rd_pages]. apply app_nth1. apply block_exists_iff in H. cbn [rd_pages] in H. lia.
Qed.

Lemma split_frame_get_buffer rbuf blk acc rel b rel' :
  cbt_get_buffer blk acc rel = Ok b rel' -> split_frame rbuf rel rel'.
Proof.
  intros H. destruct (blk =? InvalidBlockNumber) eqn:E.
  - apply Z.eqb_eq in E. subst blk. destruct rel as [l c].
    rewrite cbt_get_buffer_new in H. inversion H; subst.
    intros blk Hex. split; [apply block_exists_app; exact Hex|].
    rewrite BufferGetPage_app by exact Hex. auto.
  - unfold cbt_get_buffer, ReadBuffer in H. rewrite E in H. cbn [negb] in H.
    destruct (block_exists rel blk); inversion H; subst. apply split_frame_refl.
Qed.

Lemma split_frame_add_item BLCKSZ rbuf t off rel :
  split_frame rbuf rel (modify_page rbuf (fun p => snd (PageAddItem BLCKSZ p t off)) rel).
Proof.
  apply split_frame_modify; [|left; reflexivity].
  intros p. rewrite PageAddItem_opaque. reflexivity.
Qed.

Lemma split_frame_change_children rbuf child pb po rel rel' :
  cbt_change_children child pb po rel = Ok tt rel' -> split_frame rbuf rel rel'.
Proof.
  intros H. unfold cbt_change_children in H.
  apply bind_Ok in H. destruct H as (cb & s1 & Hg & H).
  apply split_frame_get_buffer with (rbuf := rbuf) in Hg.
  unfold update in H. inversion H; subst.
  eapply split_frame_trans; [exact Hg|].
  apply split_frame_modify; [|right]; intros p; reflexivity.
Qed.

Lemma split_frame_children rbuf (c : bool) child pb po rel rel' :
  (if c then cbt_change_children child pb po else ret tt) rel = Ok tt rel' ->
  split_frame rbuf rel rel'.
Proof.
  destruct c; intros H.
  - eapply split_frame_change_children; exact H.
  - inversion H. apply split_frame_refl.
Qed.

Lemma split_frame_transfer BLCKSZ origbuf rbuf newitem onleft firstright is_leaf k :
  forall st rel st' rel',
    cbt_split_transfer BLCKSZ k origbuf rbuf newitem onleft firstright is_leaf st rel
    = Ok st' rel' ->
    split_frame rbuf rel rel'.
Proof.
  induction k as [|k IH]; intros st rel st' rel' H.
  - cbn in H. inversion H. apply split_frame_refl.
  - cbn [cbt_split_transfer] in H.
    apply bind_Ok in H. destruct H as (r0 & s0 & Hg & H). inversion Hg; subst r0 s0.
    destruct (PageGetItem _ _) as [item|]; [|discriminate].
    apply bind_Ok in H. destruct H as (st1 & s1 & H1 & H).
    apply bind_Ok in H. destruct H as (st2 & s2 & H2 & H).
    apply IH in H.
    assert (F1 : split_frame rbuf rel s1).
    { destruct (_ =? _); [|inversion H1; apply split_frame_refl].
      destruct onleft.
      - inversion H1. apply split_frame_refl.
      - inversion H1. apply split_frame_add_item. }
    assert (F2 : split_frame rbuf s1 s2).
    { destruct (_ <? _).
      - unfold xfer_old_left in H2. apply bind_Ok in H2. destruct H2 as ([] & s3 & Hc & H2).
        inversion H2; subst. eapply split_frame_children; exact Hc.
      - unfold xfer_old_right in H2. apply bind_Ok in H2. destruct H2 as ([] & s3 & Hu & H2).
        apply bind_Ok in H2. destruct H2 as ([] & s4 & Hc & H2).
        inversion H2; subst. inversion Hu; subst.
        eapply split_frame_trans; [apply split_frame_add_item|].
        eapply split_frame_children; exact Hc. }
    eauto using split_frame_trans.
Qed.

Lemma split_frame_distribute BLCKSZ origbuf rbuf newitem newitemoff lopaque rel r rel' :
  cbt_split_distribute BLCKSZ origbuf rbuf newitem newitemoff lopaque rel = Ok r rel' ->
  split_frame rbuf rel rel'.
Proof.
  intros H. unfold cbt_split_distribute in H.
  apply bind_Ok in H. destruct H as (r0 & s0 & Hg & H). inversion Hg; subst r0 s0.
  cbv zeta in H.
  apply bind_Ok in H. destruct H as (st & s1 & Ht & H).
  apply split_frame_transfer in Ht.
  destruct (_ <=? _).
  - destruct (sx_item st); [|discriminate].
    apply bind_Ok in H. destruct H as (st' & s2 & Hn & H).
    inversion H; subst. inversion Hn; subst.
    eapply split_frame_trans; [exact Ht | apply split_frame_add_item].
  - inversion H; subst. exact Ht.
Qed.

Lemma links_kept_refl rel : links_kept rel rel.
Proof. intros b H. auto. Qed.

Lemma links_kept_trans r1 r2 r3 : links_kept r1 r2 -> links_kept r2 r3 -> links_kept r1 r3.
Proof.
  intros H12 H23 b Hb.
  destruct (H12 b Hb) as (E1 & L1). destruct (H23 b E1) as (E2 & L2).
  split; [exact E2 | congruence].
Qed.

Lemma links_kept_frame rbuf rel rel' : split_frame rbuf rel rel' -> links_kept rel rel'.
Proof. intros H b Hb. destruct (H b Hb) as (E & L & _). auto. Qed.

Lemma links_kept_modify b f rel :
  (forall p, links (pd_opaque (f p)) = links (pd_opaque p)) ->
  links_kept rel (modify_page b f rel).
Proof.
  intros Hl. apply (links_kept_frame b). apply split_frame_modify; auto.
Qed.

Lemma PageGetItemId_items p q off :
  pd_items p = pd_items q -> PageGetItemId p off = PageGetItemId q off.
Proof. intros H. unfold PageGetItemId, PageGetMaxOffsetNumber. rewrite H. reflexivity. Qed.

Lemma PageGetFreeSpace_length BLCKSZ p q :
  length (pd_items p) = length (pd_items q) ->
  PageGetFreeSpace BLCKSZ p = PageGetFreeSpace BLCKSZ q.
Proof. intros H. unfold PageGetFreeSpace, page_hole. rewrite H. reflexivity. Qed.

Lemma modify_tuple_run buf off f rel :
  PageGetItemId (BufferGetPage rel buf) off <> None ->
  modify_tuple buf off f rel
  = Ok tt (modify_page buf (fun p =>
             set_items p (list_update (Z.to_nat (off - 1)) f (pd_items p))) rel).
Proof.
  intros H. unfold modify_tuple. mred.
  destruct (PageGetItemId _ _); [reflexivity | contradiction].
Qed.

Lemma split_sibling_run BLCKSZ fuel pages cache origbuf newitem top ptop pparents :
  let rel := mkRel pages cache in
  let its := page_tuples (BufferGetPage rel origbuf) in
  let n := Z.of_nat (length its) in
  let s := cbto_next (pd_opaque (BufferGetPage rel origbuf)) in
  let rbuf := RelationGetNumberOfBlocks rel in
  let pb := cbts_blkno ptop in
  block_exists rel origbuf = true ->
  2 <= n -> 48 + 20 * n <= BLCKSZ -> n < 65534 ->
  1 <= cbts_offset top <= n + 1 ->
  (P_ISLEAF (pd_opaque (BufferGetPage rel origbuf)) = false ->
   Forall (fun t => block_exists rel (ip_blkid (itemptr t)) = true
                    /\ ip_blkid (itemptr t) <> InvalidBlockNumber) its) ->
  s <> InvalidBlockNumber -> block_exists rel s = true ->
  block_exists rel pb = true -> pb <> InvalidBlockNumber ->
  PageGetItemId (BufferGetPage rel pb) (cbts_offset ptop) <> None ->
  itemsz <= PageGetFreeSpace BLCKSZ (BufferGetPage rel pb) ->
  if cbto_prev (pd_opaque (BufferGetPage rel s)) =? origbuf
  then exists r rel',
         cbt_split_page BLCKSZ (S (S fuel)) origbuf newitem (top :: ptop :: pparents) rel
         = Ok r rel'
         /\ cbto_prev (pd_opaque (BufferGetPage rel' s)) = rbuf
         /\ cbto_prev (pd_opaque (BufferGetPage rel' rbuf)) = origbuf
         /\ cbto_next (pd_opaque (BufferGetPage rel' rbuf)) = s
         /\ cbto_next (pd_opaque (BufferGetPage rel' origbuf)) = rbuf
  else exists rel',
         cbt_split_page BLCKSZ (S (S fuel)) origbuf newitem (top :: ptop :: pparents) rel
         = Err ERR_sibling_mismatch rel'
         /\ cbto_prev (pd_opaque (BufferGetPage rel' s))
            = cbto_prev (pd_opaque (BufferGetPage rel s))
         /\ BufferGetPage rel' rbuf = zero_page.
Proof.
  intros rel its n s rbuf pb Hex Hn2 Hfit Hn16 Hoff Hchildren Hs Hsex Hpex Hpb Hpitem Hroom.
  assert (Hrbuf : rbuf = Z.of_nat (length pages)) by reflexivity.
  assert (Hor : origbuf <> rbuf)
    by (apply block_exists_iff in Hex; cbn [rd_pages rel] in Hex; lia).
  assert (Hsr : s <> rbuf)
    by (apply block_exists_iff in Hsex; cbn [rd_pages rel] in Hsex; lia).
  assert (Hpr : pb <> rbuf)
    by (apply block_exists_iff in Hpex; cbn [rd_pages rel] in Hpex; lia).
  set (oopaque := pd_opaque (BufferGetPage rel origbuf)) in *.
  set (lflags := Z.ldiff (cbto_flags oopaque) CBT_ROOT).
  set (pageR := set_opaque (CBTInitPage CBT_LEAF)
                  (mkOpaque origbuf s (cbto_parent (pd_opaque (CBTInitPage CBT_LEAF)))
                     (level oopaque) lflags)).
  set (relA := mkRel (pages ++ [pageR]) cache).
  set (lopaque := mkOpaque (cbto_prev oopaque) rbuf
                    (cbto_parent (pd_opaque (CBTInitPage CBT_LEAF))) (level oopaque) lflags).
  assert (HA : forall b, block_exists rel b = true ->
                 block_exists relA b = true /\ BufferGetPage relA b = BufferGetPage rel b).
  { intros b Hb. split; [apply block_exists_app; exact Hb | apply BufferGetPage_app; exact Hb]. }
  assert (HAr : block_exists relA rbuf = true /\ BufferGetPage relA rbuf = pageR).
  { split; [|apply BufferGetPage_last].
    apply block_exists_iff. unfold relA. cbn [rd_pages]. rewrite length_app. cbn [length].
    lia. }
  (* the transfer *)
  destruct (cbt_split_distribute_run BLCKSZ relA origbuf rbuf newitem (cbts_offset top)
              lopaque) as (st & relB & Lt & Rt & Hrun & Hspec).
  1-9: cbv zeta; rewrite ?(proj2 (HA origbuf Hex)); try tauto; try apply HA; try assumption.
  { rewrite (proj2 HAr). reflexivity. }
  { intros Hl. specialize (Hchildren Hl). eapply Forall_impl; [|exact Hchildren].
    cbv beta. intros t [H1 H2]. split; [apply HA; exact H1 | exact H2]. }
  cbv zeta in Hspec. rewrite (proj2 (HA origbuf Hex)) in Hrun, Hspec. fold its n in Hrun, Hspec.
  destruct Hspec as (_ & _ & _ & _ & _ & _ & Hlop & _).
  clear Lt Rt.
  pose proof (split_frame_distribute _ _ _ _ _ _ _ _ _ Hrun) as HF.
  set (relC := modify_page pb (fun p =>
                  set_items p (list_update (Z.to_nat (cbts_offset ptop - 1))
                                 (set_childcnt (sx_leftcount st)) (pd_items p))) relB).
  set (relD := modify_page pb (fun p =>
                  snd (PageAddItem BLCKSZ p
                         (CBTFormTuple (ItemPointerSet rbuf P_FIRSTOFFSET) (sx_rightcount st))
                         (cbts_offset (bump_offset ptop)))) relC).
  set (relE := modify_opaque rbuf (fun o =>
                  set_parent o (ItemPointerSet (cbts_blkno (bump_offset ptop))
                                  (cbts_offset (bump_offset ptop)))) relD).
  assert (HBp : block_exists relB pb = true
                /\ pd_items (BufferGetPage relB pb) = pd_items (BufferGetPage rel pb)).
  { destruct (HF pb (proj1 (HA pb Hpex))) as (E & _ & I). split; [exact E|].
    rewrite (I Hpr). rewrite (proj2 (HA pb Hpex)). reflexivity. }
  assert (Hfree : (PageGetFreeSpace BLCKSZ (BufferGetPage relC pb) <? itemsz) = false).
  { apply Z.ltb_ge. unfold relC.
    rewrite BufferGetPage_modify_same by apply HBp.
    rewrite (PageGetFreeSpace_length _ _ (BufferGetPage rel pb)); [exact Hroom|].
    cbn [set_items pd_items]. rewrite length_list_update. rewrite (proj2 HBp). reflexivity. }
  assert (HAE : links_kept relA relE).
  { apply (links_kept_trans _ relB); [exact (links_kept_frame _ _ _ HF)|].
    apply (links_kept_trans _ relC);
      [unfold relC; apply links_kept_modify; intros p; reflexivity|].
    apply (links_kept_trans _ relD);
      [unfold relD; apply links_kept_modify; intros p; rewrite PageAddItem_opaque;
       reflexivity|].
    unfold relE, modify_opaque. apply links_kept_modify. intros p. reflexivity. }
  assert (HEo : block_exists relE origbuf = true
                /\ cbto_next (pd_opaque (BufferGetPage relE origbuf)) = s).
  { destruct (HAE origbuf (proj1 (HA origbuf Hex))) as (E & L). split; [exact E|].
    rewrite (proj2 (HA origbuf Hex)) in L. unfold links in L. fold oopaque in L.
    injection L as _ L _ _. exact L. }
  assert (HEs : block_exists relE s = true
                /\ cbto_prev (pd_opaque (BufferGetPage relE s))
                   = cbto_prev (pd_opaque (BufferGetPage rel s))).
  { destruct (HAE s (proj1 (HA s Hsex))) as (E & L). split; [exact E|].
    rewrite (proj2 (HA s Hsex)) in L. unfold links in L.
    injection L as L _ _ _. exact L. }
  assert (HEr : block_exists relE rbuf = true
                /\ cbto_prev (pd_opaque (BufferGetPage relE rbuf)) = origbuf
                /\ cbto_next (pd_opaque (BufferGetPage relE rbuf)) = s).
  { destruct (HAE rbuf (proj1 HAr)) as (E & L). split; [exact E|].
    rewrite (proj2 HAr) in L. unfold links in L. cbn in L.
    injection L as L1 L2 _ _. auto. }
  eassert (Hprefix : cbt_split_page BLCKSZ (S (S fuel)) origbuf newitem
                       (top :: ptop :: pparents) rel = _).
  { cbn [cbt_split_page]. mred. unfold rel at 1. rewrite cbt_get_buffer_new.
    cbv beta iota. unfold BufferGetBlockNumber.
    rewrite !BufferGetPage_app by exact Hex. fold rel oopaque lflags s.
    rewrite modify_opaque_last.
    change (Z.of_nat (length pages)) with rbuf.
    fold lopaque. fold pageR. fold relA.
    rewrite Hrun. cbv beta iota.
    rewrite cbt_get_buffer_old by (apply HBp || assumption).
    rewrite modify_tuple_run
      by (rewrite (PageGetItemId_items _ (BufferGetPage rel pb)); [exact Hpitem | apply HBp]).
    cbv beta iota. fold pb. fold relC.
    cbn [cbt_insert_on_page]. mred. fold pb.
    rewrite Hfree. cbv beta iota. cbn [fst]. cbv beta iota.
    fold relD. fold relE.
    unfold P_RIGHTMOST at 1. rewrite (proj2 HEo).
    replace (s =? InvalidBlockNumber) with false by (symmetry; apply Z.eqb_neq; exact Hs).
    cbn [negb]. cbv beta iota.
    rewrite cbt_get_buffer_old by (apply HEs || exact Hs).
    rewrite (proj2 HEs). reflexivity. }
  rewrite Hprefix. clear Hprefix.
  destruct (cbto_prev (pd_opaque (BufferGetPage rel s)) =? origbuf) eqn:Ematch.
  - cbn [negb]. cbv beta iota.
    set (relG := write_page origbuf (sx_left st) relE).
    assert (HGr : BufferGetPage relG rbuf = BufferGetPage relE rbuf)
      by (apply BufferGetPage_modify_other; exact Hor).
    assert (HGo : BufferGetPage relG origbuf = sx_left st)
      by (unfold relG, write_page; rewrite BufferGetPage_modify_same by apply HEo;
          reflexivity).
    assert (HGs : block_exists relG s = true)
      by (unfold relG, write_page; rewrite block_exists_modify; apply HEs).
    unfold P_RIGHTMOST. rewrite HGr, (proj2 (proj2 HEr)).
    replace (s =? InvalidBlockNumber) with false by (symmetry; apply Z.eqb_neq; exact Hs).
    cbn [negb]. cbv beta iota.
    assert (Hlinks : forall relH,
              relH = modify_opaque s (fun o => set_prev o rbuf) relG ->
              cbto_prev (pd_opaque (BufferGetPage relH s)) = rbuf
              /\ cbto_prev (pd_opaque (BufferGetPage relH rbuf)) = origbuf
              /\ cbto_next (pd_opaque (BufferGetPage relH rbuf)) = s
              /\ cbto_next (pd_opaque (BufferGetPage relH origbuf)) = rbuf).
    { intros relH ->. unfold modify_opaque.
      rewrite !BufferGetPage_modify, HGs, !andb_true_r, Z.eqb_refl.
      replace (s =? rbuf) with false by (symmetry; apply Z.eqb_neq; exact Hsr).
      rewrite HGr, HGo.
      split; [reflexivity|]. split; [apply HEr|]. split; [apply HEr|].
      destruct (s =? origbuf); cbn [set_opaque pd_opaque set_prev cbto_next];
        rewrite Hlop; reflexivity. }
    destruct (cbts_offset top <=? n / 2);
      (eexists; eexists; split; [reflexivity | apply Hlinks; reflexivity]).
  - cbn [negb]. cbv beta iota. eexists. split; [reflexivity|].
    unfold write_page. split.
    + rewrite BufferGetPage_modify_other by (intros E; apply Hsr; symmetry; exact E).
      apply HEs.
    + rewrite BufferGetPage_modify_same by apply HEr. reflexivity.
Qed.

(** X27. The sibling links in a split by [cbt_split_page] of a leaf or
    internal page of [n >= 2] tuples that has a right sibling, where the
    parent page named by the stack has room for the new separator: if the
    sibling's previous-page link is the block of the page that is split,
    [cbt_split_page] returns, the sibling's link is the new right page, and
    the new right page links back to the split page and on to the sibling;
    otherwise [cbt_split_page] stops with the "left-link doesn't match"
    error, the sibling's link is as it was and the new right page is
    zeroed. *)
Theorem cbt_split_sibling_link :
  forall (BLCKSZ : Z) (fuel : nat) (rel : Relation) (origbuf : Buffer) (newitem : CBTTupleData)
         (top ptop : CBTStackData) (pparents : CBTStack),
    let its := page_tuples (BufferGetPage rel origbuf) in
    let n := Z.of_nat (length its) in
    let s := cbto_next (pd_opaque (BufferGetPage rel origbuf)) in
    let rbuf := RelationGetNumberOfBlocks rel in
    let pb := cbts_blkno ptop in
    block_exists rel origbuf = true ->
    2 <= n -> 48 + 20 * n <= BLCKSZ -> n < 65534 ->
    1 <= cbts_offset top <= n + 1 ->
    (P_ISLEAF (pd_opaque (BufferGetPage rel origbuf)) = false ->
     Forall (fun t => block_exists rel (ip_blkid (itemptr t)) = true
                      /\ ip_blkid (itemptr t) <> InvalidBlockNumber) its) ->
    s <> InvalidBlockNumber -> block_exists rel s = true ->
    block_exists rel pb = true -> pb <> InvalidBlockNumber ->
    PageGetItemId (BufferGetPage rel pb) (cbts_offset ptop) <> None ->
    itemsz <= PageGetFreeSpace BLCKSZ (BufferGetPage rel pb) ->
    (cbto_prev (pd_opaque (BufferGetPage rel s)) = origbuf ->
     exists r rel',
       cbt_split_page BLCKSZ (S (S fuel)) origbuf newitem (top :: ptop :: pparents) rel
       = Ok r rel'
       /\ cbto_prev (pd_opaque (BufferGetPage rel' s)) = rbuf
       /\ cbto_prev (pd_opaque (BufferGetPage rel' rbuf)) = origbuf
       /\ cbto_next (pd_opaque (BufferGetPage rel' rbuf)) = s
       /\ cbto_next (pd_opaque (BufferGetPage rel' origbuf)) = rbuf)
    /\ (cbto_prev (pd_opaque (BufferGetPage rel s)) <> origbuf ->
        exists rel',
          cbt_split_page BLCKSZ (S (S fuel)) origbuf newitem (top :: ptop :: pparents) rel
          = Err ERR_sibling_mismatch rel'
          /\ cbto_prev (pd_opaque (BufferGetPage rel' s))
             = cbto_prev (pd_opaque (BufferGetPage rel s))
          /\ BufferGetPage rel' rbuf = zero_page).
Proof.
  intros BLCKSZ fuel [pages cache] origbuf newitem top ptop pparents its n s rbuf pb
         Hex Hn2 Hfit Hn16 Hoff Hchildren Hs Hsex Hpex Hpb Hpitem Hroom.
  pose proof (split_sibling_run BLCKSZ fuel pages cache origbuf newitem top ptop pparents
                Hex Hn2 Hfit Hn16 Hoff Hchildren Hs Hsex Hpex Hpb Hpitem Hroom) as Hrun.
  cbv zeta in Hrun. fold s rbuf in Hrun.
  destruct (cbto_prev (pd_opaque (BufferGetPage (mkRel pages cache) s)) =? origbuf) eqn:E.
  - split; intros H; [exact Hrun|]. apply Z.eqb_eq in E. contradiction.
  - split; intros H; [|exact Hrun]. apply Z.eqb_neq in E. contradiction.
Qed.

Lemma cbt_split_sibling_link_witness :
  (exists r rel',
     cbt_split_page 128 2 1 (mkTuple (heap_tid 7) 1) [mkFrame 1 3 2; mkFrame 3 1 0]
       (sibling_example 1) = Ok r rel'
     /\ cbto_prev (pd_opaque (BufferGetPage rel' 2)) = 4)
  /\ (exists rel',
        cbt_split_page 128 2 1 (mkTuple (heap_tid 7) 1) [mkFrame 1 3 2; mkFrame 3 1 0]
          (sibling_example 9) = Err ERR_sibling_mismatch rel'
        /\ cbto_prev (pd_opaque (BufferGetPage rel' 2)) = 9).
Proof.
  split.
  - destruct (cbt_split_sibling_link 128 0 (sibling_example 1) 1 (mkTuple (heap_tid 7) 1)
                (mkFrame 1 3 2) (mkFrame 3 1 0) []) as [Hm _].
    + reflexivity.
    + vm_compute. discriminate.
    + vm_compute. discriminate.
    + vm_compute. reflexivity.
    + vm_compute. split; discriminate.
    + intros H. vm_compute in H. discriminate H.
    + vm_compute. discriminate.
    + reflexivity.
    + reflexivity.
    + vm_compute. discriminate.
    + vm_compute. discriminate.
    + vm_compute. discriminate.
    + destruct (Hm eq_refl) as (r & rel' & Hrun & Hprev & _).
      exists r, rel'. split; [exact Hrun | exact Hprev].
  - destruct (cbt_split_sibling_link 128 0 (sibling_example 9) 1 (mkTuple (heap_tid 7) 1)
                (mkFrame 1 3 2) (mkFrame 3 1 0) []) as [_ Hm].
    + reflexivity.
    + vm_compute. discriminate.
    + vm_compute. discriminate.
    + vm_compute. reflexivity.
    + vm_compute. split; discriminate.
    + intros H. vm_compute in H. discriminate H.
    + vm_compute. discriminate.
    + reflexivity.
    + reflexivity.
    + vm_compute. discriminate.
    + vm_compute. discriminate.
    + vm_compute. discriminate.
    + destruct Hm as (rel' & Hrun & Hprev & _); [vm_compute; discriminate|].
      exists rel'. split; [exact Hrun | exact Hprev].
Defined.

(** ** Page deletion during a sweep *)

(** *** Lists and pages *)

Lemma map_list_update_same {A B : Type} (g : A -> B) (f : A -> A) n l :
  (forall x, g (f x) = g x) -> map g (list_update n f l) = map g l.
Proof.
  intros H. revert n. induction l as [|x l IH]; intros [|n]; cbn; try reflexivity.
  - rewrite H. reflexivity.
  - rewrite IH. reflexivity.
Qed.

Lemma map_list_remove {A B : Type} (g : A -> B) n l :
  map g (list_remove n l) = list_remove n (map g l).
Proof.
  revert n. induction l as [|x l IH]; intros [|n]; cbn; try reflexivity.
  rewrite IH. reflexivity.
Qed.

Lemma length_list_remove {A : Type} n (l : list A) :
  (n < length l)%nat -> length (list_remove n l) = (length l - 1)%nat.
Proof.
  revert n. induction l as [|x l IH]; intros [|n] H; cbn in *; try lia.
  rewrite IH by lia. lia.
Qed.

Lemma maxoff_ptrs p : PageGetMaxOffsetNumber p = Z.of_nat (length (page_ptrs p)).
Proof. unfold PageGetMaxOffsetNumber, page_ptrs. rewrite length_map. reflexivity. Qed.

Lemma PageGetItemId_in_range p off :
  PageGetItemId p off <> None <-> 1 <= off <= PageGetMaxOffsetNumber p.
Proof.
  unfold PageGetItemId.
  destruct ((1 <=? off) && (off <=? PageGetMaxOffsetNumber p)) eqn:E.
  - apply andb_true_iff in E. destruct E as [E1 E2].
    apply Z.leb_le in E1. apply Z.leb_le in E2.
    split; [lia|]. intros _. apply nth_error_Some.
    unfold PageGetMaxOffsetNumber in E2. lia.
  - split; [congruence|]. intros [H1 H2].
    apply Z.leb_le in H1. apply Z.leb_le in H2. rewrite H1, H2 in E. discriminate E.
Qed.

Lemma has_flag_deleted f : has_flag (Z.lor f CBT_DELETED) CBT_DELETED = true.
Proof.
  unfold has_flag. apply negb_true_iff, Z.eqb_neq.
  rewrite Z.land_lor_distr_l, Z.land_diag. intros H.
  apply Z.lor_eq_0_iff in H. destruct H as [_ H]. discriminate H.
Qed.

(** *** The counts above a page *)

Lemma counts_only_refl bs r : counts_only bs r r.
Proof. intros b. auto. Qed.

Lemma counts_only_trans bs r1 r2 r3 :
  counts_only bs r1 r2 -> counts_only bs r2 r3 -> counts_only bs r1 r3.
Proof.
  intros H12 H23 b. destruct (H12 b) as (A1 & B1 & C1 & D1).
  destruct (H23 b) as (A2 & B2 & C2 & D2).
  repeat split; try congruence. intros Hn. rewrite D2, D1; auto.
Qed.

Lemma counts_only_weaken bs bs' r r' :
  (forall b, In b bs -> In b bs') -> counts_only bs r r' -> counts_only bs' r r'.
Proof.
  intros Hin H b. destruct (H b) as (A & B & C & D). repeat split; auto.
Qed.

Lemma counts_only_modify_tuple bs buf off f r :
  In buf bs ->
  (forall it, strip (f it) = strip it) ->
  counts_only bs r
    (modify_page buf (fun p =>
       set_items p (list_update (Z.to_nat (off - 1)) f (pd_items p))) r).
Proof.
  intros Hin Hf b. rewrite block_exists_modify. split; [reflexivity|].
  rewrite BufferGetPage_modify.
  destruct ((buf =? b) && block_exists r buf) eqn:E.
  - apply andb_true_iff in E. destruct E as [E _]. apply Z.eqb_eq in E. subst b.
    repeat split.
    + unfold page_ptrs. cbn [set_items pd_items]. apply map_list_update_same. exact Hf.
    + intros Hn. contradiction.
  - auto.
Qed.

Lemma spine_agree chain :
  forall r r' blk,
    agree_on (blk :: blocks chain) r r' -> spine r blk chain -> spine r' blk chain.
Proof.
  induction chain as [|[pb po] rest IH]; intros r r' blk Ha Hs.
  - cbn [spine] in *. destruct (Ha blk (or_introl eq_refl)) as (_ & Ho & _).
    rewrite Ho. exact Hs.
  - cbn [spine] in *. destruct Hs as (H1 & H2 & H3 & H4 & H5 & H6).
    destruct (Ha blk (or_introl eq_refl)) as (_ & Ho & _).
    destruct (Ha pb (or_intror (or_introl eq_refl))) as (He & _ & Hp).
    rewrite Ho, He. repeat split; auto.
    + apply PageGetItemId_in_range. apply PageGetItemId_in_range in H5.
      rewrite maxoff_ptrs in *. rewrite Hp. exact H5.
    + apply (IH r); [|exact H6]. intros b Hb. apply Ha. right. exact Hb.
Qed.

Lemma counts_only_agree bs bs' r r' : counts_only bs r r' -> agree_on bs' r r'.
Proof. intros H b _. destruct (H b) as (A & B & C & _). auto. Qed.

Lemma cbt_reduce_parent_run change chain :
  forall fuel rel blk,
    spine rel blk chain -> (length chain <= fuel)%nat ->
    exists rel1,
      cbt_reduce_parent fuel (cbto_parent (pd_opaque (BufferGetPage rel blk))) change rel
      = Ok tt rel1
      /\ counts_only (blocks chain) rel rel1.
Proof.
  induction chain as [|[pb po] rest IH]; intros fuel rel blk Hs Hfuel.
  - cbn [spine] in Hs. exists rel. split; [|apply counts_only_refl].
    destruct fuel; cbn [cbt_reduce_parent]; rewrite Hs; reflexivity.
  - cbn [spine] in Hs. destruct Hs as (H1 & H2 & H3 & H4 & H5 & H6).
    destruct fuel as [|fuel]; [cbn in Hfuel; lia|].
    cbn [cbt_reduce_parent]. rewrite H1.
    unfold ItemPointerIsValid, ItemPointerGetBlockNumber, ItemPointerGetOffsetNumber.
    cbn [ip_posid ip_blkid].
    replace (po =? 0) with false by (symmetry; apply Z.eqb_neq; exact H2).
    cbn [negb]. unfold bind at 1. rewrite cbt_get_buffer_old by assumption.
    unfold bind at 1. rewrite modify_tuple_run by exact H5.
    unfold bind at 1, get at 1.
    set (relm := modify_page pb _ rel).
    assert (Hm : counts_only (blocks ((pb, po) :: rest)) rel relm).
    { apply counts_only_modify_tuple; [left; reflexivity|]. intros it. reflexivity. }
    destruct (IH fuel relm pb) as (rel1 & Hrun & Hc).
    + apply (spine_agree rest rel); [|exact H6]. eapply counts_only_agree. exact Hm.
    + cbn in Hfuel. lia.
    + exists rel1. split; [exact Hrun|].
      eapply counts_only_trans; [exact Hm|].
      eapply counts_only_weaken; [|exact Hc]. intros b Hb. right. exact Hb.
Qed.

Lemma pd_items_modify_meta b f rel blk :
  pd_items (BufferGetPage (modify_meta b f rel) blk) = pd_items (BufferGetPage rel blk).
Proof.
  unfold modify_meta. rewrite BufferGetPage_modify. destruct (_ && _); reflexivity.
Qed.

Lemma pd_opaque_modify_meta b f rel blk :
  pd_opaque (BufferGetPage (modify_meta b f rel) blk) = pd_opaque (BufferGetPage rel blk).
Proof.
  unfold modify_meta. rewrite BufferGetPage_modify. destruct (_ && _); reflexivity.
Qed.

Lemma pd_meta_modify_opaque b f rel blk :
  pd_meta (BufferGetPage (modify_opaque b f rel) blk) = pd_meta (BufferGetPage rel blk).
Proof.
  unfold modify_opaque. rewrite BufferGetPage_modify. destruct (_ && _); reflexivity.
Qed.

Lemma pd_opaque_modify_opaque_same b f rel :
  block_exists rel b = true ->
  pd_opaque (BufferGetPage (modify_opaque b f rel) b) = f (pd_opaque (BufferGetPage rel b)).
Proof.
  intros H. unfold modify_opaque. rewrite BufferGetPage_modify_same by exact H. reflexivity.
Qed.

Lemma BufferGetPage_modify_opaque_other b f rel blk :
  blk <> b -> BufferGetPage (modify_opaque b f rel) blk = BufferGetPage rel blk.
Proof.
  intros H. unfold modify_opaque. apply BufferGetPage_modify_other. congruence.
Qed.

(** *** The cascade of page deletions *)

Lemma cascade_agree chain :
  forall rA rA' rB rB' buf idx,
    agree_on (buf :: blocks chain) rA rB ->
    agree_on (buf :: blocks chain) rA' rB' ->
    cbtm_root (metad_of rA') = cbtm_root (metad_of rB') ->
    cascade rA rA' buf idx chain -> cascade rB rB' buf idx chain.
Proof.
  induction chain as [|[pb po] rest IH]; intros rA rA' rB rB' buf idx Ha Ha' Hm Hc;
    cbn [cascade] in *;
    destruct (Ha buf (or_introl eq_refl)) as (_ & Ho & Hp);
    destruct (Ha' buf (or_introl eq_refl)) as (_ & Ho' & Hp');
    destruct Hc as [Hc1 Hc2]; rewrite maxoff_ptrs in *; rewrite Hp, Hp', Ho', Ho;
    (split; [exact Hc1|]);
    destruct (Z.of_nat (length (page_ptrs (BufferGetPage rA buf))) =? 1); try exact Hc2.
  - destruct Hc2 as [Hd Hr]. split; [exact Hd|]. congruence.
  - destruct Hc2 as [Hd Hr]. split; [exact Hd|].
    apply (IH rA rA'); auto; intros b Hb; [apply Ha | apply Ha']; right; exact Hb.
Qed.

Lemma cbt_delitem_vacuum_cascade chain :
  forall fuel rel buf idx stats,
    spine rel buf chain ->
    NoDup (buf :: blocks chain) ->
    block_exists rel CBT_METAPAGE = true ->
    block_exists rel buf = true ->
    PageGetItemId (BufferGetPage rel buf) idx <> None ->
    (2 * length chain + 2 <= fuel)%nat ->
    exists stats' rel',
      cbt_delitem_vacuum fuel buf idx stats rel = Ok stats' rel'
      /\ cascade rel rel' buf idx chain
      /\ (forall b, block_exists rel' b = block_exists rel b)
      /\ (forall b, ~ In b (buf :: blocks chain) ->
            pd_items (BufferGetPage rel' b) = pd_items (BufferGetPage rel b)
            /\ pd_opaque (BufferGetPage rel' b) = pd_opaque (BufferGetPage rel b)).
Proof.
  induction chain as [|[pb po] rest IH];
    intros fuel rel buf idx stats Hs Hnd Hmeta Hex Hidx Hfuel.
  all: destruct fuel as [|fuel]; [cbn in Hfuel; lia|].
  all: destruct (cbt_reduce_parent_run (-1) _ fuel rel buf Hs ltac:(cbn in *; lia))
         as (rel1 & Hred & Hc1).
  all: cbn [cbt_delitem_vacuum]; unfold bind at 1, get at 1; unfold bind at 1;
       rewrite Hred; unfold bind at 1, get at 1.
  all: destruct (Hc1 buf) as (He1 & Ho1 & Hp1 & _).
  all: pose proof Hidx as Hrange; apply PageGetItemId_in_range in Hrange;
       rewrite maxoff_ptrs in Hrange.
  all: unfold PageIndexTupleDelete; rewrite maxoff_ptrs, Hp1.
  all: replace ((idx <=? 0) || (Z.of_nat (length (page_ptrs (BufferGetPage rel buf))) <? idx))
         with false
         by (symmetry; apply orb_false_iff; split; [apply Z.leb_gt | apply Z.ltb_ge]; lia).
  all: unfold bind at 1, update at 1.
  all: set (page' := set_items (BufferGetPage rel1 buf) _).
  all: set (rel2 := write_page buf page' rel1).
  all: assert (Hptr' : page_ptrs page'
                      = list_remove (Z.to_nat (idx - 1)) (page_ptrs (BufferGetPage rel buf)))
         by (unfold page', page_ptrs at 1; cbn [set_items pd_items];
             rewrite map_list_remove; fold (page_ptrs (BufferGetPage rel1 buf));
             rewrite Hp1; reflexivity).
  all: assert (Hopq' : pd_opaque page' = pd_opaque (BufferGetPage rel buf))
         by (unfold page'; cbn [set_items pd_opaque]; exact Ho1).
  all: assert (Hex1 : block_exists rel1 buf = true) by (rewrite He1; exact Hex).
  all: assert (H2e : forall b, block_exists rel2 b = block_exists rel b)
         by (intros b; unfold rel2, write_page; rewrite block_exists_modify; apply Hc1).
  all: assert (H2b : BufferGetPage rel2 buf = page')
         by (unfold rel2, write_page; rewrite BufferGetPage_modify_same by exact Hex1;
             reflexivity).
  all: assert (H2o : forall b, b <> buf -> BufferGetPage rel2 b = BufferGetPage rel1 b)
         by (intros b Hb; unfold rel2, write_page; apply BufferGetPage_modify_other;
             congruence).
  all: assert (Hmax' : PageGetMaxOffsetNumber page'
                      = Z.of_nat (length (page_ptrs (BufferGetPage rel buf))) - 1)
         by (rewrite maxoff_ptrs, Hptr', length_list_remove by lia; lia).
  all: rewrite Hmax'.
  all: destruct (Z.of_nat (length (page_ptrs (BufferGetPage rel buf))) =? 1) eqn:Eone;
       [apply Z.eqb_eq in Eone; rewrite Eone; change (1 - 1 =? 0) with true; cbv iota
       | replace (Z.of_nat (length (page_ptrs (BufferGetPage rel buf))) - 1 =? 0) with false
           by (symmetry; apply Z.eqb_neq; apply Z.eqb_neq in Eone; lia)].
  all: try (* the page keeps a tuple *)
    (apply Z.eqb_neq in Eone; eexists; exists rel2; split; [reflexivity|];
     split; [cbn [cascade]; rewrite H2b, maxoff_ptrs;
             replace (Z.of_nat (length (page_ptrs (BufferGetPage rel buf))) =? 1) with false
               by (symmetry; apply Z.eqb_neq; exact Eone);
             split; assumption|];
     split; [exact H2e|];
     intros b Hb; rewrite H2o by (intros ->; apply Hb; left; reflexivity);
     destruct (Hc1 b) as (_ & Hob & _ & Hib);
     split; [apply Hib; intros Hin; apply Hb; right; exact Hin | exact Hob]).
  - (* the page empties and has no parent pointer *)
    destruct fuel as [|fuel]; [cbn in Hfuel; lia|].
    cbn [cbt_delpage_vacuum]. unfold bind at 1, get at 1.
    rewrite H2b, Hopq'. cbn [spine] in Hs. rewrite Hs. cbn [negb].
    unfold bind at 1. unfold bind at 1.
    rewrite cbt_get_buffer_old by (rewrite ?H2e; assumption || discriminate).
    unfold bind at 1, update at 1. unfold ret at 1.
    unfold bind at 1, update at 1. unfold ret.
    set (rel3 := modify_meta CBT_METAPAGE _ rel2).
    set (rel' := modify_opaque buf _ rel3).
    assert (H3e : forall b, block_exists rel3 b = block_exists rel b)
      by (intros b; unfold rel3, modify_meta; rewrite block_exists_modify; apply H2e).
    eexists. exists rel'. split; [reflexivity|]. split; [|split].
    + cbn [cascade]. rewrite maxoff_ptrs, Eone. change (1 =? 1) with true. cbv iota.
      unfold page_ptrs at 1. unfold rel'. rewrite pd_items_modify_opaque.
      unfold rel3. rewrite pd_items_modify_meta, H2b. fold (page_ptrs page').
      split; [exact Hptr'|]. split.
      * rewrite pd_opaque_modify_opaque_same by (rewrite H3e; exact Hex).
        unfold P_ISDELETED. cbn [set_flags cbto_flags]. apply has_flag_deleted.
      * unfold metad_of. rewrite pd_meta_modify_opaque. unfold modify_meta.
        rewrite BufferGetPage_modify_same by (rewrite H2e; exact Hmeta). reflexivity.
    + intros b. unfold rel', modify_opaque. rewrite block_exists_modify. apply H3e.
    + intros b Hb.
      assert (Hbb : b <> buf) by (intros ->; apply Hb; left; reflexivity).
      unfold rel'. rewrite BufferGetPage_modify_opaque_other by exact Hbb.
      unfold rel3. rewrite pd_items_modify_meta, pd_opaque_modify_meta.
      rewrite H2o by exact Hbb. destruct (Hc1 b) as (_ & Hob & _ & Hib).
      split; [apply Hib; intros [] | exact Hob].
  - (* the page empties and names a parent tuple *)
    destruct fuel as [|fuel]; [cbn in Hfuel; lia|].
    cbn [spine] in Hs. destruct Hs as (H1 & H2 & H3 & H4 & H5 & H6).
    apply NoDup_cons_iff in Hnd. destruct Hnd as [Hnotin Hnd].
    cbn [cbt_delpage_vacuum]. unfold bind at 1, get at 1.
    rewrite H2b, Hopq', H1.
    unfold ItemPointerIsValid, ItemPointerGetBlockNumber, ItemPointerGetOffsetNumber.
    cbn [ip_posid ip_blkid].
    replace (po =? 0) with false by (symmetry; apply Z.eqb_neq; exact H2).
    cbn [negb]. unfold bind at 1. unfold bind at 1.
    rewrite cbt_get_buffer_old by (rewrite ?H2e; assumption).
    assert (Hagree : agree_on (pb :: blocks rest) rel rel2).
    { intros b Hb.
      assert (Hbb : b <> buf) by (intros ->; apply Hnotin; exact Hb).
      rewrite H2e, H2o by exact Hbb. destruct (Hc1 b) as (_ & Hob & Hpb & _). auto. }
    destruct (IH fuel rel2 pb po
                (mkStats (tuples_removed stats + 1) (pages_deleted stats)))
      as (stats2 & rel3 & Hrun & Hcas & H3e & Hfr3).
    { apply (spine_agree rest rel); assumption. }
    { exact Hnd. }
    { rewrite H2e. exact Hmeta. }
    { rewrite H2e. exact H3. }
    { apply PageGetItemId_in_range. apply PageGetItemId_in_range in H5.
      rewrite maxoff_ptrs in *.
      destruct (Hagree pb (or_introl eq_refl)) as (_ & _ & Hp). rewrite Hp. exact H5. }
    { cbn in Hfuel. lia. }
    rewrite Hrun. unfold bind at 1, update at 1. unfold ret.
    set (rel' := modify_opaque buf _ rel3).
    assert (Hbuf3 : pd_items (BufferGetPage rel3 buf) = pd_items page').
    { rewrite <- H2b. apply Hfr3. exact Hnotin. }
    eexists. exists rel'. split; [reflexivity|]. split; [|split].
    + cbn [cascade]. rewrite maxoff_ptrs, Eone. change (1 =? 1) with true. cbv iota.
      unfold page_ptrs at 1. unfold rel'. rewrite pd_items_modify_opaque, Hbuf3.
      fold (page_ptrs page'). split; [exact Hptr'|]. split.
      * rewrite pd_opaque_modify_opaque_same by (rewrite H3e, H2e; exact Hex).
        unfold P_ISDELETED. cbn [set_flags cbto_flags]. apply has_flag_deleted.
      * apply (cascade_agree rest rel2 rel3);
          [| |unfold rel', metad_of; rewrite pd_meta_modify_opaque; reflexivity|exact Hcas].
        -- intros b Hb. destruct (Hagree b Hb) as (A & B & C). auto.
        -- intros b Hb.
           assert (Hbb : b <> buf) by (intros ->; apply Hnotin; exact Hb).
           unfold rel'. rewrite BufferGetPage_modify_opaque_other by exact Hbb.
           unfold modify_opaque. rewrite block_exists_modify. auto.
    + intros b. unfold rel', modify_opaque. rewrite block_exists_modify, H3e. apply H2e.
    + intros b Hb.
      assert (Hbb : b <> buf) by (intros ->; apply Hb; left; reflexivity).
      assert (Hbc : ~ In b (pb :: blocks rest)) by (intros Hin; apply Hb; right; exact Hin).
      unfold rel'. rewrite BufferGetPage_modify_opaque_other by exact Hbb.
      destruct (Hfr3 b Hbc) as [Hi3 Ho3]. rewrite Hi3, Ho3, H2o by exact Hbb.
      destruct (Hc1 b) as (_ & Hob & _ & Hib). split; [apply Hib; exact Hbc | exact Hob].
Qed.

(** *** The sweep of a single leaf *)

Lemma blocks_of_exists r r' :
  (forall b, block_exists r' b = block_exists r b) ->
  RelationGetNumberOfBlocks r' = RelationGetNumberOfBlocks r.
Proof.
  intros H. unfold RelationGetNumberOfBlocks.
  destruct (Z.lt_trichotomy (Z.of_nat (length (rd_pages r'))) (Z.of_nat (length (rd_pages r))))
    as [Hlt | [Heq | Hgt]]; [exfalso | exact Heq | exfalso].
  - specialize (H (Z.of_nat (length (rd_pages r')))).
    assert (E : block_exists r (Z.of_nat (length (rd_pages r'))) = true)
      by (apply block_exists_iff; lia).
    rewrite E in H. apply block_exists_iff in H. lia.
  - specialize (H (Z.of_nat (length (rd_pages r)))).
    assert (E : block_exists r' (Z.of_nat (length (rd_pages r))) = true)
      by (apply block_exists_iff; lia).
    rewrite E in H. symmetry in H. apply block_exists_iff in H. lia.
Qed.

Lemma cbtvacuumpage_items_all cb buf :
  forall n fuel rel off td stats,
    spine rel buf [] ->
    block_exists rel CBT_METAPAGE = true ->
    block_exists rel buf = true ->
    length (page_ptrs (BufferGetPage rel buf)) = S n ->
    Forall (fun p => cb (snd p) = true) (page_ptrs (BufferGetPage rel buf)) ->
    off = td + 1 -> 0 <= td -> td + Z.of_nat (S n) < 65535 ->
    (2 <= fuel)%nat ->
    exists stats' rel',
      cbtvacuumpage_items fuel (S n) cb buf off td stats rel = Ok stats' rel'
      /\ pd_items (BufferGetPage rel' buf) = []
      /\ P_ISDELETED (pd_opaque (BufferGetPage rel' buf)) = true
      /\ cbtm_root (metad_of rel') = InvalidBlockNumber
      /\ (forall b, block_exists rel' b = block_exists rel b).
Proof.
  induction n as [|n IH]; intros fuel rel off td stats Hs Hmeta Hex Hlen Hall Hoff Htd Hbound Hfuel.
  all: cbn [cbtvacuumpage_items]; unfold bind at 1, get at 1.
  all: replace (uint16 (off - td)) with 1
         by (subst off; replace (td + 1 - td) with 1 by lia; reflexivity).
  all: unfold PageGetItem, PageGetItemId; rewrite maxoff_ptrs, Hlen.
  all: unfold page_ptrs in Hlen, Hall.
  all: destruct (pd_items (BufferGetPage rel buf)) as [|it items] eqn:Eitems;
       [discriminate Hlen|].
  all: change (Z.to_nat (1 - 1)) with O; cbn [nth_error option_map].
  all: replace ((1 <=? 1) && (1 <=? Z.of_nat (S _))) with true
         by (symmetry; apply andb_true_iff; split; apply Z.leb_le; lia).
  all: cbv iota; cbn [option_map].
  all: assert (Hcb : cb (itemptr (lp_tuple it)) = true)
         by (cbn [map] in Hall; apply Forall_inv in Hall; exact Hall).
  all: rewrite Hcb.
  all: destruct (cbt_delitem_vacuum_cascade [] fuel rel buf 1 stats Hs
                   ltac:(repeat constructor; intros [])
                   Hmeta Hex) as (stats1 & rel1 & Hrun & Hcas & He1 & _);
       [ apply PageGetItemId_in_range; rewrite maxoff_ptrs; unfold page_ptrs;
         rewrite Eitems; cbn [map length]; lia
       | cbn [length]; lia | ].
  all: unfold bind at 1; rewrite Hrun.
  all: cbn [cascade] in Hcas; destruct Hcas as [Hp1 Hc2];
       rewrite maxoff_ptrs in Hc2; unfold page_ptrs at 2 in Hp1; unfold page_ptrs in Hc2;
       rewrite Eitems in Hp1, Hc2; cbn [map length list_remove] in Hp1, Hc2;
       change (Z.to_nat (1 - 1)) with O in Hp1; cbn [list_remove] in Hp1.
  - (* the last tuple *)
    cbn [length] in Hlen. injection Hlen as Hlen.
    destruct items; [|discriminate Hlen]. cbn [map length] in *.
    change (Z.of_nat 1 =? 1) with true in Hc2. cbv iota in Hc2. destruct Hc2 as [Hd Hr].
    cbn [cbtvacuumpage_items]. exists stats1, rel1. split; [reflexivity|].
    split; [|auto].
    unfold page_ptrs in Hp1. destruct (pd_items (BufferGetPage rel1 buf)); [reflexivity|].
    discriminate Hp1.
  - (* more tuples follow *)
    cbn [length] in Hlen. injection Hlen as Hlen. rewrite length_map in Hlen.
    replace (Z.of_nat (S (length (map strip items))) =? 1) with false in Hc2
      by (symmetry; apply Z.eqb_neq; rewrite length_map; lia).
    destruct (IH fuel rel1 (OffsetNumberNext off) (uint16 (td + 1)) stats1)
      as (stats2 & rel2 & Hrun2 & H1 & H2 & H3 & H4).
    + cbn [spine] in *. rewrite Hc2. exact Hs.
    + rewrite He1. exact Hmeta.
    + rewrite He1. exact Hex.
    + rewrite Hp1, length_map. exact Hlen.
    + rewrite Hp1. cbn [map] in Hall. apply Forall_inv_tail in Hall. exact Hall.
    + rewrite OffsetNumberNext_small by lia. unfold uint16. rewrite Z.mod_small by lia. lia.
    + unfold uint16. rewrite Z.mod_small by lia. lia.
    + unfold uint16. rewrite Z.mod_small by lia. lia.
    + exact Hfuel.
    + exists stats2, rel2. split; [exact Hrun2|]. repeat split; auto.
      intros b. rewrite H4. apply He1.
Qed.

Lemma cbtbulkdelete_single_leaf fuel stats0 cb meta leaf cache :
  let rel := mkRel [meta; leaf] cache in
  P_ISLEAF (pd_opaque leaf) = true ->
  ItemPointerIsValid (cbto_parent (pd_opaque leaf)) = false ->
  pd_items leaf <> [] ->
  Z.of_nat (length (pd_items leaf)) < 65535 ->
  (forall it, In it (pd_items leaf) -> cb (itemptr (lp_tuple it)) = true) ->
  (2 <= fuel)%nat ->
  exists stats rel',
    cbtbulkdelete fuel stats0 (Some cb) rel = Ok stats rel'
    /\ cbtm_root (metad_of rel') = InvalidBlockNumber
    /\ pd_items (BufferGetPage rel' 1) = []
    /\ P_ISDELETED (pd_opaque (BufferGetPage rel' 1)) = true.
Proof.
  intros rel Hleaf Hnop Hne Hlen Hall Hfuel.
  destruct fuel as [|fuel]; [lia|].
  assert (Hpage : BufferGetPage rel 1 = leaf) by reflexivity.
  destruct (pd_items leaf) as [|it items] eqn:Eitems; [contradiction Hne; reflexivity|].
  set (start := mkStats (tuples_removed match stats0 with
                                        | None => mkStats 0 0
                                        | Some stats => stats
                                        end) 0).
  destruct (cbtvacuumpage_items_all cb 1 (length items) (S fuel) rel 1 0 start)
    as (stats' & rel' & Hrun & H1 & H2 & H3 & H4).
  { cbn [spine]. rewrite Hpage. exact Hnop. }
  { reflexivity. }
  { reflexivity. }
  { rewrite Hpage. unfold page_ptrs. rewrite Eitems, length_map. reflexivity. }
  { rewrite Hpage. unfold page_ptrs. rewrite Eitems. apply Forall_forall.
    intros p Hp. apply in_map_iff in Hp. destruct Hp as (x & <- & Hx). apply Hall. exact Hx. }
  { reflexivity. }
  { lia. }
  { cbn [length] in Hlen. lia. }
  { exact Hfuel. }
  exists stats', rel'. split; [|auto].
  unfold cbtbulkdelete, cbtvacuumscan. cbv zeta. fold start.
  cbn [cbtvacuumscan_from].
  unfold bind at 1, get at 1.
  change (RelationGetNumberOfBlocks rel) with 2.
  change (2 <=? CBT_METAPAGE + 1) with false. cbv iota.
  change (Z.to_nat (2 - (CBT_METAPAGE + 1))) with 1%nat.
  cbn [cbtvacuumscan_pages]. unfold bind at 1. unfold bind at 1.
  unfold cbtvacuumpage. unfold bind at 1.
  rewrite cbt_get_buffer_old by (reflexivity || discriminate).
  unfold bind at 1, get at 1.
  change (BufferGetPage rel (CBT_METAPAGE + 1)) with leaf. rewrite Hleaf.
  unfold PageGetMaxOffsetNumber. rewrite Eitems. cbn [length]. rewrite Nat2Z.id.
  change (CBT_METAPAGE + 1) with 1. unfold P_FIRSTOFFSET.
  rewrite Hrun. unfold ret at 1.
  pose proof (blocks_of_exists _ _ H4) as Hnb.
  destruct fuel; cbn [cbtvacuumscan_from]; unfold bind at 1, get at 1; rewrite Hnb;
    change (RelationGetNumberOfBlocks rel) with 2; reflexivity.
Qed.

(** X26. The removal of a tuple by [cbt_delitem_vacuum] from a page that
    exists, along the chain of parent pointers above it (distinct blocks,
    each pointer naming a tuple of the next page): the tuple is gone from
    the page; if it was the only tuple, the page is flagged deleted and, when
    it has a parent pointer, the tuple that the pointer names (whichever
    child that tuple references) is removed from the page the pointer names
    in the same way, page after page while the pages empty; when the emptied
    page has no parent pointer (whether or not it is the root), the root
    pointer of the meta page is set to the invalid block number.  And
    [cbtbulkdelete], with any statistics of the caller, of all the tuples of
    a relation that is a meta page and one leaf without parent pointer
    leaves the leaf empty and flagged deleted and the meta page without
    root. *)
Theorem cbt_vacuum_page_deletion :
  (forall (chain : list (BlockNumber * OffsetNumber)) (fuel : nat) (rel : Relation)
          (buf : Buffer) (idx : OffsetNumber) (stats : CBTVacStats),
      spine rel buf chain ->
      NoDup (buf :: blocks chain) ->
      block_exists rel CBT_METAPAGE = true ->
      block_exists rel buf = true ->
      PageGetItemId (BufferGetPage rel buf) idx <> None ->
      (2 * length chain + 2 <= fuel)%nat ->
      exists stats' rel',
        cbt_delitem_vacuum fuel buf idx stats rel = Ok stats' rel'
        /\ cascade rel rel' buf idx chain)
  /\ (forall (fuel : nat) (stats0 : option CBTVacStats) (cb : ItemPointerData -> bool)
             (meta leaf : Page) (cache : option CBTMetaPageData),
        P_ISLEAF (pd_opaque leaf) = true ->
        ItemPointerIsValid (cbto_parent (pd_opaque leaf)) = false ->
        pd_items leaf <> [] ->
        Z.of_nat (length (pd_items leaf)) < 65535 ->
        (forall it, In it (pd_items leaf) -> cb (itemptr (lp_tuple it)) = true) ->
        (2 <= fuel)%nat ->
        exists stats rel',
          cbtbulkdelete fuel stats0 (Some cb) (mkRel [meta; leaf] cache) = Ok stats rel'
          /\ cbtm_root (metad_of rel') = InvalidBlockNumber
          /\ pd_items (BufferGetPage rel' 1) = []
          /\ P_ISDELETED (pd_opaque (BufferGetPage rel' 1)) = true).
Proof.
  split.
  - intros chain fuel rel buf idx stats Hs Hnd Hmeta Hex Hidx Hfuel.
    destruct (cbt_delitem_vacuum_cascade chain fuel rel buf idx stats Hs Hnd Hmeta Hex Hidx
                Hfuel) as (stats' & rel' & Hrun & Hcas & _).
    eauto.
  - intros fuel stats0 cb meta leaf cache. apply cbtbulkdelete_single_leaf.
Qed.

Lemma cbt_vacuum_page_deletion_witness :
  (exists stats' rel',
     cbt_delitem_vacuum 6 1 1 (mkStats 0 0) spine_example = Ok stats' rel'
     /\ P_ISDELETED (pd_opaque (BufferGetPage rel' 1)) = true
     /\ P_ISDELETED (pd_opaque (BufferGetPage rel' 2)) = true
     /\ page_ptrs (BufferGetPage rel' 3) = [(false, mkItemPointer 5 1)])
  /\ (exists stats rel',
        cbtbulkdelete 2 None (Some (remove_range 1 3))
          (mkRel [CBTFillMetaPage 1 1;
                  set_items fresh_root
                    (map (fun i => mkItem false (mkTuple (heap_tid i) 1)) [1; 2; 3])] None)
        = Ok stats rel'
        /\ cbtm_root (metad_of rel') = InvalidBlockNumber).
Proof.
  split.
  - destruct (proj1 cbt_vacuum_page_deletion [(2, 1); (3, 1)] 6%nat spine_example 1 1
                (mkStats 0 0)) as (stats' & rel' & Hrun & Hcas).
    + cbn [spine]. repeat split; try reflexivity; vm_compute; discriminate.
    + repeat constructor; cbn; intuition discriminate.
    + reflexivity.
    + reflexivity.
    + vm_compute. discriminate.
    + cbn. lia.
    + exists stats', rel'. split; [exact Hrun|].
      cbn [cascade] in Hcas. vm_compute in Hcas.
      destruct Hcas as (_ & H1 & _ & H2 & H3 & _).
      repeat split; assumption.
  - destruct (proj2 cbt_vacuum_page_deletion 2%nat None (remove_range 1 3)
                (CBTFillMetaPage 1 1)
                (set_items fresh_root
                   (map (fun i => mkItem false (mkTuple (heap_tid i) 1)) [1; 2; 3])) None)
      as (stats & rel' & Hrun & Hroot & _).
    + reflexivity.
    + reflexivity.
    + discriminate.
    + vm_compute. reflexivity.
    + intros it Hin. cbn in Hin. intuition (subst; reflexivity).
    + lia.
    + exists stats, rel'. split; [exact Hrun | exact Hroot].
Defined.

(** * Further properties *)

(** ** The total count *)

Lemma live_count_page_ents ent items :
  forall off,
    (forall it, In it items -> ent_weighs ent it) ->
    Z.of_nat (length (page_ents ent off items)) = live_count items.
Proof.
  induction items as [|it rest IH]; intros off Hw; [reflexivity|].
  cbn [page_ents live_count]. rewrite length_app, Nat2Z.inj_add.
  rewrite (IH (off + 1)) by (intros x Hx; apply Hw; right; exact Hx).
  destruct (Hw it (or_introl eq_refl) off) as [Hd Hl].
  destruct (lp_dead it).
  - rewrite (Hd eq_refl). reflexivity.
  - rewrite (Hl eq_refl). reflexivity.
Qed.

Lemma live_count_nonneg items :
  (forall it, In it items -> lp_dead it = false -> 0 <= childcnt (lp_tuple it)) ->
  0 <= live_count items.
Proof.
  induction items as [|it rest IH]; intros H; cbn [live_count]; [lia|].
  assert (0 <= live_count rest) by (apply IH; intros x Hx; apply H; right; exact Hx).
  destruct (lp_dead it) eqn:E; [lia|].
  specialize (H it (or_introl eq_refl) E). lia.
Qed.

Lemma cbt_find_totalcnt_from_sum items :
  forall acc, cbt_find_totalcnt_from items (uint32 acc) = uint32 (acc + live_count items).
Proof.
  induction items as [|it rest IH]; intros acc; cbn [cbt_find_totalcnt_from live_count].
  - rewrite Z.add_0_r. reflexivity.
  - unfold ItemIdIsDead. destruct (lp_dead it).
    + rewrite IH. reflexivity.
    + rewrite uint32_add_l, IH. f_equal. lia.
Qed.

(** The live entries below a counted page are as many as its live tuples
    count. *)
Lemma counted_live_count h rel blk :
  counted h rel blk = true ->
  Z.of_nat (length (live_entries h rel blk)) = live_count (pd_items (BufferGetPage rel blk)).
Proof.
  destruct h as [|h]; [discriminate|]. intros Hc.
  destruct (counted_S _ _ _ Hc) as (_ & _ & _ & Hitems).
  cbn [live_entries]. destruct (P_ISLEAF _).
  - rewrite leaf_entries_page_ents. apply live_count_page_ents.
    intros it Hin o. unfold leaf_ent. split; intros Hd; rewrite Hd; [reflexivity|].
    cbn. rewrite (Hitems it Hin Hd). reflexivity.
  - rewrite (flat_map_page_ents h rel _ 1). apply live_count_page_ents.
    intros it Hin o. unfold child_ent. split; intros Hd; rewrite Hd; [reflexivity|].
    destruct (Hitems it Hin Hd) as [_ Hcnt]. rewrite Hcnt. reflexivity.
Qed.

Lemma getroot_absent_read h rel fuel :
  cbt_tree h rel = true ->
  cbtm_root (metad_of rel) = InvalidBlockNumber ->
  cbt_getroot (S fuel) CBT_READ rel = Ok InvalidBuffer (mkRel (rd_pages rel) None).
Proof.
  destruct rel as [pages [c|]]; intros Ht Hr.
  - destruct (cbt_tree_facts _ _ Ht) as [_ _ _ Hc _].
    destruct (cache_ok_facts _ _ Hc) as (H1 & H2 & H3).
    destruct (cache_accepts (mkRel pages (Some c)) c) eqn:Ea.
    + exfalso. apply H1. rewrite (H3 eq_refl). exact Hr.
    + rewrite getroot_rejected_cache by assumption.
      apply (getroot_absent_uncached h pages fuel (cbt_tree_amcache _ _ _ Ht) Hr).
  - apply (getroot_absent_uncached h pages fuel Ht Hr).
Qed.



(** ** A scan *)

Lemma cbt_search_read_spec h rel k fuel :
  cbt_tree h rel = true ->
  1 <= k ->
  Z.of_nat (length (tree_entries h rel)) < 4294967296 ->
  (h < fuel)%nat ->
  exists c,
    match nth_error (tree_entries h rel) (Z.to_nat (k - 1)) with
    | Some e =>
        exists parents,
          cbt_search fuel k CBT_READ rel
          = Ok (mkFrame (en_blkno e) (en_offset e) (k - 1) :: parents, en_blkno e)
               (mkRel (rd_pages rel) c)
          /\ entry_at rel e
    | None =>
        exists buf, cbt_search fuel k CBT_READ rel = Ok ([], buf) (mkRel (rd_pages rel) c)
    end.
Proof.
  intros Ht Hk Hlen Hfuel. unfold tree_entries in *.
  destruct (cbtm_root (metad_of rel) =? InvalidBlockNumber) eqn:Eroot.
  - apply Z.eqb_eq in Eroot. destruct fuel as [|fuel]; [lia|].
    exists None.
    replace (nth_error [] (Z.to_nat (k - 1))) with (@None entry)
      by (destruct (Z.to_nat (k - 1)); reflexivity).
    exists InvalidBuffer. unfold cbt_search, bind at 1.
    rewrite (getroot_absent_read h) by assumption. reflexivity.
  - apply Z.eqb_neq in Eroot.
    destruct (cbt_search_from_root h rel CBT_READ fuel Ht Eroot Hfuel) as (Hc & c & Hrun).
    exists c. rewrite Hrun. clear Hrun.
    destruct rel as [pages c0]. cbn [rd_pages] in *.
    set (root := cbtm_root (metad_of (mkRel pages c0))) in *.
    pose proof (cbt_search_descend_spec h (mkRel pages c) root [] k fuel) as Hd.
    rewrite (counted_amcache h pages c c0) in Hd.
    rewrite (live_entries_amcache h pages c c0) in Hd.
    cbn [stack_count] in Hd.
    replace (k - 0 - 1) with (k - 1) in Hd by lia.
    specialize (Hd Hc ltac:(lia) ltac:(lia) ltac:(lia)).
    destruct (nth_error _ _) as [e|].
    + destruct Hd as (parents & Hs & He). exists parents. split; [exact Hs|].
      exact (entry_at_amcache pages c c0 e He).
    + exact Hd.
Qed.

Lemma cbt_first_rank h rel key fuel :
  cbt_tree h rel = true ->
  1 <= uint32 key ->
  Z.of_nat (length (tree_entries h rel)) < 4294967296 ->
  (h < fuel)%nat ->
  exists c,
    cbt_first fuel (mkScan true) false key rel
    = Ok match nth_error (tree_entries h rel) (Z.to_nat (uint32 key - 1)) with
         | Some e => (true, Some (en_tid e), mkScan false)
         | None => (false, None, mkScan true)
         end (mkRel (rd_pages rel) c).
Proof.
  intros Ht Hk Hlen Hfuel.
  destruct (cbt_search_read_spec h rel (uint32 key) fuel Ht Hk Hlen Hfuel) as [c Hs].
  exists c. unfold cbt_first. cbn [first_scan negb]. cbv iota.
  destruct (nth_error _ _) as [e|].
  - destruct Hs as (parents & Hs & Hat).
    unfold bind at 1. rewrite Hs. cbv beta iota.
    pose proof (entry_at_block _ _ Hat) as Hex. apply block_exists_iff in Hex.
    replace (BufferIsValid (en_blkno e)) with true
      by (unfold BufferIsValid, InvalidBuffer; symmetry; apply negb_true_iff, Z.eqb_neq; lia).
    cbn [negb]. mred. cbn [cbts_offset].
    destruct Hat as [_ [cnt Hitem]].
    destruct rel as [pages c0]. cbn [rd_pages].
    rewrite (BufferGetPage_amcache pages c c0).
    unfold PageGetItem. rewrite Hitem. reflexivity.
  - destruct Hs as (buf & Hs). unfold bind at 1. rewrite Hs. reflexivity.
Qed.




(** ** Errors of the root lookup *)

Lemma getroot_not_cbtree fuel acc pages :
  let rel := mkRel pages None in
  block_exists rel CBT_METAPAGE = true ->
  P_ISMETA (pd_opaque (BufferGetPage rel CBT_METAPAGE)) = false
  \/ cbtm_magic (metad_of rel) <> CBT_MAGIC ->
  cbt_getroot (S fuel) acc rel = Err ERR_not_cbtree rel.
Proof.
  intros rel Hex Hbad.
  cbn [cbt_getroot]. mred. unfold rel at 1. cbn [rd_amcache]. cbv beta iota.
  rewrite cbt_get_buffer_old by (assumption || discriminate).
  cbv beta iota. fold (metad_of rel).
  replace (negb (P_ISMETA (pd_opaque (BufferGetPage rel CBT_METAPAGE)))
           || negb (cbtm_magic (metad_of rel) =? CBT_MAGIC)) with true; [reflexivity|].
  symmetry. apply orb_true_iff. destruct Hbad as [H|H].
  - left. rewrite H. reflexivity.
  - right. apply negb_true_iff, Z.eqb_neq. exact H.
Qed.

(** X3.  On a relation without cached meta record whose block 0 does not carry
    the meta flag or the magic number of a counted B-tree, an insert, a scan
    and the total count stop with "index is not a cbtree" and leave the
    relation as it was. *)
Theorem cbt_not_a_cbtree (BLCKSZ : Z) (fuel : nat) (pages : list Page)
  (pos key : Z) (tid : ItemPointerData) :
  let rel := mkRel pages None in
  block_exists rel CBT_METAPAGE = true ->
  P_ISMETA (pd_opaque (BufferGetPage rel CBT_METAPAGE)) = false
  \/ cbtm_magic (metad_of rel) <> CBT_MAGIC ->
  cbtinsert BLCKSZ (S fuel) pos tid rel = Err ERR_not_cbtree rel
  /\ cbtgettuple (S fuel) cbtbeginscan false key rel = Err ERR_not_cbtree rel
  /\ cbt_find_totalcnt (S fuel) rel = Err ERR_not_cbtree rel.
Proof.
  intros rel Hex Hbad.
  pose proof (fun acc => getroot_not_cbtree fuel acc pages Hex Hbad) as Hget.
  fold rel in Hget.
  split; [|split].
  - unfold cbtinsert, cbt_insert_tuple, cbt_search. unfold bind. rewrite Hget. reflexivity.
  - unfold cbtgettuple, cbtbeginscan, cbt_first, cbt_search. cbn [first_scan negb]. cbv iota.
    unfold bind. rewrite Hget. reflexivity.
  - unfold cbt_find_totalcnt. unfold bind. rewrite Hget. reflexivity.
Qed.

Lemma cbt_not_a_cbtree_witness :
  cbtinsert 8192 1 1 (heap_tid 1) (mkRel [zero_page] None)
  = Err ERR_not_cbtree (mkRel [zero_page] None).
Proof.
  apply (cbt_not_a_cbtree 8192 0 [zero_page] 1 1 (heap_tid 1)).
  - reflexivity.
  - left. reflexivity.
Defined.

Lemma cbt_getroot_live_walk dead :
  forall fuel rel blk last,
    right_walk rel blk dead last ->
    block_exists rel last = true -> last <> InvalidBlockNumber ->
    P_IGNORE (pd_opaque (BufferGetPage rel last)) = false
    \/ P_RIGHTMOST (pd_opaque (BufferGetPage rel last)) = true ->
    (length dead < fuel)%nat ->
    cbt_getroot_live fuel blk rel
    = if P_IGNORE (pd_opaque (BufferGetPage rel last)) then Err ERR_no_live_root rel
      else Ok (last, last) rel.
Proof.
  induction dead as [|d rest IH]; intros fuel rel blk last Hw Hex Hl Hend Hfuel.
  - cbn [right_walk] in Hw. subst blk. destruct fuel as [|fuel]; [cbn in Hfuel; lia|].
    cbn [cbt_getroot_live]. unfold bind at 1. rewrite ReadBuffer_old by assumption.
    mred. destruct (P_IGNORE _); cbn [negb]; cbv iota; [|reflexivity].
    destruct Hend as [H|H]; [discriminate H|]. rewrite H. reflexivity.
  - cbn [right_walk] in Hw. destruct Hw as (-> & H1 & H2 & H3 & H4 & H5).
    destruct fuel as [|fuel]; [cbn in Hfuel; lia|].
    cbn [cbt_getroot_live]. unfold bind at 1. rewrite ReadBuffer_old by assumption.
    mred. rewrite H3, H4. cbn [negb]. cbv iota.
    apply IH; try assumption. cbn in Hfuel. lia.
Qed.

Lemma right_walk_amcache pages c c' dead :
  forall blk last,
    right_walk (mkRel pages c) blk dead last -> right_walk (mkRel pages c') blk dead last.
Proof.
  induction dead as [|d rest IH]; intros blk last H; [exact H|].
  cbn [right_walk] in *. destruct H as (H0 & H1 & H2 & H3 & H4 & H5).
  repeat split; try assumption. apply IH. exact H5.
Qed.

(** X4.  The root lookup on a relation without cached meta record, whose meta
    page is that of a counted B-tree and names a root page: [cbt_getroot]
    caches the meta record and steps right over deleted and half-dead pages;
    at the first live page it returns that page if its level is the one the
    meta page records and stops with "root page has level ..." otherwise; at
    a dead page without right sibling it stops with "no live root page
    found".  The pages are only read. *)
Theorem cbt_getroot_walks_right (fuel : nat) (acc : access) (pages : list Page)
  (dead : list BlockNumber) (last : BlockNumber) :
  let rel := mkRel pages None in
  let metad := metad_of rel in
  let lopaque := pd_opaque (BufferGetPage rel last) in
  block_exists rel CBT_METAPAGE = true ->
  P_ISMETA (pd_opaque (BufferGetPage rel CBT_METAPAGE)) = true ->
  cbtm_magic metad = CBT_MAGIC ->
  cbtm_root metad <> InvalidBlockNumber ->
  right_walk rel (cbtm_root metad) dead last ->
  block_exists rel last = true -> last <> InvalidBlockNumber ->
  P_IGNORE lopaque = false \/ P_RIGHTMOST lopaque = true ->
  (length dead + 1 < fuel)%nat ->
  cbt_getroot fuel acc rel
  = if P_IGNORE lopaque then Err ERR_no_live_root (mkRel pages (Some metad))
    else if level lopaque =? cbtm_level metad then Ok last (mkRel pages (Some metad))
         else Err ERR_root_level (mkRel pages (Some metad)).
Proof.
  intros rel metad lopaque Hex Hflag Hmagic Hroot Hwalk Hlex Hl Hend Hfuel.
  destruct fuel as [|fuel]; [lia|].
  cbn [cbt_getroot]. mred. unfold rel at 1. cbn [rd_amcache]. cbv beta iota.
  rewrite cbt_get_buffer_old by (assumption || discriminate).
  cbv beta iota. fold (metad_of rel). fold metad. rewrite Hflag, Hmagic.
  change (negb true || negb (CBT_MAGIC =? CBT_MAGIC)) with false. cbv iota.
  replace (cbtm_root metad =? InvalidBlockNumber) with false
    by (symmetry; apply Z.eqb_neq; exact Hroot).
  cbv beta iota. unfold set_amcache. cbn [rd_pages rel].
  set (rel1 := mkRel pages (Some metad)).
  assert (Hw1 : right_walk rel1 (cbtm_root metad) dead last)
    by (apply (right_walk_amcache pages None); exact Hwalk).
  rewrite (cbt_getroot_live_walk dead fuel rel1 _ last Hw1 Hlex Hl Hend) by lia.
  change (BufferGetPage rel1 last) with (BufferGetPage rel last). fold lopaque.
  destruct (P_IGNORE lopaque) eqn:Eig; cbv iota; [reflexivity|].
  cbv beta iota. change (BufferGetPage rel1 last) with (BufferGetPage rel last).
  fold lopaque. destruct (level lopaque =? cbtm_level metad); reflexivity.
Qed.

Lemma cbt_getroot_walks_right_witness :
  cbt_getroot 3 CBT_READ dead_root_example
  = Ok 2 (mkRel (rd_pages dead_root_example) (Some (mkMeta CBT_MAGIC 1 1))).
Proof.
  assert (H := cbt_getroot_walks_right 3 CBT_READ (rd_pages dead_root_example) [1] 2).
  cbv zeta in H. apply H; clear H.
  - reflexivity.
  - reflexivity.
  - reflexivity.
  - vm_compute. discriminate.
  - cbn [right_walk]. repeat split; try reflexivity; vm_compute; discriminate.
  - reflexivity.
  - vm_compute. discriminate.
  - left. reflexivity.
  - cbn. lia.
Defined.

(** ** The sweep of a root leaf *)

Lemma stats_in_use stats0 :
  tuples_removed match stats0 with
                 | None => mkStats 0 0
                 | Some stats => stats
                 end = removed_before stats0.
Proof. destruct stats0; reflexivity. Qed.

Lemma list_remove_app {A : Type} (l1 : list A) x l2 :
  list_remove (length l1) (l1 ++ x :: l2) = l1 ++ l2.
Proof. induction l1 as [|y l1 IH]; cbn; [reflexivity|]. rewrite IH. reflexivity. Qed.

Lemma nth_error_app_mid {A : Type} (l1 : list A) x l2 :
  nth_error (l1 ++ x :: l2) (length l1) = Some x.
Proof. induction l1 as [|y l1 IH]; cbn; [reflexivity | exact IH]. Qed.

Lemma set_items_same p : set_items p (pd_items p) = p.
Proof. destruct p. reflexivity. Qed.

Section RootLeaf.
Variables (cb : ItemPointerData -> bool) (meta leaf : Page) (cache : option CBTMetaPageData).
Hypothesis Hparent : ItemPointerIsValid (cbto_parent (pd_opaque leaf)) = false.

Let during (items : list ItemIdData) : Relation := mkRel [meta; set_items leaf items] cache.

Lemma delitem_root_leaf fuel kept it todo stats :
  cbt_delitem_vacuum (S (S fuel)) 1 (Z.of_nat (length kept) + 1) stats
    (during (kept ++ it :: todo))
  = match kept ++ todo with
    | [] => Ok (mkStats (tuples_removed stats + 1) (pages_deleted stats + 1))
               (mkRel [rootless_meta meta; swept_empty leaf] cache)
    | _ => Ok (mkStats (tuples_removed stats + 1) (pages_deleted stats))
              (during (kept ++ todo))
    end.
Proof.
  assert (Hred : forall r, cbt_reduce_parent (S fuel) (cbto_parent (pd_opaque leaf)) (-1) r
                           = Ok tt r)
    by (intros r; cbn [cbt_reduce_parent]; rewrite Hparent; reflexivity).
  assert (Hpage : forall l, BufferGetPage (during l) 1 = set_items leaf l) by reflexivity.
  assert (Hwrite : forall l l', write_page 1 (set_items (set_items leaf l) l') (during l)
                                = during l') by reflexivity.
  cbn [cbt_delitem_vacuum]. mred. rewrite !Hpage.
  cbn [set_items pd_opaque]. rewrite Hred. cbv beta iota. rewrite !Hpage.
  unfold PageIndexTupleDelete, PageGetMaxOffsetNumber.
  change (pd_items (set_items leaf (kept ++ it :: todo))) with (kept ++ it :: todo).
  rewrite length_app. cbn [length].
  replace ((Z.of_nat (length kept) + 1 <=? 0)
           || (Z.of_nat (length kept + S (length todo)) <? Z.of_nat (length kept) + 1))
    with false
    by (symmetry; apply orb_false_iff; split; [apply Z.leb_gt | apply Z.ltb_ge]; lia).
  replace (Z.to_nat (Z.of_nat (length kept) + 1 - 1)) with (length kept) by lia.
  rewrite list_remove_app. cbv beta iota. rewrite Hwrite.
  change (pd_items (set_items (set_items leaf (kept ++ it :: todo)) (kept ++ todo)))
    with (kept ++ todo).
  destruct (kept ++ todo) as [|x l] eqn:E.
  - cbn [length Z.of_nat Z.eqb]. cbv iota.
    cbn [cbt_delpage_vacuum]. mred. rewrite !Hpage.
    cbn [set_items pd_opaque]. rewrite Hparent. cbn [negb]. cbv iota.
    reflexivity.
  - replace (Z.of_nat (length (x :: l)) =? 0) with false
      by (symmetry; apply Z.eqb_neq; cbn [length]; lia).
    reflexivity.
Qed.

Lemma cbtvacuumpage_items_root_leaf fuel :
  forall todo kept td stats,
    0 <= td ->
    td + Z.of_nat (length kept) + Z.of_nat (length todo) < 65535 ->
    cbtvacuumpage_items (S (S fuel)) (length todo) cb 1
      (Z.of_nat (length kept) + td + 1) td stats (during (kept ++ todo))
    = let final := kept ++ unselected cb todo in
      let removed := tuples_removed stats
                     + Z.of_nat (length todo - length (unselected cb todo)) in
      match final, todo with
      | [], _ :: _ => Ok (mkStats removed (pages_deleted stats + 1))
                        (mkRel [rootless_meta meta; swept_empty leaf] cache)
      | _, _ => Ok (mkStats removed (pages_deleted stats)) (during final)
      end.
Proof.
  induction todo as [|it todo IH]; intros kept td stats Htd Hbound.
  - cbn [length cbtvacuumpage_items unselected filter Nat.sub Z.of_nat]. cbv zeta.
    rewrite app_nil_r. destruct stats as [r d]. cbn [tuples_removed pages_deleted].
    replace (r + 0) with r by lia. destruct kept; reflexivity.
  - cbn [length cbtvacuumpage_items]. unfold bind at 1, get at 1.
    change (BufferGetPage (during (kept ++ it :: todo)) 1)
      with (set_items leaf (kept ++ it :: todo)).
    cbn [length] in Hbound. cbv beta iota.
    replace (uint16 (Z.of_nat (length kept) + td + 1 - td)) with (Z.of_nat (length kept) + 1)
      by (unfold uint16; rewrite Z.mod_small; lia).
    unfold PageGetItem, PageGetItemId, PageGetMaxOffsetNumber. cbn [set_items pd_items].
    rewrite length_app. cbn [length].
    replace ((1 <=? Z.of_nat (length kept) + 1)
             && (Z.of_nat (length kept) + 1 <=? Z.of_nat (length kept + S (length todo))))
      with true by (symmetry; apply andb_true_iff; split; apply Z.leb_le; lia).
    replace (Z.to_nat (Z.of_nat (length kept) + 1 - 1)) with (length kept) by lia.
    rewrite nth_error_app_mid. cbn [option_map].
    rewrite OffsetNumberNext_small by lia.
    cbn [unselected filter]. fold (unselected cb todo).
    assert (Hfl : (length (unselected cb todo) <= length todo)%nat)
      by apply filter_length_le.
    destruct (cb (itemptr (lp_tuple it))) eqn:Ecb; cbn [negb].
    + unfold bind at 1. rewrite delitem_root_leaf.
      destruct (kept ++ todo) as [|x l] eqn:E.
      * apply app_eq_nil in E. destruct E as [-> ->].
        cbn [cbtvacuumpage_items length app unselected filter]. cbv zeta.
        unfold ret. reflexivity.
      * rewrite <- E.
        replace (uint16 (td + 1)) with (td + 1) by (unfold uint16; rewrite Z.mod_small; lia).
        replace (Z.of_nat (length kept) + td + 1 + 1)
          with (Z.of_nat (length kept) + (td + 1) + 1) by lia.
        rewrite IH by lia. cbv zeta. cbn [tuples_removed pages_deleted].
        replace (tuples_removed stats + 1
                 + Z.of_nat (length todo - length (unselected cb todo)))
          with (tuples_removed stats
                + Z.of_nat (S (length todo) - length (unselected cb todo))) by lia.
        destruct (kept ++ unselected cb todo) as [|y f] eqn:Ef; [|reflexivity].
        destruct todo as [|t todo']; [|reflexivity].
        apply app_eq_nil in Ef. destruct Ef as [-> _]. discriminate E.
    + replace (Z.of_nat (length kept) + td + 1 + 1)
        with (Z.of_nat (length (kept ++ [it])) + td + 1)
        by (rewrite length_app; cbn [length]; lia).
      replace (kept ++ it :: todo) with ((kept ++ [it]) ++ todo)
        by (rewrite <- app_assoc; reflexivity).
      rewrite IH by (rewrite ?length_app; cbn [length]; lia). cbv zeta.
      rewrite <- app_assoc. cbn [app length].
      replace (S (length todo) - S (length (unselected cb todo)))%nat
        with (length todo - length (unselected cb todo))%nat by lia.
      destruct (kept ++ it :: unselected cb todo) as [|y f] eqn:Ef.
      * apply app_eq_nil in Ef. destruct Ef as [_ Ef]. discriminate Ef.
      * destruct todo; reflexivity.
Qed.

End RootLeaf.

(** X5.  The sweep of a relation that is a meta page and one leaf without
    parent pointer, of fewer than 65535 line pointers, removes exactly the
    line pointers whose heap pointer the callback selects and keeps the
    others in their order.  The count of removed tuples it returns is the
    count in the statistics of the caller (zero when the caller passes none)
    plus the number removed.  If a line pointer was removed and none is
    left, the leaf is flagged deleted, the root pointer of the meta page is
    the invalid block number while its level field keeps its value, and one
    deleted page is reported; otherwise the meta page is untouched and no
    deleted page is reported. *)
Theorem cbtbulkdelete_root_leaf (fuel : nat) (stats0 : option CBTVacStats)
  (cb : ItemPointerData -> bool) (meta leaf : Page) (cache : option CBTMetaPageData) :
  P_ISLEAF (pd_opaque leaf) = true ->
  ItemPointerIsValid (cbto_parent (pd_opaque leaf)) = false ->
  Z.of_nat (length (pd_items leaf)) < 65535 ->
  (2 <= fuel)%nat ->
  cbtbulkdelete fuel stats0 (Some cb) (mkRel [meta; leaf] cache)
  = let kept := unselected cb (pd_items leaf) in
    let removed := removed_before stats0
                   + Z.of_nat (length (pd_items leaf) - length kept) in
    match kept, pd_items leaf with
    | [], _ :: _ => Ok (mkStats removed 1)
                      (mkRel [rootless_meta meta; swept_empty leaf] cache)
    | _, _ => Ok (mkStats removed 0) (mkRel [meta; set_items leaf kept] cache)
    end.
Proof.
  intros Hleaf Hparent Hlen Hfuel.
  destruct fuel as [|[|fuel]]; try lia.
  pose proof (cbtvacuumpage_items_root_leaf cb meta leaf cache Hparent fuel
                (pd_items leaf) [] 0 (mkStats (removed_before stats0) 0)
                ltac:(lia) ltac:(cbn [length]; lia))
    as Hloop.
  cbv zeta in Hloop. cbn [app length Z.of_nat tuples_removed pages_deleted] in Hloop.
  rewrite set_items_same in Hloop. cbv zeta.
  unfold cbtbulkdelete, cbtvacuumscan. cbv zeta. rewrite stats_in_use.
  cbn [cbtvacuumscan_from].
  unfold bind at 1, get at 1.
  change (RelationGetNumberOfBlocks (mkRel [meta; leaf] cache)) with 2.
  change (2 <=? CBT_METAPAGE + 1) with false. cbv iota.
  change (Z.to_nat (2 - (CBT_METAPAGE + 1))) with 1%nat.
  cbn [cbtvacuumscan_pages]. unfold bind at 1. unfold bind at 1.
  unfold cbtvacuumpage. unfold bind at 1.
  rewrite cbt_get_buffer_old by (reflexivity || discriminate).
  unfold bind at 1, get at 1.
  change (BufferGetPage (mkRel [meta; leaf] cache) (CBT_METAPAGE + 1)) with leaf.
  rewrite Hleaf. unfold PageGetMaxOffsetNumber. rewrite Nat2Z.id.
  change (CBT_METAPAGE + 1) with 1. unfold P_FIRSTOFFSET.
  change (0 + 0 + 1) with 1 in Hloop. rewrite Hloop. clear Hloop.
  replace (0 + 1) with 1 by lia.
  assert (Hend : forall stats r,
            RelationGetNumberOfBlocks r = 2 ->
            cbtvacuumscan_from (S (S fuel)) (S fuel) (Some cb) 2 stats r = Ok stats r).
  { intros stats r Hr. cbn [cbtvacuumscan_from]. unfold bind at 1, get at 1.
    rewrite Hr. reflexivity. }
  destruct (unselected cb (pd_items leaf)) as [|k ks];
    destruct (pd_items leaf) as [|it items]; unfold ret at 1; apply Hend; reflexivity.
Qed.

Lemma cbtbulkdelete_root_leaf_witness :
  cbtbulkdelete 2 (Some (mkStats 5 1)) (Some (remove_range 2 3))
    (mkRel [CBTFillMetaPage 1 1;
            set_items fresh_root
              (map (fun i => mkItem false (mkTuple (heap_tid i) 1)) [1; 2; 3; 4])] None)
  = Ok (mkStats 7 0)
       (mkRel [CBTFillMetaPage 1 1;
               set_items fresh_root
                 (map (fun i => mkItem false (mkTuple (heap_tid i) 1)) [1; 4])] None).
Proof.
  assert (H := cbtbulkdelete_root_leaf 2 (Some (mkStats 5 1)) (remove_range 2 3)
                 (CBTFillMetaPage 1 1)
                 (set_items fresh_root
                    (map (fun i => mkItem false (mkTuple (heap_tid i) 1)) [1; 2; 3; 4])) None).
  apply H.
  - reflexivity.
  - reflexivity.
  - vm_compute. reflexivity.
  - lia.
Defined.

(** ** A sweep that selects nothing *)

Lemma BufferGetPage_In rel blk :
  block_exists rel blk = true -> In (BufferGetPage rel blk) (rd_pages rel).
Proof.
  intros H. unfold BufferGetPage. rewrite H. apply nth_In.
  apply block_exists_iff in H. lia.
Qed.

Lemma cbtvacuumpage_items_none fuel cb buf stats rel :
  Z.of_nat (length (pd_items (BufferGetPage rel buf))) < 65535 ->
  (forall it, In it (pd_items (BufferGetPage rel buf)) -> cb (itemptr (lp_tuple it)) = false) ->
  forall n off,
    1 <= off ->
    off + Z.of_nat n = Z.of_nat (length (pd_items (BufferGetPage rel buf))) + 1 ->
    cbtvacuumpage_items fuel n cb buf off 0 stats rel = Ok stats rel.
Proof.
  intros Hlen Hall. induction n as [|n IH]; intros off Hoff Hsum; [reflexivity|].
  cbn [cbtvacuumpage_items]. unfold bind at 1, get at 1.
  replace (uint16 (off - 0)) with off by (unfold uint16; rewrite Z.mod_small; lia).
  unfold PageGetItem, PageGetItemId, PageGetMaxOffsetNumber.
  replace ((1 <=? off) && (off <=? Z.of_nat (length (pd_items (BufferGetPage rel buf)))))
    with true by (symmetry; apply andb_true_iff; split; apply Z.leb_le; lia).
  destruct (nth_error (pd_items (BufferGetPage rel buf)) (Z.to_nat (off - 1))) as [it|] eqn:E.
  - cbn [option_map]. rewrite (Hall it (nth_error_In _ _ E)).
    rewrite OffsetNumberNext_small by lia. apply IH; lia.
  - apply nth_error_None in E. lia.
Qed.

Lemma cbtvacuumpage_none fuel callback blkno stats rel :
  selects_nothing callback rel ->
  1 <= blkno ->
  block_exists rel blkno = true -> blkno <> InvalidBlockNumber ->
  cbtvacuumpage fuel callback blkno stats rel = Ok stats rel.
Proof.
  intros Hsel H1 Hex Hb. unfold cbtvacuumpage. unfold bind at 1.
  rewrite cbt_get_buffer_old by assumption. unfold bind at 1, get at 1.
  destruct (P_ISLEAF _) eqn:Eleaf; [|reflexivity].
  destruct callback as [cb|]; [|reflexivity].
  assert (Hrange : 1 <= blkno < RelationGetNumberOfBlocks rel)
    by (apply block_exists_iff in Hex; unfold RelationGetNumberOfBlocks; lia).
  destruct (Hsel blkno Hrange Eleaf) as [Hlen Hall].
  apply cbtvacuumpage_items_none; try assumption; unfold P_FIRSTOFFSET; try lia.
  unfold PageGetMaxOffsetNumber. lia.
Qed.

Lemma cbtvacuumscan_pages_none fuel callback stats rel :
  selects_nothing callback rel ->
  RelationGetNumberOfBlocks rel <= InvalidBlockNumber ->
  forall n blkno,
    1 <= blkno -> blkno + Z.of_nat n <= RelationGetNumberOfBlocks rel ->
    cbtvacuumscan_pages fuel n callback blkno stats rel = Ok stats rel.
Proof.
  intros Hsel Hmax. induction n as [|n IH]; intros blkno H0 Hn; [reflexivity|].
  cbn [cbtvacuumscan_pages]. unfold bind at 1.
  rewrite cbtvacuumpage_none; try assumption.
  - apply IH; lia.
  - apply block_exists_iff. unfold RelationGetNumberOfBlocks in *. lia.
  - unfold InvalidBlockNumber in *. lia.
Qed.

(** X6.  A sweep without callback, or with a callback that selects no line
    pointer of any leaf page on the blocks after the meta page (each such
    leaf holding fewer than 65535 line pointers), of a relation of at most
    2^32 - 1 blocks removes nothing: it leaves every page and the cached
    meta record as they were, and returns the count of removed tuples that
    the statistics of the caller hold (zero when the caller passes none)
    and zero deleted pages. *)
Theorem cbtbulkdelete_selects_nothing (fuel : nat) (stats0 : option CBTVacStats)
  (callback : option (ItemPointerData -> bool)) (rel : Relation) :
  selects_nothing callback rel ->
  RelationGetNumberOfBlocks rel <= InvalidBlockNumber ->
  (1 <= fuel)%nat ->
  cbtbulkdelete fuel stats0 callback rel = Ok (mkStats (removed_before stats0) 0) rel.
Proof.
  intros Hsel Hmax Hfuel. destruct fuel as [|fuel]; [lia|].
  unfold cbtbulkdelete, cbtvacuumscan. cbv zeta. rewrite stats_in_use.
  cbn [cbtvacuumscan_from].
  unfold bind at 1, get at 1.
  destruct (RelationGetNumberOfBlocks rel <=? CBT_METAPAGE + 1) eqn:E; [reflexivity|].
  apply Z.leb_gt in E. unfold bind at 1.
  rewrite cbtvacuumscan_pages_none; try assumption; unfold CBT_METAPAGE in *; try lia.
  destruct fuel; cbn [cbtvacuumscan_from]; unfold bind at 1, get at 1;
    rewrite Z.leb_refl; reflexivity.
Qed.

Lemma cbtbulkdelete_selects_nothing_witness :
  cbtbulkdelete 1 (Some (mkStats 4 2)) (Some (remove_range 7 9)) two_leaf_example
  = Ok (mkStats 4 0) two_leaf_example.
Proof.
  apply (cbtbulkdelete_selects_nothing 1 (Some (mkStats 4 2)) (Some (remove_range 7 9))
           two_leaf_example).
  - intros blk Hblk _.
    change (RelationGetNumberOfBlocks two_leaf_example) with 4 in Hblk.
    assert (Hcases : blk = 1 \/ blk = 2 \/ blk = 3) by lia.
    destruct Hcases as [-> | [-> | ->]];
      (split; [vm_compute; reflexivity
              | intros it Hit; vm_compute in Hit;
                repeat (destruct Hit as [<- | Hit]; [reflexivity|]); contradiction]).
  - vm_compute. discriminate.
  - lia.
Defined.

(** ** Insertion into a root leaf with room *)

Lemma search_in_page_records blk stack pos :
  forall items off,
    forallb record_item items = true ->
    1 <= off -> off + Z.of_nat (length items) <= 65535 ->
    cbt_search_in_page_from items off (off + Z.of_nat (length items) - 1) (off - 1) pos
      blk stack
    = if (pos <=? off + Z.of_nat (length items) - 1) && negb (length items =? 0)%nat
      then mkFrame blk (Z.max off pos) (Z.max off pos - 1) :: stack
      else [].
Proof.
  induction items as [|it rest IH]; intros off Hrec Hoff Hlen.
  - cbn. rewrite andb_false_r. reflexivity.
  - cbn [forallb] in Hrec. apply andb_true_iff in Hrec. destruct Hrec as [Hit Hrest].
    unfold record_item in Hit. apply andb_true_iff in Hit. destruct Hit as [Hlive Hone].
    apply negb_true_iff in Hlive. apply Z.eqb_eq in Hone.
    cbn [cbt_search_in_page_from]. unfold ItemIdIsDead. rewrite Hlive, Hone.
    cbn [negb andb]. 
    assert (Hl : Z.of_nat (length (it :: rest)) = 1 + Z.of_nat (length rest))
      by (cbn [length]; lia).
    rewrite Hl in *.
    replace (uint32 (off - 1 + 1)) with off by (rewrite uint32_small; lia).
    replace (uint32 (off - 1)) with (off - 1) by (rewrite uint32_small; lia).
    change (length (it :: rest) =? 0)%nat with false. cbn [negb]. rewrite andb_true_r.
    destruct (pos <=? off) eqn:Epos.
    + apply Z.leb_le in Epos.
      replace (pos <=? off + (1 + Z.of_nat (length rest)) - 1) with true
        by (symmetry; apply Z.leb_le; lia).
      replace (Z.max off pos) with off by lia. reflexivity.
    + apply Z.leb_gt in Epos.
      destruct rest as [|it' rest'].
      * change (Z.of_nat (length (@nil ItemIdData))) with 0.
        replace (off =? off + (1 + 0) - 1) with true by (symmetry; apply Z.eqb_eq; lia).
        replace (pos <=? off + (1 + 0) - 1) with false by (symmetry; apply Z.leb_gt; lia).
        reflexivity.
      * replace (off =? off + (1 + Z.of_nat (length (it' :: rest'))) - 1) with false
          by (symmetry; apply Z.eqb_neq; cbn [length]; lia).
        rewrite OffsetNumberNext_small by lia.
        replace (off + (1 + Z.of_nat (length (it' :: rest'))) - 1)
          with (off + 1 + Z.of_nat (length (it' :: rest')) - 1) by lia.
        replace off with (off + 1 - 1) at 3 by lia.
        rewrite IH by (assumption || lia).
        change (length (it' :: rest') =? 0)%nat with false. cbn [negb]. rewrite andb_true_r.
        replace (Z.max (off + 1) pos) with (Z.max off pos) by lia. reflexivity.
Qed.

Lemma cbt_search_descend_records fuel rel blk pos :
  P_ISLEAF (pd_opaque (BufferGetPage rel blk)) = true ->
  forallb record_item (pd_items (BufferGetPage rel blk)) = true ->
  Z.of_nat (length (pd_items (BufferGetPage rel blk))) < 65535 ->
  cbt_search_descend (S fuel) pos blk [] rel
  = Ok (if (pos <=? Z.of_nat (length (pd_items (BufferGetPage rel blk))))
           && negb (length (pd_items (BufferGetPage rel blk)) =? 0)%nat
        then [mkFrame blk (Z.max 1 pos) (Z.max 1 pos - 1)] else [], blk) rel.
Proof.
  intros Hleaf Hrec Hlen. cbn [cbt_search_descend]. mred.
  unfold cbt_search_in_page, PageGetMaxOffsetNumber, P_FIRSTOFFSET, BufferGetBlockNumber.
  destruct (pd_items (BufferGetPage rel blk)) as [|it items] eqn:Ei.
  - cbn. rewrite andb_false_r. reflexivity.
  - replace (Z.of_nat (length (it :: items)) <? 1) with false
      by (symmetry; apply Z.ltb_ge; cbn [length]; lia).
    assert (Hs := search_in_page_records blk [] pos (it :: items) 1 Hrec).
    replace (1 + Z.of_nat (length (it :: items)) - 1)
      with (Z.of_nat (length (it :: items))) in Hs by lia.
    change (1 - 1) with 0 in Hs. rewrite Hs by lia.
    destruct ((pos <=? Z.of_nat (length (it :: items)))
              && negb (length (it :: items) =? 0)%nat); [|reflexivity].
    rewrite Hleaf. reflexivity.
Qed.

Lemma root_leaf_of_records_facts rel :
  root_leaf_of_records rel = true ->
  cbt_tree 1 rel = true
  /\ cbtm_root (metad_of rel) <> InvalidBlockNumber
  /\ P_ISLEAF (pd_opaque (BufferGetPage rel (cbtm_root (metad_of rel)))) = true
  /\ forallb record_item (pd_items (BufferGetPage rel (cbtm_root (metad_of rel)))) = true
  /\ block_exists rel (cbtm_root (metad_of rel)) = true
  /\ Z.of_nat (length (pd_items (BufferGetPage rel (cbtm_root (metad_of rel))))) < 65535.
Proof.
  unfold root_leaf_of_records. intros H.
  apply andb_true_iff in H. destruct H as [H H4].
  apply andb_true_iff in H. destruct H as [H H3].
  apply andb_true_iff in H. destruct H as [H1 H2].
  apply negb_true_iff, Z.eqb_neq in H2.
  destruct (cbt_tree_facts _ _ H1) as [_ _ _ _ Hroot].
  destruct (Hroot H2) as (_ & _ & Hc).
  destruct (counted_S _ _ _ Hc) as (Hex & _ & Hmax & _).
  repeat split; assumption.
Qed.

Lemma cbt_tree_cache_meta h pages c0 :
  cbt_tree h (mkRel pages c0) = true ->
  cbtm_root (metad_of (mkRel pages c0)) <> InvalidBlockNumber ->
  cbt_tree h (mkRel pages (Some (metad_of (mkRel pages c0)))) = true.
Proof.
  intros Ht Hr. pose proof (cbt_tree_amcache _ _ _ Ht) as Hn.
  destruct (cbt_tree_facts _ _ Ht) as [_ _ _ _ Hroot].
  destruct (Hroot Hr) as (_ & _ & Hc).
  assert (Hex : block_exists (mkRel pages c0) (cbtm_root (metad_of (mkRel pages c0))) = true).
  { destruct h as [|h']; [discriminate Hc|]. apply (counted_S _ _ _ Hc). }
  unfold cbt_tree in *.
  apply andb_true_iff in Hn. destruct Hn as [Hn H5].
  apply andb_true_iff in Hn. destruct Hn as [Hn H4].
  change (RelationGetNumberOfBlocks (mkRel pages (Some (metad_of (mkRel pages c0)))))
    with (RelationGetNumberOfBlocks (mkRel pages None)).
  change (metad_of (mkRel pages (Some (metad_of (mkRel pages c0)))))
    with (metad_of (mkRel pages None)).
  rewrite !(BufferGetPage_amcache pages (Some (metad_of (mkRel pages c0))) None).
  rewrite (counted_amcache h pages (Some (metad_of (mkRel pages c0))) None).
  rewrite Hn, H5. cbn [andb]. rewrite andb_true_r.
  unfold cache_ok. cbn [rd_amcache].
  change (block_exists (mkRel pages (Some (metad_of (mkRel pages c0)))))
    with (block_exists (mkRel pages c0)).
  change (metad_of (mkRel pages (Some (metad_of (mkRel pages c0)))))
    with (metad_of (mkRel pages c0)).
  rewrite Hex, Z.eqb_refl, orb_true_r.
  apply Z.eqb_neq in Hr. rewrite Hr. reflexivity.
Qed.

Lemma getroot_present_tree h rel fuel :
  cbt_tree h rel = true ->
  cbtm_root (metad_of rel) <> InvalidBlockNumber ->
  exists c,
    cbt_tree h (mkRel (rd_pages rel) c) = true
    /\ forall acc, cbt_getroot (S (S fuel)) acc rel
                   = Ok (cbtm_root (metad_of rel)) (mkRel (rd_pages rel) c).
Proof.
  destruct rel as [pages [c|]]; intros Ht Hr; cbn [rd_pages].
  - destruct (cbt_tree_facts _ _ Ht) as [_ _ _ Hc _].
    destruct (cache_ok_facts _ _ Hc) as (H1 & H2 & H3).
    destruct (cache_accepts (mkRel pages (Some c)) c) eqn:Ea.
    + exists (Some c). split; [exact Ht|]. intros acc.
      rewrite getroot_accepted_cache by assumption.
      rewrite (H3 eq_refl). reflexivity.
    + exists (Some (metad_of (mkRel pages (Some c)))).
      split; [apply cbt_tree_cache_meta; assumption|]. intros acc.
      rewrite getroot_rejected_cache by assumption.
      rewrite (getroot_uncached h) by (eauto using cbt_tree_amcache). reflexivity.
  - exists (Some (metad_of (mkRel pages None))).
    split; [apply cbt_tree_cache_meta; assumption|]. intros acc.
    rewrite (getroot_uncached h) by assumption. reflexivity.
Qed.

Lemma root_leaf_of_records_cache pages c c' :
  root_leaf_of_records (mkRel pages c) = true ->
  cbt_tree 1 (mkRel pages c') = true ->
  root_leaf_of_records (mkRel pages c') = true.
Proof.
  unfold root_leaf_of_records. intros H Ht. rewrite Ht.
  apply andb_true_iff in H. destruct H as [H H4].
  apply andb_true_iff in H. destruct H as [H H3].
  apply andb_true_iff in H. destruct H as [H1 H2].
  change (metad_of (mkRel pages c')) with (metad_of (mkRel pages c)).
  rewrite !(BufferGetPage_amcache pages c' c).
  rewrite H2, H3, H4. reflexivity.
Qed.

(** The root of such a tree, with the relation as [cbt_getroot] leaves it. *)
Lemma getroot_records rel fuel :
  root_leaf_of_records rel = true ->
  exists c,
    root_leaf_of_records (mkRel (rd_pages rel) c) = true
    /\ forall acc, cbt_getroot (S (S fuel)) acc rel
                   = Ok (cbtm_root (metad_of rel)) (mkRel (rd_pages rel) c).
Proof.
  intros H. destruct (root_leaf_of_records_facts _ H) as (Ht & Hr & _).
  destruct (getroot_present_tree 1 rel fuel Ht Hr) as (c & Htc & Hget).
  exists c. split; [|exact Hget].
  destruct rel as [pages c0]. apply (root_leaf_of_records_cache pages c0); assumption.
Qed.

Lemma cbt_search_records rel fuel pos acc :
  root_leaf_of_records rel = true ->
  let root := cbtm_root (metad_of rel) in
  let n := Z.of_nat (length (pd_items (BufferGetPage rel root))) in
  exists c,
    root_leaf_of_records (mkRel (rd_pages rel) c) = true
    /\ cbt_search (S (S fuel)) pos acc rel
       = Ok (if (pos <=? n) && negb (n =? 0)
             then [mkFrame root (Z.max 1 pos) (Z.max 1 pos - 1)] else [], root)
            (mkRel (rd_pages rel) c).
Proof.
  intros H root n. destruct (root_leaf_of_records_facts _ H) as (Ht & Hr & Hl & Hi & Hex & Hn).
  destruct (getroot_records rel fuel H) as (c & Hc & Hget).
  exists c. split; [exact Hc|].
  unfold cbt_search, bind at 1. rewrite Hget. fold root.
  apply block_exists_iff in Hex. fold root in Hex.
  replace (BufferIsValid root) with true
    by (unfold BufferIsValid, InvalidBuffer; symmetry; apply negb_true_iff, Z.eqb_neq; lia).
  cbn [negb]. cbv iota.
  destruct rel as [pages c0]. cbn [rd_pages] in *.
  rewrite cbt_search_descend_records;
    rewrite ?(BufferGetPage_amcache pages c c0); try assumption.
  fold n. replace (length (pd_items (BufferGetPage (mkRel pages c0) root)) =? 0)%nat
    with (n =? 0); [reflexivity|].
  unfold n. destruct (pd_items (BufferGetPage (mkRel pages c0) root)); reflexivity.
Qed.

Lemma live_count_records items :
  forallb record_item items = true -> live_count items = Z.of_nat (length items).
Proof.
  induction items as [|it rest IH]; intros H; [reflexivity|].
  cbn [forallb] in H. apply andb_true_iff in H. destruct H as [Hit Hrest].
  unfold record_item in Hit. apply andb_true_iff in Hit. destruct Hit as [Hlive Hone].
  apply negb_true_iff in Hlive. apply Z.eqb_eq in Hone.
  cbn [live_count length]. rewrite Hlive, Hone, IH by assumption. lia.
Qed.

Lemma cbt_find_totalcnt_records rel fuel :
  root_leaf_of_records rel = true ->
  let root := cbtm_root (metad_of rel) in
  let n := Z.of_nat (length (pd_items (BufferGetPage rel root))) in
  exists c,
    root_leaf_of_records (mkRel (rd_pages rel) c) = true
    /\ cbt_find_totalcnt (S (S fuel)) rel = Ok n (mkRel (rd_pages rel) c).
Proof.
  intros H root n. destruct (root_leaf_of_records_facts _ H) as (Ht & Hr & Hl & Hi & Hex & Hn).
  destruct (getroot_records rel fuel H) as (c & Hc & Hget).
  exists c. split; [exact Hc|].
  unfold cbt_find_totalcnt, bind at 1. rewrite Hget. fold root.
  apply block_exists_iff in Hex. fold root in Hex.
  replace (BufferIsInvalid root) with false
    by (unfold BufferIsInvalid, InvalidBuffer; symmetry; apply Z.eqb_neq; lia).
  cbv iota. mred.
  destruct rel as [pages c0]. cbn [rd_pages] in *.
  rewrite (BufferGetPage_amcache pages c c0).
  unfold PageGetMaxOffsetNumber. fold root. fold n.
  destruct (n =? 0) eqn:En.
  - apply Z.eqb_eq in En. rewrite En. reflexivity.
  - change 0 with (uint32 0) at 1. rewrite cbt_find_totalcnt_from_sum.
    rewrite live_count_records by assumption. fold n.
    rewrite Z.add_0_l, uint32_small; [reflexivity|]. unfold n, root in *. lia.
Qed.

Lemma PageAddItem_at BLCKSZ p t off :
  1 <= off <= Z.of_nat (length (pd_items p)) + 1 ->
  itemsz <= PageGetFreeSpace BLCKSZ p ->
  PageAddItem BLCKSZ p t off
  = (off, set_items p (list_insert (Z.to_nat (off - 1)) (mkItem false t) (pd_items p))).
Proof.
  intros Hoff Hroom. unfold PageAddItem, PageGetMaxOffsetNumber, InvalidOffsetNumber.
  replace (off =? 0) with false by (symmetry; apply Z.eqb_neq; lia).
  replace (Z.of_nat (length (pd_items p)) + 1 <? off) with false
    by (symmetry; apply Z.ltb_ge; lia).
  replace (off <? 1) with false by (symmetry; apply Z.ltb_ge; lia).
  cbn [orb]. unfold PageGetFreeSpace in Hroom.
  unfold itemsz, sizeof_ItemIdData in *.
  destruct (page_hole BLCKSZ p <? 4) eqn:E; [lia|].
  apply Z.ltb_ge in E.
  replace (page_hole BLCKSZ p <? 4 + 16) with false by (symmetry; apply Z.ltb_ge; lia).
  reflexivity.
Qed.

Lemma list_update_agree {A} (f g : A -> A) d :
  forall l n, f (nth n l d) = g (nth n l d) -> list_update n f l = list_update n g l.
Proof.
  induction l as [|x l IH]; intros [|n] H; cbn in *; try reflexivity.
  - rewrite H. reflexivity.
  - rewrite (IH n H). reflexivity.
Qed.

Lemma modify_page_agree b f g rel :
  f (BufferGetPage rel b) = g (BufferGetPage rel b) ->
  modify_page b f rel = modify_page b g rel.
Proof.
  unfold modify_page, BufferGetPage. destruct (block_exists rel b); [|reflexivity].
  intros H. rewrite (list_update_agree f g zero_page _ _ H). reflexivity.
Qed.

(** The search of [cbt_insert_tuple] on a root leaf of records: the frame
    it hands to [cbt_insert_on_page]. *)
Lemma cbt_insert_tuple_locates BLCKSZ rel fuel position tid :
  root_leaf_of_records rel = true ->
  let root := cbtm_root (metad_of rel) in
  let n := Z.of_nat (length (pd_items (BufferGetPage rel root))) in
  0 <= position ->
  exists c cnt,
    root_leaf_of_records (mkRel (rd_pages rel) c) = true
    /\ cbt_insert_tuple BLCKSZ (S (S fuel)) position tid rel
       = (cbt_change_parent [] 1 ;;;
          cbt_insert_on_page BLCKSZ (S (S fuel))
            [mkFrame root (insert_offset position n) cnt] (CBTFormTuple tid 1) root ;;;
          ret tt) (mkRel (rd_pages rel) c).
Proof.
  intros H root n Hpos.
  destruct (root_leaf_of_records_facts _ H) as (Ht & Hr & Hl & Hi & Hex & Hn).
  fold root in Hr, Hl, Hi, Hex, Hn. fold n in Hn.
  assert (Hvalid : BufferIsInvalid root = false).
  { apply block_exists_iff in Hex.
    unfold BufferIsInvalid, InvalidBuffer. apply Z.eqb_neq. lia. }
  unfold cbt_insert_tuple. unfold bind at 1.
  destruct (cbt_search_records rel fuel position CBT_WRITE H) as (c1 & H1 & Hs).
  rewrite Hs. fold root. fold n. cbv beta iota.
  destruct ((position <=? n) && negb (n =? 0)) eqn:Ein.
  - apply andb_true_iff in Ein. destruct Ein as [E1 E2].
    apply Z.leb_le in E1. apply negb_true_iff, Z.eqb_neq in E2.
    exists c1, (Z.max 1 position - 1). split; [exact H1|].
    rewrite Hvalid. cbn [orb]. unfold bind at 1. unfold ret at 1.
    unfold insert_offset. replace (Z.min position (n + 1)) with position by lia.
    reflexivity.
  - rewrite orb_true_r. unfold bind at 1. unfold bind at 1.
    destruct (cbt_find_totalcnt_records _ fuel H1) as (c2 & H2 & Hcnt).
    cbn [rd_pages] in Hcnt, H2.
    destruct rel as [pages c0]. cbn [rd_pages] in *.
    change (metad_of (mkRel pages c1)) with (metad_of (mkRel pages c0)) in Hcnt.
    fold root in Hcnt. rewrite (BufferGetPage_amcache pages c1 c0) in Hcnt. fold n in Hcnt.
    rewrite Hcnt.
    destruct (n =? 0) eqn:En.
    + apply Z.eqb_eq in En.
      destruct (getroot_records _ fuel H2) as (c3 & H3 & Hget). cbn [rd_pages] in Hget, H3.
      change (metad_of (mkRel pages c2)) with (metad_of (mkRel pages c0)) in Hget.
      fold root in Hget.
      unfold bind at 1. rewrite Hget, Hvalid. unfold ret at 1. cbv beta iota.
      exists c3, 0. split; [exact H3|].
      unfold BufferGetBlockNumber, P_FIRSTOFFSET.
      unfold insert_offset. rewrite En.
      replace (Z.max 1 (Z.min position (0 + 1))) with 1 by lia. reflexivity.
    + apply Z.eqb_neq in En.
      rewrite andb_true_r in Ein. apply Z.leb_gt in Ein.
      destruct (cbt_search_records _ fuel n CBT_WRITE H2) as (c3 & H3 & Hs2).
      cbn [rd_pages] in Hs2, H3.
      change (metad_of (mkRel pages c2)) with (metad_of (mkRel pages c0)) in Hs2.
      fold root in Hs2. rewrite (BufferGetPage_amcache pages c2 c0) in Hs2. fold n in Hs2.
      rewrite Z.leb_refl in Hs2.
      replace (n =? 0) with false in Hs2 by (symmetry; apply Z.eqb_neq; exact En).
      cbn [negb andb] in Hs2.
      unfold bind at 1. rewrite Hs2. cbn [fst snd]. unfold ret at 1. cbv beta iota.
      exists c3, (Z.max 1 n - 1). split; [exact H3|].
      unfold bump_offset. cbn [cbts_blkno cbts_offset total_count].
      assert (Hn0 : 0 <= n) by (unfold n; lia).
      replace (Z.max 1 n) with n by lia.
      replace (uint16 (n + 1)) with (n + 1) by (unfold uint16; rewrite Z.mod_small; lia).
      unfold insert_offset. replace (Z.max 1 (Z.min position (n + 1))) with (n + 1) by lia.
      reflexivity.
Qed.

Lemma insert_offset_range position n : 0 <= n -> 1 <= insert_offset position n <= n + 1.
Proof. unfold insert_offset. lia. Qed.

Lemma cbt_insert_tuple_records BLCKSZ rel fuel position tid :
  root_leaf_of_records rel = true ->
  let root := cbtm_root (metad_of rel) in
  let n := Z.of_nat (length (pd_items (BufferGetPage rel root))) in
  0 <= position ->
  itemsz <= PageGetFreeSpace BLCKSZ (BufferGetPage rel root) ->
  exists c,
    root_leaf_of_records (mkRel (rd_pages rel) c) = true
    /\ cbt_insert_tuple BLCKSZ (S (S fuel)) position tid rel
       = Ok tt (modify_page root (fun p =>
                  set_items p (list_insert (Z.to_nat (insert_offset position n - 1))
                                 (mkItem false (mkTuple tid 1)) (pd_items p)))
                  (mkRel (rd_pages rel) c)).
Proof.
  intros H root n Hpos Hroom.
  destruct (cbt_insert_tuple_locates BLCKSZ rel fuel position tid H Hpos)
    as (c & cnt & Hc & Hrun).
  exists c. split; [exact Hc|]. rewrite Hrun. fold root. fold n.
  pose proof (insert_offset_range position n ltac:(unfold n; lia)) as Hoff.
  cbn [cbt_change_parent cbt_insert_on_page]. mred.
  destruct rel as [pages c0]. cbn [rd_pages] in *.
  rewrite (BufferGetPage_amcache pages c c0).
  replace (PageGetFreeSpace BLCKSZ (BufferGetPage (mkRel pages c0) root) <? itemsz)
    with false by (symmetry; apply Z.ltb_ge; exact Hroom).
  cbn [cbts_offset]. f_equal. apply modify_page_agree.
  rewrite (BufferGetPage_amcache pages c c0).
  rewrite PageAddItem_at by (fold n; assumption).
  destruct tid. reflexivity.
Qed.

(** *** The tree after the insertion *)

Lemma forallb_list_insert {A} (f : A -> bool) (x : A) :
  forall l i, f x = true -> forallb f l = true -> forallb f (list_insert i x l) = true.
Proof.
  induction l as [|y l IH]; intros [|i] Hx Hl; cbn in *; rewrite ?Hx; try reflexivity.
  - exact Hl.
  - apply andb_true_iff in Hl. destruct Hl as [Hy Hl]. rewrite Hy, IH; auto.
Qed.

Lemma forallb_weaken {A} (f g : A -> bool) l :
  (forall x, f x = true -> g x = true) -> forallb f l = true -> forallb g l = true.
Proof.
  intros H. induction l as [|y l IH]; cbn; [reflexivity|].
  intros Hl. apply andb_true_iff in Hl. destruct Hl as [Hy Hl].
  rewrite (H y Hy), IH by exact Hl. reflexivity.
Qed.

Lemma map_list_insert {A B} (g : A -> B) (x : A) :
  forall l i, map g (list_insert i x l) = list_insert i (g x) (map g l).
Proof.
  induction l as [|y l IH]; intros [|i]; cbn; try reflexivity.
  rewrite IH. reflexivity.
Qed.

Lemma nth_error_list_insert {A} (x : A) :
  forall l i, (i <= length l)%nat -> nth_error (list_insert i x l) i = Some x.
Proof.
  induction l as [|y l IH]; intros [|i] H; cbn in *; try reflexivity; try lia.
  apply IH. lia.
Qed.

Lemma nth_error_list_insert_before {A} (x : A) :
  forall l i j, (j < i)%nat -> (i <= length l)%nat ->
    nth_error (list_insert i x l) j = nth_error l j.
Proof.
  induction l as [|y l IH]; intros [|i] [|j] Hj H; cbn in *; try reflexivity; try lia.
  apply IH; lia.
Qed.

Lemma nth_error_list_insert_after {A} (x : A) :
  forall l i j, (i <= j)%nat ->
    nth_error (list_insert i x l) (S j) = nth_error l j.
Proof.
  induction l as [|y l IH]; intros [|i] j Hj; cbn [list_insert].
  - destruct j; reflexivity.
  - destruct j; reflexivity.
  - reflexivity.
  - destruct j as [|j]; [lia|]. change (nth_error (y :: l) (S j)) with (nth_error l j).
    rewrite <- (IH i j) by lia. reflexivity.
Qed.

Lemma leaf_entries_records blk items :
  forall off,
    forallb record_item items = true ->
    map en_tid (leaf_entries blk off items) = map (fun it => itemptr (lp_tuple it)) items.
Proof.
  induction items as [|it rest IH]; intros off H; [reflexivity|].
  cbn [forallb] in H. apply andb_true_iff in H. destruct H as [Hit Hrest].
  unfold record_item in Hit. apply andb_true_iff in Hit. destruct Hit as [Hlive _].
  apply negb_true_iff in Hlive.
  cbn [leaf_entries map]. rewrite Hlive. cbn [app map en_tid]. rewrite IH by assumption.
  reflexivity.
Qed.

Lemma tree_entries_records rel :
  root_leaf_of_records rel = true ->
  map en_tid (tree_entries 1 rel)
  = map (fun it => itemptr (lp_tuple it))
        (pd_items (BufferGetPage rel (cbtm_root (metad_of rel)))).
Proof.
  intros H. destruct (root_leaf_of_records_facts _ H) as (Ht & Hr & Hl & Hi & Hex & Hn).
  unfold tree_entries. apply Z.eqb_neq in Hr. rewrite Hr.
  cbn [live_entries]. rewrite Hl. apply leaf_entries_records. exact Hi.
Qed.

Section ItemsWritten.

Variables (rel : Relation) (b : Buffer) (g : Page -> list ItemIdData).

Let rel' : Relation := modify_page b (fun p => set_items p (g p)) rel.

Lemma items_written_opaque blk :
  pd_opaque (BufferGetPage rel' blk) = pd_opaque (BufferGetPage rel blk).
Proof.
  unfold rel'. rewrite BufferGetPage_modify.
  destruct ((b =? blk) && block_exists rel b); reflexivity.
Qed.

Lemma items_written_meta blk :
  pd_meta (BufferGetPage rel' blk) = pd_meta (BufferGetPage rel blk).
Proof.
  unfold rel'. rewrite BufferGetPage_modify.
  destruct ((b =? blk) && block_exists rel b); reflexivity.
Qed.

Lemma items_written_items :
  block_exists rel b = true ->
  pd_items (BufferGetPage rel' b) = g (BufferGetPage rel b).
Proof.
  intros H. unfold rel'. rewrite BufferGetPage_modify_same by exact H. reflexivity.
Qed.

Lemma items_written_cache : rd_amcache rel' = rd_amcache rel.
Proof. unfold rel', modify_page. destruct (block_exists rel b); reflexivity. Qed.

Lemma items_written_blocks : RelationGetNumberOfBlocks rel' = RelationGetNumberOfBlocks rel.
Proof.
  unfold rel', modify_page. destruct (block_exists rel b); [|reflexivity].
  unfold RelationGetNumberOfBlocks. cbn [rd_pages]. rewrite length_list_update. reflexivity.
Qed.

Lemma items_written_metad : metad_of rel' = metad_of rel.
Proof. unfold metad_of. apply items_written_meta. Qed.

Lemma items_written_cache_ok : cache_ok rel' = cache_ok rel.
Proof.
  unfold cache_ok. rewrite items_written_cache.
  destruct (rd_amcache rel) as [c|]; [|reflexivity].
  unfold cache_accepts. rewrite items_written_opaque, items_written_metad.
  unfold rel'. rewrite block_exists_modify. reflexivity.
Qed.

End ItemsWritten.

Lemma root_leaf_insert_tree rel i it :
  root_leaf_of_records rel = true ->
  record_item it = true ->
  let root := cbtm_root (metad_of rel) in
  Z.of_nat (length (pd_items (BufferGetPage rel root))) + 1 < 65535 ->
  let rel' := modify_page root (fun p => set_items p (list_insert i it (pd_items p))) rel in
  root_leaf_of_records rel' = true
  /\ cbtm_root (metad_of rel') = root
  /\ pd_items (BufferGetPage rel' root) = list_insert i it (pd_items (BufferGetPage rel root)).
Proof.
  intros H Hit root Hlen rel'.
  destruct (root_leaf_of_records_facts _ H) as (Ht & Hr & Hl & Hi & Hex & Hn).
  destruct (cbt_tree_facts _ _ Ht) as [Hm Hf Hg Hc Hroot].
  destruct (Hroot Hr) as (Hig & Hlev & _).
  fold root in Hr, Hl, Hi, Hex, Hn, Hig, Hlev.
  assert (Hmeta : metad_of rel' = metad_of rel) by apply items_written_metad.
  assert (Hitems : pd_items (BufferGetPage rel' root)
                   = list_insert i it (pd_items (BufferGetPage rel root)))
    by (unfold rel'; rewrite items_written_items by exact Hex; reflexivity).
  assert (Hrec : forallb record_item (pd_items (BufferGetPage rel' root)) = true)
    by (rewrite Hitems; apply forallb_list_insert; assumption).
  split; [|split; [rewrite Hmeta; reflexivity | exact Hitems]].
  unfold root_leaf_of_records, cbt_tree. rewrite Hmeta. fold root.
  unfold rel'. rewrite !items_written_opaque, items_written_blocks, items_written_cache_ok.
  fold rel'. rewrite Hf, Hg, Hc, Hig, Hlev, Hl, Hrec.
  apply block_exists_iff in Hm. unfold CBT_METAPAGE in Hm.
  replace (0 <? RelationGetNumberOfBlocks rel) with true
    by (symmetry; apply Z.ltb_lt; unfold RelationGetNumberOfBlocks; lia).
  rewrite Z.eqb_refl, Z.eqb_refl.
  replace (root =? InvalidBlockNumber) with false by (symmetry; apply Z.eqb_neq; exact Hr).
  cbn [negb andb orb counted]. unfold rel' at 1. rewrite block_exists_modify, Hex.
  unfold rel' at 2. rewrite items_written_opaque. rewrite Hl.
  unfold PageGetMaxOffsetNumber. rewrite Hitems, length_list_insert.
  replace (Z.of_nat (S (length (pd_items (BufferGetPage rel root)))) <? 65535) with true
    by (symmetry; apply Z.ltb_lt; lia).
  replace (root =? InvalidBlockNumber) with false by (symmetry; apply Z.eqb_neq; exact Hr).
  cbn [negb andb]. rewrite andb_true_r.
  rewrite <- Hitems. rewrite !andb_true_r. eapply forallb_weaken; [|exact Hrec].
  intros x Hx. unfold record_item in Hx. apply andb_true_iff in Hx. destruct Hx as [_ Hx].
  rewrite Hx. apply orb_true_r.
Qed.

Lemma records_fit BLCKSZ p :
  BLCKSZ <= 32768 ->
  itemsz <= PageGetFreeSpace BLCKSZ p ->
  Z.of_nat (length (pd_items p)) + 1 < 65535.
Proof.
  unfold PageGetFreeSpace, page_hole, itemsz, sizeof_ItemIdData, SizeOfPageHeaderData,
    SizeOfSpecial.
  intros Hb H. destruct (_ <? 4) eqn:E; lia.
Qed.

(** The run of [cbtinsert] on a root leaf with room, and the tree it leaves. *)
Lemma cbtinsert_records BLCKSZ rel fuel pos tid :
  root_leaf_of_records rel = true ->
  let root := cbtm_root (metad_of rel) in
  let n := Z.of_nat (length (pd_items (BufferGetPage rel root))) in
  let i := Z.to_nat (insert_offset (uint32 pos) n - 1) in
  itemsz <= PageGetFreeSpace BLCKSZ (BufferGetPage rel root) ->
  BLCKSZ <= 32768 ->
  exists c,
    let rel' := modify_page root (fun p =>
                  set_items p (list_insert i (mkItem false (mkTuple tid 1)) (pd_items p)))
                  (mkRel (rd_pages rel) c) in
    cbtinsert BLCKSZ (S (S fuel)) pos tid rel = Ok true rel'
    /\ root_leaf_of_records rel' = true
    /\ map en_tid (tree_entries 1 rel') = list_insert i tid (map en_tid (tree_entries 1 rel)).
Proof.
  intros H root n i Hroom Hblck.
  assert (H0 : 0 <= uint32 pos) by (unfold uint32; apply Z.mod_pos_bound; lia).
  destruct (cbt_insert_tuple_records BLCKSZ rel fuel (uint32 pos) tid H H0 Hroom)
    as (c & Hc & Hrun).
  exists c. intros rel'. split.
  - unfold cbtinsert, bind. rewrite Hrun. reflexivity.
  - destruct rel as [pages c0]. cbn [rd_pages] in *.
    pose proof (root_leaf_insert_tree (mkRel pages c) i (mkItem false (mkTuple tid 1)) Hc
                  eq_refl (records_fit BLCKSZ _ Hblck Hroom)) as Hpost.
    change (root_leaf_of_records rel' = true
            /\ cbtm_root (metad_of rel') = root
            /\ pd_items (BufferGetPage rel' root)
               = list_insert i (mkItem false (mkTuple tid 1))
                   (pd_items (BufferGetPage (mkRel pages c0) root))) in Hpost.
    destruct Hpost as (Hleaf & Hroot' & Hitems).
    split; [exact Hleaf|].
    rewrite (tree_entries_records _ Hleaf), (tree_entries_records _ H).
    fold root. rewrite Hroot', Hitems, map_list_insert. reflexivity.
Qed.

Lemma cbt_first_tid h rel key fuel t :
  cbt_tree h rel = true ->
  1 <= key < 4294967296 ->
  Z.of_nat (length (tree_entries h rel)) < 4294967296 ->
  (h < fuel)%nat ->
  nth_error (map en_tid (tree_entries h rel)) (Z.to_nat (key - 1)) = Some t ->
  exists c,
    cbt_first fuel (mkScan true) false key rel
    = Ok (true, Some t, mkScan false) (mkRel (rd_pages rel) c).
Proof.
  intros Ht Hk Hlen Hfuel Hnth.
  destruct (cbt_first_rank h rel key fuel Ht) as [c Hs];
    rewrite ?uint32_small by lia; try lia.
  exists c. rewrite Hs. rewrite uint32_small by lia.
  rewrite nth_error_map in Hnth.
  destruct (nth_error (tree_entries h rel) (Z.to_nat (key - 1))) as [e|];
    [|discriminate Hnth].
  cbn in Hnth. congruence.
Qed.

(** X7.  [cbtinsert] on a tree that is one root leaf of live records, with room
    for one more tuple: it completes and returns true; the tree is again a
    root leaf of live records, whose heap pointers are the former ones with
    the new one put in at offset [max 1 (min pos (n + 1))], for [pos] the
    32-bit value of the key and [n] the number of records before; the
    relation has the blocks it had, and every page but the root is as it
    was. *)
Theorem cbtinsert_root_leaf (BLCKSZ : Z) (rel : Relation) (fuel : nat) (pos : Z)
  (tid : ItemPointerData) :
  root_leaf_of_records rel = true ->
  let root := cbtm_root (metad_of rel) in
  let n := Z.of_nat (length (pd_items (BufferGetPage rel root))) in
  itemsz <= PageGetFreeSpace BLCKSZ (BufferGetPage rel root) ->
  BLCKSZ <= 32768 ->
  (2 <= fuel)%nat ->
  exists rel',
    cbtinsert BLCKSZ fuel pos tid rel = Ok true rel'
    /\ root_leaf_of_records rel' = true
    /\ map en_tid (tree_entries 1 rel')
       = list_insert (Z.to_nat (insert_offset (uint32 pos) n - 1)) tid
           (map en_tid (tree_entries 1 rel))
    /\ RelationGetNumberOfBlocks rel' = RelationGetNumberOfBlocks rel
    /\ forall blk, blk <> root -> BufferGetPage rel' blk = BufferGetPage rel blk.
Proof.
  intros H root n Hroom Hblck Hfuel.
  destruct fuel as [|[|fuel]]; try lia.
  destruct (cbtinsert_records BLCKSZ rel fuel pos tid H Hroom Hblck) as (c & Hrun & Hleaf & Hent).
  eexists. split; [exact Hrun|]. split; [exact Hleaf|]. split; [exact Hent|].
  split.
  - rewrite items_written_blocks. reflexivity.
  - intros blk Hblk. rewrite BufferGetPage_modify_other by (fold root; congruence).
    destruct rel as [pages c0]. reflexivity.
Qed.

(** The scans of a tree whose heap pointers are those of [olds] with [tid]
    put in at index [i]. *)
Lemma scan_after_insert h rel' olds (i : nat) tid fuel :
  cbt_tree h rel' = true ->
  map en_tid (tree_entries h rel') = list_insert i tid olds ->
  (i <= length olds)%nat ->
  Z.of_nat (length olds) + 1 < 4294967296 ->
  (h < fuel)%nat ->
  (exists c, cbt_first fuel (mkScan true) false (Z.of_nat i + 1) rel'
             = Ok (true, Some tid, mkScan false) (mkRel (rd_pages rel') c))
  /\ forall k t,
       1 <= k ->
       nth_error olds (Z.to_nat (k - 1)) = Some t ->
       exists c, cbt_first fuel (mkScan true) false
                   (if k <? Z.of_nat i + 1 then k else k + 1) rel'
                 = Ok (true, Some t, mkScan false) (mkRel (rd_pages rel') c).
Proof.
  intros Ht Hent Hi Hlen Hfuel.
  assert (Hlen' : Z.of_nat (length (tree_entries h rel')) < 4294967296).
  { rewrite <- (length_map en_tid), Hent, length_list_insert. lia. }
  split.
  - apply (cbt_first_tid h); try assumption; try lia.
    rewrite Hent. replace (Z.to_nat (Z.of_nat i + 1 - 1)) with i by lia.
    apply nth_error_list_insert. exact Hi.
  - intros k t Hk Hnth.
    assert (Hkn : (Z.to_nat (k - 1) < length olds)%nat)
      by (apply nth_error_Some; congruence).
    destruct (k <? Z.of_nat i + 1) eqn:Eko.
    + apply Z.ltb_lt in Eko.
      apply (cbt_first_tid h); try assumption; try lia.
      rewrite Hent, nth_error_list_insert_before by lia. exact Hnth.
    + apply Z.ltb_ge in Eko.
      apply (cbt_first_tid h); try assumption; try lia.
      rewrite Hent. replace (Z.to_nat (k + 1 - 1)) with (S (Z.to_nat (k - 1))) by lia.
      rewrite nth_error_list_insert_after by lia. exact Hnth.
Qed.

(** X8.  Insertion and scan compose on a root leaf of live records with room:
    after [cbtinsert] with a key of 32-bit value [pos], a scan for rank
    [max 1 (min pos (n + 1))] returns the inserted heap pointer; a record
    that had a rank below that keeps it, and a record that had that rank or
    a higher one is found one rank further. *)
Theorem cbtinsert_scan_roundtrip (BLCKSZ : Z) (rel : Relation) (fuel : nat) (pos : Z)
  (tid : ItemPointerData) :
  root_leaf_of_records rel = true ->
  let root := cbtm_root (metad_of rel) in
  let n := Z.of_nat (length (pd_items (BufferGetPage rel root))) in
  let o := insert_offset (uint32 pos) n in
  itemsz <= PageGetFreeSpace BLCKSZ (BufferGetPage rel root) ->
  BLCKSZ <= 32768 ->
  (2 <= fuel)%nat ->
  exists rel',
    cbtinsert BLCKSZ fuel pos tid rel = Ok true rel'
    /\ (exists c, cbtgettuple fuel cbtbeginscan false o rel'
                  = Ok (true, Some tid, mkScan false) (mkRel (rd_pages rel') c))
    /\ forall k t,
         1 <= k ->
         nth_error (map en_tid (tree_entries 1 rel)) (Z.to_nat (k - 1)) = Some t ->
         exists c, cbtgettuple fuel cbtbeginscan false (if k <? o then k else k + 1) rel'
                   = Ok (true, Some t, mkScan false) (mkRel (rd_pages rel') c).
Proof.
  intros H root n o Hroom Hblck Hfuel.
  destruct fuel as [|[|fuel]]; try lia.
  destruct (cbtinsert_records BLCKSZ rel fuel pos tid H Hroom Hblck) as (c & Hrun & Hleaf & Hent).
  fold root in Hrun, Hleaf, Hent. fold n in Hrun, Hleaf, Hent. fold o in Hrun, Hleaf, Hent.
  cbv zeta in Hrun, Hleaf, Hent.
  set (rel' := modify_page root _ _) in Hrun, Hleaf, Hent.
  exists rel'. split; [exact Hrun|].
  destruct (root_leaf_of_records_facts _ Hleaf) as (Ht' & _).
  pose proof (records_fit BLCKSZ _ Hblck Hroom) as Hfit. fold root in Hfit. fold n in Hfit.
  assert (Hn : length (map en_tid (tree_entries 1 rel)) = Z.to_nat n).
  { rewrite (tree_entries_records _ H), length_map. fold root. unfold n. lia. }
  assert (Hn0 : 0 <= n) by (unfold n; lia).
  assert (Ho : 1 <= o <= n + 1) by (unfold o, insert_offset; lia).
  unfold cbtgettuple, cbtbeginscan.
  assert (Eo : Z.of_nat (Z.to_nat (o - 1)) + 1 = o) by lia.
  pose proof (scan_after_insert 1 rel' _ _ tid (S (S fuel)) Ht' Hent) as Hs.
  rewrite Eo in Hs. apply Hs; lia.
Qed.

Lemma cbtinsert_root_leaf_witness :
  exists rel',
    cbtinsert 128 2 2 (heap_tid 9) root_leaf_example = Ok true rel'
    /\ map en_tid (tree_entries 1 rel') = [heap_tid 1; heap_tid 9; heap_tid 2; heap_tid 3].
Proof.
  destruct (cbtinsert_root_leaf 128 root_leaf_example 2 2 (heap_tid 9))
    as (rel' & Hrun & _ & Hent & _).
  - vm_compute. reflexivity.
  - vm_compute. discriminate.
  - lia.
  - lia.
  - exists rel'. split; [exact Hrun | exact Hent].
Defined.

Lemma cbtinsert_scan_roundtrip_witness :
  exists rel',
    cbtinsert 128 2 7 (heap_tid 9) root_leaf_example = Ok true rel'
    /\ exists c, cbtgettuple 2 cbtbeginscan false 4 rel'
                 = Ok (true, Some (heap_tid 9), mkScan false) (mkRel (rd_pages rel') c).
Proof.
  destruct (cbtinsert_scan_roundtrip 128 root_leaf_example 2 7 (heap_tid 9))
    as (rel' & Hrun & Hscan & _).
  - vm_compute. reflexivity.
  - vm_compute. discriminate.
  - lia.
  - lia.
  - exists rel'. split; [exact Hrun | exact Hscan].
Defined.

(** ** Bulk build of one leaf *)

Lemma leaf_space_page BLCKSZ p :
  PageGetFreeSpace BLCKSZ p = leaf_space BLCKSZ (Z.of_nat (length (pd_items p))).
Proof. reflexivity. Qed.

Lemma leaf_takes_facts BLCKSZ i :
  leaf_takes BLCKSZ i = true ->
  (leaf_space BLCKSZ i <? itemsz) = false
  /\ (1 < i -> (leaf_space BLCKSZ i
                <? RelationGetTargetPageFreeSpace BLCKSZ CBTREE_DEFAULT_FILLFACTOR) = false).
Proof.
  unfold leaf_takes. intros H. apply negb_true_iff, orb_false_iff in H.
  destruct H as [H1 H2]. split; [exact H1|]. intros Hi.
  apply andb_false_iff in H2. destruct H2 as [H2|H2]; [exact H2|].
  apply Z.ltb_ge in H2. lia.
Qed.

Lemma leaf_space_mono BLCKSZ i j :
  0 <= i <= j -> leaf_space BLCKSZ j <= leaf_space BLCKSZ i.
Proof.
  unfold leaf_space, SizeOfPageHeaderData, SizeOfSpecial, sizeof_ItemIdData, itemsz.
  intros H. cbv zeta.
  destruct (BLCKSZ - 24 - 24 - (4 + 16) * j <? 4) eqn:E1;
    destruct (BLCKSZ - 24 - 24 - (4 + 16) * i <? 4) eqn:E2;
    try apply Z.ltb_lt in E1; try apply Z.ltb_ge in E1;
    try apply Z.ltb_lt in E2; try apply Z.ltb_ge in E2; lia.
Qed.

Lemma leaf_takes_mono BLCKSZ i j :
  0 <= i <= j -> leaf_takes BLCKSZ j = true -> leaf_takes BLCKSZ i = true.
Proof.
  intros Hij Hj. destruct (leaf_takes_facts _ _ Hj) as [H1 H2].
  pose proof (leaf_space_mono BLCKSZ i j Hij) as Hm.
  apply Z.ltb_ge in H1.
  unfold leaf_takes. apply negb_true_iff, orb_false_iff. split.
  - apply Z.ltb_ge. lia.
  - destruct (1 <? i) eqn:Ei; [|apply andb_false_r].
    apply Z.ltb_lt in Ei. rewrite andb_true_r.
    assert (Hj1 : 1 < j) by lia. specialize (H2 Hj1). apply Z.ltb_ge in H2.
    apply Z.ltb_ge. lia.
Qed.

Lemma open_leaf_add BLCKSZ fuel done t :
  leaf_takes BLCKSZ (Z.of_nat (length done)) = true ->
  Z.of_nat (length done) < 65535 ->
  cbt_build_add_tuple BLCKSZ (S fuel) [open_leaf BLCKSZ done] (CBTFormTuple t 1)
    (mkBuild (Z.of_nat (length done)) 1 0 [])
  = Ok [open_leaf BLCKSZ (done ++ [t])] (mkBuild (Z.of_nat (length (done ++ [t]))) 1 0 []).
Proof.
  intros Htakes Hlen. destruct (leaf_takes_facts _ _ Htakes) as [H1 H2].
  cbn [cbt_build_add_tuple]. mred. unfold open_leaf at 1 2 3. cbn [cbtps_page cbtps_maxfill cbtps_lastoff].
  rewrite leaf_space_page. cbn [set_items pd_items]. unfold records at 1 2. rewrite length_map.
  rewrite H1. cbn [orb].
  replace ((leaf_space BLCKSZ (Z.of_nat (length done))
            <? RelationGetTargetPageFreeSpace BLCKSZ CBTREE_DEFAULT_FILLFACTOR)
           && (1 <? cbtps_lastoff (open_leaf BLCKSZ done))) with false.
  2:{ symmetry. unfold open_leaf; cbn [cbtps_lastoff].
      destruct (1 <? Z.of_nat (length done)) eqn:E; [|apply andb_false_r].
      apply Z.ltb_lt in E. rewrite (H2 E). reflexivity. }
  cbv iota beta. unfold open_leaf.
  cbn [cbtps_page cbtps_maxfill cbtps_blockno cbtps_lastoff cbtps_level cbtps_total_count].
  rewrite OffsetNumberNext_small by lia.
  assert (Hrec : length (records done) = length done) by apply length_map.
  rewrite (PageAddItem_at BLCKSZ).
  2:{ cbn [set_items pd_items]. rewrite Hrec. lia. }
  2:{ rewrite leaf_space_page. cbn [set_items pd_items]. rewrite Hrec.
      apply Z.ltb_ge. exact H1. }
  cbn [fst snd set_items pd_items pd_opaque pd_meta].
  replace (Z.of_nat (length done) + 1 =? InvalidOffsetNumber) with false
    by (symmetry; apply Z.eqb_neq; unfold InvalidOffsetNumber; lia).
  cbn [indtuples cbtbs_pages_alloced cbtbs_pages_written cbtbs_disk].
  replace (Z.to_nat (Z.of_nat (length done) + 1 - 1)) with (length (records done))
    by (rewrite Hrec; lia).
  rewrite list_insert_length.
  replace (childcnt (CBTFormTuple t 1)) with 1 by reflexivity.
  rewrite uint32_small by lia.
  rewrite length_app. cbn [length].
  replace (Z.of_nat (length done + 1)) with (Z.of_nat (length done) + 1) by lia.
  unfold records. rewrite map_app. cbn [map].
  destruct t. reflexivity.
Qed.

Lemma open_leaf_first BLCKSZ fuel t :
  leaf_takes BLCKSZ 0 = true ->
  cbt_build_add_tuple BLCKSZ (S fuel) [] (CBTFormTuple t 1) (mkBuild 0 CBT_METAPAGE 0 [])
  = Ok [open_leaf BLCKSZ [t]] (mkBuild (Z.of_nat (length [t])) 1 0 []).
Proof.
  intros Htakes.
  transitivity (cbt_build_add_tuple BLCKSZ (S fuel) [open_leaf BLCKSZ []] (CBTFormTuple t 1)
                  (mkBuild 0 1 0 [])); [reflexivity|].
  apply (open_leaf_add BLCKSZ fuel [] t Htakes). cbn. lia.
Qed.

Lemma open_leaf_scan BLCKSZ fuel rest :
  forall done,
    leaf_takes BLCKSZ (Z.of_nat (length done + length rest) - 1) = true ->
    Z.of_nat (length done + length rest) <= 65535 ->
    IndexBuildHeapScan BLCKSZ (S fuel) rest [open_leaf BLCKSZ done]
      (mkBuild (Z.of_nat (length done)) 1 0 [])
    = Ok [open_leaf BLCKSZ (done ++ rest)] (mkBuild (Z.of_nat (length (done ++ rest))) 1 0 []).
Proof.
  induction rest as [|t rest IH]; intros done Htakes Hlen.
  - rewrite app_nil_r. reflexivity.
  - cbn [IndexBuildHeapScan]. unfold bind, cbtbuildCallback. cbn [length] in Htakes, Hlen.
    rewrite open_leaf_add.
    + replace (done ++ t :: rest) with ((done ++ [t]) ++ rest)
        by (rewrite <- app_assoc; reflexivity).
      apply IH; rewrite length_app; cbn [length].
      * replace (length done + 1 + length rest)%nat with (length done + S (length rest))%nat
          by lia. exact Htakes.
      * lia.
    + apply (leaf_takes_mono BLCKSZ _ (Z.of_nat (length done + S (length rest)) - 1));
        [lia | exact Htakes].
    + lia.
Qed.

Lemma open_leaf_finish BLCKSZ fuel heap n :
  cbt_finish_upper_level BLCKSZ (S fuel) [open_leaf BLCKSZ heap] (mkBuild n 1 0 [])
  = Ok tt (mkBuild n 1 2 [CBTFillMetaPage 1 1; built_root_leaf heap]).
Proof.
  unfold cbt_finish_upper_level. cbn [cbt_finish_levels]. mred.
  unfold cbt_writepage. mred. unfold open_leaf.
  cbn [cbtps_blockno cbtps_page cbtbs_pages_written fst snd].
  change (Z.to_nat (1 - 0)) with 1%nat. cbn [cbt_writepage_fill cbtbs_pages_written].
  change (1 =? 0 + 1) with true. cbv iota. 
  destruct fuel; reflexivity.
Qed.

Lemma cbtbuild_one_leaf_run BLCKSZ fuel heap cache :
  heap <> [] ->
  leaf_takes BLCKSZ (Z.of_nat (length heap) - 1) = true ->
  Z.of_nat (length heap) <= 65535 ->
  cbtbuild BLCKSZ (S fuel) heap (mkRel [] cache)
  = Ok (Z.of_nat (length heap)) (mkRel [CBTFillMetaPage 1 1; built_root_leaf heap] cache).
Proof.
  intros Hne Htakes Hlen. destruct heap as [|t rest]; [congruence|].
  unfold cbtbuild. change (negb (RelationGetNumberOfBlocks (mkRel [] cache) =? 0)) with false.
  cbv iota. unfold bind at 1. cbn [IndexBuildHeapScan]. unfold bind at 1, cbtbuildCallback.
  rewrite open_leaf_first
    by (apply (leaf_takes_mono BLCKSZ _ (Z.of_nat (length (t :: rest)) - 1));
        [cbn [length]; lia | exact Htakes]).
  rewrite (open_leaf_scan BLCKSZ fuel rest [t]) by (cbn [length app] in *; assumption).
  rewrite open_leaf_finish. reflexivity.
Qed.

Lemma forallb_records heap : forallb record_item (records heap) = true.
Proof. induction heap as [|t heap IH]; [reflexivity|]. cbn. exact IH. Qed.

Lemma records_tids heap : map (fun it => itemptr (lp_tuple it)) (records heap) = heap.
Proof.
  unfold records. rewrite map_map. cbn. apply map_id.
Qed.

Lemma leaf_takes_bound BLCKSZ i :
  0 <= i -> BLCKSZ <= 32768 -> leaf_takes BLCKSZ i = true -> i + 1 < 65535.
Proof.
  intros Hi Hb H. destruct (leaf_takes_facts _ _ H) as [H1 _].
  apply Z.ltb_ge in H1. revert H1.
  unfold leaf_space, SizeOfPageHeaderData, SizeOfSpecial, sizeof_ItemIdData, itemsz.
  cbv zeta. destruct (BLCKSZ - 24 - 24 - (4 + 16) * i <? 4) eqn:E; [lia|].
  apply Z.ltb_ge in E. lia.
Qed.

Lemma built_root_leaf_tree heap cache :
  Z.of_nat (length heap) < 65535 ->
  cache_ok (mkRel [CBTFillMetaPage 1 1; built_root_leaf heap] cache) = true ->
  root_leaf_of_records (mkRel [CBTFillMetaPage 1 1; built_root_leaf heap] cache) = true.
Proof.
  intros Hlen Hcache. unfold root_leaf_of_records, cbt_tree. rewrite Hcache.
  change (metad_of (mkRel [CBTFillMetaPage 1 1; built_root_leaf heap] cache))
    with (mkMeta CBT_MAGIC 1 1).
  cbn [cbtm_root cbtm_level cbtm_magic].
  change (BufferGetPage (mkRel [CBTFillMetaPage 1 1; built_root_leaf heap] cache) 1)
    with (built_root_leaf heap).
  change (BufferGetPage (mkRel [CBTFillMetaPage 1 1; built_root_leaf heap] cache) CBT_METAPAGE)
    with (CBTFillMetaPage 1 1).
  cbn [counted].
  change (BufferGetPage (mkRel [CBTFillMetaPage 1 1; built_root_leaf heap] cache) 1)
    with (built_root_leaf heap).
  unfold PageGetMaxOffsetNumber. cbn [built_root_leaf pd_items pd_opaque].
  replace (Z.of_nat (length (records heap)) <? 65535) with true
    by (symmetry; apply Z.ltb_lt; unfold records; rewrite length_map; exact Hlen).
  rewrite forallb_records.
  rewrite (forallb_weaken record_item _ _ (fun x Hx =>
             proj2 (orb_true_iff _ _)
               (or_intror (proj2 (proj1 (andb_true_iff _ _) Hx)))) (forallb_records heap)).
  reflexivity.
Qed.

Lemma cbt_first_tids h rel key fuel :
  cbt_tree h rel = true ->
  1 <= uint32 key ->
  Z.of_nat (length (tree_entries h rel)) < 4294967296 ->
  (h < fuel)%nat ->
  exists c,
    cbt_first fuel (mkScan true) false key rel
    = Ok match nth_error (map en_tid (tree_entries h rel)) (Z.to_nat (uint32 key - 1)) with
         | Some t => (true, Some t, mkScan false)
         | None => (false, None, mkScan true)
         end (mkRel (rd_pages rel) c).
Proof.
  intros Ht Hk Hlen Hfuel.
  destruct (cbt_first_rank h rel key fuel Ht Hk Hlen Hfuel) as [c Hs].
  exists c. rewrite Hs, nth_error_map.
  destruct (nth_error (tree_entries h rel) _); reflexivity.
Qed.

(** X9.  Bulk build of a heap of [n >= 1] records that one leaf takes (the
    build does not close a leaf that holds [n - 1] tuples), into a relation
    just created: it reports [n] index tuples and leaves two blocks, the meta
    page naming block 1 as the root of a tree of height 1, and block 1, a
    page that is leaf and root, without siblings or parent, holding one live
    tuple of count 1 per record, in heap order.  This is a counted tree whose
    entries are the heap pointers in heap order. *)
Theorem cbtbuild_one_leaf (BLCKSZ : Z) (fuel : nat) (heap : list ItemPointerData) :
  heap <> [] ->
  leaf_takes BLCKSZ (Z.of_nat (length heap) - 1) = true ->
  BLCKSZ <= 32768 ->
  (1 <= fuel)%nat ->
  let rel' := mkRel [CBTFillMetaPage 1 1; built_root_leaf heap] None in
  cbtbuild BLCKSZ fuel heap (mkRel [] None) = Ok (Z.of_nat (length heap)) rel'
  /\ root_leaf_of_records rel' = true
  /\ map en_tid (tree_entries 1 rel') = heap.
Proof.
  intros Hne Htakes Hblck Hfuel rel'.
  assert (Hn : 1 <= Z.of_nat (length heap))
    by (destruct heap; [congruence | cbn [length]; lia]).
  assert (Hlen : Z.of_nat (length heap) - 1 + 1 < 65535)
    by (apply (leaf_takes_bound BLCKSZ); (assumption || lia)).
  destruct fuel as [|fuel]; [lia|].
  assert (Hleaf : root_leaf_of_records rel' = true)
    by (apply built_root_leaf_tree; [lia | reflexivity]).
  split; [apply cbtbuild_one_leaf_run; (assumption || lia)|].
  split; [exact Hleaf|].
  rewrite (tree_entries_records _ Hleaf). apply records_tids.
Qed.

(** X10.  Bulk build and scan compose when one leaf takes the heap: after the
    build, a scan for a key whose 32-bit value [k] is at least 1 returns the
    [k]-th heap record, and nothing when the heap has fewer than [k]
    records. *)
Theorem cbtbuild_scan_roundtrip (BLCKSZ : Z) (fuel : nat) (heap : list ItemPointerData)
  (key : Z) :
  heap <> [] ->
  leaf_takes BLCKSZ (Z.of_nat (length heap) - 1) = true ->
  BLCKSZ <= 32768 ->
  (2 <= fuel)%nat ->
  1 <= uint32 key ->
  exists rel' c,
    cbtbuild BLCKSZ fuel heap (mkRel [] None) = Ok (Z.of_nat (length heap)) rel'
    /\ cbtgettuple fuel cbtbeginscan false key rel'
       = Ok match nth_error heap (Z.to_nat (uint32 key - 1)) with
            | Some t => (true, Some t, mkScan false)
            | None => (false, None, cbtbeginscan)
            end (mkRel (rd_pages rel') c).
Proof.
  intros Hne Htakes Hblck Hfuel Hkey.
  assert (Hn : 1 <= Z.of_nat (length heap))
    by (destruct heap; [congruence | cbn [length]; lia]).
  assert (Hlen : Z.of_nat (length heap) - 1 + 1 < 65535)
    by (apply (leaf_takes_bound BLCKSZ); (assumption || lia)).
  set (rel' := mkRel [CBTFillMetaPage 1 1; built_root_leaf heap] None).
  assert (Hleaf : root_leaf_of_records rel' = true)
    by (apply built_root_leaf_tree; [lia | reflexivity]).
  assert (Hents : map en_tid (tree_entries 1 rel') = heap)
    by (rewrite (tree_entries_records _ Hleaf); apply records_tids).
  destruct (root_leaf_of_records_facts _ Hleaf) as (Ht & _).
  destruct (cbt_first_tids 1 rel' key fuel Ht Hkey) as [c Hs].
  { rewrite <- (length_map en_tid), Hents. lia. }
  { lia. }
  exists rel', c. split.
  - destruct fuel as [|fuel]; [lia|]. apply cbtbuild_one_leaf_run; (assumption || lia).
  - unfold cbtgettuple, cbtbeginscan. rewrite Hs, Hents. reflexivity.
Qed.

Lemma cbtbuild_one_leaf_witness :
  cbtbuild 8192 1 (heap_tids 367) (mkRel [] None)
  = Ok 367 (mkRel [CBTFillMetaPage 1 1; built_root_leaf (heap_tids 367)] None).
Proof.
  apply (cbtbuild_one_leaf 8192 1 (heap_tids 367)).
  - discriminate.
  - vm_compute. reflexivity.
  - lia.
  - lia.
Defined.

Lemma cbtbuild_scan_roundtrip_witness :
  exists rel' c,
    cbtbuild 128 2 (heap_tids 3) (mkRel [] None) = Ok 3 rel'
    /\ cbtgettuple 2 cbtbeginscan false 2 rel'
       = Ok (true, Some (heap_tid 2), mkScan false) (mkRel (rd_pages rel') c).
Proof.
  apply (cbtbuild_scan_roundtrip 128 2 (heap_tids 3) 2).
  - discriminate.
  - vm_compute. reflexivity.
  - lia.
  - lia.
  - vm_compute. discriminate.
Defined.

(** ** The split of a root leaf *)

Lemma list_update_id {A} (l : list A) n : list_update n (fun x => x) l = l.
Proof. revert n; induction l as [|x l IH]; intros [|n]; cbn; congruence. Qed.

Lemma list_update_twice {A} (f g : A -> A) (l : list A) n :
  list_update n f (list_update n g l) = list_update n (fun x => f (g x)) l.
Proof. revert n; induction l as [|x l IH]; intros [|n]; cbn; congruence. Qed.

Lemma modify_page_twice b f g rel :
  modify_page b f (modify_page b g rel) = modify_page b (fun p => f (g p)) rel.
Proof.
  unfold modify_page at 1. rewrite block_exists_modify.
  unfold modify_page. destruct (block_exists rel b); [|reflexivity].
  cbn [rd_pages rd_amcache]. rewrite list_update_twice. reflexivity.
Qed.

Lemma modify_page_same b rel :
  modify_page b (fun p => set_items p (pd_items (BufferGetPage rel b))) rel = rel.
Proof.
  rewrite (modify_page_agree b _ (fun p => p)).
  - unfold modify_page. destruct (block_exists rel b); [|reflexivity].
    rewrite list_update_id. destruct rel; reflexivity.
  - destruct (BufferGetPage rel b); reflexivity.
Qed.

Lemma items_rewritten_refl rbuf rel :
  all_live (pd_items (BufferGetPage rel rbuf)) = true -> items_rewritten rbuf rel rel.
Proof.
  intros H. exists (pd_items (BufferGetPage rel rbuf)). split; [exact H|].
  symmetry. apply modify_page_same.
Qed.

Lemma items_rewritten_trans rbuf r1 r2 r3 :
  items_rewritten rbuf r1 r2 -> items_rewritten rbuf r2 r3 -> items_rewritten rbuf r1 r3.
Proof.
  intros (a & Ha & E1) (b & Hb & E2). exists b. split; [exact Hb|].
  subst r2 r3. rewrite modify_page_twice. reflexivity.
Qed.

Lemma all_live_insert i t items :
  all_live items = true -> all_live (list_insert i (mkItem false t) items) = true.
Proof. intros H. apply forallb_list_insert; [reflexivity | exact H]. Qed.

Lemma PageAddItem_items BLCKSZ p t off :
  exists its',
    snd (PageAddItem BLCKSZ p t off) = set_items p its'
    /\ (all_live (pd_items p) = true -> all_live its' = true).
Proof.
  unfold PageAddItem.
  destruct (_ || _);
    [exists (pd_items p); split; [destruct p; reflexivity | auto]|].
  destruct (_ <? _);
    [exists (pd_items p); split; [destruct p; reflexivity | auto]|].
  eexists. split; [reflexivity|]. apply all_live_insert.
Qed.

Lemma items_rewritten_live rbuf rel rel' :
  block_exists rel rbuf = true ->
  items_rewritten rbuf rel rel' -> all_live (pd_items (BufferGetPage rel' rbuf)) = true.
Proof.
  intros Hex (a & Ha & E). subst rel'. rewrite BufferGetPage_modify_same by exact Hex.
  exact Ha.
Qed.

Lemma items_rewritten_add BLCKSZ rbuf t off rel :
  all_live (pd_items (BufferGetPage rel rbuf)) = true ->
  items_rewritten rbuf rel
    (modify_page rbuf (fun p => snd (PageAddItem BLCKSZ p t off)) rel).
Proof.
  intros H. destruct (PageAddItem_items BLCKSZ (BufferGetPage rel rbuf) t off) as (a & Ea & Ha).
  exists a. split; [auto|]. apply modify_page_agree. exact Ea.
Qed.

Lemma leaf_transfer_rewrites BLCKSZ origbuf rbuf newitem onleft firstright k :
  forall st rel st' rel',
    cbt_split_transfer BLCKSZ k origbuf rbuf newitem onleft firstright true st rel
    = Ok st' rel' ->
    block_exists rel rbuf = true ->
    all_live (pd_items (sx_left st)) = true ->
    all_live (pd_items (BufferGetPage rel rbuf)) = true ->
    items_rewritten rbuf rel rel' /\ all_live (pd_items (sx_left st')) = true.
Proof.
  induction k as [|k IH]; intros st rel st' rel' H Hex Hl Hr.
  - cbn in H. inversion H; subst. split; [apply items_rewritten_refl; exact Hr | exact Hl].
  - cbn [cbt_split_transfer] in H.
    apply bind_Ok in H. destruct H as (r0 & s0 & Hg & H). inversion Hg; subst r0 s0.
    destruct (PageGetItem _ _) as [item|]; [|discriminate].
    apply bind_Ok in H. destruct H as (st1 & s1 & H1 & H).
    apply bind_Ok in H. destruct H as (st2 & s2 & H2 & H).
    assert (F1 : items_rewritten rbuf rel s1 /\ all_live (pd_items (sx_left st1)) = true).
    { destruct (_ =? _);
        [|inversion H1; subst; split; [apply items_rewritten_refl; exact Hr | exact Hl]].
      destruct onleft.
      - inversion H1; subst. split; [apply items_rewritten_refl; exact Hr|].
        cbn [xfer_new_left sx_left].
        destruct (PageAddItem_items BLCKSZ (sx_left st) newitem (sx_leftoff st))
          as (a & Ea & Ha).
        rewrite Ea. cbn [set_items pd_items]. auto.
      - inversion H1; subst. split; [apply items_rewritten_add; exact Hr | exact Hl]. }
    destruct F1 as [F1 Hl1].
    assert (Hex1 : block_exists s1 rbuf = true).
    { destruct F1 as (a & _ & E). subst s1. rewrite block_exists_modify. exact Hex. }
    pose proof (items_rewritten_live _ _ _ Hex F1) as Hr1.
    assert (F2 : items_rewritten rbuf s1 s2 /\ all_live (pd_items (sx_left st2)) = true).
    { destruct (_ <? _).
      - inversion H2; subst. split; [apply items_rewritten_refl; exact Hr1|].
        cbn [sx_left].
        destruct (PageAddItem_items BLCKSZ (sx_left st1) item (sx_leftoff st1))
          as (a & Ea & Ha).
        rewrite Ea. cbn [set_items pd_items]. auto.
      - inversion H2; subst. split; [apply items_rewritten_add; exact Hr1 | exact Hl1]. }
    destruct F2 as [F2 Hl2].
    assert (Hex2 : block_exists s2 rbuf = true).
    { destruct F2 as (a & _ & E). subst s2. rewrite block_exists_modify. exact Hex1. }
    pose proof (items_rewritten_live _ _ _ Hex1 F2) as Hr2.
    destruct (IH _ _ _ _ H Hex2 Hl2 Hr2) as [F3 Hl3].
    split; [|exact Hl3].
    eauto using items_rewritten_trans.
Qed.

Lemma leaf_distribute_rewrites BLCKSZ origbuf rbuf newitem newitemoff lopaque rel r rel' :
  cbt_split_distribute BLCKSZ origbuf rbuf newitem newitemoff lopaque rel = Ok r rel' ->
  P_ISLEAF (pd_opaque (BufferGetPage rel origbuf)) = true ->
  block_exists rel rbuf = true ->
  pd_items (BufferGetPage rel rbuf) = [] ->
  items_rewritten rbuf rel rel' /\ all_live (pd_items (sx_left (snd r))) = true.
Proof.
  intros H Hleaf Hex Hempty. unfold cbt_split_distribute in H.
  apply bind_Ok in H. destruct H as (r0 & s0 & Hg & H). inversion Hg; subst r0 s0.
  cbv zeta in H. rewrite Hleaf in H.
  apply bind_Ok in H. destruct H as (st & s1 & Ht & H).
  apply leaf_transfer_rewrites in Ht; [|exact Hex|reflexivity|rewrite Hempty; reflexivity].
  destruct Ht as [F Hl].
  destruct (_ <=? _).
  - destruct (sx_item st); [|discriminate].
    apply bind_Ok in H. destruct H as (st' & s2 & Hn & H).
    inversion H; subst. inversion Hn; subst. cbn [snd sx_left]. split; [|exact Hl].
    eapply items_rewritten_trans; [exact F|].
    apply items_rewritten_add. eapply items_rewritten_live; eauto.
  - inversion H; subst. auto.
Qed.

Lemma cbt_get_buffer_extend acc rel :
  cbt_get_buffer InvalidBlockNumber acc rel
  = Ok (RelationGetNumberOfBlocks rel) (extend rel (CBTInitPage CBT_LEAF)).
Proof. destruct rel as [l c]. apply cbt_get_buffer_new. Qed.

Lemma blocks_extend rel p :
  RelationGetNumberOfBlocks (extend rel p) = RelationGetNumberOfBlocks rel + 1.
Proof.
  unfold RelationGetNumberOfBlocks, extend. cbn [rd_pages]. rewrite length_app.
  cbn [length]. lia.
Qed.

Lemma amcache_modify b f rel : rd_amcache (modify_page b f rel) = rd_amcache rel.
Proof. unfold modify_page. destruct (block_exists rel b); reflexivity. Qed.

Lemma block_exists_blocks rel b :
  block_exists rel b = (0 <=? b) && (b <? RelationGetNumberOfBlocks rel).
Proof. reflexivity. Qed.

Lemma BufferGetPage_extend rel p b :
  BufferGetPage (extend rel p) b
  = if b =? RelationGetNumberOfBlocks rel then p else BufferGetPage rel b.
Proof.
  destruct rel as [l c]. unfold extend. cbn [rd_pages rd_amcache].
  destruct (b =? RelationGetNumberOfBlocks (mkRel l c)) eqn:E.
  - apply Z.eqb_eq in E. subst b. apply BufferGetPage_last.
  - apply Z.eqb_neq in E. destruct (block_exists (mkRel l c) b) eqn:Ex.
    + apply BufferGetPage_app. exact Ex.
    + unfold BufferGetPage. rewrite Ex.
      replace (block_exists (mkRel (l ++ [p]) c) b) with false; [reflexivity|].
      symmetry. unfold block_exists, RelationGetNumberOfBlocks in *. cbn [rd_pages] in *.
      rewrite length_app. cbn [length].
      apply andb_false_iff in Ex. apply andb_false_iff.
      destruct Ex as [Ex|Ex]; [left; exact Ex | right].
      apply Z.ltb_ge in Ex. apply Z.ltb_ge. lia.
Qed.

Ltac decide_tests :=
  repeat match goal with
  | |- context [?a =? ?b] =>
      first [ replace (a =? b) with true by (symmetry; apply Z.eqb_eq; lia)
            | replace (a =? b) with false by (symmetry; apply Z.eqb_neq; lia) ]
  | |- context [?a <? ?b] =>
      first [ replace (a <? b) with true by (symmetry; apply Z.ltb_lt; lia)
            | replace (a <? b) with false by (symmetry; apply Z.ltb_ge; lia) ]
  | |- context [?a <=? ?b] =>
      first [ replace (a <=? b) with true by (symmetry; apply Z.leb_le; lia)
            | replace (a <=? b) with false by (symmetry; apply Z.leb_gt; lia) ]
  end.

Ltac read_pages :=
  unfold modify_opaque, modify_meta, write_page, CBT_METAPAGE;
  repeat first [ rewrite BufferGetPage_modify | rewrite BufferGetPage_extend
               | rewrite block_exists_blocks | rewrite blocks_modify
               | rewrite blocks_extend ].

Lemma live_items_tuples items :
  all_live items = true -> live_items (map lp_tuple items) = items.
Proof.
  induction items as [|[d t] items IH]; intros H; [reflexivity|].
  cbn in H. apply andb_true_iff in H. destruct H as [Hd H].
  apply negb_true_iff in Hd. cbn in Hd. subst d.
  cbn. f_equal. apply IH. exact H.
Qed.

Lemma cbt_insert_on_page_room BLCKSZ fuel frame rest t buf rel :
  itemsz <= PageGetFreeSpace BLCKSZ (BufferGetPage rel buf) ->
  cbt_insert_on_page BLCKSZ (S fuel) (frame :: rest) t buf rel
  = Ok (frame :: rest, buf)
       (modify_page buf (fun p => snd (PageAddItem BLCKSZ p t (cbts_offset frame))) rel).
Proof.
  intros H. cbn [cbt_insert_on_page]. mred.
  replace (PageGetFreeSpace BLCKSZ (BufferGetPage rel buf) <? itemsz) with false
    by (symmetry; apply Z.ltb_ge; exact H).
  reflexivity.
Qed.

Lemma root_leaf_split_run BLCKSZ fuel rel root newitem top :
  let p := BufferGetPage rel root in
  let its := page_tuples p in
  let n := Z.of_nat (length its) in
  let N := RelationGetNumberOfBlocks rel in
  block_exists rel root = true ->
  block_exists rel CBT_METAPAGE = true ->
  root <> CBT_METAPAGE ->
  P_ISLEAF (pd_opaque p) = true ->
  P_RIGHTMOST (pd_opaque p) = true ->
  2 <= n -> 48 + 20 * n <= BLCKSZ -> n < 65534 ->
  1 <= cbts_offset top <= n + 1 ->
  N + 1 < InvalidBlockNumber ->
  exists r rel' (Lt Rt : list CBTTupleData),
    cbt_split_page BLCKSZ (S (S fuel)) root newitem [top] rel = Ok r rel'
    /\ Lt ++ Rt = list_insert (Z.to_nat (cbts_offset top - 1)) newitem its
    /\ rd_amcache rel' = rd_amcache rel
    /\ RelationGetNumberOfBlocks rel' = N + 2
    /\ pd_opaque (BufferGetPage rel' CBT_METAPAGE) = pd_opaque (BufferGetPage rel CBT_METAPAGE)
    /\ pd_meta (BufferGetPage rel' CBT_METAPAGE)
       = mkMeta (cbtm_magic (pd_meta (BufferGetPage rel CBT_METAPAGE))) (N + 1)
           (uint32 (level (pd_opaque p) + 1))
    /\ pd_items (BufferGetPage rel' root) = live_items Lt
    /\ pd_opaque (BufferGetPage rel' root)
       = mkOpaque (cbto_prev (pd_opaque p)) N (mkItemPointer 0 0) (level (pd_opaque p))
           (Z.ldiff (cbto_flags (pd_opaque p)) CBT_ROOT)
    /\ BufferGetPage rel' N
       = mkPage (live_items Rt)
           (mkOpaque root InvalidBlockNumber (mkItemPointer (N + 1) 2) (level (pd_opaque p))
              (Z.ldiff (cbto_flags (pd_opaque p)) CBT_ROOT))
           zero_meta
    /\ BufferGetPage rel' (N + 1)
       = mkPage [mkItem false (mkTuple (mkItemPointer root 1) (uint32 (sum_childcnt Lt)));
                 mkItem false
                   (mkTuple (mkItemPointer N 1)
                      (if cbts_offset top <=? n then uint32 (sum_childcnt Rt)
                       else uint32 (sum_childcnt Rt - childcnt newitem
                                    + childcnt (last its newitem))))]
           (mkOpaque InvalidBlockNumber InvalidBlockNumber (mkItemPointer 0 0)
              (uint32 (level (pd_opaque p) + 1)) CBT_ROOT)
           zero_meta
    /\ (forall b, b <> CBT_METAPAGE -> b <> root -> b <> N -> b <> N + 1 ->
        BufferGetPage rel' b = BufferGetPage rel b)
    /\ n / 2 <= Z.of_nat (length Lt) <= n / 2 + 1.
Proof.
  intros p its n N Hex Hmeta Hroot0 Hleaf Hright Hn2 Hfit Hn16 Hoff HN.
  assert (HrN : root < N) by (apply block_exists_iff in Hex; exact (proj2 Hex)).
  assert (Hr0 : 0 <= root) by (apply block_exists_iff in Hex; exact (proj1 Hex)).
  unfold CBT_METAPAGE in Hroot0. unfold InvalidBlockNumber in HN.
  cbn [cbt_split_page]. unfold bind at 1. rewrite cbt_get_buffer_extend. fold N.
  cbv beta iota. unfold bind at 1. unfold get at 1. cbv beta iota.
  unfold BufferGetBlockNumber.
  set (relA := extend rel (CBTInitPage CBT_LEAF)).
  assert (HAroot : BufferGetPage relA root = p).
  { unfold relA. rewrite BufferGetPage_extend. fold N. decide_tests. reflexivity. }
  rewrite HAroot.
  set (oopaque := pd_opaque p).
  set (lflags := Z.ldiff (cbto_flags oopaque) CBT_ROOT).
  set (lopaque := mkOpaque (cbto_prev oopaque) N
                    (cbto_parent (pd_opaque (CBTInitPage CBT_LEAF))) (level oopaque) lflags).
  unfold bind at 1. unfold update at 1. cbv beta iota.
  set (relB := modify_opaque N _ relA).
  assert (HBroot : BufferGetPage relB root = p).
  { unfold relB. read_pages. fold N. decide_tests. cbn [andb]. exact HAroot. }
  assert (HBN : BufferGetPage relB N
                = set_opaque (CBTInitPage CBT_LEAF)
                    (mkOpaque root (cbto_next oopaque)
                       (cbto_parent (pd_opaque (CBTInitPage CBT_LEAF)))
                       (level oopaque) lflags)).
  { unfold relB, relA. read_pages. fold N. decide_tests. reflexivity. }
  assert (HBblocks : RelationGetNumberOfBlocks relB = N + 1).
  { unfold relB, relA. read_pages. reflexivity. }
  assert (HBexr : block_exists relB root = true).
  { rewrite block_exists_blocks, HBblocks. decide_tests. reflexivity. }
  assert (HBexN : block_exists relB N = true).
  { rewrite block_exists_blocks, HBblocks. unfold N at 1, RelationGetNumberOfBlocks at 1.
    replace (0 <=? Z.of_nat (length (rd_pages rel))) with true
      by (symmetry; apply Z.leb_le; lia).
    fold (RelationGetNumberOfBlocks rel). fold N. decide_tests. reflexivity. }
  destruct (cbt_split_distribute_run BLCKSZ relB root N newitem (cbts_offset top) lopaque)
    as (st & relC & Lt & Rt & Hrun & HL & HR & Hc & Hl & Hno & Ho & Hopq & Hlc & Hrc);
    rewrite ?HBroot, ?HBN; try assumption; try lia; try reflexivity.
  { intros Hnl. fold p in Hnl. congruence. }
  rewrite HBroot in Hrun, Hc, Hl, Hno, Hrc. fold its n in Hrun, Hc, Hl, Hno, Hrc.
  destruct (leaf_distribute_rewrites _ _ _ _ _ _ _ _ _ Hrun) as [(its' & Hlive' & EC) HliveL];
    rewrite ?HBroot, ?HBN; try assumption; try reflexivity.
  cbn [snd] in HliveL.
  assert (HCN : BufferGetPage relC N
                = mkPage (live_items Rt)
                    (mkOpaque root (cbto_next oopaque)
                       (cbto_parent (pd_opaque (CBTInitPage CBT_LEAF)))
                       (level oopaque) lflags) zero_meta).
  { assert (E : BufferGetPage relC N = set_items (BufferGetPage relB N) its')
      by (rewrite EC; apply BufferGetPage_modify_same; exact HBexN).
    rewrite E in HR. unfold page_tuples in HR. cbn [set_items pd_items] in HR.
    rewrite E, HBN, <- HR, live_items_tuples by exact Hlive'. reflexivity. }
  assert (HCother : forall b, b <> N -> BufferGetPage relC b = BufferGetPage relB b).
  { intros b Hb. rewrite EC. apply BufferGetPage_modify_other. congruence. }
  assert (HCblocks : RelationGetNumberOfBlocks relC = N + 1).
  { rewrite EC, blocks_modify. exact HBblocks. }
  assert (HLitems : pd_items (sx_left st) = live_items Lt).
  { rewrite <- HL. symmetry. apply live_items_tuples. exact HliveL. }
  unfold bind at 1. rewrite Hrun. cbv beta iota. clear Hrun.
  subst relC. set (relC := modify_page N _ relB) in *.
  mred.
  rewrite cbt_get_buffer_old.
  2:{ rewrite block_exists_blocks, HCblocks. unfold CBT_METAPAGE. decide_tests. reflexivity. }
  2:{ discriminate. }
  cbv beta iota. rewrite cbt_get_buffer_extend. cbv beta iota. rewrite HCblocks.
  set (relD := extend relC (CBTInitPage CBT_LEAF)).
  set (plevel := uint32 (level (pd_opaque (BufferGetPage relD root)) + 1)).
  set (relE := modify_opaque (N + 1) _ relD).
  set (relF := modify_meta CBT_METAPAGE _ relE).
  assert (Hplevel : plevel = uint32 (level oopaque + 1)).
  { unfold plevel, relD, relC, relB, relA. read_pages. fold N. decide_tests.
    cbn [andb]. reflexivity. }
  set (popaque := mkOpaque InvalidBlockNumber InvalidBlockNumber
                    (cbto_parent (pd_opaque (CBTInitPage CBT_LEAF))) plevel CBT_ROOT).
  assert (HFp : BufferGetPage relF (N + 1) = set_opaque (CBTInitPage CBT_LEAF) popaque).
  { unfold relF, relE, relD, relC, relB, relA. read_pages. fold N. decide_tests.
    cbn [andb]. reflexivity. }
  rewrite cbt_insert_on_page_room.
  2:{ rewrite HFp. unfold PageGetFreeSpace, page_hole, itemsz, sizeof_ItemIdData,
        SizeOfPageHeaderData, SizeOfSpecial. cbn [set_opaque CBTInitPage pd_items length].
      change (Z.of_nat 0) with 0. decide_tests. lia. }
  cbv beta iota. cbn [cbts_offset].
  set (relG := modify_page (N + 1) _ relF).
  set (relH := modify_opaque root _ relG).
  unfold bump_offset. cbn [cbts_blkno cbts_offset total_count].
  change (uint16 (P_FIRSTOFFSET + 1)) with 2.
  set (ltuple := CBTFormTuple (ItemPointerSet root P_FIRSTOFFSET) (sx_leftcount st)) in *.
  set (rtuple := CBTFormTuple (ItemPointerSet N P_FIRSTOFFSET) (sx_rightcount st)) in *.
  assert (HGp : BufferGetPage relG (N + 1)
                = set_items (set_opaque (CBTInitPage CBT_LEAF) popaque) [mkItem false ltuple]).
  { unfold relG. rewrite BufferGetPage_modify_same.
    - rewrite HFp.
      pose proof (PageAddItem_append BLCKSZ (set_opaque (CBTInitPage CBT_LEAF) popaque) ltuple)
        as Ha.
      cbn [set_opaque CBTInitPage pd_items length app] in Ha.
      change (Z.of_nat 0 + 1) with P_FIRSTOFFSET in Ha. rewrite Ha by (unfold P_FIRSTOFFSET; lia). reflexivity.
    - unfold relF, relE, relD, relC, relB, relA. read_pages. fold N. decide_tests.
      reflexivity. }
  assert (HHp : BufferGetPage relH (N + 1)
                = set_items (set_opaque (CBTInitPage CBT_LEAF) popaque) [mkItem false ltuple]).
  { unfold relH. read_pages. decide_tests. cbn [andb]. exact HGp. }
  rewrite cbt_insert_on_page_room.
  2:{ rewrite HHp. unfold PageGetFreeSpace, page_hole, itemsz, sizeof_ItemIdData,
        SizeOfPageHeaderData, SizeOfSpecial. cbn [set_items pd_items length].
      change (Z.of_nat 1) with 1. decide_tests. lia. }
  cbv beta iota. cbn [fst cbts_blkno cbts_offset].
  set (relI := modify_page (N + 1) _ relH).
  set (relJ := modify_opaque N _ relI).
  assert (Hnext : cbto_next oopaque = InvalidBlockNumber)
    by (apply Z.eqb_eq; exact Hright).
  assert (HJroot : pd_opaque (BufferGetPage relJ root)
                   = set_parent oopaque (ItemPointerSet (N + 1) P_FIRSTOFFSET)).
  { unfold relJ, relI, relH, relG, relF, relE, relD, relC, relB, relA. read_pages. fold N.
    decide_tests. cbn [andb]. fold p. reflexivity. }
  rewrite HJroot. unfold P_RIGHTMOST at 1. cbn [set_parent cbto_next]. rewrite Hnext.
  change (negb (InvalidBlockNumber =? InvalidBlockNumber)) with false. cbv beta iota.
  set (relK := write_page root (sx_left st) relJ).
  assert (HKN : BufferGetPage relK N
                = mkPage (live_items Rt)
                    (mkOpaque root InvalidBlockNumber (mkItemPointer (N + 1) 2)
                       (level oopaque) lflags) zero_meta).
  { unfold relK, relJ, relI, relH, relG, relF, relE, relD. read_pages.
    rewrite HCblocks. decide_tests. cbn [andb]. rewrite HCN, Hnext. reflexivity. }
  rewrite HKN. unfold P_RIGHTMOST. cbn [pd_opaque cbto_next].
  change (negb (InvalidBlockNumber =? InvalidBlockNumber)) with false. cbv beta iota.
  assert (Hfacts :
    Lt ++ Rt = list_insert (Z.to_nat (cbts_offset top - 1)) newitem its
    /\ rd_amcache relK = rd_amcache rel
    /\ RelationGetNumberOfBlocks relK = N + 2
    /\ pd_opaque (BufferGetPage relK CBT_METAPAGE) = pd_opaque (BufferGetPage rel CBT_METAPAGE)
    /\ pd_meta (BufferGetPage relK CBT_METAPAGE)
       = mkMeta (cbtm_magic (pd_meta (BufferGetPage rel CBT_METAPAGE))) (N + 1)
           (uint32 (level (pd_opaque p) + 1))
    /\ pd_items (BufferGetPage relK root) = live_items Lt
    /\ pd_opaque (BufferGetPage relK root)
       = mkOpaque (cbto_prev (pd_opaque p)) N (mkItemPointer 0 0) (level (pd_opaque p))
           (Z.ldiff (cbto_flags (pd_opaque p)) CBT_ROOT)
    /\ BufferGetPage relK N
       = mkPage (live_items Rt)
           (mkOpaque root InvalidBlockNumber (mkItemPointer (N + 1) 2) (level (pd_opaque p))
              (Z.ldiff (cbto_flags (pd_opaque p)) CBT_ROOT))
           zero_meta
    /\ BufferGetPage relK (N + 1)
       = mkPage [mkItem false (mkTuple (mkItemPointer root 1) (uint32 (sum_childcnt Lt)));
                 mkItem false
                   (mkTuple (mkItemPointer N 1)
                      (if cbts_offset top <=? n then uint32 (sum_childcnt Rt)
                       else uint32 (sum_childcnt Rt - childcnt newitem
                                    + childcnt (last its newitem))))]
           (mkOpaque InvalidBlockNumber InvalidBlockNumber (mkItemPointer 0 0)
              (uint32 (level (pd_opaque p) + 1)) CBT_ROOT)
           zero_meta
    /\ (forall b, b <> CBT_METAPAGE -> b <> root -> b <> N -> b <> N + 1 ->
        BufferGetPage relK b = BufferGetPage rel b)
    /\ n / 2 <= Z.of_nat (length Lt) <= n / 2 + 1).
  { split; [exact Hc|]. split.
    { unfold relK, relJ, relI, relH, relG, relF, relE, relD, relC, relB, relA.
      unfold modify_opaque, modify_meta, write_page. rewrite !amcache_modify.
      cbn [extend rd_amcache]. rewrite !amcache_modify. reflexivity. }
    split.
    { unfold relK, relJ, relI, relH, relG, relF, relE, relD. read_pages.
      rewrite HCblocks. lia. }
    split.
    { unfold relK, relJ, relI, relH, relG, relF, relE, relD, relC, relB, relA. read_pages.
      fold N. decide_tests. cbn [andb]. reflexivity. }
    split.
    { unfold relK, relJ, relI, relH, relG, relF, relE, relD, relC, relB, relA. read_pages.
      fold N. decide_tests. cbn [andb]. cbn [set_meta pd_meta]. rewrite Hplevel. reflexivity. }
    split.
    { unfold relK. read_pages. decide_tests.
      unfold relJ, relI, relH, relG, relF, relE, relD. read_pages. rewrite HCblocks.
      decide_tests. cbn [andb]. exact HLitems. }
    split.
    { unfold relK. read_pages. decide_tests.
      unfold relJ, relI, relH, relG, relF, relE, relD. read_pages. rewrite HCblocks.
      decide_tests. cbn [andb]. exact Hopq. }
    split; [exact HKN|]. split.
    { unfold relK, relJ, relI. read_pages.
      replace (RelationGetNumberOfBlocks relH) with (N + 2)
        by (unfold relH, relG, relF, relE, relD; read_pages; rewrite HCblocks; lia).
      decide_tests. cbn [andb]. rewrite HHp.
      pose proof (PageAddItem_append BLCKSZ
                    (set_items (set_opaque (CBTInitPage CBT_LEAF) popaque)
                       [mkItem false ltuple]) rtuple) as Ha.
      cbn [set_items set_opaque CBTInitPage pd_items length app] in Ha.
      change (Z.of_nat 1 + 1) with 2 in Ha. rewrite Ha by lia.
      cbn [snd set_items set_opaque pd_opaque pd_items pd_meta CBTInitPage].
      unfold ltuple, rtuple, popaque, CBTFormTuple, ItemPointerSet, P_FIRSTOFFSET.
      cbn [ItemPointerGetBlockNumber ItemPointerGetOffsetNumber ip_blkid ip_posid].
      rewrite Hlc, Hrc, Hplevel. reflexivity. }
    split; [|rewrite Hl; destruct (cbts_offset top <=? n / 2); lia].
    intros b Hb0 Hbr HbN HbN1. unfold CBT_METAPAGE in Hb0.
    unfold relK, relJ, relI, relH, relG, relF, relE, relD, relC, relB, relA. read_pages.
    fold N. decide_tests. cbn [andb]. reflexivity. }
  destruct (cbts_offset top <=? n / 2);
    (eexists; exists relK, Lt, Rt; split; [reflexivity | exact Hfacts]).
Qed.

Lemma leaf_flag_kept f : has_flag (Z.ldiff f CBT_ROOT) CBT_LEAF = has_flag f CBT_LEAF.
Proof.
  unfold has_flag, CBT_ROOT, CBT_LEAF. f_equal. f_equal.
  apply Z.bits_inj'. intros i Hi.
  rewrite !Z.land_spec, Z.ldiff_spec.
  destruct (Z.eq_dec i 0) as [->|Hne].
  - cbn. rewrite andb_true_r. reflexivity.
  - rewrite (Z.bits_above_log2 1 i) by (cbn; lia). rewrite !andb_false_r. reflexivity.
Qed.

Lemma sum_unit_counts l : unit_counts l -> sum_childcnt l = Z.of_nat (length l).
Proof.
  induction 1 as [|t l Ht Hl IH]; [reflexivity|].
  cbn [sum_childcnt length]. rewrite Ht, IH. lia.
Qed.

Lemma unit_counts_insert i t l :
  childcnt t = 1 -> unit_counts l -> unit_counts (list_insert i t l).
Proof.
  intros Ht Hl. revert i. induction Hl as [|x l Hx Hl IH]; intros [|i]; cbn;
    repeat constructor; auto.
  apply IH.
Qed.

Lemma unit_counts_last l d : childcnt d = 1 -> unit_counts l -> childcnt (last l d) = 1.
Proof.
  intros Hd Hl. induction Hl as [|x l Hx Hl IH]; [exact Hd|].
  destruct l as [|y l]; [exact Hx | exact IH].
Qed.

Lemma unit_counts_records items :
  forallb record_item items = true -> unit_counts (map lp_tuple items).
Proof.
  induction items as [|it items IH]; intros H; [constructor|].
  cbn in H. apply andb_true_iff in H. destruct H as [Hit H].
  unfold record_item in Hit. apply andb_true_iff in Hit. destruct Hit as [_ Hit].
  apply Z.eqb_eq in Hit. constructor; auto. apply IH. exact H.
Qed.

Lemma records_live_items l : unit_counts l -> forallb record_item (live_items l) = true.
Proof.
  induction 1 as [|t l Ht Hl IH]; [reflexivity|].
  cbn. unfold record_item at 1. cbn. rewrite Ht. exact IH.
Qed.

Lemma live_items_tids blk off l :
  unit_counts l -> map en_tid (leaf_entries blk off (live_items l)) = map itemptr l.
Proof.
  intros H. rewrite leaf_entries_records by (apply records_live_items; exact H).
  unfold live_items. rewrite map_map. reflexivity.
Qed.

Lemma length_leaf_entries_live blk off l :
  length (leaf_entries blk off (live_items l)) = length l.
Proof.
  revert off. induction l as [|t l IH]; intros off; [reflexivity|].
  cbn. rewrite IH. reflexivity.
Qed.

(** A leaf of live records is counted. *)
Lemma counted_leaf_records rel blk :
  block_exists rel blk = true -> blk <> InvalidBlockNumber ->
  P_ISLEAF (pd_opaque (BufferGetPage rel blk)) = true ->
  forallb record_item (pd_items (BufferGetPage rel blk)) = true ->
  Z.of_nat (length (pd_items (BufferGetPage rel blk))) < 65535 ->
  counted 1 rel blk = true.
Proof.
  intros Hex Hne Hleaf Hrec Hlen. cbn [counted]. rewrite Hex, Hleaf.
  apply Z.eqb_neq in Hne. rewrite Hne. unfold PageGetMaxOffsetNumber.
  apply Z.ltb_lt in Hlen. rewrite Hlen. cbn [negb andb].
  eapply forallb_weaken; [|exact Hrec].
  intros x Hx. unfold record_item in Hx. apply andb_true_iff in Hx. destruct Hx as [_ Hx].
  rewrite Hx. apply orb_true_r.
Qed.

Lemma counted_step h rel blk :
  counted (S h) rel blk
  = (block_exists rel blk && negb (blk =? InvalidBlockNumber)
     && ((PageGetMaxOffsetNumber (BufferGetPage rel blk) <? 65535)
         && if P_ISLEAF (pd_opaque (BufferGetPage rel blk)) then
              forallb (fun it => lp_dead it || (childcnt (lp_tuple it) =? 1))
                (pd_items (BufferGetPage rel blk))
            else
              forallb (fun it => lp_dead it ||
                         (counted h rel (child_of it) &&
                          (childcnt (lp_tuple it)
                           =? Z.of_nat (length (live_entries h rel (child_of it))))))
                (pd_items (BufferGetPage rel blk)))).
Proof. reflexivity. Qed.

Lemma live_entries_step h rel blk :
  live_entries (S h) rel blk
  = if P_ISLEAF (pd_opaque (BufferGetPage rel blk))
    then leaf_entries blk 1 (pd_items (BufferGetPage rel blk))
    else flat_map (fun it => if lp_dead it then [] else live_entries h rel (child_of it))
           (pd_items (BufferGetPage rel blk)).
Proof. reflexivity. Qed.

Lemma root_leaf_split_tree rel rel' root N (Lt Rt : list CBTTupleData) cr lopaque ropaque plevel :
  root = cbtm_root (metad_of rel) ->
  N = RelationGetNumberOfBlocks rel ->
  root_leaf_of_records rel = true ->
  root <> CBT_METAPAGE ->
  N + 1 < InvalidBlockNumber ->
  unit_counts (Lt ++ Rt) ->
  Z.of_nat (length (Lt ++ Rt)) < 65535 ->
  cr = uint32 (sum_childcnt Rt) ->
  P_ISLEAF lopaque = true -> P_ISLEAF ropaque = true ->
  cbto_next lopaque = N ->
  rd_amcache rel' = rd_amcache rel ->
  RelationGetNumberOfBlocks rel' = N + 2 ->
  pd_opaque (BufferGetPage rel' CBT_METAPAGE) = pd_opaque (BufferGetPage rel CBT_METAPAGE) ->
  pd_meta (BufferGetPage rel' CBT_METAPAGE)
  = mkMeta (cbtm_magic (pd_meta (BufferGetPage rel CBT_METAPAGE))) (N + 1) plevel ->
  pd_items (BufferGetPage rel' root) = live_items Lt ->
  pd_opaque (BufferGetPage rel' root) = lopaque ->
  BufferGetPage rel' N = mkPage (live_items Rt) ropaque zero_meta ->
  BufferGetPage rel' (N + 1)
  = mkPage [mkItem false (mkTuple (mkItemPointer root 1) (uint32 (sum_childcnt Lt)));
            mkItem false (mkTuple (mkItemPointer N 1) cr)]
      (mkOpaque InvalidBlockNumber InvalidBlockNumber (mkItemPointer 0 0) plevel CBT_ROOT)
      zero_meta ->
  (forall b, b <> CBT_METAPAGE -> b <> root -> b <> N -> b <> N + 1 ->
     BufferGetPage rel' b = BufferGetPage rel b) ->
  cbt_tree 2 rel' = true
  /\ map en_tid (tree_entries 2 rel') = map itemptr (Lt ++ Rt).
Proof.
  intros Eroot EN H Hroot0 HN Hunit Hlen Hcr Hlleaf Hrleaf Hlnext
         Hcache Hblocks Hmo Hmm Hli Hlo HpN HpP Hother.
  destruct (root_leaf_of_records_facts _ H) as (Ht & Hr & Hl & Hi & Hex & Hn).
  destruct (cbt_tree_facts _ _ Ht) as [Hm Hf Hg Hc _].
  rewrite <- Eroot in Hr, Hl, Hi, Hex, Hn.
  assert (HrN : 0 <= root < N) by (subst N; apply block_exists_iff in Hex; exact Hex).
  unfold CBT_METAPAGE, InvalidBlockNumber in *.
  apply Forall_app in Hunit. destruct Hunit as [HuL HuR].
  rewrite length_app in Hlen.
  assert (Hexr : block_exists rel' root = true)
    by (rewrite block_exists_blocks, Hblocks; decide_tests; reflexivity).
  assert (HexN : block_exists rel' N = true)
    by (rewrite block_exists_blocks, Hblocks; decide_tests; reflexivity).
  assert (HexP : block_exists rel' (N + 1) = true)
    by (rewrite block_exists_blocks, Hblocks; decide_tests; reflexivity).
  assert (Hcl : counted 1 rel' root = true).
  { apply counted_leaf_records; try assumption.
    - rewrite Hlo. exact Hlleaf.
    - rewrite Hli. apply records_live_items. exact HuL.
    - rewrite Hli. unfold live_items. rewrite length_map. lia. }
  assert (Hcrt : counted 1 rel' N = true).
  { apply counted_leaf_records; try assumption.
    - unfold InvalidBlockNumber. lia.
    - rewrite HpN. exact Hrleaf.
    - rewrite HpN. cbn [pd_items]. apply records_live_items. exact HuR.
    - rewrite HpN. cbn [pd_items]. unfold live_items. rewrite length_map. lia. }
  assert (Hel : live_entries 1 rel' root = leaf_entries root 1 (live_items Lt)).
  { cbn [live_entries]. rewrite Hlo, Hlleaf, Hli. reflexivity. }
  assert (Her : live_entries 1 rel' N = leaf_entries N 1 (live_items Rt)).
  { cbn [live_entries]. rewrite HpN. cbn [pd_opaque pd_items]. rewrite Hrleaf. reflexivity. }
  assert (Hmeta' : metad_of rel' = mkMeta CBT_MAGIC (N + 1) plevel).
  { unfold metad_of, CBT_METAPAGE. rewrite Hmm. unfold metad_of, CBT_METAPAGE in Hg.
    rewrite Hg. reflexivity. }
  split.
  - unfold cbt_tree. rewrite Hmeta'. cbn [cbtm_root cbtm_level cbtm_magic].
    unfold CBT_METAPAGE. rewrite Hmo. unfold CBT_METAPAGE in Hf. rewrite Hf.
    rewrite Hblocks, HpP. cbn [pd_opaque level].
    decide_tests. cbn [andb orb negb].
    change (P_IGNORE (mkOpaque 4294967295 4294967295 (mkItemPointer 0 0) plevel CBT_ROOT))
      with false. cbn [negb andb].
    apply andb_true_iff. split.
    + (* the cached meta record *)
      unfold cache_ok. rewrite Hcache. unfold cache_ok in Hc.
      destruct (rd_amcache rel) as [c|]; [|reflexivity].
      rewrite Hmeta'. cbn [cbtm_root].
      apply andb_true_iff in Hc. destruct Hc as [Hc Hc3].
      apply andb_true_iff in Hc. destruct Hc as [Hc1 Hc2].
      rewrite Hc1. apply block_exists_iff in Hc2.
      fold (RelationGetNumberOfBlocks rel) in Hc2. rewrite <- EN in Hc2.
      rewrite block_exists_blocks, Hblocks. decide_tests. cbn [andb orb].
      rewrite orb_false_r. apply negb_true_iff.
      unfold cache_accepts. cbv zeta.
      destruct (Z.eq_dec (cbtm_root c) root) as [Ec|Ec].
      * rewrite Ec, Hlo. unfold P_RIGHTMOST. rewrite Hlnext.
        unfold InvalidBlockNumber. decide_tests. apply andb_false_r.
      * assert (Hacc : cache_accepts rel c = false).
        { destruct (cache_accepts rel c); [|reflexivity].
          cbn [negb orb] in Hc3. apply Z.eqb_eq in Hc3. congruence. }
        unfold cache_accepts in Hacc. cbv zeta in Hacc.
        destruct (Z.eq_dec (cbtm_root c) 0) as [E0|E0].
        -- rewrite E0 in *. rewrite Hmo. exact Hacc.
        -- rewrite Hother by (unfold CBT_METAPAGE; lia). exact Hacc.
    + (* the count invariant under the new root *)
      rewrite counted_step. rewrite HexP, HpP. cbn [pd_opaque pd_items].
      unfold PageGetMaxOffsetNumber. cbn [pd_items length].
      change (P_ISLEAF (mkOpaque 4294967295 4294967295 (mkItemPointer 0 0) plevel CBT_ROOT))
        with false.
      unfold InvalidBlockNumber. decide_tests. cbn [negb andb forallb lp_dead orb lp_tuple].
      unfold child_of. cbn [lp_tuple itemptr ip_blkid childcnt].
      rewrite Hcl, Hcrt, Hel, Her, !length_leaf_entries_live, Hcr.
      rewrite !sum_unit_counts by assumption.
      rewrite !uint32_small by lia. rewrite !Z.eqb_refl. reflexivity.
  - unfold tree_entries. rewrite Hmeta'. cbn [cbtm_root].
    unfold InvalidBlockNumber. decide_tests.
    rewrite live_entries_step. rewrite HpP. cbn [pd_opaque pd_items].
    change (P_ISLEAF (mkOpaque 4294967295 4294967295 (mkItemPointer 0 0) plevel CBT_ROOT))
      with false. cbn [flat_map lp_dead]. unfold child_of. cbn [lp_tuple itemptr ip_blkid].
    rewrite Hel, Her, app_nil_r, !map_app, !live_items_tids by assumption. reflexivity.
Qed.

(** The run of [cbtinsert] on a full root leaf, the tree and the pages it
    leaves. *)
Lemma cbtinsert_root_split_pages BLCKSZ rel fuel pos tid :
  root_leaf_of_records rel = true ->
  let root := cbtm_root (metad_of rel) in
  let page := BufferGetPage rel root in
  let n := Z.of_nat (length (pd_items page)) in
  let i := Z.to_nat (insert_offset (uint32 pos) n - 1) in
  root <> CBT_METAPAGE ->
  P_RIGHTMOST (pd_opaque page) = true ->
  PageGetFreeSpace BLCKSZ page < itemsz ->
  2 <= n -> 0 <= page_hole BLCKSZ page -> BLCKSZ <= 32768 ->
  RelationGetNumberOfBlocks rel + 1 < InvalidBlockNumber ->
  exists rel',
    cbtinsert BLCKSZ (S (S (S fuel))) pos tid rel = Ok true rel'
    /\ cbt_tree 2 rel' = true
    /\ map en_tid (tree_entries 2 rel') = list_insert i tid (map en_tid (tree_entries 1 rel))
    /\ RelationGetNumberOfBlocks rel' = RelationGetNumberOfBlocks rel + 2
    /\ exists Lt Rt, root_leaf_divided rel rel' root Lt Rt.
Proof.
  intros H root page n i Hroot0 Hright Hfull Hn2 Hhole Hblck HN.
  assert (H0 : 0 <= uint32 pos) by (unfold uint32; apply Z.mod_pos_bound; lia).
  destruct (cbt_insert_tuple_locates BLCKSZ rel (S fuel) (uint32 pos) tid H H0)
    as (c & cnt & Hc & Hrun).
  fold root in Hrun. fold page in Hrun. fold n in Hrun.
  set (rel1 := mkRel (rd_pages rel) c) in *.
  assert (Epage : forall b, BufferGetPage rel1 b = BufferGetPage rel b)
    by (intros b; destruct rel; reflexivity).
  assert (Emeta : metad_of rel1 = metad_of rel) by (destruct rel; reflexivity).
  assert (Eblocks : RelationGetNumberOfBlocks rel1 = RelationGetNumberOfBlocks rel)
    by reflexivity.
  destruct (root_leaf_of_records_facts _ Hc) as (Ht & Hr & Hl & Hi & Hex & Hn).
  destruct (cbt_tree_facts _ _ Ht) as [Hm _ _ _ _].
  rewrite Emeta in Hr, Hl, Hi, Hex, Hn. rewrite Epage in Hl, Hi, Hn.
  fold root in Hr, Hl, Hi, Hex, Hn. fold page in Hl, Hi, Hn. fold n in Hn.
  assert (Hfit : 48 + 20 * n <= BLCKSZ).
  { revert Hhole. unfold page_hole, SizeOfPageHeaderData, SizeOfSpecial, sizeof_ItemIdData,
      itemsz. fold n. lia. }
  pose proof (insert_offset_range (uint32 pos) n ltac:(lia)) as Hoff.
  set (o := insert_offset (uint32 pos) n) in *.
  destruct (root_leaf_split_run BLCKSZ fuel rel1 root (CBTFormTuple tid 1)
              (mkFrame root o cnt))
    as (r & rel' & Lt & Rt & Hsplit & Hcat & Hcache & Hblocks & Hmo & Hmm & Hli & Hlo
        & HpN & HpP & Hother & HlenL);
    rewrite ?Epage; fold page; unfold page_tuples; rewrite ?length_map; fold n;
    try assumption; try lia.
  rewrite Epage in Hcat, Hmo, Hmm, Hlo, HpN, HpP. fold page in Hcat, Hlo, HpN, HpP.
  unfold page_tuples in Hcat, HpP. rewrite length_map in HpP. fold n in HpP.
  cbn [cbts_offset] in Hcat, HpP.
  rewrite Eblocks in *.
  assert (Hu : unit_counts (Lt ++ Rt)).
  { rewrite Hcat. apply unit_counts_insert; [reflexivity|].
    apply unit_counts_records. exact Hi. }
  assert (Hlen : Z.of_nat (length (Lt ++ Rt)) = n + 1).
  { rewrite Hcat, length_list_insert, length_map. fold n. lia. }
  destruct (root_leaf_split_tree rel1 rel' root (RelationGetNumberOfBlocks rel) Lt Rt
              (if o <=? n then uint32 (sum_childcnt Rt)
               else uint32 (sum_childcnt Rt - childcnt (CBTFormTuple tid 1)
                            + childcnt (last (map lp_tuple (pd_items page))
                                          (CBTFormTuple tid 1))))
              (mkOpaque (cbto_prev (pd_opaque page)) (RelationGetNumberOfBlocks rel)
                 (mkItemPointer 0 0) (level (pd_opaque page))
                 (Z.ldiff (cbto_flags (pd_opaque page)) CBT_ROOT))
              (mkOpaque root InvalidBlockNumber
                 (mkItemPointer (RelationGetNumberOfBlocks rel + 1) 2)
                 (level (pd_opaque page))
                 (Z.ldiff (cbto_flags (pd_opaque page)) CBT_ROOT))
              (uint32 (level (pd_opaque page) + 1)))
    as [Htree Hents]; try assumption; try reflexivity; try lia.
  - destruct (o <=? n); [reflexivity|].
    rewrite (unit_counts_last (map lp_tuple (pd_items page)) (CBTFormTuple tid 1) eq_refl
               (unit_counts_records _ Hi)).
    f_equal. change (childcnt (CBTFormTuple tid 1)) with 1. lia.
  - unfold P_ISLEAF. cbn [cbto_flags]. rewrite leaf_flag_kept. exact Hl.
  - unfold P_ISLEAF. cbn [cbto_flags]. rewrite leaf_flag_kept. exact Hl.
  - exists rel'. split; [|split; [exact Htree | split; [|split; [exact Hblocks|]]]].
    + unfold cbtinsert, bind at 1. rewrite Hrun. fold o.
      cbn [cbt_change_parent cbt_insert_on_page]. mred.
      rewrite Epage. fold page.
      replace (PageGetFreeSpace BLCKSZ page <? itemsz) with true
        by (symmetry; apply Z.ltb_lt; exact Hfull).
      rewrite Hsplit. reflexivity.
    + rewrite Hents, Hcat, map_list_insert, (tree_entries_records _ H).
      fold root. fold page. rewrite map_map. destruct tid. reflexivity.
    + exists Lt, Rt. unfold root_leaf_divided. fold root. fold page. fold n.
      split; [unfold metad_of; rewrite Hmm; reflexivity|].
      split; [exact Hu|]. split; [exact Hlen|].
      split; [unfold page_tuples in HlenL; rewrite Epage, length_map in HlenL; exact HlenL|].
      split; [exact Hli|]. split; [exact Hlo|].
      split; [rewrite HpN; reflexivity|]. split; [rewrite HpN; reflexivity|].
      split; rewrite HpP; reflexivity.
Qed.

Lemma cbtinsert_split_records BLCKSZ rel fuel pos tid :
  root_leaf_of_records rel = true ->
  let root := cbtm_root (metad_of rel) in
  let page := BufferGetPage rel root in
  let n := Z.of_nat (length (pd_items page)) in
  let i := Z.to_nat (insert_offset (uint32 pos) n - 1) in
  root <> CBT_METAPAGE ->
  P_RIGHTMOST (pd_opaque page) = true ->
  PageGetFreeSpace BLCKSZ page < itemsz ->
  2 <= n -> 0 <= page_hole BLCKSZ page -> BLCKSZ <= 32768 ->
  RelationGetNumberOfBlocks rel + 1 < InvalidBlockNumber ->
  exists rel',
    cbtinsert BLCKSZ (S (S (S fuel))) pos tid rel = Ok true rel'
    /\ cbt_tree 2 rel' = true
    /\ map en_tid (tree_entries 2 rel') = list_insert i tid (map en_tid (tree_entries 1 rel))
    /\ RelationGetNumberOfBlocks rel' = RelationGetNumberOfBlocks rel + 2.
Proof.
  intros H root page n i Hroot0 Hright Hfull Hn2 Hhole Hblck HN.
  destruct (cbtinsert_root_split_pages BLCKSZ rel fuel pos tid H Hroot0 Hright Hfull Hn2 Hhole
              Hblck HN) as (rel' & H1 & H2 & H3 & H4 & _).
  exists rel'. auto.
Qed.

(** X11.  [cbtinsert] on a tree that is one full root leaf of [n >= 2] live
    records, rightmost on its level and not block 0: the leaf is split.  The
    insert returns true and leaves a counted tree of height 2, two blocks
    longer, whose heap pointers in rank order are the former ones with the
    new one put in at offset [max 1 (min pos (n + 1))], for [pos] the 32-bit
    value of the key. *)
Theorem cbtinsert_root_leaf_split (BLCKSZ : Z) (rel : Relation) (fuel : nat) (pos : Z)
  (tid : ItemPointerData) :
  root_leaf_of_records rel = true ->
  let root := cbtm_root (metad_of rel) in
  let page := BufferGetPage rel root in
  let n := Z.of_nat (length (pd_items page)) in
  root <> CBT_METAPAGE ->
  P_RIGHTMOST (pd_opaque page) = true ->
  PageGetFreeSpace BLCKSZ page < itemsz ->
  2 <= n -> 0 <= page_hole BLCKSZ page -> BLCKSZ <= 32768 ->
  RelationGetNumberOfBlocks rel + 1 < InvalidBlockNumber ->
  (3 <= fuel)%nat ->
  exists rel',
    cbtinsert BLCKSZ fuel pos tid rel = Ok true rel'
    /\ cbt_tree 2 rel' = true
    /\ map en_tid (tree_entries 2 rel')
       = list_insert (Z.to_nat (insert_offset (uint32 pos) n - 1)) tid
           (map en_tid (tree_entries 1 rel))
    /\ RelationGetNumberOfBlocks rel' = RelationGetNumberOfBlocks rel + 2.
Proof.
  intros H root page n Hroot0 Hright Hfull Hn2 Hhole Hblck HN Hfuel.
  destruct fuel as [|[|[|fuel]]]; try lia.
  exact (cbtinsert_split_records BLCKSZ rel fuel pos tid H Hroot0 Hright Hfull Hn2 Hhole
           Hblck HN).
Qed.

(** X12.  Insertion and scan compose across the split of a full root leaf:
    after the [cbtinsert], a scan for rank [max 1 (min pos (n + 1))] returns
    the inserted heap pointer; a record that had a rank below that keeps it,
    and a record that had that rank or a higher one is found one rank
    further. *)
Theorem cbtinsert_split_scan_roundtrip (BLCKSZ : Z) (rel : Relation) (fuel : nat) (pos : Z)
  (tid : ItemPointerData) :
  root_leaf_of_records rel = true ->
  let root := cbtm_root (metad_of rel) in
  let page := BufferGetPage rel root in
  let n := Z.of_nat (length (pd_items page)) in
  let o := insert_offset (uint32 pos) n in
  root <> CBT_METAPAGE ->
  P_RIGHTMOST (pd_opaque page) = true ->
  PageGetFreeSpace BLCKSZ page < itemsz ->
  2 <= n -> 0 <= page_hole BLCKSZ page -> BLCKSZ <= 32768 ->
  RelationGetNumberOfBlocks rel + 1 < InvalidBlockNumber ->
  (3 <= fuel)%nat ->
  exists rel',
    cbtinsert BLCKSZ fuel pos tid rel = Ok true rel'
    /\ (exists c, cbtgettuple fuel cbtbeginscan false o rel'
                  = Ok (true, Some tid, mkScan false) (mkRel (rd_pages rel') c))
    /\ forall k t,
         1 <= k ->
         nth_error (map en_tid (tree_entries 1 rel)) (Z.to_nat (k - 1)) = Some t ->
         exists c, cbtgettuple fuel cbtbeginscan false (if k <? o then k else k + 1) rel'
                   = Ok (true, Some t, mkScan false) (mkRel (rd_pages rel') c).
Proof.
  intros H root page n o Hroot0 Hright Hfull Hn2 Hhole Hblck HN Hfuel.
  destruct fuel as [|[|[|fuel]]]; try lia.
  destruct (cbtinsert_split_records BLCKSZ rel fuel pos tid H Hroot0 Hright Hfull Hn2 Hhole
              Hblck HN) as (rel' & Hrun & Htree & Hent & _).
  fold root in Hent. fold page in Hent. fold n in Hent. fold o in Hent.
  exists rel'. split; [exact Hrun|].
  destruct (root_leaf_of_records_facts _ H) as (_ & _ & _ & _ & _ & Hn).
  fold root in Hn. fold page in Hn. fold n in Hn.
  assert (Hlen : length (map en_tid (tree_entries 1 rel)) = Z.to_nat n).
  { rewrite (tree_entries_records _ H), length_map. fold root. fold page. unfold n. lia. }
  assert (Ho : 1 <= o <= n + 1) by (apply insert_offset_range; lia).
  assert (Eo : Z.of_nat (Z.to_nat (o - 1)) + 1 = o) by lia.
  pose proof (scan_after_insert 2 rel' _ _ tid (S (S (S fuel))) Htree Hent) as Hs.
  rewrite Eo in Hs. unfold cbtgettuple, cbtbeginscan. apply Hs; lia.
Qed.

Lemma cbtinsert_root_leaf_split_witness :
  exists rel',
    cbtinsert 128 3 2 (heap_tid 9) full_root_leaf_example = Ok true rel'
    /\ cbt_tree 2 rel' = true
    /\ map en_tid (tree_entries 2 rel')
       = [heap_tid 1; heap_tid 9; heap_tid 2; heap_tid 3; heap_tid 4].
Proof.
  destruct (cbtinsert_root_leaf_split 128 full_root_leaf_example 3 2 (heap_tid 9))
    as (rel' & Hrun & Htree & Hent & _).
  - vm_compute. reflexivity.
  - discriminate.
  - reflexivity.
  - vm_compute. reflexivity.
  - vm_compute. discriminate.
  - vm_compute. discriminate.
  - lia.
  - vm_compute. reflexivity.
  - lia.
  - exists rel'. split; [exact Hrun | split; [exact Htree | exact Hent]].
Defined.

Lemma cbtinsert_split_scan_roundtrip_witness :
  exists rel',
    cbtinsert 128 3 9 (heap_tid 9) full_root_leaf_example = Ok true rel'
    /\ exists c, cbtgettuple 3 cbtbeginscan false 5 rel'
                 = Ok (true, Some (heap_tid 9), mkScan false) (mkRel (rd_pages rel') c).
Proof.
  destruct (cbtinsert_split_scan_roundtrip 128 full_root_leaf_example 3 9 (heap_tid 9))
    as (rel' & Hrun & Hscan & _).
  - vm_compute. reflexivity.
  - discriminate.
  - reflexivity.
  - vm_compute. reflexivity.
  - vm_compute. discriminate.
  - vm_compute. discriminate.
  - lia.
  - vm_compute. reflexivity.
  - lia.
  - exists rel'. split; [exact Hrun | exact Hscan].
Defined.

(** ** Insertion below a root, without a split *)

Lemma forallb_ext_in {A} (f g : A -> bool) l :
  (forall x, In x l -> f x = g x) -> forallb f l = forallb g l.
Proof.
  induction l as [|x l IH]; intros H; [reflexivity|].
  cbn. rewrite (H x (or_introl eq_refl)), IH; [reflexivity|].
  intros y Hy. apply H. right. exact Hy.
Qed.

Lemma flat_map_ext_in' {A B} (f g : A -> list B) l :
  (forall x, In x l -> f x = g x) -> flat_map f l = flat_map g l.
Proof.
  induction l as [|x l IH]; intros H; [reflexivity|].
  cbn. rewrite (H x (or_introl eq_refl)), IH; [reflexivity|].
  intros y Hy. apply H. right. exact Hy.
Qed.

Lemma tree_blocks_child h rel blk it b :
  P_ISLEAF (pd_opaque (BufferGetPage rel blk)) = false ->
  In it (pd_items (BufferGetPage rel blk)) -> lp_dead it = false ->
  In b (tree_blocks h rel (child_of it)) ->
  In b (tree_blocks (S h) rel blk).
Proof.
  intros Hleaf Hin Hd Hb. cbn [tree_blocks]. rewrite Hleaf. right.
  apply in_flat_map. exists it. split; [exact Hin|]. rewrite Hd. exact Hb.
Qed.

(** What lies below a page depends on the pages below it only. *)
Lemma subtree_agree h :
  forall rel rel' blk,
    (forall b, In b (tree_blocks h rel blk) ->
       block_exists rel' b = block_exists rel b
       /\ BufferGetPage rel' b = BufferGetPage rel b) ->
    counted h rel' blk = counted h rel blk
    /\ live_entries h rel' blk = live_entries h rel blk
    /\ tree_blocks h rel' blk = tree_blocks h rel blk.
Proof.
  induction h as [|h IH]; intros rel rel' blk Hag; [auto|].
  destruct (Hag blk) as [Hex Hpage]; [left; reflexivity|].
  rewrite !counted_step, !live_entries_step. cbn [tree_blocks]. rewrite Hex, Hpage.
  destruct (P_ISLEAF (pd_opaque (BufferGetPage rel blk))) eqn:Hleaf; [auto|].
  assert (Hkids : forall it, In it (pd_items (BufferGetPage rel blk)) -> lp_dead it = false ->
            counted h rel' (child_of it) = counted h rel (child_of it)
            /\ live_entries h rel' (child_of it) = live_entries h rel (child_of it)
            /\ tree_blocks h rel' (child_of it) = tree_blocks h rel (child_of it)).
  { intros it Hin Hd. apply IH. intros b Hb. apply Hag.
    eapply tree_blocks_child; eauto. }
  split; [|split].
  - f_equal. f_equal. apply forallb_ext_in. intros it Hin.
    destruct (lp_dead it) eqn:Hd; [reflexivity|].
    destruct (Hkids it Hin Hd) as (E1 & E2 & _). rewrite E1, E2. reflexivity.
  - apply flat_map_ext_in'. intros it Hin.
    destruct (lp_dead it) eqn:Hd; [reflexivity|]. apply (Hkids it Hin Hd).
  - f_equal. apply flat_map_ext_in'. intros it Hin.
    destruct (lp_dead it) eqn:Hd; [reflexivity|]. apply (Hkids it Hin Hd).
Qed.

Section InPagePath.

Variable ent : OffsetNumber -> ItemIdData -> list entry.
Variables (blk : BlockNumber) (stack : CBTStack) (pos : Z).

(** The frame of a page search, with the count to its left. *)
Lemma search_in_page_from_path :
  forall items off L e,
    (forall it, In it items -> ent_weighs ent it) ->
    0 <= L < pos ->
    L + Z.of_nat (length (page_ents ent off items)) < 4294967296 ->
    0 <= off -> off + Z.of_nat (length items) <= 65535 ->
    nth_error (page_ents ent off items) (Z.to_nat (pos - L - 1)) = Some e ->
    exists j it,
      nth_error items j = Some it /\ lp_dead it = false
      /\ let L' := L + Z.of_nat (length (page_ents ent off (firstn j items))) in
         L' < pos /\ pos <= L' + childcnt (lp_tuple it)
         /\ cbt_search_in_page_from items off (off + Z.of_nat (length items) - 1) L pos
              blk stack
            = mkFrame blk (off + Z.of_nat j) L' :: stack
         /\ nth_error (ent (off + Z.of_nat j) it) (Z.to_nat (pos - L' - 1)) = Some e.
Proof.
  induction items as [|it rest IH]; intros off L e Hw HL Hbound Hoff Hlen Hnth.
  - cbn in Hnth. destruct (Z.to_nat (pos - L - 1)); discriminate Hnth.
  - cbn [page_ents cbt_search_in_page_from length] in *.
    assert (Hwit : ent_weighs ent it) by (apply Hw; left; reflexivity).
    assert (Hwrest : forall it', In it' rest -> ent_weighs ent it')
      by (intros it' Hin; apply Hw; right; exact Hin).
    replace (off + Z.of_nat (S (length rest)) - 1)
      with (off + 1 + Z.of_nat (length rest) - 1) by lia.
    assert (Hnext : OffsetNumberNext off = off + 1)
      by (apply OffsetNumberNext_small; lia).
    assert (Hlast : (off =? off + 1 + Z.of_nat (length rest) - 1)
                    = match rest with [] => true | _ => false end).
    { destruct rest; cbn [length].
      - apply Z.eqb_eq. lia.
      - apply Z.eqb_neq. lia. }
    rewrite length_app in Hbound.
    unfold ItemIdIsDead.
    destruct (lp_dead it) eqn:Edead.
    + (* a dead line pointer is skipped *)
      destruct (Hwit off) as [Hd _]. rewrite (Hd Edead) in *. cbn [app length] in *.
      cbn [negb andb]. rewrite Hlast.
      destruct rest as [|it2 rest2].
      * cbn in Hnth. destruct (Z.to_nat (pos - L - 1)); discriminate Hnth.
      * rewrite Hnext.
        destruct (IH (off + 1) L e Hwrest HL ltac:(lia) ltac:(lia)
                    ltac:(cbn [length] in *; lia) Hnth)
          as (j & it' & H1 & H2 & H3 & H4 & H5 & H6).
        exists (S j), it'. cbn [nth_error firstn page_ents].
        rewrite (Hd Edead). cbn [app].
        replace (off + Z.of_nat (S j)) with (off + 1 + Z.of_nat j) by lia.
        repeat split; auto.
    + (* a live tuple adds its count *)
      destruct (Hwit off) as [_ Hl]. specialize (Hl Edead).
      set (c := childcnt (lp_tuple it)) in *.
      assert (Hc0 : 0 <= c) by lia.
      rewrite (uint32_small (L + c)) by lia.
      cbn [negb andb].
      destruct (pos <=? L + c) eqn:Ehit.
      * apply Z.leb_le in Ehit.
        rewrite nth_error_app1 in Hnth by lia.
        exists O, it. cbn [nth_error firstn page_ents length].
        replace (L + c - c) with L by lia. rewrite (uint32_small L) by lia.
        replace (off + Z.of_nat 0) with off by lia.
        replace (L + Z.of_nat 0) with L by lia.
        repeat split; auto; lia.
      * apply Z.leb_gt in Ehit.
        rewrite nth_error_app2 in Hnth by lia.
        replace (Z.to_nat (pos - L - 1) - length (ent off it))%nat
          with (Z.to_nat (pos - (L + c) - 1)) in Hnth by lia.
        rewrite Hlast.
        destruct rest as [|it2 rest2].
        -- cbn in Hnth. destruct (Z.to_nat (pos - (L + c) - 1)); discriminate Hnth.
        -- rewrite Hnext.
           destruct (IH (off + 1) (L + c) e Hwrest ltac:(lia) ltac:(lia) ltac:(lia)
                       ltac:(cbn [length] in *; lia) Hnth)
             as (j & it' & H1 & H2 & H3 & H4 & H5 & H6).
           exists (S j), it'. cbn [nth_error firstn page_ents].
           rewrite length_app.
           replace (off + Z.of_nat (S j)) with (off + 1 + Z.of_nat j) by lia.
           replace (L + Z.of_nat (length (ent off it)
                                  + length (page_ents ent (off + 1) (firstn j (it2 :: rest2)))))
             with (L + c + Z.of_nat (length (page_ents ent (off + 1) (firstn j (it2 :: rest2)))))
             by lia.
           repeat split; auto.
Qed.

End InPagePath.

Lemma list_update_mid {A} (f : A -> A) (pre : list A) x post :
  list_update (length pre) f (pre ++ x :: post) = pre ++ f x :: post.
Proof. induction pre as [|y pre IH]; cbn; congruence. Qed.

Lemma list_insert_mid {A} (x : A) (pre post : list A) :
  list_insert (length pre) x (pre ++ post) = pre ++ x :: post.
Proof. induction pre as [|y pre IH]; cbn; [destruct post; reflexivity | congruence]. Qed.

Lemma list_insert_inner {A} (x : A) (a b c : list A) i :
  (i <= length b)%nat ->
  list_insert (length a + i) x (a ++ b ++ c) = a ++ list_insert i x b ++ c.
Proof.
  intros Hi. induction a as [|y a IH]; cbn [length app Nat.add list_insert].
  - revert i Hi. induction b as [|z b IHb]; intros [|i] Hi; cbn in *; try lia.
    + destruct c; reflexivity.
    + reflexivity.
    + rewrite IHb by lia. reflexivity.
  - rewrite IH. reflexivity.
Qed.

Lemma leaf_entries_tids blk items :
  forall off, map en_tid (leaf_entries blk off items) = live_tids items.
Proof.
  induction items as [|it items IH]; intros off; [reflexivity|].
  cbn [leaf_entries live_tids flat_map]. rewrite map_app, IH.
  destruct (lp_dead it); reflexivity.
Qed.

Lemma live_tids_app a b : live_tids (a ++ b) = live_tids a ++ live_tids b.
Proof. unfold live_tids. apply flat_map_app. Qed.

Lemma length_page_ents_leaf blk off items :
  length (page_ents (leaf_ent blk) off items) = length (live_tids items).
Proof.
  rewrite <- leaf_entries_page_ents, <- (leaf_entries_tids blk items off), length_map.
  reflexivity.
Qed.

Lemma bumped_other parents b p :
  (forall f, In f parents -> cbts_blkno f <> b) -> bumped parents b p = p.
Proof.
  induction parents as [|f rest IH]; intros H; [reflexivity|].
  cbn [bumped]. replace (b =? cbts_blkno f) with false.
  - apply IH. intros g Hg. apply H. right. exact Hg.
  - symmetry. apply Z.eqb_neq. intros E. apply (H f (or_introl eq_refl)). auto.
Qed.

Lemma bumped_app_other parents f b p :
  b <> cbts_blkno f -> bumped (parents ++ [f]) b p = bumped parents b p.
Proof.
  intros Hb. induction parents as [|g rest IH]; cbn [app bumped].
  - apply Z.eqb_neq in Hb. rewrite Hb. reflexivity.
  - rewrite IH. reflexivity.
Qed.

Lemma bumped_app_last parents f p :
  (forall g, In g parents -> cbts_blkno g <> cbts_blkno f) ->
  bumped (parents ++ [f]) (cbts_blkno f) p = bump_tuple (cbts_offset f) p.
Proof.
  induction parents as [|g rest IH]; intros H; cbn [app bumped].
  - rewrite Z.eqb_refl. reflexivity.
  - replace (cbts_blkno f =? cbts_blkno g) with false.
    + apply IH. intros x Hx. apply H. right. exact Hx.
    + symmetry. apply Z.eqb_neq. intros E. apply (H g (or_introl eq_refl)). auto.
Qed.

Lemma insert_on_leaf h rel rel' blk pre it post delta tid :
  counted (S h) rel blk = true ->
  P_ISLEAF (pd_opaque (BufferGetPage rel blk)) = true ->
  pd_items (BufferGetPage rel blk) = pre ++ it :: post ->
  lp_dead it = false ->
  block_exists rel' blk = block_exists rel blk ->
  BufferGetPage rel' blk
  = add_record (1 + Z.of_nat (length pre) + delta) tid (BufferGetPage rel blk) ->
  0 <= delta <= 1 ->
  Z.of_nat (length (pd_items (BufferGetPage rel blk))) + 1 < 65535 ->
  counted (S h) rel' blk = true
  /\ map en_tid (live_entries (S h) rel' blk)
     = list_insert (length (live_tids pre) + Z.to_nat delta) tid
         (map en_tid (live_entries (S h) rel blk))
  /\ tree_blocks (S h) rel' blk = tree_blocks (S h) rel blk.
Proof.
  intros Hc Hleaf Hitems Hlive Hex Hpage Hdelta Hlen.
  destruct (counted_S _ _ _ Hc) as (Hex0 & Hinv & Hmax & Hcnt). rewrite Hleaf in Hcnt.
  assert (Hi' : pd_items (BufferGetPage rel' blk)
                = list_insert (length pre + Z.to_nat delta) (mkItem false (mkTuple tid 1))
                    (pd_items (BufferGetPage rel blk))).
  { rewrite Hpage. unfold add_record. cbn [set_items pd_items]. f_equal. lia. }
  assert (Ho' : pd_opaque (BufferGetPage rel' blk) = pd_opaque (BufferGetPage rel blk))
    by (rewrite Hpage; reflexivity).
  split; [|split].
  - rewrite counted_step. unfold PageGetMaxOffsetNumber.
    rewrite Hex, Hex0, Ho', Hleaf, Hi', length_list_insert.
    apply Z.eqb_neq in Hinv. rewrite Hinv.
    replace (Z.of_nat (S (length (pd_items (BufferGetPage rel blk)))) <? 65535) with true
      by (symmetry; apply Z.ltb_lt; lia).
    cbn [negb andb]. apply forallb_list_insert; [reflexivity|].
    apply forallb_forall. intros x Hx. destruct (lp_dead x) eqn:Hd; [reflexivity|].
    cbn [orb]. apply Z.eqb_eq. apply Hcnt; assumption.
  - rewrite !live_entries_step, Ho', Hleaf, !leaf_entries_tids, Hi', Hitems.
    assert (E : list_insert (length pre + Z.to_nat delta) (mkItem false (mkTuple tid 1))
                  (pre ++ it :: post)
                = if delta =? 0 then pre ++ mkItem false (mkTuple tid 1) :: it :: post
                  else pre ++ it :: mkItem false (mkTuple tid 1) :: post).
    { destruct (delta =? 0) eqn:Ed.
      - apply Z.eqb_eq in Ed. subst delta. cbn [Z.to_nat]. rewrite Nat.add_0_r.
        apply list_insert_mid.
      - apply Z.eqb_neq in Ed. replace (Z.to_nat delta) with 1%nat by lia.
        replace (pre ++ it :: post) with ((pre ++ [it]) ++ post)
          by (rewrite <- app_assoc; reflexivity).
        replace (length pre + 1)%nat with (length (pre ++ [it]))
          by (rewrite length_app; reflexivity).
        rewrite list_insert_mid, <- app_assoc. reflexivity. }
    rewrite E. destruct (delta =? 0) eqn:Ed.
    + apply Z.eqb_eq in Ed. subst delta. cbn [Z.to_nat]. rewrite Nat.add_0_r.
      rewrite !live_tids_app, list_insert_mid. reflexivity.
    + apply Z.eqb_neq in Ed. replace (Z.to_nat delta) with 1%nat by lia.
      rewrite !live_tids_app.
      change (live_tids (it :: mkItem false (mkTuple tid 1) :: post))
        with ((if lp_dead it then [] else [itemptr (lp_tuple it)]) ++ tid :: live_tids post).
      change (live_tids (it :: post))
        with ((if lp_dead it then [] else [itemptr (lp_tuple it)]) ++ live_tids post).
      rewrite Hlive.
      replace (live_tids pre ++ [itemptr (lp_tuple it)] ++ live_tids post)
        with ((live_tids pre ++ [itemptr (lp_tuple it)]) ++ live_tids post)
        by (rewrite <- app_assoc; reflexivity).
      replace (length (live_tids pre) + 1)%nat
        with (length (live_tids pre ++ [itemptr (lp_tuple it)]))
        by (rewrite length_app; reflexivity).
      rewrite list_insert_mid, <- app_assoc. reflexivity.
  - cbn [tree_blocks]. rewrite Ho', Hleaf. reflexivity.
Qed.

Lemma insert_below_node h rel rel' blk pre it post i tid :
  counted (S h) rel blk = true ->
  P_ISLEAF (pd_opaque (BufferGetPage rel blk)) = false ->
  pd_items (BufferGetPage rel blk) = pre ++ it :: post ->
  lp_dead it = false ->
  block_exists rel' blk = block_exists rel blk ->
  BufferGetPage rel' blk = bump_tuple (1 + Z.of_nat (length pre)) (BufferGetPage rel blk) ->
  counted h rel' (child_of it) = true ->
  map en_tid (live_entries h rel' (child_of it))
  = list_insert i tid (map en_tid (live_entries h rel (child_of it))) ->
  tree_blocks h rel' (child_of it) = tree_blocks h rel (child_of it) ->
  (i <= length (live_entries h rel (child_of it)))%nat ->
  (forall x, In x pre \/ In x post -> lp_dead x = false ->
     forall b, In b (tree_blocks h rel (child_of x)) ->
       block_exists rel' b = block_exists rel b
       /\ BufferGetPage rel' b = BufferGetPage rel b) ->
  childcnt (lp_tuple it) + 1 < 4294967296 ->
  counted (S h) rel' blk = true
  /\ map en_tid (live_entries (S h) rel' blk)
     = list_insert
         (length (flat_map (fun x => if lp_dead x then [] else live_entries h rel (child_of x))
                    pre) + i) tid
         (map en_tid (live_entries (S h) rel blk))
  /\ tree_blocks (S h) rel' blk = tree_blocks (S h) rel blk.
Proof.
  intros Hc Hleaf Hitems Hlive Hex Hpage Hcc Hce Hcb Hi Hothers Hbound.
  destruct (counted_S _ _ _ Hc) as (Hex0 & Hinv & Hmax & Hcnt). rewrite Hleaf in Hcnt.
  assert (Hi' : pd_items (BufferGetPage rel' blk) = pre ++ add_childcnt 1 it :: post).
  { rewrite Hpage. unfold bump_tuple. cbn [set_items pd_items]. rewrite Hitems.
    replace (Z.to_nat (1 + Z.of_nat (length pre) - 1)) with (length pre) by lia.
    apply list_update_mid. }
  assert (Ho' : pd_opaque (BufferGetPage rel' blk) = pd_opaque (BufferGetPage rel blk))
    by (rewrite Hpage; reflexivity).
  assert (Hsame : forall x, In x pre \/ In x post -> lp_dead x = false ->
            counted h rel' (child_of x) = counted h rel (child_of x)
            /\ live_entries h rel' (child_of x) = live_entries h rel (child_of x)
            /\ tree_blocks h rel' (child_of x) = tree_blocks h rel (child_of x)).
  { intros x Hx Hd. apply subtree_agree. apply (Hothers x Hx Hd). }
  assert (Hin : forall x, In x pre \/ In x post -> In x (pd_items (BufferGetPage rel blk))).
  { intros x [Hx|Hx]; rewrite Hitems; apply in_or_app; [left | right; right]; exact Hx. }
  assert (Hit : In it (pd_items (BufferGetPage rel blk)))
    by (rewrite Hitems; apply in_or_app; right; left; reflexivity).
  destruct (Hcnt it Hit Hlive) as [_ Hitcnt].
  assert (Hit' : lp_dead (add_childcnt 1 it) = false) by exact Hlive.
  assert (Hchild' : child_of (add_childcnt 1 it) = child_of it) by reflexivity.
  assert (Hlen' : length (live_entries h rel' (child_of it))
                  = S (length (live_entries h rel (child_of it)))).
  { rewrite <- (length_map en_tid), Hce, length_list_insert, length_map. reflexivity. }
  split; [|split].
  - rewrite counted_step. unfold PageGetMaxOffsetNumber.
    rewrite Hex, Hex0, Ho', Hleaf, Hi'.
    apply Z.eqb_neq in Hinv. rewrite Hinv.
    replace (Z.of_nat (length (pre ++ add_childcnt 1 it :: post)) <? 65535) with true.
    2:{ symmetry. apply Z.ltb_lt. unfold PageGetMaxOffsetNumber in Hmax.
        rewrite Hitems in Hmax. rewrite length_app in *. cbn [length] in *. exact Hmax. }
    cbn [negb andb]. rewrite forallb_app. cbn [forallb].
    assert (Hpart : forall l, (forall x, In x l -> In x pre \/ In x post) ->
              forallb (fun x => lp_dead x ||
                         (counted h rel' (child_of x) &&
                          (childcnt (lp_tuple x)
                           =? Z.of_nat (length (live_entries h rel' (child_of x)))))) l
              = true).
    { intros l Hl. apply forallb_forall. intros x Hx.
      destruct (lp_dead x) eqn:Hd; [reflexivity|]. cbn [orb].
      destruct (Hsame x (Hl x Hx) Hd) as (E1 & E2 & _). rewrite E1, E2.
      destruct (Hcnt x (Hin x (Hl x Hx)) Hd) as [Hxc Hxn]. rewrite Hxc, Hxn.
      rewrite Z.eqb_refl. reflexivity. }
    rewrite (Hpart pre) by auto. rewrite (Hpart post) by auto.
    rewrite Hit', Hchild', Hcc, Hlen'. cbn [orb andb].
    unfold add_childcnt, set_childcnt. cbn [lp_tuple childcnt].
    rewrite uint32_small by lia. rewrite Hitcnt.
    replace (Z.of_nat (length (live_entries h rel (child_of it))) + 1
             =? Z.of_nat (S (length (live_entries h rel (child_of it)))))
      with true by (symmetry; apply Z.eqb_eq; lia).
    reflexivity.
  - rewrite !live_entries_step, Ho', Hleaf, Hi', Hitems.
    rewrite !flat_map_app. cbn [flat_map]. rewrite Hit', Hchild', Hlive.
    rewrite !map_app, Hce.
    rewrite (flat_map_ext_in' (fun x => if lp_dead x then [] else live_entries h rel' (child_of x))
               (fun x => if lp_dead x then [] else live_entries h rel (child_of x)) pre).
    2:{ intros x Hx. destruct (lp_dead x) eqn:Hd; [reflexivity|].
        apply (Hsame x (or_introl Hx) Hd). }
    rewrite (flat_map_ext_in' (fun x => if lp_dead x then [] else live_entries h rel' (child_of x))
               (fun x => if lp_dead x then [] else live_entries h rel (child_of x)) post).
    2:{ intros x Hx. destruct (lp_dead x) eqn:Hd; [reflexivity|].
        apply (Hsame x (or_intror Hx) Hd). }
    rewrite <- (length_map en_tid).
    rewrite list_insert_inner by (rewrite length_map; exact Hi). reflexivity.
  - cbn [tree_blocks]. rewrite Ho', Hleaf, Hi', Hitems. f_equal.
    rewrite !flat_map_app. cbn [flat_map]. rewrite Hit', Hchild', Hlive, Hcb.
    f_equal; [|f_equal]; apply flat_map_ext_in'; intros x Hx;
      (destruct (lp_dead x) eqn:Hd; [reflexivity|]).
    + apply (Hsame x (or_introl Hx) Hd).
    + apply (Hsame x (or_intror Hx) Hd).
Qed.

Lemma NoDup_app_parts {A} (a b c : list A) :
  NoDup (a ++ b ++ c) ->
  NoDup b
  /\ (forall x, In x b -> ~ In x a /\ ~ In x c).
Proof.
  intros H. split.
  - apply NoDup_app_remove_l in H. apply NoDup_app_remove_r in H. exact H.
  - intros x Hx. split; intros Hy.
    + induction a as [|y a IH]; [contradiction|].
      cbn in H. inversion H as [|? ? Hn Hr]; subst. destruct Hy as [->|Hy].
      * apply Hn. apply in_or_app. right. apply in_or_app. left. exact Hx.
      * apply IH; assumption.
    + apply NoDup_app_remove_l in H. revert Hx. induction b as [|y b IH]; [contradiction|].
      cbn in H. inversion H as [|? ? Hn Hr]; subst. intros [->|Hx].
      * apply Hn. apply in_or_app. right. exact Hy.
      * apply IH; assumption.
Qed.

Lemma nth_error_Some_bound {A} (l : list A) n x :
  nth_error l n = Some x -> (n < length l)%nat.
Proof. intros H. apply nth_error_Some. congruence. Qed.

Lemma NoDup_app_tail_intro {A} (l : list A) x :
  NoDup l -> ~ In x l -> NoDup (l ++ [x]).
Proof.
  induction l as [|y l IH]; intros Hn Hx; cbn.
  - constructor; [intros [] | constructor].
  - inversion Hn as [|? ? Hy Hl]; subst. constructor.
    + intros Hin. apply in_app_or in Hin. destruct Hin as [Hin|[->|[]]]; [auto|].
      apply Hx. left. reflexivity.
    + apply IH; [exact Hl|]. intros Hin. apply Hx. right. exact Hin.
Qed.

Lemma tree_blocks_step h rel blk :
  tree_blocks (S h) rel blk
  = blk :: (if P_ISLEAF (pd_opaque (BufferGetPage rel blk)) then []
            else flat_map (fun it => if lp_dead it then []
                                     else tree_blocks h rel (child_of it))
                   (pd_items (BufferGetPage rel blk))).
Proof. reflexivity. Qed.

Lemma insert_along_path h :
  forall rel blk stack0 k fuel e,
    counted h rel blk = true ->
    NoDup (tree_blocks h rel blk) ->
    (h <= fuel)%nat ->
    0 <= stack_count stack0 < k ->
    stack_count stack0 + Z.of_nat (length (live_entries h rel blk)) + 1 < 4294967296 ->
    nth_error (live_entries h rel blk) (Z.to_nat (k - stack_count stack0 - 1)) = Some e ->
    exists parents,
      cbt_search_descend fuel k blk stack0 rel
      = Ok (mkFrame (en_blkno e) (en_offset e) (k - 1) :: parents ++ stack0, en_blkno e) rel
      /\ In (en_blkno e) (tree_blocks h rel blk)
      /\ 1 <= en_offset e
         <= Z.of_nat (length (pd_items (BufferGetPage rel (en_blkno e))))
      /\ (forall f, In f parents ->
            In (cbts_blkno f) (tree_blocks h rel blk)
            /\ cbts_blkno f <> en_blkno e
            /\ PageGetItemId (BufferGetPage rel (cbts_blkno f)) (cbts_offset f) <> None)
      /\ NoDup (map cbts_blkno parents)
      /\ forall delta tid rel',
           0 <= delta <= 1 ->
           (forall b, In b (tree_blocks h rel blk) ->
              block_exists rel' b = block_exists rel b
              /\ BufferGetPage rel' b
                 = path_page (mkFrame (en_blkno e) (en_offset e) (k - 1)) parents delta tid b
                     (BufferGetPage rel b)) ->
           Z.of_nat (length (pd_items (BufferGetPage rel (en_blkno e)))) + 1 < 65535 ->
           counted h rel' blk = true
           /\ map en_tid (live_entries h rel' blk)
              = list_insert (Z.to_nat (k - stack_count stack0 - 1 + delta)) tid
                  (map en_tid (live_entries h rel blk))
           /\ tree_blocks h rel' blk = tree_blocks h rel blk.
Proof.
  induction h as [|h IH]; intros rel blk stack k fuel e Hc Hnd Hfuel HL Hbound Hnth.
  - discriminate Hc.
  - destruct fuel as [|fuel]; [lia|].
    destruct (counted_S _ _ _ Hc) as (Hex & Hinv & Hmax & Hitems).
    cbn [cbt_search_descend]. mred.
    unfold cbt_search_in_page. fold (stack_count stack).
    rewrite live_entries_step in Hnth, Hbound.
    set (page := BufferGetPage rel blk) in *.
    unfold PageGetMaxOffsetNumber in *. unfold P_FIRSTOFFSET, BufferGetBlockNumber.
    destruct (pd_items page) as [|it0 rest0] eqn:Eitems.
    { exfalso. cbn in Hnth.
      replace (if P_ISLEAF (pd_opaque page) then [] else []) with (@nil entry) in Hnth
        by (destruct (P_ISLEAF _); reflexivity).
      destruct (Z.to_nat _); discriminate Hnth. }
    replace (Z.of_nat (length (it0 :: rest0)) <? 1) with false
      by (symmetry; apply Z.ltb_ge; cbn [length]; lia).
    rewrite <- Eitems in *. clear Eitems it0 rest0.
    destruct (P_ISLEAF (pd_opaque page)) eqn:Eleaf.
    + (* a leaf page *)
      rewrite leaf_entries_page_ents in Hnth, Hbound.
      destruct (search_in_page_from_path (leaf_ent blk) blk stack k (pd_items page) 1
                  (stack_count stack) e) as (j & it & H1 & H2 & H3 & H4 & H5 & H6);
        try lia; try assumption.
      { intros it Hin o. unfold leaf_ent. split; intros Hd; rewrite Hd; [reflexivity|].
        cbn. rewrite (Hitems it Hin Hd). reflexivity. }
      replace (1 + Z.of_nat (length (pd_items page)) - 1)
        with (Z.of_nat (length (pd_items page))) in H5 by lia.
      destruct (nth_error_split _ _ H1) as (pre & post & Esplit & Hpre).
      assert (EL : length (page_ents (leaf_ent blk) 1 (firstn j (pd_items page)))
                   = length (live_tids pre)).
      { rewrite Esplit, firstn_app, Hpre, Nat.sub_diag, firstn_all2 by lia.
        cbn [firstn]. rewrite app_nil_r. apply length_page_ents_leaf. }
      rewrite EL in H3, H4, H5, H6.
      rewrite H5. clear H5.
      assert (Hcnt : childcnt (lp_tuple it) = 1)
        by (apply Hitems; [eapply nth_error_In; exact H1 | exact H2]).
      unfold leaf_ent in H6. rewrite H2 in H6.
      replace (Z.to_nat _) with O in H6 by lia.
      assert (He : e = mkEntry blk (1 + Z.of_nat j) (itemptr (lp_tuple it)))
        by (unfold nth_error in H6; congruence).
      subst e. cbn [en_blkno en_offset en_tid]. fold page.
      exists []. cbn [app].
      split.
      { replace (stack_count stack + Z.of_nat (length (live_tids pre))) with (k - 1) by lia.
        reflexivity. }
      split; [cbn [tree_blocks]; left; reflexivity|].
      split.
      { apply nth_error_Some_bound in H1. lia. }
      split; [intros f []|]. split; [constructor|].
      intros delta tid rel' Hdelta Hag Hroom.
      destruct (Hag blk) as [Hex' Hpage']; [cbn [tree_blocks]; left; reflexivity|].
      unfold path_page in Hpage'. cbn [cbts_blkno cbts_offset] in Hpage'.
      rewrite Z.eqb_refl in Hpage'. fold page in Hpage'.
      destruct (insert_on_leaf h rel rel' blk pre it post delta tid Hc Eleaf Esplit H2
                  Hex' ltac:(rewrite Hpage', <- Hpre; reflexivity) Hdelta Hroom)
        as (R1 & R2 & R3).
      split; [exact R1|]. split; [|exact R3]. rewrite R2. f_equal. lia.
    + (* an internal page *)
      rewrite (flat_map_page_ents h rel (pd_items page) 1) in Hnth, Hbound.
      assert (Hw : forall it, In it (pd_items page) -> ent_weighs (child_ent h rel) it).
      { intros it Hin o. unfold child_ent. split; intros Hd; rewrite Hd; [reflexivity|].
        destruct (Hitems it Hin Hd) as [_ Hcnt]. rewrite Hcnt. reflexivity. }
      destruct (search_in_page_from_path (child_ent h rel) blk stack k (pd_items page) 1
                  (stack_count stack) e) as (j & it & H1 & H2 & H3 & H4 & H5 & H6);
        try lia; try assumption.
      replace (1 + Z.of_nat (length (pd_items page)) - 1)
        with (Z.of_nat (length (pd_items page))) in H5 by lia.
      rewrite H5. clear H5. cbn [cbts_offset].
      unfold PageGetItem. rewrite (PageGetItemId_nth _ _ _ H1). cbn [option_map].
      destruct (Hitems it (nth_error_In _ _ H1) H2) as [Hcc Hcnt].
      unfold ItemPointerGetBlockNumber. fold (child_of it).
      assert (Hh : exists h', h = S h') by (destruct h; [discriminate Hcc | eauto]).
      destruct Hh as [h' ->].
      destruct (counted_S _ _ _ Hcc) as (Hex' & Hinv' & _ & _).
      rewrite ReadBuffer_old by assumption.
      unfold child_ent at 1 in H6. rewrite H2 in H6.
      destruct (nth_error_split _ _ H1) as (pre & post & Esplit & Hpre).
      set (npre := length (flat_map (fun x => if lp_dead x then []
                                              else live_entries (S h') rel (child_of x)) pre)).
      assert (EL : length (page_ents (child_ent (S h') rel) 1 (firstn j (pd_items page)))
                   = npre).
      { rewrite Esplit, firstn_app, Hpre, Nat.sub_diag, firstn_all2 by lia.
        cbn [firstn]. rewrite app_nil_r, <- (flat_map_page_ents (S h') rel pre 1).
        reflexivity. }
      rewrite EL in H3, H4, H6. rewrite EL.
      set (fj := mkFrame blk (1 + Z.of_nat j) (stack_count stack + Z.of_nat npre)) in *.
      (* the blocks below *)
      rewrite tree_blocks_step in Hnd. fold page in Hnd. rewrite Eleaf, Esplit in Hnd.
      rewrite flat_map_app in Hnd. cbn [flat_map] in Hnd. rewrite H2 in Hnd.
      apply NoDup_cons_iff in Hnd. destruct Hnd as [Hblk Hkids].
      destruct (NoDup_app_parts _ _ _ Hkids) as [Hndc Hdisj].
      assert (Hlenall : length (page_ents (child_ent (S h') rel) 1 (pd_items page))
                        = (npre + length (live_entries (S h') rel (child_of it))
                           + length (flat_map (fun x => if lp_dead x then []
                                                else live_entries (S h') rel (child_of x))
                                       post))%nat).
      { rewrite <- (flat_map_page_ents (S h') rel (pd_items page) 1), Esplit, flat_map_app.
        cbn [flat_map]. rewrite H2, !length_app. unfold npre. lia. }
      destruct (IH rel (child_of it) (fj :: stack) k fuel e Hcc Hndc ltac:(lia))
        as (parents & Hrun & Hine & Hoff & Hpar & Hndp & Heff).
      { cbn [stack_count fj total_count]. lia. }
      { cbn [stack_count fj total_count]. lia. }
      { cbn [stack_count fj total_count]. exact H6. }
      exists (parents ++ [fj]).
      rewrite Hrun, <- app_assoc. cbn [app].
      split; [reflexivity|].
      assert (Hsub : forall b, In b (tree_blocks (S h') rel (child_of it)) ->
                In b (tree_blocks (S (S h')) rel blk)).
      { intros b Hb. eapply tree_blocks_child; eauto. eapply nth_error_In; exact H1. }
      assert (Hnotblk : forall b, In b (tree_blocks (S h') rel (child_of it)) -> b <> blk).
      { intros b Hb ->. apply Hblk. apply in_or_app. right. apply in_or_app. left. exact Hb. }
      split; [apply Hsub; exact Hine|].
      split; [exact Hoff|].
      split.
      { intros f Hf. apply in_app_or in Hf. destruct Hf as [Hf|[<-|[]]].
        - destruct (Hpar f Hf) as (P1 & P2 & P3). auto.
        - cbn [fj cbts_blkno cbts_offset]. fold page.
          split; [cbn [tree_blocks]; left; reflexivity|].
          split; [intros E; apply (Hnotblk _ Hine); symmetry; exact E|].
          rewrite (PageGetItemId_nth _ _ _ H1). discriminate. }
      split.
      { rewrite map_app. cbn [map fj cbts_blkno]. apply NoDup_app_tail_intro; [exact Hndp|].
        intros Hin. apply in_map_iff in Hin. destruct Hin as (f & Ef & Hf).
        destruct (Hpar f Hf) as (P1 & _). apply (Hnotblk _ P1). exact Ef. }
      intros delta tid rel' Hdelta Hag Hroom.
      set (top := mkFrame (en_blkno e) (en_offset e) (k - 1)) in *.
      (* below the child *)
      destruct (Heff delta tid rel' Hdelta) as (R1 & R2 & R3); [|exact Hroom|].
      { intros b Hb. destruct (Hag b (Hsub b Hb)) as [E1 E2]. split; [exact E1|].
        rewrite E2. unfold path_page.
        rewrite bumped_app_other by (cbn [fj cbts_blkno]; apply Hnotblk; exact Hb).
        reflexivity. }
      cbn [stack_count fj total_count] in R2.
      (* the page itself *)
      destruct (Hag blk) as [Hexb Hpageb]; [cbn [tree_blocks]; left; reflexivity|].
      assert (Hpageb' : BufferGetPage rel' blk = bump_tuple (1 + Z.of_nat (length pre)) page).
      { rewrite Hpageb. unfold path_page. cbn [top cbts_blkno].
        replace (blk =? en_blkno e) with false
          by (symmetry; apply Z.eqb_neq; intros E; apply (Hnotblk _ Hine); symmetry; exact E).
        change blk with (cbts_blkno fj) at 1.
        rewrite bumped_app_last.
        - cbn [fj cbts_offset]. rewrite Hpre. reflexivity.
        - intros g Hg. destruct (Hpar g Hg) as (P1 & _). cbn [fj cbts_blkno].
          apply Hnotblk. exact P1. }
      (* the other children *)
      assert (Hothers : forall x, In x pre \/ In x post -> lp_dead x = false ->
                forall b, In b (tree_blocks (S h') rel (child_of x)) ->
                  block_exists rel' b = block_exists rel b
                  /\ BufferGetPage rel' b = BufferGetPage rel b).
      { intros x Hx Hd b Hb.
        assert (Hbt : In b (tree_blocks (S (S h')) rel blk)).
        { eapply tree_blocks_child; eauto. fold page. rewrite Esplit.
          apply in_or_app. destruct Hx as [Hx|Hx]; [left | right; right]; exact Hx. }
        assert (Hbkids : In b (flat_map (fun it0 => if lp_dead it0 then []
                                          else tree_blocks (S h') rel (child_of it0)) pre)
                         \/ In b (flat_map (fun it0 => if lp_dead it0 then []
                                              else tree_blocks (S h') rel (child_of it0)) post)).
        { destruct Hx as [Hx|Hx]; [left | right]; apply in_flat_map; exists x;
            (split; [exact Hx | rewrite Hd; exact Hb]). }
        assert (Hbc : ~ In b (tree_blocks (S h') rel (child_of it))).
        { intros Hbc. destruct (Hdisj b Hbc) as [D1 D2]. destruct Hbkids; auto. }
        assert (Hbb : b <> blk).
        { intros ->. apply Hblk. apply in_or_app.
          destruct Hbkids as [Hk|Hk]; [left; exact Hk|].
          right. apply in_or_app. right. exact Hk. }
        destruct (Hag b Hbt) as [E1 E2]. split; [exact E1|]. rewrite E2.
        unfold path_page. cbn [top cbts_blkno].
        replace (b =? en_blkno e) with false
          by (symmetry; apply Z.eqb_neq; intros ->; apply Hbc; exact Hine).
        apply bumped_other. intros f Hf.
        apply in_app_or in Hf. destruct Hf as [Hf|[<-|[]]].
        - destruct (Hpar f Hf) as (P1 & _). intros E. apply Hbc. rewrite <- E. exact P1.
        - cbn [fj cbts_blkno]. auto. }
      assert (Hidx : (Z.to_nat (k - (stack_count stack + Z.of_nat npre) - 1 + delta)
                      <= length (live_entries (S h') rel (child_of it)))%nat).
      { apply nth_error_Some_bound in H6. lia. }
      assert (Hcb : childcnt (lp_tuple it) + 1 < 4294967296) by lia.
      destruct (insert_below_node (S h') rel rel' blk pre it post
                  (Z.to_nat (k - (stack_count stack + Z.of_nat npre) - 1 + delta)) tid
                  Hc Eleaf Esplit H2 Hexb Hpageb' R1 R2 R3 Hidx Hothers Hcb) as (Q1 & Q2 & Q3).
      split; [exact Q1|]. split; [|exact Q3]. rewrite Q2. fold npre. f_equal. lia.
Qed.

(** The descent to the [k]-th entry follows a path of the tree. *)
Lemma search_path h :
  forall rel blk stack0 k fuel e,
    counted h rel blk = true ->
    (h <= fuel)%nat ->
    0 <= stack_count stack0 < k ->
    stack_count stack0 + Z.of_nat (length (live_entries h rel blk)) + 1 < 4294967296 ->
    nth_error (live_entries h rel blk) (Z.to_nat (k - stack_count stack0 - 1)) = Some e ->
    exists parents r pre it post,
      cbt_search_descend fuel k blk stack0 rel
      = Ok (mkFrame (en_blkno e) (en_offset e) (k - 1) :: parents ++ stack0, en_blkno e) rel
      /\ on_path rel (en_blkno e) h blk parents r
      /\ pd_items (BufferGetPage rel (en_blkno e)) = pre ++ it :: post
      /\ en_offset e = 1 + Z.of_nat (length pre)
      /\ lp_dead it = false
      /\ itemptr (lp_tuple it) = en_tid e
      /\ Z.of_nat (r + length (live_tids pre)) = k - stack_count stack0 - 1.
Proof.
  induction h as [|h IH]; intros rel blk stack k fuel e Hc Hfuel HL Hbound Hnth.
  - discriminate Hc.
  - destruct fuel as [|fuel]; [lia|].
    destruct (counted_S _ _ _ Hc) as (Hex & Hinv & Hmax & Hitems).
    cbn [cbt_search_descend]. mred.
    unfold cbt_search_in_page. fold (stack_count stack).
    rewrite live_entries_step in Hnth, Hbound.
    set (page := BufferGetPage rel blk) in *.
    unfold PageGetMaxOffsetNumber in *. unfold P_FIRSTOFFSET, BufferGetBlockNumber.
    destruct (pd_items page) as [|it0 rest0] eqn:Eitems.
    { exfalso. cbn in Hnth.
      replace (if P_ISLEAF (pd_opaque page) then [] else []) with (@nil entry) in Hnth
        by (destruct (P_ISLEAF _); reflexivity).
      destruct (Z.to_nat _); discriminate Hnth. }
    replace (Z.of_nat (length (it0 :: rest0)) <? 1) with false
      by (symmetry; apply Z.ltb_ge; cbn [length]; lia).
    rewrite <- Eitems in *. clear Eitems it0 rest0.
    destruct (P_ISLEAF (pd_opaque page)) eqn:Eleaf.
    + (* a leaf page *)
      rewrite leaf_entries_page_ents in Hnth, Hbound.
      destruct (search_in_page_from_path (leaf_ent blk) blk stack k (pd_items page) 1
                  (stack_count stack) e) as (j & it & H1 & H2 & H3 & H4 & H5 & H6);
        try lia; try assumption.
      { intros it Hin o. unfold leaf_ent. split; intros Hd; rewrite Hd; [reflexivity|].
        cbn. rewrite (Hitems it Hin Hd). reflexivity. }
      replace (1 + Z.of_nat (length (pd_items page)) - 1)
        with (Z.of_nat (length (pd_items page))) in H5 by lia.
      destruct (nth_error_split _ _ H1) as (pre & post & Esplit & Hpre).
      assert (EL : length (page_ents (leaf_ent blk) 1 (firstn j (pd_items page)))
                   = length (live_tids pre)).
      { rewrite Esplit, firstn_app, Hpre, Nat.sub_diag, firstn_all2 by lia.
        cbn [firstn]. rewrite app_nil_r. apply length_page_ents_leaf. }
      rewrite EL in H3, H4, H5, H6.
      rewrite H5. clear H5.
      assert (Hcnt : childcnt (lp_tuple it) = 1)
        by (apply Hitems; [eapply nth_error_In; exact H1 | exact H2]).
      unfold leaf_ent in H6. rewrite H2 in H6.
      replace (Z.to_nat _) with O in H6 by lia.
      assert (He : e = mkEntry blk (1 + Z.of_nat j) (itemptr (lp_tuple it)))
        by (unfold nth_error in H6; congruence).
      subst e. cbn [en_blkno en_offset en_tid]. fold page.
      exists [], O, pre, it, post. cbn [app].
      split.
      { replace (stack_count stack + Z.of_nat (length (live_tids pre))) with (k - 1) by lia.
        reflexivity. }
      split; [apply path_leaf; exact Eleaf|].
      split; [exact Esplit|]. split; [lia|]. split; [exact H2|]. split; [reflexivity|].
      cbn [Nat.add]. lia.
    + (* an internal page *)
      rewrite (flat_map_page_ents h rel (pd_items page) 1) in Hnth, Hbound.
      assert (Hw : forall it, In it (pd_items page) -> ent_weighs (child_ent h rel) it).
      { intros it Hin o. unfold child_ent. split; intros Hd; rewrite Hd; [reflexivity|].
        destruct (Hitems it Hin Hd) as [_ Hcnt]. rewrite Hcnt. reflexivity. }
      destruct (search_in_page_from_path (child_ent h rel) blk stack k (pd_items page) 1
                  (stack_count stack) e) as (j & it & H1 & H2 & H3 & H4 & H5 & H6);
        try lia; try assumption.
      replace (1 + Z.of_nat (length (pd_items page)) - 1)
        with (Z.of_nat (length (pd_items page))) in H5 by lia.
      rewrite H5. clear H5. cbn [cbts_offset].
      unfold PageGetItem. rewrite (PageGetItemId_nth _ _ _ H1). cbn [option_map].
      destruct (Hitems it (nth_error_In _ _ H1) H2) as [Hcc Hcnt].
      unfold ItemPointerGetBlockNumber. fold (child_of it).
      assert (Hh : exists h', h = S h') by (destruct h; [discriminate Hcc | eauto]).
      destruct Hh as [h' ->].
      destruct (counted_S _ _ _ Hcc) as (Hex' & Hinv' & _ & _).
      rewrite ReadBuffer_old by assumption.
      unfold child_ent at 1 in H6. rewrite H2 in H6.
      destruct (nth_error_split _ _ H1) as (pre & post & Esplit & Hpre).
      set (npre := length (flat_map (fun x => if lp_dead x then []
                                              else live_entries (S h') rel (child_of x)) pre)).
      assert (EL : length (page_ents (child_ent (S h') rel) 1 (firstn j (pd_items page)))
                   = npre).
      { rewrite Esplit, firstn_app, Hpre, Nat.sub_diag, firstn_all2 by lia.
        cbn [firstn]. rewrite app_nil_r, <- (flat_map_page_ents (S h') rel pre 1).
        reflexivity. }
      rewrite EL in H3, H4, H6. rewrite EL.
      set (fj := mkFrame blk (1 + Z.of_nat j) (stack_count stack + Z.of_nat npre)) in *.
      assert (Hlenall : length (page_ents (child_ent (S h') rel) 1 (pd_items page))
                        = (npre + length (live_entries (S h') rel (child_of it))
                           + length (flat_map (fun x => if lp_dead x then []
                                                else live_entries (S h') rel (child_of x))
                                       post))%nat).
      { rewrite <- (flat_map_page_ents (S h') rel (pd_items page) 1), Esplit, flat_map_app.
        cbn [flat_map]. rewrite H2, !length_app. unfold npre. lia. }
      destruct (IH rel (child_of it) (fj :: stack) k fuel e Hcc ltac:(lia))
        as (parents & r & lpre & lit & lpost & Hrun & Hpath & Hl1 & Hl2 & Hl3 & Hl4 & Hl5).
      { cbn [stack_count fj total_count]. lia. }
      { cbn [stack_count fj total_count]. lia. }
      { cbn [stack_count fj total_count]. exact H6. }
      exists (parents ++ [fj]), (npre + r)%nat, lpre, lit, lpost.
      rewrite Hrun, <- app_assoc. cbn [app].
      split; [reflexivity|].
      split.
      { apply (path_node rel (en_blkno e) (S h') blk pre it post fj parents r); auto.
        cbn [fj cbts_offset]. lia. }
      split; [exact Hl1|]. split; [exact Hl2|]. split; [exact Hl3|]. split; [exact Hl4|].
      cbn [stack_count fj total_count] in Hl5. lia.
Qed.

Lemma on_path_blocks rel leaf :
  forall h blk parents r,
    on_path rel leaf h blk parents r ->
    P_ISLEAF (pd_opaque (BufferGetPage rel leaf)) = true
    /\ In leaf (tree_blocks h rel blk)
    /\ forall f, In f parents ->
         In (cbts_blkno f) (tree_blocks h rel blk)
         /\ P_ISLEAF (pd_opaque (BufferGetPage rel (cbts_blkno f))) = false.
Proof.
  induction 1 as [h Hleaf | h blk pre it post fj parents r Hleaf Hitems Hd Hb Ho Hp IH].
  - split; [exact Hleaf|]. split; [cbn [tree_blocks]; left; reflexivity|]. intros f [].
  - destruct IH as (I1 & I2 & I3).
    assert (Hin : In it (pd_items (BufferGetPage rel blk)))
      by (rewrite Hitems; apply in_or_app; right; left; reflexivity).
    split; [exact I1|].
    split; [eapply tree_blocks_child; eauto|].
    intros f Hf. apply in_app_or in Hf. destruct Hf as [Hf|[<-|[]]].
    + destruct (I3 f Hf) as [J1 J2]. split; [|exact J2]. eapply tree_blocks_child; eauto.
    + rewrite Hb. split; [cbn [tree_blocks]; left; reflexivity | exact Hleaf].
Qed.

Lemma on_path_rank rel leaf :
  forall h blk parents r,
    on_path rel leaf h blk parents r ->
    (r + length (live_tids (pd_items (BufferGetPage rel leaf)))
     <= length (live_entries h rel blk))%nat.
Proof.
  induction 1 as [h Hleaf | h blk pre it post fj parents r Hleaf Hitems Hd Hb Ho Hp IH].
  - rewrite live_entries_step, Hleaf.
    rewrite <- (leaf_entries_tids leaf _ 1), length_map. lia.
  - rewrite live_entries_step, Hleaf, Hitems, flat_map_app. cbn [flat_map]. rewrite Hd.
    rewrite !length_app. lia.
Qed.

Lemma tree_blocks_exist h :
  forall rel blk b,
    counted h rel blk = true -> In b (tree_blocks h rel blk) ->
    block_exists rel b = true /\ b <> InvalidBlockNumber.
Proof.
  induction h as [|h IH]; intros rel blk b Hc Hb; [contradiction|].
  destruct (counted_S _ _ _ Hc) as (Hex & Hinv & _ & Hitems).
  rewrite tree_blocks_step in Hb. destruct Hb as [<-|Hb]; [auto|].
  destruct (P_ISLEAF (pd_opaque (BufferGetPage rel blk))); [contradiction|].
  apply in_flat_map in Hb. destruct Hb as (it & Hin & Hb).
  destruct (lp_dead it) eqn:Hd; [contradiction|].
  destruct (Hitems it Hin Hd) as [Hcc _]. eapply IH; eauto.
Qed.

Lemma bumped_opaque parents b p : pd_opaque (bumped parents b p) = pd_opaque p.
Proof.
  induction parents as [|f rest IH]; [reflexivity|].
  cbn [bumped]. destruct (b =? cbts_blkno f); [reflexivity | exact IH].
Qed.

Lemma bumped_meta parents b p : pd_meta (bumped parents b p) = pd_meta p.
Proof.
  induction parents as [|f rest IH]; [reflexivity|].
  cbn [bumped]. destruct (b =? cbts_blkno f); [reflexivity | exact IH].
Qed.

Lemma path_page_opaque top parents delta tid b p :
  pd_opaque (path_page top parents delta tid b p) = pd_opaque p.
Proof.
  unfold path_page. destruct (b =? cbts_blkno top); [reflexivity | apply bumped_opaque].
Qed.

Lemma path_page_meta top parents delta tid b p :
  pd_meta (path_page top parents delta tid b p) = pd_meta p.
Proof.
  unfold path_page. destruct (b =? cbts_blkno top); [reflexivity | apply bumped_meta].
Qed.

(** The run of [cbt_change_parent] over frames on distinct blocks. *)
Lemma cbt_change_parent_run :
  forall parents rel,
    (forall f, In f parents ->
       block_exists rel (cbts_blkno f) = true /\ cbts_blkno f <> InvalidBlockNumber
       /\ PageGetItemId (BufferGetPage rel (cbts_blkno f)) (cbts_offset f) <> None) ->
    NoDup (map cbts_blkno parents) ->
    exists rel',
      cbt_change_parent parents 1 rel = Ok tt rel'
      /\ rd_amcache rel' = rd_amcache rel
      /\ RelationGetNumberOfBlocks rel' = RelationGetNumberOfBlocks rel
      /\ forall b, BufferGetPage rel' b = bumped parents b (BufferGetPage rel b).
Proof.
  induction parents as [|f rest IH]; intros rel Hok Hnd.
  - exists rel. repeat split; reflexivity.
  - destruct (Hok f (or_introl eq_refl)) as (Hex & Hinv & Hitem).
    cbn [map] in Hnd. apply NoDup_cons_iff in Hnd. destruct Hnd as [Hnotin Hnd].
    cbn [cbt_change_parent]. unfold bind at 1.
    rewrite cbt_get_buffer_old by assumption. cbv beta iota.
    unfold bind at 1. rewrite modify_tuple_run by exact Hitem. cbv beta iota.
    fold (bump_tuple (cbts_offset f)).
    set (rel1 := modify_page (cbts_blkno f) _ rel).
    assert (Hother : forall g, In g rest -> cbts_blkno g <> cbts_blkno f).
    { intros g Hg E. apply Hnotin. rewrite <- E. apply in_map. exact Hg. }
    destruct (IH rel1) as (rel' & Hrun & Hc & Hb & Hp).
    + intros g Hg. destruct (Hok g (or_intror Hg)) as (Gex & Ginv & Gitem).
      unfold rel1. rewrite block_exists_modify.
      rewrite BufferGetPage_modify_other by (intros E; apply (Hother g Hg); symmetry; exact E).
      auto.
    + exact Hnd.
    + exists rel'. split; [exact Hrun|]. unfold rel1 in *.
      rewrite amcache_modify in Hc. rewrite blocks_modify in Hb.
      split; [exact Hc|]. split; [exact Hb|].
      intros b. rewrite Hp, BufferGetPage_modify. cbn [bumped].
      destruct (b =? cbts_blkno f) eqn:E.
      * apply Z.eqb_eq in E. subst b. rewrite Z.eqb_refl, Hex. cbn [andb].
        apply bumped_other. exact Hother.
      * rewrite Z.eqb_sym, E. reflexivity.
Qed.

(** The run of the update of [cbt_insert_tuple] along a path whose leaf has
    room. *)
Lemma insert_along_run BLCKSZ fuel top parents delta tid rel total :
  (forall f, In f parents ->
     block_exists rel (cbts_blkno f) = true /\ cbts_blkno f <> InvalidBlockNumber
     /\ cbts_blkno f <> cbts_blkno top
     /\ PageGetItemId (BufferGetPage rel (cbts_blkno f)) (cbts_offset f) <> None) ->
  NoDup (map cbts_blkno parents) ->
  block_exists rel (cbts_blkno top) = true ->
  1 <= cbts_offset top + delta
    <= Z.of_nat (length (pd_items (BufferGetPage rel (cbts_blkno top)))) + 1 ->
  itemsz <= PageGetFreeSpace BLCKSZ (BufferGetPage rel (cbts_blkno top)) ->
  exists rel',
    (cbt_change_parent parents 1 ;;;
     cbt_insert_on_page BLCKSZ (S fuel)
       (mkFrame (cbts_blkno top) (cbts_offset top + delta) total :: parents)
       (CBTFormTuple tid 1) (cbts_blkno top) ;;;
     ret tt) rel = Ok tt rel'
    /\ inserted_along top parents delta tid rel rel'.
Proof.
  intros Hok Hnd Hex Hoff Hroom.
  destruct (cbt_change_parent_run parents rel) as (rel1 & Hrun & Hc & Hb & Hp);
    [intros f Hf; destruct (Hok f Hf) as (A & B & _ & D); auto | exact Hnd |].
  assert (Htop : BufferGetPage rel1 (cbts_blkno top) = BufferGetPage rel (cbts_blkno top)).
  { rewrite Hp. apply bumped_other. intros f Hf. apply (Hok f Hf). }
  unfold bind at 1. rewrite Hrun. cbv beta iota.
  unfold bind at 1. rewrite cbt_insert_on_page_room by (rewrite Htop; exact Hroom).
  cbv beta iota. unfold ret. cbn [cbts_offset].
  eexists. split; [reflexivity|].
  split; [rewrite amcache_modify; exact Hc|].
  split; [rewrite blocks_modify; exact Hb|].
  intros b. rewrite BufferGetPage_modify. unfold path_page.
  rewrite (Z.eqb_sym b).
  destruct (cbts_blkno top =? b) eqn:E.
  - apply Z.eqb_eq in E. subst b.
    replace (block_exists rel1 (cbts_blkno top)) with true
      by (symmetry; rewrite block_exists_blocks, Hb; exact Hex).
    cbn [andb]. rewrite Htop, PageAddItem_at by assumption.
    unfold add_record. destruct tid. reflexivity.
  - cbn [andb]. apply Hp.
Qed.

(** ** Lists with offsets *)

Lemma forallb_at_spec {A} (f : Z -> A -> bool) l :
  forall off,
    forallb_at f off l = true
    <-> forall j x, nth_error l j = Some x -> f (off + Z.of_nat j) x = true.
Proof.
  induction l as [|y l IH]; intros off; cbn [forallb_at].
  - split; [intros _ [|j] x H; discriminate H | reflexivity].
  - rewrite andb_true_iff, IH. split.
    + intros [H0 H] [|j] x Hx.
      * cbn in Hx. injection Hx as <-. rewrite Z.add_0_r. exact H0.
      * cbn [nth_error] in Hx. replace (off + Z.of_nat (S j)) with (off + 1 + Z.of_nat j) by lia.
        apply H. exact Hx.
    + intros H. split.
      * specialize (H O y eq_refl). rewrite Z.add_0_r in H. exact H.
      * intros j x Hx. replace (off + 1 + Z.of_nat j) with (off + Z.of_nat (S j)) by lia.
        apply H. exact Hx.
Qed.

Lemma nth_error_mid_cases {A} (pre : list A) y post j x :
  nth_error (pre ++ y :: post) j = Some x ->
  (j = length pre /\ x = y)
  \/ (In x pre \/ In x post).
Proof.
  intros H. destruct (Nat.lt_trichotomy j (length pre)) as [Hlt|[Heq|Hgt]].
  - right. left. rewrite nth_error_app1 in H by exact Hlt. eapply nth_error_In; exact H.
  - left. subst j. rewrite nth_error_app_mid in H. injection H as <-. auto.
  - right. right. rewrite nth_error_app2 in H by lia.
    destruct (j - length pre)%nat as [|k] eqn:E; [lia|]. cbn in H.
    eapply nth_error_In; exact H.
Qed.

Lemma nth_error_mid_swap {A} (pre : list A) y z post j x :
  nth_error (pre ++ y :: post) j = Some x -> j <> length pre ->
  nth_error (pre ++ z :: post) j = Some x.
Proof.
  intros H Hj. destruct (Nat.lt_ge_cases j (length pre)) as [Hlt|Hge].
  - rewrite nth_error_app1 in * by exact Hlt. exact H.
  - rewrite nth_error_app2 in * by lia.
    destruct (j - length pre)%nat as [|k] eqn:E; [lia|]. exact H.
Qed.

(** ** What [linked] says *)

Lemma linked_step h rel blk :
  linked (S h) rel blk
  = if P_ISLEAF (pd_opaque (BufferGetPage rel blk))
    then forallb record_item (pd_items (BufferGetPage rel blk))
    else forallb_at
           (fun off it =>
              negb (lp_dead it)
              && parent_is (cbto_parent (pd_opaque (BufferGetPage rel (child_of it)))) blk off
              && linked h rel (child_of it))
           1 (pd_items (BufferGetPage rel blk)).
Proof. reflexivity. Qed.

Lemma parent_is_eq loc blk off : parent_is loc blk off = true -> loc = mkItemPointer blk off.
Proof.
  unfold parent_is. intros H. apply andb_true_iff in H. destruct H as [H1 H2].
  apply Z.eqb_eq in H1, H2. destruct loc. cbn in *. congruence.
Qed.

Lemma linked_node h rel blk :
  linked (S h) rel blk = true ->
  P_ISLEAF (pd_opaque (BufferGetPage rel blk)) = false ->
  forall j it, nth_error (pd_items (BufferGetPage rel blk)) j = Some it ->
    lp_dead it = false
    /\ cbto_parent (pd_opaque (BufferGetPage rel (child_of it)))
       = mkItemPointer blk (1 + Z.of_nat j)
    /\ linked h rel (child_of it) = true.
Proof.
  rewrite linked_step. intros H Hleaf. rewrite Hleaf in H.
  intros j it Hnth. pose proof (proj1 (forallb_at_spec _ _ _) H j it Hnth) as Hj.
  cbv beta in Hj. apply andb_true_iff in Hj. destruct Hj as [Hj H3].
  apply andb_true_iff in Hj. destruct Hj as [H1 H2].
  apply negb_true_iff in H1. apply parent_is_eq in H2. auto.
Qed.

Lemma linked_leaf h rel blk :
  linked (S h) rel blk = true ->
  P_ISLEAF (pd_opaque (BufferGetPage rel blk)) = true ->
  forallb record_item (pd_items (BufferGetPage rel blk)) = true.
Proof. rewrite linked_step. intros H Hleaf. rewrite Hleaf in H. exact H. Qed.

(** [linked] below a page depends on the pages below it only. *)
Lemma linked_agree h :
  forall rel rel' blk,
    (forall b, In b (tree_blocks h rel blk) -> BufferGetPage rel' b = BufferGetPage rel b) ->
    counted h rel blk = true ->
    linked h rel' blk = linked h rel blk.
Proof.
  induction h as [|h IH]; intros rel rel' blk Hag Hc; [reflexivity|].
  pose proof (Hag blk (or_introl eq_refl)) as Hpage.
  rewrite !linked_step, Hpage.
  destruct (P_ISLEAF (pd_opaque (BufferGetPage rel blk))) eqn:Hleaf; [reflexivity|].
  destruct (counted_S _ _ _ Hc) as (_ & _ & _ & Hitems). rewrite Hleaf in Hitems.
  assert (Hgen : forall l off,
            (forall x, In x l -> In x (pd_items (BufferGetPage rel blk))) ->
            forallb_at
              (fun off it =>
                 negb (lp_dead it)
                 && parent_is (cbto_parent (pd_opaque (BufferGetPage rel' (child_of it)))) blk off
                 && linked h rel' (child_of it)) off l
            = forallb_at
                (fun off it =>
                   negb (lp_dead it)
                   && parent_is (cbto_parent (pd_opaque (BufferGetPage rel (child_of it)))) blk off
                   && linked h rel (child_of it)) off l).
  { induction l as [|x l IHl]; intros off Hl; [reflexivity|].
    cbn [forallb_at]. rewrite IHl by (intros y Hy; apply Hl; right; exact Hy).
    f_equal. destruct (lp_dead x) eqn:Hd; [reflexivity|]. cbn [negb andb].
    destruct (Hitems x (Hl x (or_introl eq_refl)) Hd) as [Hcc _].
    assert (Hsub : forall b, In b (tree_blocks h rel (child_of x)) ->
              BufferGetPage rel' b = BufferGetPage rel b).
    { intros b Hb. apply Hag. eapply tree_blocks_child; eauto. apply Hl. left. reflexivity. }
    rewrite (IH rel rel' (child_of x) Hsub Hcc).
    destruct h as [|h']; [discriminate Hcc|].
    rewrite (Hsub (child_of x) (or_introl eq_refl)). reflexivity. }
  apply Hgen. auto.
Qed.

(** ** The pages after a deletion *)

Lemma dropped_opaque chain b p : pd_opaque (dropped chain b p) = pd_opaque p.
Proof.
  induction chain as [|f rest IH]; [reflexivity|].
  cbn [dropped]. destruct (b =? ip_blkid f); [reflexivity | exact IH].
Qed.

Lemma dropped_meta chain b p : pd_meta (dropped chain b p) = pd_meta p.
Proof.
  induction chain as [|f rest IH]; [reflexivity|].
  cbn [dropped]. destruct (b =? ip_blkid f); [reflexivity | exact IH].
Qed.

Lemma delete_page_opaque leaf off chain b p :
  pd_opaque (delete_page leaf off chain b p) = pd_opaque p.
Proof.
  unfold delete_page. destruct (b =? leaf); [reflexivity | apply dropped_opaque].
Qed.

Lemma delete_page_meta leaf off chain b p :
  pd_meta (delete_page leaf off chain b p) = pd_meta p.
Proof.
  unfold delete_page. destruct (b =? leaf); [reflexivity | apply dropped_meta].
Qed.

Lemma dropped_other chain b p :
  (forall f, In f chain -> ip_blkid f <> b) -> dropped chain b p = p.
Proof.
  induction chain as [|f rest IH]; intros H; [reflexivity|].
  cbn [dropped]. replace (b =? ip_blkid f) with false.
  - apply IH. intros g Hg. apply H. right. exact Hg.
  - symmetry. apply Z.eqb_neq. intros E. apply (H f (or_introl eq_refl)). auto.
Qed.

Lemma dropped_app_other chain f b p :
  b <> ip_blkid f -> dropped (chain ++ [f]) b p = dropped chain b p.
Proof.
  intros Hb. induction chain as [|g rest IH]; cbn [app dropped].
  - apply Z.eqb_neq in Hb. rewrite Hb. reflexivity.
  - rewrite IH. reflexivity.
Qed.

Lemma dropped_app_last chain f p :
  (forall g, In g chain -> ip_blkid g <> ip_blkid f) ->
  dropped (chain ++ [f]) (ip_blkid f) p = drop_tuple (ip_posid f) p.
Proof.
  induction chain as [|g rest IH]; intros H; cbn [app dropped].
  - rewrite Z.eqb_refl. reflexivity.
  - replace (ip_blkid f =? ip_blkid g) with false.
    + apply IH. intros x Hx. apply H. right. exact Hx.
    + symmetry. apply Z.eqb_neq. intros E. apply (H g (or_introl eq_refl)). auto.
Qed.

Lemma shape_add_childcnt c it : shape (add_childcnt c it) = shape it.
Proof. reflexivity. Qed.

Lemma map_shape_list_update n c l :
  map shape (list_update n (add_childcnt c) l) = map shape l.
Proof.
  revert n. induction l as [|x l IH]; intros [|n]; cbn; try reflexivity.
  rewrite IH. reflexivity.
Qed.

Lemma dropped_shape chain b p :
  map shape (pd_items (dropped chain b p)) = map shape (pd_items p).
Proof.
  induction chain as [|f rest IH]; [reflexivity|].
  cbn [dropped]. destruct (b =? ip_blkid f); [|exact IH].
  unfold drop_tuple. cbn [set_items pd_items]. apply map_shape_list_update.
Qed.

Lemma chain_from_app rel blk c1 mid c2 top :
  chain_from rel blk c1 mid -> chain_from rel mid c2 top ->
  chain_from rel blk (c1 ++ c2) top.
Proof.
  revert blk. induction c1 as [|loc rest IH]; intros blk H1 H2; cbn [app chain_from] in *.
  - subst. exact H2.
  - destruct H1 as (A & B & C). auto.
Qed.

Lemma chain_from_opaque rel rel' chain :
  (forall b, pd_opaque (BufferGetPage rel' b) = pd_opaque (BufferGetPage rel b)) ->
  forall blk top, chain_from rel blk chain top -> chain_from rel' blk chain top.
Proof.
  intros Ho. induction chain as [|loc rest IH]; intros blk top H; cbn [chain_from] in *.
  - exact H.
  - destruct H as (A & B & C). rewrite Ho. auto.
Qed.

(** The root lookup settles the cached meta record: once it has run, every
    further lookup returns the root and leaves the relation as it is. *)
Lemma getroot_settles h rel fuel :
  cbt_tree h rel = true ->
  cbtm_root (metad_of rel) <> InvalidBlockNumber ->
  exists c,
    cbt_tree h (mkRel (rd_pages rel) c) = true
    /\ (forall acc, cbt_getroot (S (S fuel)) acc rel
                    = Ok (cbtm_root (metad_of rel)) (mkRel (rd_pages rel) c))
    /\ (forall acc, cbt_getroot (S (S fuel)) acc (mkRel (rd_pages rel) c)
                    = Ok (cbtm_root (metad_of rel)) (mkRel (rd_pages rel) c)).
Proof.
  intros Ht Hr.
  assert (Hfresh : forall pages c0,
            cbt_tree h (mkRel pages c0) = true ->
            cbtm_root (metad_of (mkRel pages c0)) <> InvalidBlockNumber ->
            let m := metad_of (mkRel pages c0) in
            forall acc, cbt_getroot (S (S fuel)) acc (mkRel pages (Some m))
                        = Ok (cbtm_root m) (mkRel pages (Some m))).
  { intros pages c0 Ht0 Hr0 m acc.
    pose proof (cbt_tree_cache_meta h pages c0 Ht0 Hr0) as Htm. fold m in Htm.
    destruct (cbt_tree_facts _ _ Htm) as [_ _ _ Hc _].
    destruct (cache_ok_facts _ _ Hc) as (H1 & H2 & H3).
    destruct (cache_accepts (mkRel pages (Some m)) m) eqn:Ea.
    - apply getroot_accepted_cache; assumption.
    - rewrite getroot_rejected_cache by assumption.
      rewrite (getroot_uncached h) by (eauto using cbt_tree_amcache). reflexivity. }
  destruct rel as [pages [c|]]; cbn [rd_pages].
  - destruct (cbt_tree_facts _ _ Ht) as [_ _ _ Hc _].
    destruct (cache_ok_facts _ _ Hc) as (H1 & H2 & H3).
    destruct (cache_accepts (mkRel pages (Some c)) c) eqn:Ea.
    + exists (Some c). split; [exact Ht|].
      assert (Hget : forall acc, cbt_getroot (S (S fuel)) acc (mkRel pages (Some c))
                       = Ok (cbtm_root (metad_of (mkRel pages (Some c))))
                            (mkRel pages (Some c))).
      { intros acc. rewrite getroot_accepted_cache by assumption.
        rewrite (H3 eq_refl). reflexivity. }
      split; exact Hget.
    + exists (Some (metad_of (mkRel pages (Some c)))).
      split; [apply cbt_tree_cache_meta; assumption|]. split.
      * intros acc. rewrite getroot_rejected_cache by assumption.
        rewrite (getroot_uncached h) by (eauto using cbt_tree_amcache). reflexivity.
      * apply (Hfresh pages (Some c) Ht Hr).
  - exists (Some (metad_of (mkRel pages None))).
    split; [apply cbt_tree_cache_meta; assumption|]. split.
    + intros acc. rewrite (getroot_uncached h) by assumption. reflexivity.
    + apply (Hfresh pages None Ht Hr).
Qed.

(** The tree after an insertion along the path to its [k]-th entry. *)
Lemma inserted_along_tree h rel rel' top parents delta tid (i : nat) :
  cbt_tree h rel = true ->
  cbtm_root (metad_of rel) <> InvalidBlockNumber ->
  inserted_along top parents delta tid rel rel' ->
  ((forall b, In b (tree_blocks h rel (cbtm_root (metad_of rel))) ->
      block_exists rel' b = block_exists rel b
      /\ BufferGetPage rel' b = path_page top parents delta tid b (BufferGetPage rel b)) ->
   counted h rel' (cbtm_root (metad_of rel)) = true
   /\ map en_tid (live_entries h rel' (cbtm_root (metad_of rel)))
      = list_insert i tid (map en_tid (live_entries h rel (cbtm_root (metad_of rel))))
   /\ tree_blocks h rel' (cbtm_root (metad_of rel))
      = tree_blocks h rel (cbtm_root (metad_of rel))) ->
  cbt_tree h rel' = true
  /\ map en_tid (tree_entries h rel') = list_insert i tid (map en_tid (tree_entries h rel))
  /\ cbtm_root (metad_of rel') = cbtm_root (metad_of rel)
  /\ tree_blocks h rel' (cbtm_root (metad_of rel))
     = tree_blocks h rel (cbtm_root (metad_of rel)).
Proof.
  intros Ht Hr (Hcache & Hblocks & Hpages) Heff.
  assert (Hexs : forall b, block_exists rel' b = block_exists rel b)
    by (intros b; rewrite !block_exists_blocks, Hblocks; reflexivity).
  destruct Heff as (Hc & He & Hb); [intros b _; split; [apply Hexs | apply Hpages]|].
  assert (Hop : forall b, pd_opaque (BufferGetPage rel' b) = pd_opaque (BufferGetPage rel b))
    by (intros b; rewrite Hpages; apply path_page_opaque).
  assert (Hmeta : metad_of rel' = metad_of rel)
    by (unfold metad_of; rewrite Hpages; apply path_page_meta).
  destruct (cbt_tree_facts _ _ Ht) as [Hm Hf Hg Hco Hroot].
  destruct (Hroot Hr) as (Hig & Hlev & _).
  split; [|split; [|split; [rewrite Hmeta; reflexivity | exact Hb]]].
  - unfold cbt_tree. rewrite Hmeta, !Hop, Hblocks, Hf, Hg, Hig, Hlev, Hc.
    apply block_exists_iff in Hm. unfold CBT_METAPAGE in Hm.
    replace (0 <? RelationGetNumberOfBlocks rel) with true
      by (symmetry; apply Z.ltb_lt; unfold RelationGetNumberOfBlocks; lia).
    rewrite !Z.eqb_refl. cbn [negb andb]. rewrite orb_true_r, andb_true_r.
    unfold cache_ok. rewrite Hcache. unfold cache_ok in Hco.
    destruct (rd_amcache rel) as [c|]; [|reflexivity].
    unfold cache_accepts in *. rewrite Hmeta, Hop, Hexs. exact Hco.
  - unfold tree_entries. rewrite Hmeta. apply Z.eqb_neq in Hr. rewrite Hr. exact He.
Qed.

Lemma bumped_shape parents b p :
  map shape (pd_items (bumped parents b p)) = map shape (pd_items p).
Proof.
  induction parents as [|f rest IH]; [reflexivity|].
  cbn [bumped]. destruct (b =? cbts_blkno f); [|exact IH].
  unfold bump_tuple. cbn [pd_items set_items]. apply map_shape_list_update.
Qed.

(** The descent to the [k]-th entry of a tree whose pages are reached once
    each, followed by the counter update along the path and the insertion
    of a record at [delta] places after the entry found. *)
Lemma insert_at_entry BLCKSZ h rel fuel k delta tid e :
  cbt_tree h rel = true ->
  cbtm_root (metad_of rel) <> InvalidBlockNumber ->
  let root := cbtm_root (metad_of rel) in
  NoDup (tree_blocks h rel root) ->
  (h <= S fuel)%nat ->
  1 <= k ->
  Z.of_nat (length (live_entries h rel root)) + 1 < 4294967296 ->
  nth_error (live_entries h rel root) (Z.to_nat (k - 1)) = Some e ->
  itemsz <= PageGetFreeSpace BLCKSZ (BufferGetPage rel (en_blkno e)) ->
  BLCKSZ <= 32768 ->
  0 <= delta <= 1 ->
  exists parents rel',
    cbt_search_descend (S fuel) k root [] rel
    = Ok (mkFrame (en_blkno e) (en_offset e) (k - 1) :: parents, en_blkno e) rel
    /\ BufferIsInvalid (en_blkno e) = false
    /\ 1 <= en_offset e < 65534
    /\ (cbt_change_parent parents 1 ;;;
        cbt_insert_on_page BLCKSZ (S fuel)
          (mkFrame (en_blkno e) (en_offset e + delta) (k - 1) :: parents)
          (CBTFormTuple tid 1) (en_blkno e) ;;;
        ret tt) rel = Ok tt rel'
    /\ cbt_tree h rel' = true
    /\ map en_tid (tree_entries h rel')
       = list_insert (Z.to_nat (k - 1 + delta)) tid (map en_tid (tree_entries h rel))
    /\ cbtm_root (metad_of rel') = root
    /\ tree_blocks h rel' root = tree_blocks h rel root
    /\ RelationGetNumberOfBlocks rel' = RelationGetNumberOfBlocks rel
    /\ leaf_gained rel rel' (en_blkno e) tid.
Proof.
  intros Ht Hr root Hnd Hfuel Hk Htot He Hroom Hblck Hdelta.
  destruct (cbt_tree_facts _ _ Ht) as [_ _ _ _ Hroot].
  destruct (Hroot Hr) as (_ & _ & Hc). fold root in Hc.
  pose proof (records_fit BLCKSZ _ Hblck Hroom) as Hlen.
  destruct (insert_along_path h rel root [] k (S fuel) e Hc Hnd Hfuel) as
    (parents & Hdesc & Hin & Hoff & Hpar & Hndp & Heff);
    [cbn [stack_count]; lia | cbn [stack_count]; lia
    | cbn [stack_count]; rewrite Z.sub_0_r; exact He |].
  rewrite app_nil_r in Hdesc.
  destruct (tree_blocks_exist h rel root _ Hc Hin) as [Hex Hinv].
  destruct (insert_along_run BLCKSZ fuel (mkFrame (en_blkno e) (en_offset e) (k - 1))
              parents delta tid rel (k - 1)) as (rel' & Hrun & Halong).
  { intros f Hf. destruct (Hpar f Hf) as (A & B & C).
    destruct (tree_blocks_exist h rel root _ Hc A) as [A1 A2]. cbn [cbts_blkno]. auto. }
  { exact Hndp. }
  { exact Hex. }
  { cbn [cbts_blkno cbts_offset]. lia. }
  { exact Hroom. }
  cbn [cbts_blkno cbts_offset] in Hrun.
  exists parents, rel'.
  split; [exact Hdesc|].
  split; [apply block_exists_iff in Hex; unfold BufferIsInvalid, InvalidBuffer;
          apply Z.eqb_neq; lia|].
  split; [lia|]. split; [exact Hrun|].
  destruct (inserted_along_tree h rel rel' _ parents delta tid (Z.to_nat (k - 1 + delta))
              Ht Hr Halong) as (T1 & T2 & T3 & T4).
  { intros Hag. specialize (Heff delta tid rel' Hdelta Hag Hlen).
    cbn [stack_count] in Heff. rewrite Z.sub_0_r in Heff. exact Heff. }
  assert (Hgain : leaf_gained rel rel' (en_blkno e) tid).
  { destruct (search_path h rel root [] k (S fuel) e Hc Hfuel) as
      (parents2 & r & pre & it & post & Hdesc2 & Hpath & _);
      [cbn [stack_count]; lia | cbn [stack_count]; lia
      | cbn [stack_count]; rewrite Z.sub_0_r; exact He |].
    rewrite app_nil_r, Hdesc in Hdesc2.
    assert (Epar : parents2 = parents) by congruence. subst parents2.
    destruct (on_path_blocks _ _ _ _ _ _ Hpath) as (HLleaf & _ & Hframes).
    destruct Halong as (_ & _ & Hpages).
    split; [intros b; rewrite Hpages; apply path_page_opaque|].
    split.
    { exists (Z.to_nat (en_offset e + delta - 1)). rewrite Hpages. unfold path_page.
      cbn [cbts_blkno cbts_offset]. rewrite Z.eqb_refl. reflexivity. }
    split.
    - intros b HbL. rewrite Hpages. unfold path_page. cbn [cbts_blkno].
      apply Z.eqb_neq in HbL. rewrite HbL. apply bumped_shape.
    - intros b HbL Hbleaf. rewrite Hpages. unfold path_page. cbn [cbts_blkno].
      apply Z.eqb_neq in HbL. rewrite HbL. rewrite bumped_other; [reflexivity|].
      intros f Hf E. destruct (Hframes f Hf) as (_ & Hnl). rewrite E in Hnl. congruence. }
  destruct Halong as (_ & Hb & _). auto 10.
Qed.

(** The relation with another cached meta record holds the same tree. *)
Lemma tree_amcache h pages c c' blk :
  counted h (mkRel pages c') blk = counted h (mkRel pages c) blk
  /\ live_entries h (mkRel pages c') blk = live_entries h (mkRel pages c) blk
  /\ tree_blocks h (mkRel pages c') blk = tree_blocks h (mkRel pages c) blk.
Proof. apply subtree_agree. intros b _. split; reflexivity. Qed.

(** [cbt_find_totalcnt] on a counted tree whose root lookup has settled. *)
Lemma cbt_find_totalcnt_settled h rel fuel :
  cbt_tree h rel = true ->
  cbtm_root (metad_of rel) <> InvalidBlockNumber ->
  (forall acc, cbt_getroot fuel acc rel = Ok (cbtm_root (metad_of rel)) rel) ->
  Z.of_nat (length (tree_entries h rel)) < 4294967296 ->
  cbt_find_totalcnt fuel rel = Ok (Z.of_nat (length (tree_entries h rel))) rel.
Proof.
  intros Ht Hr Hget Htot.
  destruct h as [|h]; [apply cbt_tree_facts in Ht; destruct Ht as [_ _ _ _ Hroot];
                       destruct (Hroot Hr) as (_ & _ & Hc); discriminate Hc|].
  destruct (cbt_tree_facts _ _ Ht) as [_ _ _ _ Hroot].
  destruct (Hroot Hr) as (_ & _ & Hc).
  unfold tree_entries in *. pose proof Hr as Hr'. apply Z.eqb_neq in Hr'. rewrite Hr' in *.
  pose proof (counted_live_count _ _ _ Hc) as Hlc. rewrite Hlc in *.
  assert (Hn : 0 <= live_count (pd_items (BufferGetPage rel (cbtm_root (metad_of rel)))))
    by (rewrite <- Hlc; lia).
  clear Hlc.
  unfold cbt_find_totalcnt. unfold bind at 1. rewrite Hget. cbv beta iota.
  destruct (counted_S _ _ _ Hc) as (Hex & _).
  apply block_exists_iff in Hex.
  unfold BufferIsInvalid, InvalidBuffer.
  replace (cbtm_root (metad_of rel) =? -1) with false by (symmetry; apply Z.eqb_neq; lia).
  mred. unfold PageGetMaxOffsetNumber.
  destruct (pd_items (BufferGetPage rel (cbtm_root (metad_of rel)))) as [|it rest] eqn:E.
  - reflexivity.
  - replace (Z.of_nat (length (it :: rest)) =? 0) with false
      by (symmetry; apply Z.eqb_neq; cbn [length]; lia).
    change 0 with (uint32 0) at 1. rewrite cbt_find_totalcnt_from_sum.
    unfold uint32. rewrite Z.mod_small by lia. reflexivity.
Qed.

(** [cbt_search] once the root lookup has settled. *)
Lemma cbt_search_settled rel fuel k acc :
  (forall acc, cbt_getroot fuel acc rel = Ok (cbtm_root (metad_of rel)) rel) ->
  0 <= cbtm_root (metad_of rel) ->
  cbt_search fuel k acc rel = cbt_search_descend fuel k (cbtm_root (metad_of rel)) [] rel.
Proof.
  intros Hget Hr. unfold cbt_search. unfold bind at 1. rewrite Hget. cbv beta iota.
  unfold BufferIsValid, InvalidBuffer.
  replace (cbtm_root (metad_of rel) =? -1) with false by (symmetry; apply Z.eqb_neq; lia).
  reflexivity.
Qed.

Lemma cbtinsert_along_pages BLCKSZ h rel fuel pos tid e :
  cbt_tree h rel = true ->
  NoDup (tree_blocks h rel (cbtm_root (metad_of rel))) ->
  (h <= S (S fuel))%nat ->
  let total := Z.of_nat (length (tree_entries h rel)) in
  1 <= uint32 pos ->
  total + 1 < 4294967296 ->
  nth_error (tree_entries h rel) (Z.to_nat (Z.min (uint32 pos) total - 1)) = Some e ->
  itemsz <= PageGetFreeSpace BLCKSZ (BufferGetPage rel (en_blkno e)) ->
  BLCKSZ <= 32768 ->
  exists rel',
    cbtinsert BLCKSZ (S (S fuel)) pos tid rel = Ok true rel'
    /\ cbt_tree h rel' = true
    /\ map en_tid (tree_entries h rel')
       = list_insert (Z.to_nat (Z.min (uint32 pos) (total + 1) - 1)) tid
           (map en_tid (tree_entries h rel))
    /\ NoDup (tree_blocks h rel' (cbtm_root (metad_of rel')))
    /\ RelationGetNumberOfBlocks rel' = RelationGetNumberOfBlocks rel
    /\ cbtm_root (metad_of rel') = cbtm_root (metad_of rel)
    /\ leaf_gained rel rel' (en_blkno e) tid.
Proof.
  intros Ht Hnd Hfuel total Hpos Htot He Hroom Hblck.
  assert (Hr : cbtm_root (metad_of rel) <> InvalidBlockNumber).
  { intros E. unfold tree_entries in He. apply Z.eqb_eq in E. rewrite E in He.
    destruct (Z.to_nat _); discriminate He. }
  destruct (getroot_settles h rel fuel Ht Hr) as (c & Htc & Hg1 & Hg2).
  destruct rel as [pages c0]. cbn [rd_pages] in *.
  set (root := cbtm_root (metad_of (mkRel pages c0))) in *.
  set (relc := mkRel pages c) in *.
  change (cbtm_root (metad_of (mkRel pages c0))) with (cbtm_root (metad_of relc)) in Hg2.
  assert (Hrc : cbtm_root (metad_of relc) <> InvalidBlockNumber) by exact Hr.
  destruct (tree_amcache h pages c0 c root) as (Ac & Ae & Ab). fold relc in Ac, Ae, Ab.
  assert (Hents : tree_entries h relc = tree_entries h (mkRel pages c0)).
  { unfold tree_entries. change (cbtm_root (metad_of relc)) with root.
    fold root. rewrite Ae. reflexivity. }
  assert (Hlive : live_entries h relc root = tree_entries h relc).
  { unfold tree_entries. change (cbtm_root (metad_of relc)) with root.
    apply Z.eqb_neq in Hr. rewrite Hr. reflexivity. }
  assert (Hndc : NoDup (tree_blocks h relc (cbtm_root (metad_of relc))))
    by (change (cbtm_root (metad_of relc)) with root; rewrite Ab; exact Hnd).
  assert (Hroomc : itemsz <= PageGetFreeSpace BLCKSZ (BufferGetPage relc (en_blkno e)))
    by exact Hroom.
  assert (Hroot0 : 0 <= cbtm_root (metad_of relc)).
  { destruct (cbt_tree_facts _ _ Htc) as [_ _ _ _ Hroot].
    destruct (Hroot Hrc) as (_ & _ & Hc).
    destruct h as [|h']; [discriminate Hc|].
    destruct (counted_S _ _ _ Hc) as (Hex & _). apply block_exists_iff in Hex. lia. }
  assert (Htotc : Z.of_nat (length (live_entries h relc (cbtm_root (metad_of relc)))) + 1
                  < 4294967296).
  { change (cbtm_root (metad_of relc)) with root. rewrite Hlive, Hents. exact Htot. }
  assert (Hsearch1 : forall k, cbt_search (S (S fuel)) k CBT_WRITE (mkRel pages c0)
                     = cbt_search_descend (S (S fuel)) k root [] relc).
  { intros k. unfold cbt_search. unfold bind at 1. rewrite Hg1. cbv beta iota.
    unfold BufferIsValid, InvalidBuffer.
    replace (root =? -1) with false
      by (symmetry; apply Z.eqb_neq; change root with (cbtm_root (metad_of relc)); lia).
    reflexivity. }
  unfold cbtinsert. unfold bind at 1.
  unfold cbt_insert_tuple. unfold bind at 1. rewrite Hsearch1.
  destruct (uint32 pos <=? total) eqn:Ecase.
  - apply Z.leb_le in Ecase.
    replace (Z.min (uint32 pos) total) with (uint32 pos) in He by lia.
    replace (Z.min (uint32 pos) (total + 1)) with (uint32 pos) by lia.
    destruct (insert_at_entry BLCKSZ h relc (S fuel) (uint32 pos) 0 tid e Htc Hrc Hndc)
      as (parents & rel' & Hdesc & Hinv & Hoff & Hrun & T1 & T2 & T3 & T4 & T5 & T6);
      try assumption; try lia.
    { change (cbtm_root (metad_of relc)) with root. rewrite Hlive, Hents. exact He. }
    change (cbtm_root (metad_of relc)) with root in Hdesc.
    rewrite Hdesc. cbv beta iota.
    rewrite Hinv. cbn [orb]. unfold bind at 1. unfold ret at 1. cbv beta iota.
    rewrite Z.add_0_r in Hrun. rewrite Hrun. cbv beta iota.
    exists rel'. split; [reflexivity|]. split; [exact T1|].
    split; [rewrite T2, Hents, Z.add_0_r; reflexivity|].
    split; [rewrite T3, T4; exact Hndc|]. split; [exact T5|].
    split; [exact T3 | exact T6].
  - apply Z.leb_gt in Ecase.
    replace (Z.min (uint32 pos) total) with total in He by lia.
    replace (Z.min (uint32 pos) (total + 1)) with (total + 1) by lia.
    assert (Htot1 : 1 <= total).
    { destruct (Z.to_nat (total - 1)) eqn:E0;
        destruct (tree_entries h (mkRel pages c0)) eqn:E1; try discriminate He;
        unfold total; cbn [length]; lia. }
    destruct (cbt_tree_facts _ _ Htc) as [_ _ _ _ Hroot].
    destruct (Hroot Hrc) as (_ & _ & Hc).
    pose proof (cbt_search_descend_spec h relc root [] (uint32 pos) (S (S fuel)) Hc Hfuel)
      as Hnone.
    cbn [stack_count] in Hnone.
    change (cbtm_root (metad_of relc)) with root in Htotc.
    specialize (Hnone ltac:(lia) ltac:(lia)).
    rewrite Hlive, Hents in Hnone.
    replace (nth_error (tree_entries h (mkRel pages c0)) (Z.to_nat (uint32 pos - 0 - 1)))
      with (@None entry) in Hnone
      by (symmetry; apply nth_error_None; fold total; unfold total in *; lia).
    destruct Hnone as (buf & Hnone). rewrite Hnone. cbv beta iota.
    rewrite orb_true_r. unfold bind at 1. unfold bind at 1.
    rewrite (cbt_find_totalcnt_settled h relc (S (S fuel)) Htc Hrc Hg2)
      by (rewrite Hents; fold total; lia).
    cbv beta iota. rewrite Hents. fold total.
    replace (total =? 0) with false by (symmetry; apply Z.eqb_neq; lia).
    unfold bind at 1. rewrite (cbt_search_settled relc (S (S fuel)) total CBT_WRITE Hg2 Hroot0).
    destruct (insert_at_entry BLCKSZ h relc (S fuel) total 1 tid e Htc Hrc Hndc)
      as (parents & rel' & Hdesc & Hinv & Hoff & Hrun & T1 & T2 & T3 & T4 & T5 & T6);
      try assumption; try lia.
    { change (cbtm_root (metad_of relc)) with root. rewrite Hlive, Hents. exact He. }
    rewrite Hdesc. cbn [fst snd]. unfold ret at 1. cbv beta iota.
    unfold bump_offset. cbn [cbts_blkno cbts_offset total_count].
    replace (uint16 (en_offset e + 1)) with (en_offset e + 1)
      by (unfold uint16; rewrite Z.mod_small; lia).
    rewrite Hrun. cbv beta iota.
    exists rel'. split; [reflexivity|]. split; [exact T1|].
    split; [rewrite T2, Hents; f_equal; f_equal; lia|].
    split; [rewrite T3, T4; exact Hndc|]. split; [exact T5|].
    split; [exact T3 | exact T6].
Qed.

Lemma cbtinsert_along_path BLCKSZ h rel fuel pos tid e :
  cbt_tree h rel = true ->
  NoDup (tree_blocks h rel (cbtm_root (metad_of rel))) ->
  (h <= S (S fuel))%nat ->
  let total := Z.of_nat (length (tree_entries h rel)) in
  1 <= uint32 pos ->
  total + 1 < 4294967296 ->
  nth_error (tree_entries h rel) (Z.to_nat (Z.min (uint32 pos) total - 1)) = Some e ->
  itemsz <= PageGetFreeSpace BLCKSZ (BufferGetPage rel (en_blkno e)) ->
  BLCKSZ <= 32768 ->
  exists rel',
    cbtinsert BLCKSZ (S (S fuel)) pos tid rel = Ok true rel'
    /\ cbt_tree h rel' = true
    /\ map en_tid (tree_entries h rel')
       = list_insert (Z.to_nat (Z.min (uint32 pos) (total + 1) - 1)) tid
           (map en_tid (tree_entries h rel))
    /\ NoDup (tree_blocks h rel' (cbtm_root (metad_of rel')))
    /\ RelationGetNumberOfBlocks rel' = RelationGetNumberOfBlocks rel.
Proof.
  intros Ht Hnd Hfuel total Hpos Htot He Hroom Hblck.
  destruct (cbtinsert_along_pages BLCKSZ h rel fuel pos tid e Ht Hnd Hfuel Hpos Htot He Hroom
              Hblck) as (rel' & H1 & H2 & H3 & H4 & H5 & _).
  exists rel'. auto.
Qed.

(** X13.  [cbtinsert] on a counted tree of any height whose pages are each
    reached once from the root, when the leaf that holds the entry of rank
    [min pos total] has room for one more record ([pos >= 1] the 32-bit value
    of the key, [total >= 1] the number of live entries): no page is split.
    The insert returns true and leaves a counted tree of the same height on
    the same number of blocks, again with every page reached once, whose
    heap pointers in rank order are the former ones with the new one put in
    at rank [min pos (total + 1)]. *)
Theorem cbtinsert_leaf_room (BLCKSZ : Z) (h : nat) (rel : Relation) (fuel : nat) (pos : Z)
  (tid : ItemPointerData) (e : entry) :
  cbt_tree h rel = true ->
  NoDup (tree_blocks h rel (cbtm_root (metad_of rel))) ->
  let total := Z.of_nat (length (tree_entries h rel)) in
  1 <= uint32 pos ->
  total + 1 < 4294967296 ->
  nth_error (tree_entries h rel) (Z.to_nat (Z.min (uint32 pos) total - 1)) = Some e ->
  itemsz <= PageGetFreeSpace BLCKSZ (BufferGetPage rel (en_blkno e)) ->
  BLCKSZ <= 32768 ->
  (h <= fuel)%nat -> (2 <= fuel)%nat ->
  exists rel',
    cbtinsert BLCKSZ fuel pos tid rel = Ok true rel'
    /\ cbt_tree h rel' = true
    /\ map en_tid (tree_entries h rel')
       = list_insert (Z.to_nat (Z.min (uint32 pos) (total + 1) - 1)) tid
           (map en_tid (tree_entries h rel))
    /\ NoDup (tree_blocks h rel' (cbtm_root (metad_of rel')))
    /\ RelationGetNumberOfBlocks rel' = RelationGetNumberOfBlocks rel.
Proof.
  intros Ht Hnd total Hpos Htot He Hroom Hblck Hfuel H2.
  destruct fuel as [|[|fuel]]; try lia.
  exact (cbtinsert_along_path BLCKSZ h rel fuel pos tid e Ht Hnd Hfuel Hpos Htot He Hroom
           Hblck).
Qed.

(** X14.  Insertion and scan compose on a tree of any height: after a
    [cbtinsert] that splits no page, a scan for rank [min pos (total + 1)]
    returns the inserted heap pointer; a record that had a rank below that
    keeps it, and a record that had that rank or a higher one is found one
    rank further. *)
Theorem cbtinsert_path_scan_roundtrip (BLCKSZ : Z) (h : nat) (rel : Relation) (fuel : nat)
  (pos : Z) (tid : ItemPointerData) (e : entry) :
  cbt_tree h rel = true ->
  NoDup (tree_blocks h rel (cbtm_root (metad_of rel))) ->
  let total := Z.of_nat (length (tree_entries h rel)) in
  let o := Z.min (uint32 pos) (total + 1) in
  1 <= uint32 pos ->
  total + 1 < 4294967296 ->
  nth_error (tree_entries h rel) (Z.to_nat (Z.min (uint32 pos) total - 1)) = Some e ->
  itemsz <= PageGetFreeSpace BLCKSZ (BufferGetPage rel (en_blkno e)) ->
  BLCKSZ <= 32768 ->
  (h < fuel)%nat -> (2 <= fuel)%nat ->
  exists rel',
    cbtinsert BLCKSZ fuel pos tid rel = Ok true rel'
    /\ (exists c, cbtgettuple fuel cbtbeginscan false o rel'
                  = Ok (true, Some tid, mkScan false) (mkRel (rd_pages rel') c))
    /\ forall k t,
         1 <= k ->
         nth_error (map en_tid (tree_entries h rel)) (Z.to_nat (k - 1)) = Some t ->
         exists c, cbtgettuple fuel cbtbeginscan false (if k <? o then k else k + 1) rel'
                   = Ok (true, Some t, mkScan false) (mkRel (rd_pages rel') c).
Proof.
  intros Ht Hnd total o Hpos Htot He Hroom Hblck Hfuel H2.
  destruct fuel as [|[|fuel]]; try lia.
  destruct (cbtinsert_along_path BLCKSZ h rel fuel pos tid e Ht Hnd ltac:(lia) Hpos Htot He
              Hroom Hblck) as (rel' & Hrun & Htree & Hent & _).
  fold total in Hent. fold o in Hent.
  exists rel'. split; [exact Hrun|].
  assert (Hlen : Z.of_nat (length (map en_tid (tree_entries h rel))) = total)
    by (rewrite length_map; reflexivity).
  assert (Ho : 1 <= o <= total + 1) by (unfold o; lia).
  assert (Eo : Z.of_nat (Z.to_nat (o - 1)) + 1 = o) by lia.
  pose proof (scan_after_insert h rel' _ _ tid (S (S fuel)) Htree Hent) as Hs.
  rewrite Eo in Hs. unfold cbtgettuple, cbtbeginscan. apply Hs; lia.
Qed.

Lemma cbtinsert_leaf_room_witness :
  exists rel',
    cbtinsert 128 3 3 (heap_tid 9) spine_example = Ok true rel'
    /\ cbt_tree 3 rel' = true
    /\ map en_tid (tree_entries 3 rel') = [heap_tid 1; heap_tid 2; heap_tid 9; heap_tid 3].
Proof.
  destruct (cbtinsert_leaf_room 128 3 spine_example 3 3 (heap_tid 9)
              (mkEntry 4 2 (heap_tid 3)))
    as (rel' & Hrun & Htree & Hent & _).
  - vm_compute. reflexivity.
  - vm_compute.
    repeat (apply NoDup_cons;
            [cbn [In]; intros H; repeat destruct H as [H|H]; try discriminate H; exact H|]).
    apply NoDup_nil.
  - vm_compute. discriminate.
  - vm_compute. reflexivity.
  - vm_compute. reflexivity.
  - vm_compute. discriminate.
  - lia.
  - lia.
  - lia.
  - exists rel'. split; [exact Hrun | split; [exact Htree | exact Hent]].
Defined.

Lemma cbtinsert_path_scan_roundtrip_witness :
  exists rel',
    cbtinsert 128 4 9 (heap_tid 9) spine_example = Ok true rel'
    /\ exists c, cbtgettuple 4 cbtbeginscan false 4 rel'
                 = Ok (true, Some (heap_tid 9), mkScan false) (mkRel (rd_pages rel') c).
Proof.
  destruct (cbtinsert_path_scan_roundtrip 128 3 spine_example 4 9 (heap_tid 9)
              (mkEntry 4 2 (heap_tid 3)))
    as (rel' & Hrun & Hscan & _).
  - vm_compute. reflexivity.
  - vm_compute.
    repeat (apply NoDup_cons;
            [cbn [In]; intros H; repeat destruct H as [H|H]; try discriminate H; exact H|]).
    apply NoDup_nil.
  - vm_compute. discriminate.
  - vm_compute. reflexivity.
  - vm_compute. reflexivity.
  - vm_compute. discriminate.
  - lia.
  - lia.
  - lia.
  - exists rel'. split; [exact Hrun | exact Hscan].
Defined.

(** ** Inserts into the empty index *)

(** The first insert into an index without root, whatever its position. *)
Lemma insert_into_empty BLCKSZ meta rest position itmptr fuel :
  68 <= BLCKSZ ->
  P_ISMETA (pd_opaque meta) = true ->
  cbtm_magic (pd_meta meta) = CBT_MAGIC ->
  cbtm_root (pd_meta meta) = InvalidBlockNumber ->
  Z.of_nat (length (meta :: rest)) < InvalidBlockNumber ->
  cbt_insert_tuple BLCKSZ (S (S fuel)) position itmptr (mkRel (meta :: rest) None)
  = Ok tt
      (mkRel (set_meta meta (mkMeta CBT_MAGIC (Z.of_nat (length (meta :: rest))) 1)
                :: rest ++ [set_items fresh_root [mkItem false (mkTuple itmptr 1)]])
             (Some (mkMeta CBT_MAGIC (Z.of_nat (length (meta :: rest))) 1))).
Proof.
  intros Hroom Hflag Hmagic Hroot Hsize.
  destruct (n_valid meta rest Hsize) as (Hn & Hb & Hpos).
  set (n := Z.of_nat (length (meta :: rest))) in *.
  set (meta' := set_meta meta (mkMeta CBT_MAGIC n 1)).
  assert (Hsearch : cbt_search (S (S fuel)) position CBT_WRITE (mkRel (meta :: rest) None)
                    = Ok ([], n) (mkRel (meta' :: rest ++ [fresh_root]) None)).
  { unfold cbt_search. unfold bind at 1.
    rewrite (getroot_creates meta rest Hflag Hmagic Hroot). fold n. fold meta'.
    unfold BufferIsValid. apply Z.eqb_neq in Hb. rewrite Hb. cbn [negb].
    cbn [cbt_search_descend]. mred.
    unfold cbt_search_in_page. unfold meta', n. rewrite root_page. reflexivity. }
  unfold cbt_insert_tuple.
  unfold bind at 1. rewrite Hsearch.
  unfold BufferIsInvalid at 1. apply Z.eqb_neq in Hb. rewrite Hb. cbn [orb].
  unfold bind at 1. unfold bind at 1. unfold cbt_find_totalcnt.
  unfold bind at 1. unfold meta', n.
  rewrite (getroot_reads_meta meta rest Hflag Hsize).
  fold n. unfold BufferIsInvalid at 1. rewrite Hb.
  mred. unfold n at 1 2. rewrite root_page.
  change (PageGetMaxOffsetNumber fresh_root =? 0) with true. cbv beta iota.
  change (0 =? 0) with true. cbv beta iota.
  unfold n at 1 2 3. rewrite (getroot_reads_cache meta rest Hsize). fold n.
  unfold BufferIsInvalid. rewrite Hb. cbv iota.
  cbn [cbt_change_parent]. cbv beta iota.
  cbn [cbt_insert_on_page]. mred.
  unfold n at 1 2. rewrite root_page. rewrite (fresh_root_room meta rest BLCKSZ Hroom).
  cbn [cbts_offset]. unfold P_FIRSTOFFSET.
  fold meta'.
  change (meta' :: rest ++ [fresh_root]) with ((meta' :: rest) ++ [fresh_root]).
  unfold n at 1. change (length (meta :: rest)) with (length (meta' :: rest)).
  rewrite modify_page_last. rewrite (fresh_root_add BLCKSZ Hroom).
  destruct itmptr. reflexivity.
Qed.

(** A batch of [cbtinsert]s past the end of a root leaf of records, while
    the leaf has room. *)
Lemma cbtinsert_all_append BLCKSZ fuel :
  forall recs rel pos,
    root_leaf_of_records rel = true ->
    let n := Z.of_nat (length (pd_items (BufferGetPage rel (cbtm_root (metad_of rel))))) in
    n < pos -> pos + Z.of_nat (length recs) <= 4294967296 ->
    48 + 20 * (n + Z.of_nat (length recs)) <= BLCKSZ -> BLCKSZ <= 32768 ->
    exists rel',
      cbtinsert_all BLCKSZ (S (S fuel)) pos recs rel = Ok tt rel'
      /\ root_leaf_of_records rel' = true
      /\ map en_tid (tree_entries 1 rel') = map en_tid (tree_entries 1 rel) ++ recs
      /\ RelationGetNumberOfBlocks rel' = RelationGetNumberOfBlocks rel.
Proof.
  induction recs as [|r recs IH]; intros rel pos H n Hpos Hwrap Hfit Hblck.
  - exists rel. cbn [cbtinsert_all]. rewrite app_nil_r. auto.
  - cbn [length] in Hwrap, Hfit.
    assert (Hn0 : 0 <= n) by (unfold n; lia).
    assert (Hroom : itemsz <= PageGetFreeSpace BLCKSZ
                                (BufferGetPage rel (cbtm_root (metad_of rel)))).
    { unfold PageGetFreeSpace, page_hole, itemsz, sizeof_ItemIdData, SizeOfPageHeaderData,
        SizeOfSpecial. fold n.
      destruct (_ <? 4) eqn:E; [apply Z.ltb_lt in E | apply Z.ltb_ge in E]; lia. }
    destruct (cbtinsert_records BLCKSZ rel fuel pos r H Hroom Hblck) as (c & Hrun & H1 & Hent).
    fold n in Hrun, H1, Hent.
    assert (Hu : uint32 pos = pos) by (unfold uint32; apply Z.mod_small; lia).
    rewrite Hu in Hrun, H1, Hent.
    assert (Hi : Z.to_nat (insert_offset pos n - 1) = length (map en_tid (tree_entries 1 rel))).
    { rewrite (tree_entries_records _ H), length_map. unfold insert_offset. fold n.
      unfold n. lia. }
    set (rel1 := modify_page (cbtm_root (metad_of rel))
                   (fun p => set_items p
                      (list_insert (Z.to_nat (insert_offset pos n - 1))
                         (mkItem false (mkTuple r 1)) (pd_items p)))
                   (mkRel (rd_pages rel) c)) in *.
    rewrite Hi in Hent. rewrite list_insert_length in Hent.
    assert (Hn1 : Z.of_nat (length (pd_items (BufferGetPage rel1 (cbtm_root (metad_of rel1)))))
                  = n + 1).
    { pose proof (f_equal (@length _) Hent) as HL.
      rewrite (tree_entries_records _ H1), (tree_entries_records _ H) in HL.
      rewrite length_app, !length_map in HL. cbn [length] in HL. unfold n. lia. }
    destruct (IH rel1 (pos + 1) H1) as (rel' & Hrun' & H' & Hent' & Hblocks');
      try (rewrite Hn1); try lia.
    exists rel'. cbn [cbtinsert_all]. unfold bind at 1. rewrite Hrun. cbv beta iota.
    split; [exact Hrun'|]. split; [exact H'|].
    split; [rewrite Hent', Hent, <- app_assoc; reflexivity|].
    rewrite Hblocks'. unfold rel1. rewrite items_written_blocks.
    destruct rel; reflexivity.
Qed.

(** The inserts of a list of records into the empty index, at consecutive
    positions from [pos] on, while one leaf has room for them. *)
Lemma cbtinsert_all_empty BLCKSZ fuel pos recs :
  recs <> [] ->
  1 <= pos -> pos + Z.of_nat (length recs) <= 4294967296 ->
  48 + 20 * Z.of_nat (length recs) <= BLCKSZ -> BLCKSZ <= 32768 ->
  exists rel',
    cbtinsert_all BLCKSZ (S (S fuel)) pos recs cbt_empty_index = Ok tt rel'
    /\ root_leaf_of_records rel' = true
    /\ map en_tid (tree_entries 1 rel') = recs
    /\ RelationGetNumberOfBlocks rel' = 2.
Proof.
  intros Hne Hpos Hwrap Hfit Hblck.
  destruct recs as [|r recs]; [congruence|]. cbn [length] in Hwrap, Hfit.
  set (rel1 := mkRel [set_meta (CBTFillMetaPage InvalidBlockNumber 0) (mkMeta CBT_MAGIC 1 1);
                      set_items fresh_root [mkItem false (mkTuple r 1)]]
                 (Some (mkMeta CBT_MAGIC 1 1))).
  assert (Hrun : cbtinsert BLCKSZ (S (S fuel)) pos r cbt_empty_index = Ok true rel1).
  { unfold cbtinsert, cbt_empty_index. unfold bind at 1.
    rewrite insert_into_empty; try reflexivity; lia. }
  assert (H1 : root_leaf_of_records rel1 = true) by reflexivity.
  assert (Hn1 : Z.of_nat (length (pd_items (BufferGetPage rel1 (cbtm_root (metad_of rel1)))))
                = 1) by reflexivity.
  destruct (cbtinsert_all_append BLCKSZ fuel recs rel1 (pos + 1) H1)
    as (rel' & Hrun' & H' & Hent' & Hblocks'); try (rewrite Hn1); try lia.
  exists rel'. cbn [cbtinsert_all]. unfold bind at 1. rewrite Hrun. cbv beta iota.
  split; [exact Hrun'|]. split; [exact H'|].
  split; [rewrite Hent'; destruct r; reflexivity | rewrite Hblocks'; reflexivity].
Qed.

(** X15.  [cbtinsert] of a list of [n >= 1] records into the empty index, the
    first at position [pos >= 1] and each next one at the next position,
    when a page takes [n] tuples ([48 + 20 n <= BLCKSZ]): the inserts all
    return and leave two blocks, the meta page and a root leaf that holds
    one live tuple of count 1 per record; the heap pointers of the tree in
    rank order are the records in the order of their insertion. *)
Theorem cbtinsert_all_one_leaf (BLCKSZ : Z) (fuel : nat) (pos : Z)
  (recs : list ItemPointerData) :
  recs <> [] ->
  1 <= pos -> pos + Z.of_nat (length recs) <= 4294967296 ->
  48 + 20 * Z.of_nat (length recs) <= BLCKSZ -> BLCKSZ <= 32768 ->
  (2 <= fuel)%nat ->
  exists rel',
    cbtinsert_all BLCKSZ fuel pos recs cbt_empty_index = Ok tt rel'
    /\ root_leaf_of_records rel' = true
    /\ map en_tid (tree_entries 1 rel') = recs
    /\ RelationGetNumberOfBlocks rel' = 2.
Proof.
  intros Hne Hpos Hwrap Hfit Hblck Hfuel.
  destruct fuel as [|[|fuel]]; try lia.
  exact (cbtinsert_all_empty BLCKSZ fuel pos recs Hne Hpos Hwrap Hfit Hblck).
Qed.

(** X16.  Bulk build and repeated insertion agree on a heap that one leaf of
    the build takes: the tree that [cbtbuild] leaves on the records and the
    tree that inserting them one at a time at ranks 1, 2, ... into the empty
    index leaves answer every scan alike, with the record of that rank, or
    with nothing past the last one. *)
Theorem cbtbuild_agrees_with_inserts (BLCKSZ : Z) (fuel : nat)
  (recs : list ItemPointerData) :
  recs <> [] ->
  leaf_takes BLCKSZ (Z.of_nat (length recs) - 1) = true ->
  BLCKSZ <= 32768 ->
  (2 <= fuel)%nat ->
  exists built inserted,
    cbtbuild BLCKSZ fuel recs (mkRel [] None) = Ok (Z.of_nat (length recs)) built
    /\ cbtinsert_all BLCKSZ fuel 1 recs cbt_empty_index = Ok tt inserted
    /\ forall key, 1 <= uint32 key ->
         let found := match nth_error recs (Z.to_nat (uint32 key - 1)) with
                      | Some t => (true, Some t, mkScan false)
                      | None => (false, None, cbtbeginscan)
                      end in
         exists cb ci,
           cbtgettuple fuel cbtbeginscan false key built
           = Ok found (mkRel (rd_pages built) cb)
           /\ cbtgettuple fuel cbtbeginscan false key inserted
              = Ok found (mkRel (rd_pages inserted) ci).
Proof.
  intros Hne Htakes Hblck Hfuel.
  assert (Hn : 1 <= Z.of_nat (length recs))
    by (destruct recs; [congruence | cbn [length]; lia]).
  assert (Hlen : Z.of_nat (length recs) - 1 + 1 < 65535)
    by (apply (leaf_takes_bound BLCKSZ); (assumption || lia)).
  assert (Hfit : 48 + 20 * Z.of_nat (length recs) <= BLCKSZ).
  { destruct (leaf_takes_facts _ _ Htakes) as [H1 _].
    apply Z.ltb_ge in H1. revert H1.
    unfold leaf_space, SizeOfPageHeaderData, SizeOfSpecial, sizeof_ItemIdData, itemsz.
    cbv zeta.
    destruct (BLCKSZ - 24 - 24 - (4 + 16) * (Z.of_nat (length recs) - 1) <? 4) eqn:E;
      [lia|].
    apply Z.ltb_ge in E. lia. }
  destruct fuel as [|[|fuel]]; try lia.
  set (built := mkRel [CBTFillMetaPage 1 1; built_root_leaf recs] None).
  assert (Hleaf : root_leaf_of_records built = true)
    by (apply built_root_leaf_tree; [lia | reflexivity]).
  assert (Hents : map en_tid (tree_entries 1 built) = recs)
    by (rewrite (tree_entries_records _ Hleaf); apply records_tids).
  destruct (cbtinsert_all_empty BLCKSZ fuel 1 recs Hne) as (inserted & Hrun & Hleaf' & Hents' & _);
    try lia.
  exists built, inserted.
  split; [apply cbtbuild_one_leaf_run; (assumption || lia)|].
  split; [exact Hrun|].
  intros key Hkey found.
  destruct (root_leaf_of_records_facts _ Hleaf) as (Ht & _).
  destruct (root_leaf_of_records_facts _ Hleaf') as (Ht' & _).
  destruct (cbt_first_tids 1 built key (S (S fuel)) Ht Hkey) as [cb Hb];
    [rewrite <- (length_map en_tid), Hents; lia | lia |].
  destruct (cbt_first_tids 1 inserted key (S (S fuel)) Ht' Hkey) as [ci Hi];
    [rewrite <- (length_map en_tid), Hents'; lia | lia |].
  rewrite Hents in Hb. rewrite Hents' in Hi.
  exists cb, ci. unfold cbtgettuple. split; [exact Hb | exact Hi].
Qed.

Lemma cbtinsert_all_one_leaf_witness :
  exists rel',
    cbtinsert_all 128 2 1 (heap_tids 4) cbt_empty_index = Ok tt rel'
    /\ map en_tid (tree_entries 1 rel') = heap_tids 4.
Proof.
  destruct (cbtinsert_all_one_leaf 128 2 1 (heap_tids 4)) as (rel' & Hrun & _ & Hent & _).
  - discriminate.
  - lia.
  - vm_compute. discriminate.
  - vm_compute. discriminate.
  - lia.
  - lia.
  - exists rel'. split; [exact Hrun | exact Hent].
Defined.

Lemma cbtbuild_agrees_with_inserts_witness :
  exists built inserted cb ci,
    cbtbuild 128 2 (heap_tids 3) (mkRel [] None) = Ok 3 built
    /\ cbtinsert_all 128 2 1 (heap_tids 3) cbt_empty_index = Ok tt inserted
    /\ cbtgettuple 2 cbtbeginscan false 2 built
       = Ok (true, Some (heap_tid 2), mkScan false) (mkRel (rd_pages built) cb)
    /\ cbtgettuple 2 cbtbeginscan false 2 inserted
       = Ok (true, Some (heap_tid 2), mkScan false) (mkRel (rd_pages inserted) ci).
Proof.
  destruct (cbtbuild_agrees_with_inserts 128 2 (heap_tids 3))
    as (built & inserted & Hb & Hi & Hscan).
  - discriminate.
  - vm_compute. reflexivity.
  - lia.
  - lia.
  - destruct (Hscan 2) as (cb & ci & H1 & H2).
    + vm_compute. discriminate.
    + exists built, inserted, cb, ci. auto.
Defined.

(** X17.  [cbt_getroot] on a counted tree with a root, whatever the cached meta
    record (none, one that names the root, or a stale one whose page fails
    the test of the fast path): it returns the root that the meta page
    names and changes only the cached record; the relation it leaves is
    again a counted tree, on which every further call returns the same root
    and changes nothing. *)
Theorem cbt_getroot_any_cache (h : nat) (rel : Relation) (fuel : nat) (acc : access) :
  cbt_tree h rel = true ->
  cbtm_root (metad_of rel) <> InvalidBlockNumber ->
  (2 <= fuel)%nat ->
  exists c,
    cbt_getroot fuel acc rel = Ok (cbtm_root (metad_of rel)) (mkRel (rd_pages rel) c)
    /\ cbt_tree h (mkRel (rd_pages rel) c) = true
    /\ forall acc', cbt_getroot fuel acc' (mkRel (rd_pages rel) c)
                    = Ok (cbtm_root (metad_of rel)) (mkRel (rd_pages rel) c).
Proof.
  intros Ht Hr Hfuel. destruct fuel as [|[|fuel]]; try lia.
  destruct (getroot_settles h rel fuel Ht Hr) as (c & Htc & Hg1 & Hg2).
  exists c. auto.
Qed.

Lemma cbt_getroot_any_cache_witness :
  exists c,
    cbt_getroot 2 CBT_READ two_leaf_example = Ok 3 (mkRel (rd_pages two_leaf_example) c)
    /\ cbt_getroot 2 CBT_WRITE (mkRel (rd_pages two_leaf_example) c)
       = Ok 3 (mkRel (rd_pages two_leaf_example) c).
Proof.
  destruct (cbt_getroot_any_cache 2 two_leaf_example 2 CBT_READ) as (c & Hrun & _ & Hagain).
  - vm_compute. reflexivity.
  - vm_compute. discriminate.
  - lia.
  - exists c. split; [exact Hrun | apply Hagain].
Defined.

Lemma length_leaf_entries_records blk off items :
  forallb record_item items = true -> length (leaf_entries blk off items) = length items.
Proof.
  intros H. rewrite <- (length_map en_tid), (leaf_entries_records blk items off H), length_map.
  reflexivity.
Qed.

Lemma forallb_mid_remove {A} (f : A -> bool) pre y post :
  forallb f (pre ++ y :: post) = true -> forallb f (pre ++ post) = true.
Proof.
  rewrite !forallb_app. cbn [forallb]. intros H.
  apply andb_true_iff in H. destruct H as [H1 H2].
  apply andb_true_iff in H2. destruct H2 as [_ H2]. rewrite H1, H2. reflexivity.
Qed.

(** The deletion of a tuple of a leaf. *)
Lemma delete_on_leaf h rel rel' blk pre it post :
  counted (S h) rel blk = true ->
  linked (S h) rel blk = true ->
  P_ISLEAF (pd_opaque (BufferGetPage rel blk)) = true ->
  pd_items (BufferGetPage rel blk) = pre ++ it :: post ->
  block_exists rel' blk = block_exists rel blk ->
  BufferGetPage rel' blk = set_items (BufferGetPage rel blk) (pre ++ post) ->
  counted (S h) rel' blk = true
  /\ S (length (live_entries (S h) rel' blk)) = length (live_entries (S h) rel blk)
  /\ tree_blocks (S h) rel' blk = tree_blocks (S h) rel blk
  /\ linked (S h) rel' blk = true.
Proof.
  intros Hc Hl Hleaf Hitems Hex Hpage.
  destruct (counted_S _ _ _ Hc) as (Hex0 & Hinv & Hmax & _).
  pose proof (linked_leaf _ _ _ Hl Hleaf) as Hrec. rewrite Hitems in Hrec.
  pose proof (forallb_mid_remove _ _ _ _ Hrec) as Hrec'.
  assert (Ho' : pd_opaque (BufferGetPage rel' blk) = pd_opaque (BufferGetPage rel blk))
    by (rewrite Hpage; reflexivity).
  assert (Hi' : pd_items (BufferGetPage rel' blk) = pre ++ post)
    by (rewrite Hpage; reflexivity).
  split; [|split; [|split]].
  - rewrite counted_step. unfold PageGetMaxOffsetNumber in *.
    rewrite Hex, Hex0, Ho', Hleaf, Hi'.
    apply Z.eqb_neq in Hinv. rewrite Hinv.
    replace (Z.of_nat (length (pre ++ post)) <? 65535) with true.
    2:{ symmetry. apply Z.ltb_lt. rewrite Hitems in Hmax.
        rewrite length_app in *. cbn [length] in Hmax. lia. }
    cbn [negb andb]. revert Hrec'. apply forallb_weaken.
    intros x Hx. unfold record_item in Hx. apply andb_true_iff in Hx.
    destruct Hx as [_ Hx]. rewrite Hx. apply orb_true_r.
  - rewrite !live_entries_step, Ho', Hleaf, Hi', Hitems.
    rewrite !length_leaf_entries_records by assumption.
    rewrite !length_app. cbn [length]. lia.
  - cbn [tree_blocks]. rewrite Ho', Hleaf. reflexivity.
  - rewrite linked_step, Ho', Hleaf, Hi'. exact Hrec'.
Qed.

(** The deletion of a tuple below the child that a tuple of an internal page
    names. *)
Lemma delete_below_node h rel rel' blk pre it post :
  counted (S h) rel blk = true ->
  linked (S h) rel blk = true ->
  P_ISLEAF (pd_opaque (BufferGetPage rel blk)) = false ->
  pd_items (BufferGetPage rel blk) = pre ++ it :: post ->
  block_exists rel' blk = block_exists rel blk ->
  BufferGetPage rel' blk = drop_tuple (1 + Z.of_nat (length pre)) (BufferGetPage rel blk) ->
  counted h rel' (child_of it) = true ->
  S (length (live_entries h rel' (child_of it))) = length (live_entries h rel (child_of it)) ->
  tree_blocks h rel' (child_of it) = tree_blocks h rel (child_of it) ->
  linked h rel' (child_of it) = true ->
  pd_opaque (BufferGetPage rel' (child_of it)) = pd_opaque (BufferGetPage rel (child_of it)) ->
  (forall x, In x pre \/ In x post ->
     forall b, In b (tree_blocks h rel (child_of x)) ->
       block_exists rel' b = block_exists rel b
       /\ BufferGetPage rel' b = BufferGetPage rel b) ->
  childcnt (lp_tuple it) <= 4294967296 ->
  counted (S h) rel' blk = true
  /\ S (length (live_entries (S h) rel' blk)) = length (live_entries (S h) rel blk)
  /\ tree_blocks (S h) rel' blk = tree_blocks (S h) rel blk
  /\ linked (S h) rel' blk = true.
Proof.
  intros Hc Hl Hleaf Hitems Hex Hpage Hcc Hce Hcb Hcl Hco Hothers Hbound.
  destruct (counted_S _ _ _ Hc) as (Hex0 & Hinv & Hmax & Hcnt). rewrite Hleaf in Hcnt.
  pose proof (linked_node _ _ _ Hl Hleaf) as Hlk.
  assert (Hlive : forall x, In x (pd_items (BufferGetPage rel blk)) -> lp_dead x = false).
  { intros x Hx. apply In_nth_error in Hx. destruct Hx as [j Hj]. apply (Hlk j x Hj). }
  assert (Hi' : pd_items (BufferGetPage rel' blk) = pre ++ add_childcnt (-1) it :: post).
  { rewrite Hpage. unfold drop_tuple. cbn [set_items pd_items]. rewrite Hitems.
    replace (Z.to_nat (1 + Z.of_nat (length pre) - 1)) with (length pre) by lia.
    apply list_update_mid. }
  assert (Ho' : pd_opaque (BufferGetPage rel' blk) = pd_opaque (BufferGetPage rel blk))
    by (rewrite Hpage; reflexivity).
  assert (Hin : forall x, In x pre \/ In x post -> In x (pd_items (BufferGetPage rel blk))).
  { intros x [Hx|Hx]; rewrite Hitems; apply in_or_app; [left | right; right]; exact Hx. }
  assert (Hit : In it (pd_items (BufferGetPage rel blk)))
    by (rewrite Hitems; apply in_or_app; right; left; reflexivity).
  assert (Hsame : forall x, In x pre \/ In x post ->
            counted h rel' (child_of x) = counted h rel (child_of x)
            /\ live_entries h rel' (child_of x) = live_entries h rel (child_of x)
            /\ tree_blocks h rel' (child_of x) = tree_blocks h rel (child_of x)).
  { intros x Hx. apply subtree_agree. apply (Hothers x Hx). }
  pose proof (Hlive it Hit) as Hitlive.
  destruct (Hcnt it Hit Hitlive) as [Hitc Hitcnt].
  assert (Hit' : lp_dead (add_childcnt (-1) it) = false) by exact Hitlive.
  assert (Hchild' : child_of (add_childcnt (-1) it) = child_of it) by reflexivity.
  split; [|split; [|split]].
  - rewrite counted_step. unfold PageGetMaxOffsetNumber.
    rewrite Hex, Hex0, Ho', Hleaf, Hi'.
    apply Z.eqb_neq in Hinv. rewrite Hinv.
    replace (Z.of_nat (length (pre ++ add_childcnt (-1) it :: post)) <? 65535) with true.
    2:{ symmetry. apply Z.ltb_lt. unfold PageGetMaxOffsetNumber in Hmax.
        rewrite Hitems in Hmax. rewrite length_app in *. cbn [length] in *. exact Hmax. }
    cbn [negb andb]. rewrite forallb_app. cbn [forallb].
    assert (Hpart : forall l, (forall x, In x l -> In x pre \/ In x post) ->
              forallb (fun x => lp_dead x ||
                         (counted h rel' (child_of x) &&
                          (childcnt (lp_tuple x)
                           =? Z.of_nat (length (live_entries h rel' (child_of x)))))) l
              = true).
    { intros l Hl'. apply forallb_forall. intros x Hx.
      pose proof (Hlive x (Hin x (Hl' x Hx))) as Hd. rewrite Hd. cbn [orb].
      destruct (Hsame x (Hl' x Hx)) as (E1 & E2 & _). rewrite E1, E2.
      destruct (Hcnt x (Hin x (Hl' x Hx)) Hd) as [Hxc Hxn]. rewrite Hxc, Hxn.
      rewrite Z.eqb_refl. reflexivity. }
    rewrite (Hpart pre) by auto. rewrite (Hpart post) by auto.
    rewrite Hit', Hchild', Hcc. cbn [orb andb].
    unfold add_childcnt, set_childcnt. cbn [lp_tuple childcnt].
    rewrite uint32_small by lia. rewrite Hitcnt.
    replace (Z.of_nat (length (live_entries h rel (child_of it))) + -1
             =? Z.of_nat (length (live_entries h rel' (child_of it))))
      with true by (symmetry; apply Z.eqb_eq; lia).
    reflexivity.
  - rewrite !live_entries_step, Ho', Hleaf, Hi', Hitems.
    rewrite !flat_map_app. cbn [flat_map]. rewrite Hit', Hchild', Hitlive.
    rewrite (flat_map_ext_in' (fun x => if lp_dead x then [] else live_entries h rel' (child_of x))
               (fun x => if lp_dead x then [] else live_entries h rel (child_of x)) pre).
    2:{ intros x Hx. destruct (lp_dead x) eqn:Hd; [reflexivity|].
        apply (Hsame x (or_introl Hx)). }
    rewrite (flat_map_ext_in' (fun x => if lp_dead x then [] else live_entries h rel' (child_of x))
               (fun x => if lp_dead x then [] else live_entries h rel (child_of x)) post).
    2:{ intros x Hx. destruct (lp_dead x) eqn:Hd; [reflexivity|].
        apply (Hsame x (or_intror Hx)). }
    rewrite !length_app. lia.
  - cbn [tree_blocks]. rewrite Ho', Hleaf, Hi', Hitems. f_equal.
    rewrite !flat_map_app. cbn [flat_map]. rewrite Hit', Hchild', Hitlive, Hcb.
    f_equal; [|f_equal]; apply flat_map_ext_in'; intros x Hx;
      (destruct (lp_dead x) eqn:Hd; [reflexivity|]).
    + apply (Hsame x (or_introl Hx)).
    + apply (Hsame x (or_intror Hx)).
  - rewrite linked_step, Ho', Hleaf, Hi'. apply forallb_at_spec. intros j x Hx.
    destruct (Nat.eq_dec j (length pre)) as [->|Hj].
    + rewrite nth_error_app_mid in Hx. injection Hx as <-.
      rewrite Hit', Hchild', Hcl, Hco. cbn [negb andb]. rewrite andb_true_r.
      destruct (Hlk (length pre) it) as (_ & Hp & _);
        [rewrite Hitems; apply nth_error_app_mid|].
      rewrite Hp. unfold parent_is. cbn [ip_blkid ip_posid]. rewrite !Z.eqb_refl. reflexivity.
    + pose proof (nth_error_mid_swap _ _ it _ _ _ Hx Hj) as Hx0. rewrite <- Hitems in Hx0.
      destruct (Hlk j x Hx0) as (Hd & Hp & Hlx).
      assert (Hxin : In x pre \/ In x post).
      { rewrite Hitems in Hx0. destruct (nth_error_mid_cases _ _ _ _ _ Hx0) as [[E _]|H];
          [contradiction | exact H]. }
      destruct (Hcnt x (Hin x Hxin) Hd) as [Hxc _].
      assert (Hpages : forall b, In b (tree_blocks h rel (child_of x)) ->
                BufferGetPage rel' b = BufferGetPage rel b)
        by (intros b Hb; apply (Hothers x Hxin b Hb)).
      rewrite Hd, (linked_agree h rel rel' (child_of x) Hpages Hxc), Hlx.
      destruct h as [|h']; [discriminate Hxc|].
      rewrite (Hpages (child_of x) (or_introl eq_refl)), Hp.
      unfold parent_is. cbn [ip_blkid ip_posid negb andb]. rewrite !Z.eqb_refl. reflexivity.
Qed.

(** The parent locators from a leaf of a linked tree up to its root, and the
    tree after the deletion of a tuple of the leaf with the counts along
    them down by one. *)
Lemma delete_along h :
  forall rel blk L,
    counted h rel blk = true ->
    linked h rel blk = true ->
    NoDup (tree_blocks h rel blk) ->
    Z.of_nat (length (live_entries h rel blk)) <= 4294967296 ->
    In L (tree_blocks h rel blk) ->
    P_ISLEAF (pd_opaque (BufferGetPage rel L)) = true ->
    exists chain,
      chain_from rel L chain blk
      /\ (forall loc, In loc chain ->
            In (ip_blkid loc) (tree_blocks h rel blk)
            /\ ip_blkid loc <> L
            /\ P_ISLEAF (pd_opaque (BufferGetPage rel (ip_blkid loc))) = false
            /\ PageGetItemId (BufferGetPage rel (ip_blkid loc)) (ip_posid loc) <> None)
      /\ NoDup (map ip_blkid chain)
      /\ (length chain < h)%nat
      /\ forall pre it post rel',
           pd_items (BufferGetPage rel L) = pre ++ it :: post ->
           (forall b, In b (tree_blocks h rel blk) ->
              block_exists rel' b = block_exists rel b
              /\ BufferGetPage rel' b
                 = delete_page L (1 + Z.of_nat (length pre)) chain b (BufferGetPage rel b)) ->
           counted h rel' blk = true
           /\ S (length (live_entries h rel' blk)) = length (live_entries h rel blk)
           /\ tree_blocks h rel' blk = tree_blocks h rel blk
           /\ linked h rel' blk = true.
Proof.
  induction h as [|h IH]; intros rel blk L Hc Hl Hnd Hbound HL Hleaf.
  - discriminate Hc.
  - destruct (counted_S _ _ _ Hc) as (Hex & Hinv & Hmax & Hitems).
    rewrite tree_blocks_step in HL.
    set (page := BufferGetPage rel blk) in *.
    destruct (P_ISLEAF (pd_opaque page)) eqn:Eleaf.
    + (* the leaf itself *)
      destruct HL as [<-|[]].
      exists []. split; [reflexivity|]. split; [intros loc []|].
      split; [constructor|]. split; [cbn [length]; lia|].
      intros pre it post rel' Esplit Hag.
      destruct (Hag blk) as [Hex' Hpage']; [cbn [tree_blocks]; left; reflexivity|].
      unfold delete_page in Hpage'. rewrite Z.eqb_refl in Hpage'. fold page in Hpage'.
      apply (delete_on_leaf h rel rel' blk pre it post Hc Hl Eleaf Esplit Hex').
      rewrite Hpage'. fold page in Esplit. rewrite Esplit.
      replace (Z.to_nat (1 + Z.of_nat (length pre) - 1)) with (length pre) by lia.
      rewrite list_remove_app. reflexivity.
    + (* an internal page *)
      destruct HL as [E|HL]; [subst L; fold page in Hleaf; congruence|].
      apply in_flat_map in HL. destruct HL as (x & Hx & HLx).
      pose proof (linked_node _ _ _ Hl Eleaf) as Hlk. fold page in Hlk.
      destruct (in_split _ _ Hx) as (pre0 & post0 & Esplit0).
      assert (Hnth : nth_error (pd_items page) (length pre0) = Some x)
        by (rewrite Esplit0; apply nth_error_app_mid).
      destruct (Hlk _ _ Hnth) as (Hd & Hp & Hlx).
      rewrite Hd in HLx.
      destruct (Hitems x Hx Hd) as [Hcc Hcnt].
      (* the blocks below *)
      pose proof Hnd as Hnd0.
      rewrite tree_blocks_step in Hnd. fold page in Hnd. rewrite Eleaf, Esplit0 in Hnd.
      rewrite flat_map_app in Hnd. cbn [flat_map] in Hnd. rewrite Hd in Hnd.
      apply NoDup_cons_iff in Hnd. destruct Hnd as [Hblk Hkids].
      destruct (NoDup_app_parts _ _ _ Hkids) as [Hndc Hdisj].
      assert (Hlenc : (length (live_entries h rel (child_of x))
                       <= length (live_entries (S h) rel blk))%nat).
      { rewrite live_entries_step. fold page. rewrite Eleaf, Esplit0, flat_map_app.
        cbn [flat_map]. rewrite Hd, !length_app. lia. }
      destruct (IH rel (child_of x) L Hcc Hlx Hndc ltac:(lia) HLx Hleaf)
        as (chain & Hchain & Hpar & Hndp & Hlen & Heff).
      set (loc := mkItemPointer blk (1 + Z.of_nat (length pre0))).
      exists (chain ++ [loc]).
      assert (Hsub : forall b, In b (tree_blocks h rel (child_of x)) ->
                In b (tree_blocks (S h) rel blk)).
      { intros b Hb. eapply tree_blocks_child; eauto. }
      assert (Hnotblk : forall b, In b (tree_blocks h rel (child_of x)) -> b <> blk).
      { intros b Hb ->. apply Hblk. apply in_or_app. right. apply in_or_app. left. exact Hb. }
      split.
      { apply (chain_from_app rel L chain (child_of x) [loc] blk Hchain).
        cbn [chain_from]. split; [exact Hp|]. split; [|reflexivity].
        unfold ItemPointerIsValid, loc. cbn [ip_posid]. apply negb_true_iff, Z.eqb_neq. lia. }
      split.
      { intros f Hf. apply in_app_or in Hf. destruct Hf as [Hf|[<-|[]]].
        - destruct (Hpar f Hf) as (P1 & P2 & P3 & P4). auto.
        - cbn [loc ip_blkid ip_posid]. fold page.
          split; [cbn [tree_blocks]; left; reflexivity|].
          split; [intros E; apply (Hnotblk _ HLx); symmetry; exact E|].
          split; [exact Eleaf|].
          rewrite (PageGetItemId_nth _ _ _ Hnth). discriminate. }
      split.
      { rewrite map_app. cbn [map loc ip_blkid]. apply NoDup_app_tail_intro; [exact Hndp|].
        intros Hin. apply in_map_iff in Hin. destruct Hin as (f & Ef & Hf).
        destruct (Hpar f Hf) as (P1 & _). apply (Hnotblk _ P1). exact Ef. }
      split; [rewrite length_app; cbn [length]; lia|].
      intros pre it post rel' Esplit Hag.
      (* below the child *)
      destruct (Heff pre it post rel' Esplit) as (R1 & R2 & R3 & R4).
      { intros b Hb. destruct (Hag b (Hsub b Hb)) as [E1 E2]. split; [exact E1|].
        rewrite E2. unfold delete_page.
        rewrite dropped_app_other by (cbn [loc ip_blkid]; apply Hnotblk; exact Hb).
        reflexivity. }
      (* the page itself *)
      destruct (Hag blk) as [Hexb Hpageb]; [cbn [tree_blocks]; left; reflexivity|].
      assert (Hpageb' : BufferGetPage rel' blk = drop_tuple (1 + Z.of_nat (length pre0)) page).
      { rewrite Hpageb. unfold delete_page.
        replace (blk =? L) with false
          by (symmetry; apply Z.eqb_neq; intros E; apply (Hnotblk _ HLx); symmetry; exact E).
        change blk with (ip_blkid loc) at 1.
        rewrite dropped_app_last; [reflexivity|].
        intros g Hg. destruct (Hpar g Hg) as (P1 & _). cbn [loc ip_blkid].
        apply Hnotblk. exact P1. }
      (* the other children *)
      assert (Hothers : forall y, In y pre0 \/ In y post0 ->
                forall b, In b (tree_blocks h rel (child_of y)) ->
                  block_exists rel' b = block_exists rel b
                  /\ BufferGetPage rel' b = BufferGetPage rel b).
      { intros y Hy b Hb.
        assert (Hyin : In y (pd_items page)).
        { rewrite Esplit0. apply in_or_app. destruct Hy as [Hy|Hy]; [left | right; right]; exact Hy. }
        assert (Hyd : lp_dead y = false).
        { apply In_nth_error in Hyin. destruct Hyin as [j Hj]. apply (Hlk j y Hj). }
        assert (Hbt : In b (tree_blocks (S h) rel blk))
          by (eapply tree_blocks_child; eauto).
        assert (Hbkids : In b (flat_map (fun it0 => if lp_dead it0 then []
                                          else tree_blocks h rel (child_of it0)) pre0)
                         \/ In b (flat_map (fun it0 => if lp_dead it0 then []
                                              else tree_blocks h rel (child_of it0)) post0)).
        { destruct Hy as [Hy|Hy]; [left | right]; apply in_flat_map; exists y;
            (split; [exact Hy | rewrite Hyd; exact Hb]). }
        assert (Hbc : ~ In b (tree_blocks h rel (child_of x))).
        { intros Hbc. destruct (Hdisj b Hbc) as [D1 D2]. destruct Hbkids; auto. }
        assert (Hbb : b <> blk).
        { intros ->. apply Hblk. apply in_or_app.
          destruct Hbkids as [Hk|Hk]; [left; exact Hk|].
          right. apply in_or_app. right. exact Hk. }
        destruct (Hag b Hbt) as [E1 E2]. split; [exact E1|]. rewrite E2.
        unfold delete_page.
        replace (b =? L) with false
          by (symmetry; apply Z.eqb_neq; intros ->; apply Hbc; exact HLx).
        apply dropped_other. intros f Hf.
        apply in_app_or in Hf. destruct Hf as [Hf|[<-|[]]].
        - destruct (Hpar f Hf) as (P1 & _). intros E. apply Hbc. rewrite <- E. exact P1.
        - cbn [loc ip_blkid]. auto. }
      assert (Hco : pd_opaque (BufferGetPage rel' (child_of x))
                    = pd_opaque (BufferGetPage rel (child_of x))).
      { assert (Hin : In (child_of x) (tree_blocks h rel (child_of x)))
          by (destruct h; [discriminate Hcc | left; reflexivity]).
        destruct (Hag _ (Hsub _ Hin)) as [_ E]. rewrite E. apply delete_page_opaque. }
      apply (delete_below_node h rel rel' blk pre0 x post0 Hc Hl Eleaf Esplit0 Hexb Hpageb'
               R1 R2 R3 R4 Hco Hothers).
      rewrite Hcnt. lia.
Qed.

Lemma modify_items_opaque b g rel blk :
  pd_opaque (BufferGetPage (modify_page b (fun p => set_items p (g p)) rel) blk)
  = pd_opaque (BufferGetPage rel blk).
Proof.
  rewrite BufferGetPage_modify. destruct ((b =? blk) && block_exists rel b); reflexivity.
Qed.

(** The run of [cbt_reduce_parent] up a chain of parent locators on distinct
    blocks. *)
Lemma cbt_reduce_parent_chain :
  forall chain rel blk top fuel,
    chain_from rel blk chain top ->
    ItemPointerIsValid (cbto_parent (pd_opaque (BufferGetPage rel top))) = false ->
    (forall loc, In loc chain ->
       block_exists rel (ip_blkid loc) = true /\ ip_blkid loc <> InvalidBlockNumber
       /\ PageGetItemId (BufferGetPage rel (ip_blkid loc)) (ip_posid loc) <> None) ->
    NoDup (map ip_blkid chain) ->
    (length chain <= fuel)%nat ->
    exists rel',
      cbt_reduce_parent fuel (cbto_parent (pd_opaque (BufferGetPage rel blk))) (-1) rel
      = Ok tt rel'
      /\ rd_amcache rel' = rd_amcache rel
      /\ RelationGetNumberOfBlocks rel' = RelationGetNumberOfBlocks rel
      /\ forall b, BufferGetPage rel' b = dropped chain b (BufferGetPage rel b).
Proof.
  induction chain as [|loc rest IH]; intros rel blk top fuel Hch Htop Hok Hnd Hfuel.
  - cbn [chain_from] in Hch. subst blk. exists rel.
    split; [destruct fuel; cbn [cbt_reduce_parent]; rewrite Htop; reflexivity|].
    repeat split; reflexivity.
  - destruct Hch as (Hp & Hvalid & Hrest).
    destruct fuel as [|fuel]; [cbn [length] in Hfuel; lia|].
    destruct (Hok loc (or_introl eq_refl)) as (Hex & Hinv & Hitem).
    cbn [map] in Hnd. apply NoDup_cons_iff in Hnd. destruct Hnd as [Hnotin Hnd].
    rewrite Hp. cbn [cbt_reduce_parent]. rewrite Hvalid. cbn [negb]. cbv iota.
    unfold ItemPointerGetBlockNumber, ItemPointerGetOffsetNumber.
    unfold bind at 1. rewrite cbt_get_buffer_old by assumption. cbv beta iota.
    unfold bind at 1. rewrite modify_tuple_run by exact Hitem. cbv beta iota.
    unfold bind at 1, get at 1. cbv beta iota.
    set (rel1 := modify_page (ip_blkid loc) _ rel).
    assert (Hother : forall g, In g rest -> ip_blkid g <> ip_blkid loc).
    { intros g Hg E. apply Hnotin. rewrite <- E. apply in_map. exact Hg. }
    assert (Hop : forall b, pd_opaque (BufferGetPage rel1 b) = pd_opaque (BufferGetPage rel b))
      by (intros b; apply modify_items_opaque).
    destruct (IH rel1 (ip_blkid loc) top fuel) as (rel' & Hrun & Hc & Hb & Hpg).
    + apply (chain_from_opaque rel rel1 rest Hop). exact Hrest.
    + rewrite Hop. exact Htop.
    + intros g Hg. destruct (Hok g (or_intror Hg)) as (Gex & Ginv & Gitem).
      unfold rel1. rewrite block_exists_modify.
      rewrite BufferGetPage_modify_other by (intros E; apply (Hother g Hg); symmetry; exact E).
      auto.
    + exact Hnd.
    + cbn [length] in Hfuel. lia.
    + exists rel'. split; [exact Hrun|]. unfold rel1 in Hc, Hb.
      rewrite amcache_modify in Hc. rewrite blocks_modify in Hb.
      split; [exact Hc|]. split; [exact Hb|].
      intros b. rewrite Hpg. unfold rel1. rewrite BufferGetPage_modify. cbn [dropped].
      destruct (b =? ip_blkid loc) eqn:E.
      * apply Z.eqb_eq in E. subst b. rewrite Z.eqb_refl, Hex. cbn [andb].
        apply dropped_other. exact Hother.
      * rewrite Z.eqb_sym, E. reflexivity.
Qed.

(** The run of [cbt_delitem_vacuum] on a leaf that keeps a tuple. *)
Lemma cbt_delitem_vacuum_run fuel L chain top rel pre it post stats :
  chain_from rel L chain top ->
  ItemPointerIsValid (cbto_parent (pd_opaque (BufferGetPage rel top))) = false ->
  (forall loc, In loc chain ->
     block_exists rel (ip_blkid loc) = true /\ ip_blkid loc <> InvalidBlockNumber
     /\ ip_blkid loc <> L
     /\ PageGetItemId (BufferGetPage rel (ip_blkid loc)) (ip_posid loc) <> None) ->
  NoDup (map ip_blkid chain) ->
  (length chain <= fuel)%nat ->
  block_exists rel L = true ->
  pd_items (BufferGetPage rel L) = pre ++ it :: post ->
  pre ++ post <> [] ->
  exists rel',
    cbt_delitem_vacuum (S fuel) L (Z.of_nat (length pre) + 1) stats rel
    = Ok (mkStats (tuples_removed stats + 1) (pages_deleted stats)) rel'
    /\ rd_amcache rel' = rd_amcache rel
    /\ RelationGetNumberOfBlocks rel' = RelationGetNumberOfBlocks rel
    /\ forall b, BufferGetPage rel' b
                 = delete_page L (1 + Z.of_nat (length pre)) chain b (BufferGetPage rel b).
Proof.
  intros Hch Htop Hok Hnd Hfuel Hex Hitems Hne.
  destruct (cbt_reduce_parent_chain chain rel L top fuel Hch Htop) as (rel1 & Hrun & Hc & Hb & Hpg);
    [intros loc Hloc; destruct (Hok loc Hloc) as (A & B & _ & D); auto | exact Hnd | exact Hfuel |].
  assert (HL : BufferGetPage rel1 L = BufferGetPage rel L).
  { rewrite Hpg. apply dropped_other. intros f Hf. apply (Hok f Hf). }
  cbn [cbt_delitem_vacuum]. unfold bind at 1, get at 1. cbv beta iota.
  unfold bind at 1. rewrite Hrun. cbv beta iota.
  unfold bind at 1, get at 1. cbv beta iota. rewrite HL.
  unfold PageIndexTupleDelete, PageGetMaxOffsetNumber. rewrite Hitems.
  rewrite length_app. cbn [length].
  replace ((Z.of_nat (length pre) + 1 <=? 0)
           || (Z.of_nat (length pre + S (length post)) <? Z.of_nat (length pre) + 1))
    with false
    by (symmetry; apply orb_false_iff; split; [apply Z.leb_gt | apply Z.ltb_ge]; lia).
  replace (Z.to_nat (Z.of_nat (length pre) + 1 - 1)) with (length pre) by lia.
  rewrite list_remove_app. cbv beta iota.
  unfold bind at 1, update at 1. cbv beta iota.
  cbn [set_items pd_items].
  replace (Z.of_nat (length (pre ++ post)) =? 0) with false
    by (symmetry; apply Z.eqb_neq; destruct (pre ++ post); [congruence | cbn [length]; lia]).
  unfold ret. eexists. split; [reflexivity|].
  unfold write_page. rewrite amcache_modify, blocks_modify.
  split; [exact Hc|]. split; [exact Hb|].
  intros b. rewrite BufferGetPage_modify. unfold delete_page. rewrite (Z.eqb_sym b).
  destruct (L =? b) eqn:E.
  - apply Z.eqb_eq in E. subst b.
    replace (block_exists rel1 L) with true
      by (symmetry; rewrite block_exists_blocks, Hb; exact Hex).
    cbn [andb]. rewrite Hitems.
    replace (Z.to_nat (1 + Z.of_nat (length pre) - 1)) with (length pre) by lia.
    rewrite list_remove_app. reflexivity.
  - cbn [andb]. apply Hpg.
Qed.

Lemma vac_frame_refl L rel : vac_frame L rel rel.
Proof. repeat split; reflexivity. Qed.

Lemma vac_frame_trans L r1 r2 r3 :
  vac_frame L r1 r2 -> vac_frame L r2 r3 -> vac_frame L r1 r3.
Proof.
  intros (C1 & B1 & P1) (C2 & B2 & P2).
  split; [congruence|]. split; [congruence|].
  intros b. destruct (P1 b) as (O1 & M1 & F1). destruct (P2 b) as (O2 & M2 & F2).
  split; [congruence|]. split; [congruence|].
  intros Hb. destruct (F1 Hb) as [S1 L1]. destruct (F2 Hb) as [S2 L2].
  split; [congruence|]. intros Hleaf. rewrite L2 by (rewrite O1; exact Hleaf). auto.
Qed.

Lemma tree_blocks_maxoff h :
  forall rel blk b,
    counted h rel blk = true -> In b (tree_blocks h rel blk) ->
    PageGetMaxOffsetNumber (BufferGetPage rel b) < 65535.
Proof.
  induction h as [|h IH]; intros rel blk b Hc Hb; [contradiction|].
  destruct (counted_S _ _ _ Hc) as (Hex & Hinv & Hmax & Hitems).
  rewrite tree_blocks_step in Hb. destruct Hb as [<-|Hb]; [auto|].
  destruct (P_ISLEAF (pd_opaque (BufferGetPage rel blk))); [contradiction|].
  apply in_flat_map in Hb. destruct Hb as (it & Hin & Hb).
  destruct (lp_dead it) eqn:Hd; [contradiction|].
  destruct (Hitems it Hin Hd) as [Hcc _]. eapply IH; eauto.
Qed.

(** One deletion by the sweep on a leaf of the tree that keeps a tuple. *)
Lemma delitem_step h rel root L pre it post stats fuel :
  sweepable h rel root ->
  In L (tree_blocks h rel root) ->
  P_ISLEAF (pd_opaque (BufferGetPage rel L)) = true ->
  pd_items (BufferGetPage rel L) = pre ++ it :: post ->
  pre ++ post <> [] ->
  (h <= S fuel)%nat ->
  exists rel',
    cbt_delitem_vacuum (S fuel) L (Z.of_nat (length pre) + 1) stats rel
    = Ok (mkStats (tuples_removed stats + 1) (pages_deleted stats)) rel'
    /\ sweepable h rel' root
    /\ tree_blocks h rel' root = tree_blocks h rel root
    /\ S (length (live_entries h rel' root)) = length (live_entries h rel root)
    /\ vac_frame L rel rel'
    /\ pd_items (BufferGetPage rel' L) = pre ++ post.
Proof.
  intros (Hc & Hl & Hnd & Htop & Hbound) HL Hleaf Hitems Hne Hfuel.
  destruct (delete_along h rel root L Hc Hl Hnd Hbound HL Hleaf)
    as (chain & Hchain & Hpar & Hndc & Hlen & Heff).
  destruct (tree_blocks_exist h rel root L Hc HL) as [HexL HinvL].
  destruct (cbt_delitem_vacuum_run fuel L chain root rel pre it post stats Hchain Htop)
    as (rel' & Hrun & Hcache & Hblocks & Hpages); try assumption; try lia.
  { intros loc Hloc. destruct (Hpar loc Hloc) as (P1 & P2 & P3 & P4).
    destruct (tree_blocks_exist h rel root _ Hc P1) as [E1 E2]. auto. }
  assert (Hexs : forall b, block_exists rel' b = block_exists rel b)
    by (intros b; rewrite !block_exists_blocks, Hblocks; reflexivity).
  destruct (Heff pre it post rel' Hitems) as (R1 & R2 & R3 & R4);
    [intros b _; split; [apply Hexs | apply Hpages]|].
  assert (Hop : forall b, pd_opaque (BufferGetPage rel' b) = pd_opaque (BufferGetPage rel b))
    by (intros b; rewrite Hpages; apply delete_page_opaque).
  exists rel'. split; [exact Hrun|].
  split.
  { split; [exact R1|]. split; [exact R4|]. split; [rewrite R3; exact Hnd|].
    split; [rewrite Hop; exact Htop | lia]. }
  split; [exact R3|]. split; [exact R2|].
  split.
  { split; [exact Hcache|]. split; [exact Hblocks|].
    intros b. split; [apply Hop|]. split; [rewrite Hpages; apply delete_page_meta|].
    intros Hb. rewrite Hpages. unfold delete_page.
    replace (b =? L) with false by (symmetry; apply Z.eqb_neq; exact Hb).
    split; [apply dropped_shape|].
    intros Hbleaf. rewrite dropped_other; [reflexivity|].
    intros f Hf E. destruct (Hpar f Hf) as (_ & _ & P3 & _). congruence. }
  rewrite Hpages. unfold delete_page. rewrite Z.eqb_refl. cbn [set_items pd_items].
  rewrite Hitems.
  replace (Z.to_nat (1 + Z.of_nat (length pre) - 1)) with (length pre) by lia.
  apply list_remove_app.
Qed.

Lemma unselected_app cb a b : unselected cb (a ++ b) = unselected cb a ++ unselected cb b.
Proof. apply filter_app. Qed.

Lemma unselected_all cb l : forallb (fun it => negb (cb (itemptr (lp_tuple it)))) l = true ->
  unselected cb l = l.
Proof.
  induction l as [|x l IH]; cbn [forallb unselected filter]; [reflexivity|]. intros H.
  apply andb_true_iff in H. destruct H as [Hx Hl]. rewrite Hx.
  fold (unselected cb l). rewrite IH by exact Hl. reflexivity.
Qed.

(** The loop of [cbtvacuumpage] on a leaf of the tree that keeps a tuple. *)
Lemma cbtvacuumpage_items_leaf h root cb L fuel :
  (h <= S fuel)%nat ->
  forall todo kept td stats rel,
    sweepable h rel root ->
    In L (tree_blocks h rel root) ->
    P_ISLEAF (pd_opaque (BufferGetPage rel L)) = true ->
    pd_items (BufferGetPage rel L) = kept ++ todo ->
    kept ++ unselected cb todo <> [] ->
    0 <= td ->
    td + Z.of_nat (length kept) + Z.of_nat (length todo) < 65535 ->
    exists rel',
      cbtvacuumpage_items (S fuel) (length todo) cb L
        (Z.of_nat (length kept) + td + 1) td stats rel
      = Ok (mkStats (tuples_removed stats
                     + Z.of_nat (length todo - length (unselected cb todo)))
              (pages_deleted stats)) rel'
      /\ sweepable h rel' root
      /\ tree_blocks h rel' root = tree_blocks h rel root
      /\ (length (live_entries h rel' root) + (length todo - length (unselected cb todo))
          = length (live_entries h rel root))%nat
      /\ vac_frame L rel rel'
      /\ pd_items (BufferGetPage rel' L) = kept ++ unselected cb todo.
Proof.
  intros Hfuel.
  induction todo as [|it todo IH]; intros kept td stats rel Hsw HL Hleaf Hitems Hkeep Htd Hbound.
  - exists rel. cbn [length cbtvacuumpage_items unselected filter Nat.sub Z.of_nat].
    destruct stats as [r d]. cbn [tuples_removed pages_deleted].
    replace (r + 0) with r by lia.
    split; [reflexivity|]. split; [exact Hsw|]. split; [reflexivity|].
    split; [lia|]. split; [apply vac_frame_refl | exact Hitems].
  - cbn [length cbtvacuumpage_items]. unfold bind at 1, get at 1. cbv beta iota.
    cbn [length] in Hbound.
    replace (uint16 (Z.of_nat (length kept) + td + 1 - td)) with (Z.of_nat (length kept) + 1)
      by (unfold uint16; rewrite Z.mod_small; lia).
    unfold PageGetItem, PageGetItemId, PageGetMaxOffsetNumber. rewrite Hitems.
    rewrite length_app. cbn [length].
    replace ((1 <=? Z.of_nat (length kept) + 1)
             && (Z.of_nat (length kept) + 1 <=? Z.of_nat (length kept + S (length todo))))
      with true by (symmetry; apply andb_true_iff; split; apply Z.leb_le; lia).
    replace (Z.to_nat (Z.of_nat (length kept) + 1 - 1)) with (length kept) by lia.
    rewrite nth_error_app_mid. cbn [option_map].
    rewrite OffsetNumberNext_small by lia.
    cbn [unselected filter] in *. fold (unselected cb todo) in *.
    assert (Hfl : (length (unselected cb todo) <= length todo)%nat)
      by apply filter_length_le.
    destruct (cb (itemptr (lp_tuple it))) eqn:Ecb; cbn [negb] in *.
    + assert (Hne : kept ++ todo <> []).
      { intros E. apply app_eq_nil in E. destruct E as [-> ->]. apply Hkeep. reflexivity. }
      destruct (delitem_step h rel root L kept it todo stats fuel Hsw HL Hleaf Hitems Hne Hfuel)
        as (rel1 & Hrun & Hsw1 & Hb1 & Hlen1 & Hfr1 & Hitems1).
      unfold bind at 1. rewrite Hrun. cbv beta iota.
      replace (uint16 (td + 1)) with (td + 1) by (unfold uint16; rewrite Z.mod_small; lia).
      replace (Z.of_nat (length kept) + td + 1 + 1)
        with (Z.of_nat (length kept) + (td + 1) + 1) by lia.
      assert (Hleaf1 : P_ISLEAF (pd_opaque (BufferGetPage rel1 L)) = true).
      { destruct Hfr1 as (_ & _ & Hp). destruct (Hp L) as (Ho & _). rewrite Ho. exact Hleaf. }
      destruct (IH kept (td + 1) (mkStats (tuples_removed stats + 1) (pages_deleted stats)) rel1
                  Hsw1 ltac:(rewrite Hb1; exact HL) Hleaf1 Hitems1 Hkeep ltac:(lia) ltac:(lia))
        as (rel' & Hrun' & Hsw' & Hb' & Hlen' & Hfr' & Hitems').
      exists rel'. rewrite Hrun'. cbn [tuples_removed pages_deleted].
      split; [f_equal; f_equal; lia|]. split; [exact Hsw'|].
      split; [congruence|]. split; [lia|].
      split; [eapply vac_frame_trans; eauto | exact Hitems'].
    + replace (Z.of_nat (length kept) + td + 1 + 1)
        with (Z.of_nat (length (kept ++ [it])) + td + 1)
        by (rewrite length_app; cbn [length]; lia).
      destruct (IH (kept ++ [it]) td stats rel Hsw HL Hleaf) as
        (rel' & Hrun' & Hsw' & Hb' & Hlen' & Hfr' & Hitems').
      { rewrite <- app_assoc. exact Hitems. }
      { rewrite <- app_assoc. exact Hkeep. }
      { exact Htd. }
      { rewrite length_app. cbn [length]. lia. }
      exists rel'. rewrite Hrun'. rewrite <- app_assoc in Hitems'. cbn [app length] in *.
      split; [f_equal; f_equal; lia|]. split; [exact Hsw'|].
      split; [exact Hb'|]. split; [lia|]. split; [exact Hfr' | exact Hitems'].
Qed.

Lemma swept_to_start cb rel : swept_to cb 1 rel rel.
Proof.
  split; [reflexivity|]. split; [reflexivity|]. intros blk.
  split; [reflexivity|]. split; [reflexivity|].
  destruct (P_ISLEAF _); [|reflexivity].
  destruct ((1 <=? blk) && (blk <? 1)) eqn:E; [|reflexivity].
  apply andb_true_iff in E. destruct E as [E1 E2].
  apply Z.leb_le in E1. apply Z.ltb_lt in E2. lia.
Qed.

Section Sweep.

Variables (h : nat) (root : BlockNumber) (cb : ItemPointerData -> bool) (rel0 : Relation).

Hypothesis Hkeep :
  forall L, In L (tree_blocks h rel0 root) ->
    P_ISLEAF (pd_opaque (BufferGetPage rel0 L)) = true ->
    unselected cb (pd_items (BufferGetPage rel0 L)) <> [].

Hypothesis Hout :
  forall blk, 1 <= blk -> ~ In blk (tree_blocks h rel0 root) ->
    P_ISLEAF (pd_opaque (BufferGetPage rel0 blk)) = true ->
    Z.of_nat (length (pd_items (BufferGetPage rel0 blk))) < 65535
    /\ unselected cb (pd_items (BufferGetPage rel0 blk)) = pd_items (BufferGetPage rel0 blk).

Lemma unselected_none l :
  unselected cb l = l -> forall it, In it l -> cb (itemptr (lp_tuple it)) = false.
Proof.
  intros H it Hin. rewrite <- H in Hin. apply filter_In in Hin.
  destruct Hin as [_ Hin]. apply negb_true_iff in Hin. exact Hin.
Qed.

Lemma swept_to_next b rel rel' :
  swept_to cb b rel0 rel ->
  vac_frame b rel rel' ->
  (if P_ISLEAF (pd_opaque (BufferGetPage rel0 b))
   then pd_items (BufferGetPage rel' b) = unselected cb (pd_items (BufferGetPage rel0 b))
   else map shape (pd_items (BufferGetPage rel' b))
        = map shape (pd_items (BufferGetPage rel0 b))) ->
  1 <= b ->
  swept_to cb (b + 1) rel0 rel'.
Proof.
  intros (C & B & P) (C' & B' & P') Hb H1.
  split; [congruence|]. split; [congruence|].
  intros blk. destruct (P blk) as (O & M & I). destruct (P' blk) as (O' & M' & F').
  split; [congruence|]. split; [congruence|].
  destruct (Z.eq_dec blk b) as [->|Hne].
  - destruct (P_ISLEAF (pd_opaque (BufferGetPage rel0 b))) eqn:Hleaf; [|exact Hb].
    replace ((1 <=? b) && (b <? b + 1)) with true
      by (symmetry; apply andb_true_iff; split; [apply Z.leb_le | apply Z.ltb_lt]; lia).
    exact Hb.
  - destruct (F' Hne) as [S' L'].
    destruct (P_ISLEAF (pd_opaque (BufferGetPage rel0 blk))) eqn:Hleaf.
    + rewrite L' by (rewrite O; exact Hleaf). rewrite I.
      replace (blk <? b + 1) with (blk <? b); [reflexivity|].
      destruct (blk <? b) eqn:E1, (blk <? b + 1) eqn:E2; try reflexivity;
        [apply Z.ltb_lt in E1; apply Z.ltb_ge in E2 | apply Z.ltb_ge in E1; apply Z.ltb_lt in E2];
        lia.
    + congruence.
Qed.

Lemma swept_to_unwritten b rel :
  swept_to cb b rel0 rel -> 1 <= b ->
  (P_ISLEAF (pd_opaque (BufferGetPage rel0 b)) = true ->
   unselected cb (pd_items (BufferGetPage rel0 b)) = pd_items (BufferGetPage rel0 b)) ->
  swept_to cb (b + 1) rel0 rel.
Proof.
  intros Hs H1 Hnone. apply (swept_to_next b rel rel Hs (vac_frame_refl b rel)); [|exact H1].
  destruct Hs as (_ & _ & P). destruct (P b) as (_ & _ & I).
  destruct (P_ISLEAF (pd_opaque (BufferGetPage rel0 b))) eqn:Hleaf; [|exact I].
  rewrite I. replace (b <? b) with false by (symmetry; apply Z.ltb_ge; lia).
  rewrite andb_false_r. symmetry. apply Hnone. reflexivity.
Qed.

Lemma stats_same (stats : CBTVacStats) n :
  mkStats (tuples_removed stats + n - n) (pages_deleted stats) = stats.
Proof. destruct stats as [r d]. cbn. f_equal. lia. Qed.

(** [cbtvacuumpage] on one block. *)
Lemma cbtvacuumpage_step fuel b rel stats :
  sweepable h rel root ->
  tree_blocks h rel root = tree_blocks h rel0 root ->
  swept_to cb b rel0 rel ->
  1 <= b -> block_exists rel0 b = true -> b <> InvalidBlockNumber ->
  (h <= S fuel)%nat ->
  exists rel',
    cbtvacuumpage (S fuel) (Some cb) b stats rel
    = Ok (mkStats (tuples_removed stats + Z.of_nat (length (live_entries h rel root))
                   - Z.of_nat (length (live_entries h rel' root)))
            (pages_deleted stats)) rel'
    /\ sweepable h rel' root
    /\ tree_blocks h rel' root = tree_blocks h rel0 root
    /\ swept_to cb (b + 1) rel0 rel'.
Proof.
  intros Hsw Hblocks Hs H1 Hex Hinv Hfuel.
  pose proof Hs as (C & B & P). destruct (P b) as (O & M & I).
  assert (Hex' : block_exists rel b = true) by (rewrite block_exists_blocks, B; exact Hex).
  unfold cbtvacuumpage. unfold bind at 1.
  rewrite cbt_get_buffer_old by assumption. cbv beta iota.
  unfold bind at 1, get at 1. cbv beta iota. rewrite O.
  destruct (P_ISLEAF (pd_opaque (BufferGetPage rel0 b))) eqn:Hleaf.
  - replace (b <? b) with false in I by (symmetry; apply Z.ltb_ge; lia).
    rewrite andb_false_r in I.
    destruct (in_dec Z.eq_dec b (tree_blocks h rel0 root)) as [Hin|Hnin].
    + (* a leaf of the tree *)
      destruct Hsw as (Hc & Hrest).
      pose proof (tree_blocks_maxoff h rel root b Hc ltac:(rewrite Hblocks; exact Hin)) as Hmax.
      unfold PageGetMaxOffsetNumber in *. rewrite Nat2Z.id.
      destruct (cbtvacuumpage_items_leaf h root cb b fuel Hfuel
                  (pd_items (BufferGetPage rel b)) [] 0 stats rel (conj Hc Hrest))
        as (rel' & Hrun & Hsw' & Hb' & Hlen' & Hfr' & Hitems');
        try (cbn [length app]; lia).
      { rewrite Hblocks. exact Hin. }
      { rewrite O. exact Hleaf. }
      { reflexivity. }
      { cbn [app]. rewrite I. apply Hkeep; assumption. }
      exists rel'. cbn [length Z.of_nat Z.add] in Hrun. unfold P_FIRSTOFFSET.
      rewrite Hrun. split; [f_equal; f_equal; lia|].
      split; [exact Hsw'|]. split; [congruence|].
      apply (swept_to_next b rel rel' Hs Hfr'); [|exact H1].
      rewrite Hleaf. cbn [app] in Hitems'. rewrite Hitems', I. reflexivity.
    + (* a leaf that is not of the tree *)
      destruct (Hout b H1 Hnin Hleaf) as [Hlen Hnone].
      rewrite cbtvacuumpage_items_none.
      * exists rel. rewrite stats_same. split; [reflexivity|]. split; [exact Hsw|].
        split; [exact Hblocks|]. apply swept_to_unwritten; auto.
      * rewrite I. exact Hlen.
      * rewrite I. apply unselected_none. exact Hnone.
      * unfold P_FIRSTOFFSET. lia.
      * unfold P_FIRSTOFFSET, PageGetMaxOffsetNumber. lia.
  - exists rel. unfold ret. rewrite stats_same. split; [reflexivity|]. split; [exact Hsw|].
    split; [exact Hblocks|]. apply swept_to_unwritten; auto. congruence.
Qed.

(** The loop of [cbtvacuumscan] over the blocks from [b] on. *)
Lemma cbtvacuumscan_pages_run fuel :
  (h <= S fuel)%nat ->
  RelationGetNumberOfBlocks rel0 <= InvalidBlockNumber ->
  forall n b rel stats,
    sweepable h rel root ->
    tree_blocks h rel root = tree_blocks h rel0 root ->
    swept_to cb b rel0 rel ->
    1 <= b -> b + Z.of_nat n <= RelationGetNumberOfBlocks rel0 ->
    exists rel',
      cbtvacuumscan_pages (S fuel) n (Some cb) b stats rel
      = Ok (mkStats (tuples_removed stats + Z.of_nat (length (live_entries h rel root))
                     - Z.of_nat (length (live_entries h rel' root)))
              (pages_deleted stats)) rel'
      /\ sweepable h rel' root
      /\ tree_blocks h rel' root = tree_blocks h rel0 root
      /\ swept_to cb (b + Z.of_nat n) rel0 rel'.
Proof.
  intros Hfuel Hmax. induction n as [|n IH]; intros b rel stats Hsw Hblocks Hs H1 Hn.
  - exists rel. cbn [cbtvacuumscan_pages]. unfold ret. rewrite stats_same.
    rewrite Z.add_0_r. auto.
  - cbn [cbtvacuumscan_pages]. unfold bind at 1.
    destruct (cbtvacuumpage_step fuel b rel stats Hsw Hblocks Hs H1)
      as (rel1 & Hrun & Hsw1 & Hb1 & Hs1); try assumption.
    { apply block_exists_iff. unfold RelationGetNumberOfBlocks in *. lia. }
    { unfold InvalidBlockNumber in *. lia. }
    rewrite Hrun. cbv beta iota.
    destruct (IH (b + 1) rel1
                (mkStats (tuples_removed stats + Z.of_nat (length (live_entries h rel root))
                          - Z.of_nat (length (live_entries h rel1 root)))
                   (pages_deleted stats)) Hsw1 Hb1 Hs1 ltac:(lia) ltac:(lia))
      as (rel' & Hrun' & Hsw' & Hb' & Hs').
    exists rel'. rewrite Hrun'. cbn [tuples_removed pages_deleted].
    split; [f_equal; f_equal; lia|]. split; [exact Hsw'|]. split; [exact Hb'|].
    replace (b + Z.of_nat (S n)) with (b + 1 + Z.of_nat n) by lia. exact Hs'.
Qed.

End Sweep.

Lemma live_tids_unselected cb items :
  live_tids (unselected cb items) = filter (fun t => negb (cb t)) (live_tids items).
Proof.
  induction items as [|it items IH]; [reflexivity|].
  cbn [unselected filter live_tids flat_map]. fold (unselected cb items). fold (live_tids items).
  rewrite filter_app, <- IH.
  destruct (cb (itemptr (lp_tuple it))) eqn:Ecb; cbn [negb].
  - destruct (lp_dead it); cbn [filter app]; rewrite ?Ecb; reflexivity.
  - cbn [live_tids flat_map]. fold (live_tids (unselected cb items)).
    destruct (lp_dead it); cbn [filter app]; rewrite ?Ecb; reflexivity.
Qed.

Lemma map_flat_map' {A B C} (f : B -> C) (g : A -> list B) l :
  map f (flat_map g l) = flat_map (fun x => map f (g x)) l.
Proof. induction l as [|x l IH]; cbn; [reflexivity|]. rewrite map_app, IH. reflexivity. Qed.

Lemma filter_flat_map {A B} (f : B -> bool) (g : A -> list B) l :
  filter f (flat_map g l) = flat_map (fun x => filter f (g x)) l.
Proof. induction l as [|x l IH]; cbn; [reflexivity|]. rewrite filter_app, IH. reflexivity. Qed.

Lemma flat_map_shape {B} (G' G : ItemIdData -> list B) :
  forall l' l,
    map shape l' = map shape l ->
    (forall x' x, In x l -> shape x' = shape x -> G' x' = G x) ->
    flat_map G' l' = flat_map G l.
Proof.
  induction l' as [|x' l' IH]; intros [|x l] Hs HG; try discriminate Hs; [reflexivity|].
  cbn [map] in Hs. assert (Hx : shape x' = shape x) by congruence.
  assert (Hl : map shape l' = map shape l) by congruence. cbn [flat_map].
  rewrite (HG x' x (or_introl eq_refl) Hx), (IH l Hl); [reflexivity|].
  intros y' y Hy. apply HG. right. exact Hy.
Qed.

(** The entries of a swept tree. *)
Lemma swept_entries cb h :
  forall rel0 rel' blk,
    counted h rel0 blk = true ->
    (forall b, In b (tree_blocks h rel0 blk) ->
       pd_opaque (BufferGetPage rel' b) = pd_opaque (BufferGetPage rel0 b)
       /\ if P_ISLEAF (pd_opaque (BufferGetPage rel0 b))
          then pd_items (BufferGetPage rel' b)
               = unselected cb (pd_items (BufferGetPage rel0 b))
          else map shape (pd_items (BufferGetPage rel' b))
               = map shape (pd_items (BufferGetPage rel0 b))) ->
    map en_tid (live_entries h rel' blk)
    = filter (fun t => negb (cb t)) (map en_tid (live_entries h rel0 blk)).
Proof.
  induction h as [|h IH]; intros rel0 rel' blk Hc Hag; [reflexivity|].
  destruct (counted_S _ _ _ Hc) as (_ & _ & _ & Hitems).
  destruct (Hag blk (or_introl eq_refl)) as [Ho Hi].
  rewrite !live_entries_step, Ho.
  destruct (P_ISLEAF (pd_opaque (BufferGetPage rel0 blk))) eqn:Hleaf.
  - rewrite !leaf_entries_tids, Hi. apply live_tids_unselected.
  - rewrite !map_flat_map', filter_flat_map.
    apply (flat_map_shape _ _ _ _ Hi).
    intros x' x Hx Hs. unfold shape in Hs. injection Hs as Hd Hp.
    rewrite Hd. destruct (lp_dead x) eqn:Hdx; [reflexivity|].
    assert (Hchild : child_of x' = child_of x) by (unfold child_of; rewrite Hp; reflexivity).
    rewrite Hchild. destruct (Hitems x Hx Hdx) as [Hcc _].
    apply IH; [exact Hcc|].
    intros b Hb. apply Hag. eapply tree_blocks_child; eauto.
Qed.

(** A relation that differs from a counted tree below the root only. *)
Lemma cbt_tree_below h rel rel' :
  cbt_tree h rel = true ->
  cbtm_root (metad_of rel) <> InvalidBlockNumber ->
  rd_amcache rel' = rd_amcache rel ->
  RelationGetNumberOfBlocks rel' = RelationGetNumberOfBlocks rel ->
  (forall b, pd_opaque (BufferGetPage rel' b) = pd_opaque (BufferGetPage rel b)) ->
  pd_meta (BufferGetPage rel' CBT_METAPAGE) = pd_meta (BufferGetPage rel CBT_METAPAGE) ->
  counted h rel' (cbtm_root (metad_of rel)) = true ->
  cbt_tree h rel' = true.
Proof.
  intros Ht Hr Hcache Hblocks Hop Hm Hc.
  assert (Hexs : forall b, block_exists rel' b = block_exists rel b)
    by (intros b; rewrite !block_exists_blocks, Hblocks; reflexivity).
  assert (Hmeta : metad_of rel' = metad_of rel) by exact Hm.
  destruct (cbt_tree_facts _ _ Ht) as [Hmb Hf Hg Hco Hroot].
  destruct (Hroot Hr) as (Hig & Hlev & _).
  unfold cbt_tree. rewrite Hmeta, !Hop, Hblocks, Hf, Hg, Hig, Hlev, Hc.
  apply block_exists_iff in Hmb. unfold CBT_METAPAGE in Hmb.
  replace (0 <? RelationGetNumberOfBlocks rel) with true
    by (symmetry; apply Z.ltb_lt; unfold RelationGetNumberOfBlocks; lia).
  rewrite !Z.eqb_refl. cbn [negb andb]. rewrite orb_true_r, andb_true_r.
  unfold cache_ok. rewrite Hcache. unfold cache_ok in Hco.
  destruct (rd_amcache rel) as [c|]; [|reflexivity].
  unfold cache_accepts in *. rewrite Hmeta, Hop, Hexs. exact Hco.
Qed.

(** The sweep of a linked tree in which every leaf keeps a tuple. *)
Lemma cbtbulkdelete_linked h fuel stats0 cb rel :
  cbt_tree h rel = true ->
  let root := cbtm_root (metad_of rel) in
  sweepable h rel root ->
  root <> InvalidBlockNumber ->
  ~ In CBT_METAPAGE (tree_blocks h rel root) ->
  (forall L, In L (tree_blocks h rel root) ->
     P_ISLEAF (pd_opaque (BufferGetPage rel L)) = true ->
     unselected cb (pd_items (BufferGetPage rel L)) <> []) ->
  (forall blk, 1 <= blk -> ~ In blk (tree_blocks h rel root) ->
     P_ISLEAF (pd_opaque (BufferGetPage rel blk)) = true ->
     Z.of_nat (length (pd_items (BufferGetPage rel blk))) < 65535
     /\ unselected cb (pd_items (BufferGetPage rel blk)) = pd_items (BufferGetPage rel blk)) ->
  RelationGetNumberOfBlocks rel <= InvalidBlockNumber ->
  (h <= S fuel)%nat ->
  exists rel',
    cbtbulkdelete (S fuel) stats0 (Some cb) rel
    = Ok (mkStats (removed_before stats0
                   + Z.of_nat (length (filter cb (map en_tid (tree_entries h rel))))) 0)
         rel'
    /\ cbt_tree h rel' = true
    /\ map en_tid (tree_entries h rel')
       = filter (fun t => negb (cb t)) (map en_tid (tree_entries h rel))
    /\ sweepable h rel' (cbtm_root (metad_of rel'))
    /\ RelationGetNumberOfBlocks rel' = RelationGetNumberOfBlocks rel.
Proof.
  intros Ht root Hsw Hr Hmeta0 Hkeep Hout Hmax Hfuel.
  pose proof Hsw as (Hc & _).
  assert (Hroot1 : 1 <= root /\ root < RelationGetNumberOfBlocks rel).
  { assert (Hin : In root (tree_blocks h rel root))
      by (destruct h; [discriminate Hc | left; reflexivity]).
    destruct (tree_blocks_exist h rel root root Hc Hin) as [Hex _].
    apply block_exists_iff in Hex. unfold RelationGetNumberOfBlocks.
    assert (root <> 0)
      by (intros E; apply Hmeta0; unfold CBT_METAPAGE; rewrite <- E; exact Hin).
    lia. }
  set (N := RelationGetNumberOfBlocks rel) in *.
  destruct (cbtvacuumscan_pages_run h root cb rel Hkeep Hout fuel Hfuel Hmax
              (Z.to_nat (N - 1)) 1 rel (mkStats (removed_before stats0) 0) Hsw eq_refl
              (swept_to_start cb rel))
    as (rel' & Hrun & Hsw' & Hb' & Hs'); try (fold N; lia).
  replace (1 + Z.of_nat (Z.to_nat (N - 1))) with N in Hs' by lia.
  destruct Hs' as (Hcache & Hblocks & Hpages).
  assert (Hop : forall b, pd_opaque (BufferGetPage rel' b) = pd_opaque (BufferGetPage rel b))
    by (intros b; apply Hpages).
  assert (Hm : metad_of rel' = metad_of rel) by (apply Hpages).
  assert (Hents : map en_tid (live_entries h rel' root)
                  = filter (fun t => negb (cb t)) (map en_tid (live_entries h rel root))).
  { apply swept_entries; [exact Hc|]. intros b Hb. destruct (Hpages b) as (O & _ & I).
    split; [exact O|].
    destruct (tree_blocks_exist h rel root b Hc Hb) as [Hex _].
    apply block_exists_iff in Hex. fold N in Hex. unfold RelationGetNumberOfBlocks in N.
    assert (b <> 0)
      by (intros E; apply Hmeta0; unfold CBT_METAPAGE; rewrite <- E; exact Hb).
    replace ((1 <=? b) && (b <? N)) with true in I
      by (symmetry; apply andb_true_iff; split; [apply Z.leb_le | apply Z.ltb_lt]; lia).
    exact I. }
  exists rel'. split.
  - unfold cbtbulkdelete, cbtvacuumscan. cbv zeta. rewrite stats_in_use.
    cbn [cbtvacuumscan_from].
    unfold bind at 1, get at 1. cbv beta iota. fold N.
    replace (N <=? CBT_METAPAGE + 1) with false
      by (symmetry; apply Z.leb_gt; unfold CBT_METAPAGE; lia).
    unfold bind at 1. change (CBT_METAPAGE + 1) with 1. rewrite Hrun. cbv beta iota.
    assert (Hdone : forall p s, cbtvacuumscan_from (S fuel) p (Some cb) N s rel' = Ok s rel').
    { intros p s. destruct p; cbn [cbtvacuumscan_from]; unfold bind at 1, get at 1;
        cbv beta iota; rewrite Hblocks; fold N; rewrite Z.leb_refl; reflexivity. }
    rewrite Hdone. cbn [tuples_removed pages_deleted]. f_equal. f_equal.
    unfold tree_entries. fold root. apply Z.eqb_neq in Hr. rewrite Hr.
    pose proof (filter_length cb (map en_tid (live_entries h rel root))) as Hfl.
    assert (Hl' : length (live_entries h rel' root)
                  = length (filter (fun x => negb (cb x))
                              (map en_tid (live_entries h rel root))))
      by (rewrite <- Hents, length_map; reflexivity).
    rewrite (length_map en_tid (live_entries h rel root)) in Hfl. lia.
  - assert (Hroot' : cbtm_root (metad_of rel') = root) by (rewrite Hm; reflexivity).
    destruct Hsw' as (Hc' & Hrest').
    split; [apply (cbt_tree_below h rel rel'); auto; apply Hpages|].
    split.
    { unfold tree_entries. rewrite Hm. fold root. apply Z.eqb_neq in Hr. rewrite Hr.
      exact Hents. }
    split; [rewrite Hroot'; exact (conj Hc' Hrest') | exact Hblocks].
Qed.

(** X18.  A sweep of a counted tree of any height in which every page is
    reached once and is not block 0, the parent locator of every page below
    the root is the tuple that names it, the root has none, all line pointers
    are live, and every leaf keeps a tuple that the callback does not select;
    leaf pages outside the tree hold no selected tuple.  The sweep deletes
    the selected tuples and lowers the counts along the parent locators.
    The count of removed tuples it returns is the count in the statistics
    of the caller (zero when the caller passes none) plus the number of
    selected tuples; it reports no deleted page.  It leaves a counted tree
    whose heap pointers in rank order are the former ones without the
    selected ones, on which the same conditions hold again. *)
Theorem cbtbulkdelete_keeps_leaves (h fuel : nat) (stats0 : option CBTVacStats)
  (cb : ItemPointerData -> bool) (rel : Relation) :
  cbt_tree h rel = true ->
  let root := cbtm_root (metad_of rel) in
  root <> InvalidBlockNumber ->
  sweepable h rel root ->
  ~ In CBT_METAPAGE (tree_blocks h rel root) ->
  (forall L, In L (tree_blocks h rel root) ->
     P_ISLEAF (pd_opaque (BufferGetPage rel L)) = true ->
     unselected cb (pd_items (BufferGetPage rel L)) <> []) ->
  (forall blk, 1 <= blk -> ~ In blk (tree_blocks h rel root) ->
     P_ISLEAF (pd_opaque (BufferGetPage rel blk)) = true ->
     Z.of_nat (length (pd_items (BufferGetPage rel blk))) < 65535
     /\ unselected cb (pd_items (BufferGetPage rel blk)) = pd_items (BufferGetPage rel blk)) ->
  RelationGetNumberOfBlocks rel <= InvalidBlockNumber ->
  (h <= fuel)%nat ->
  exists rel',
    cbtbulkdelete fuel stats0 (Some cb) rel
    = Ok (mkStats (removed_before stats0
                   + Z.of_nat (length (filter cb (map en_tid (tree_entries h rel))))) 0)
         rel'
    /\ cbt_tree h rel' = true
    /\ map en_tid (tree_entries h rel')
       = filter (fun t => negb (cb t)) (map en_tid (tree_entries h rel))
    /\ sweepable h rel' (cbtm_root (metad_of rel'))
    /\ RelationGetNumberOfBlocks rel' = RelationGetNumberOfBlocks rel.
Proof.
  intros Ht root Hr Hsw Hmeta0 Hkeep Hout Hmax Hfuel.
  destruct fuel as [|fuel].
  - assert (h = O) by lia. subst h. destruct Hsw as (Hc & _). discriminate Hc.
  - exact (cbtbulkdelete_linked h fuel stats0 cb rel Ht Hsw Hr Hmeta0 Hkeep Hout Hmax Hfuel).
Qed.

(** X19.  Sweep and scan compose: after such a sweep of a tree of fewer than
    2^32 entries, a scan for a key whose 32-bit value [k] is at least 1
    returns the [k]-th of the heap pointers that the callback does not
    select, in their former rank order, and nothing when fewer than [k] are
    left. *)
Theorem cbtbulkdelete_scan_roundtrip (h fuel : nat) (stats0 : option CBTVacStats)
  (cb : ItemPointerData -> bool) (rel : Relation) (key : Z) :
  cbt_tree h rel = true ->
  let root := cbtm_root (metad_of rel) in
  root <> InvalidBlockNumber ->
  sweepable h rel root ->
  ~ In CBT_METAPAGE (tree_blocks h rel root) ->
  (forall L, In L (tree_blocks h rel root) ->
     P_ISLEAF (pd_opaque (BufferGetPage rel L)) = true ->
     unselected cb (pd_items (BufferGetPage rel L)) <> []) ->
  (forall blk, 1 <= blk -> ~ In blk (tree_blocks h rel root) ->
     P_ISLEAF (pd_opaque (BufferGetPage rel blk)) = true ->
     Z.of_nat (length (pd_items (BufferGetPage rel blk))) < 65535
     /\ unselected cb (pd_items (BufferGetPage rel blk)) = pd_items (BufferGetPage rel blk)) ->
  RelationGetNumberOfBlocks rel <= InvalidBlockNumber ->
  Z.of_nat (length (tree_entries h rel)) < 4294967296 ->
  1 <= uint32 key ->
  (h < fuel)%nat ->
  exists stats rel' c,
    cbtbulkdelete fuel stats0 (Some cb) rel = Ok stats rel'
    /\ cbtgettuple fuel cbtbeginscan false key rel'
       = Ok match nth_error (filter (fun t => negb (cb t)) (map en_tid (tree_entries h rel)))
                    (Z.to_nat (uint32 key - 1)) with
            | Some t => (true, Some t, mkScan false)
            | None => (false, None, cbtbeginscan)
            end (mkRel (rd_pages rel') c).
Proof.
  intros Ht root Hr Hsw Hmeta0 Hkeep Hout Hmax Hlen Hkey Hfuel.
  destruct fuel as [|fuel]; [lia|].
  destruct (cbtbulkdelete_linked h fuel stats0 cb rel Ht Hsw Hr Hmeta0 Hkeep Hout Hmax
              ltac:(lia))
    as (rel' & Hrun & Htree & Hent & _).
  destruct (cbt_first_tids h rel' key (S fuel) Htree Hkey) as [c Hs].
  { rewrite <- (length_map en_tid), Hent.
    pose proof (filter_length_le (fun t => negb (cb t)) (map en_tid (tree_entries h rel))) as Hle.
    rewrite length_map in Hle. lia. }
  { exact Hfuel. }
  rewrite Hent in Hs. eexists _, rel', c. split; [exact Hrun|]. exact Hs.
Qed.

Lemma cbtbulkdelete_keeps_leaves_witness :
  exists rel',
    cbtbulkdelete 3 (Some (mkStats 6 2)) (Some (remove_range 2 2)) spine_example
    = Ok (mkStats 7 0) rel'
    /\ cbt_tree 3 rel' = true
    /\ map en_tid (tree_entries 3 rel') = [heap_tid 1; heap_tid 3].
Proof.
  destruct (cbtbulkdelete_keeps_leaves 3 3 (Some (mkStats 6 2)) (remove_range 2 2)
              spine_example)
    as (rel' & Hrun & Htree & Hent & _).
  - vm_compute. reflexivity.
  - vm_compute. discriminate.
  - split; [vm_compute; reflexivity|]. split; [vm_compute; reflexivity|].
    split; [|split; [vm_compute; reflexivity | vm_compute; discriminate]].
    vm_compute.
    repeat (apply NoDup_cons;
            [cbn [In]; intros H; repeat destruct H as [H|H]; try discriminate H; exact H|]).
    apply NoDup_nil.
  - vm_compute. intros H. repeat destruct H as [H|H]; try discriminate H; exact H.
  - intros L HL _. vm_compute in HL.
    repeat destruct HL as [<- | HL]; try (vm_compute; discriminate). contradiction.
  - intros blk Hblk Hnin Hleaf. exfalso.
    destruct (Z_lt_le_dec blk 6) as [Hlt|Hge].
    + apply Hnin. vm_compute.
      assert (Hcases : blk = 1 \/ blk = 2 \/ blk = 3 \/ blk = 4 \/ blk = 5) by lia.
      destruct Hcases as [E|[E|[E|[E|E]]]]; rewrite E; auto 10.
    + unfold BufferGetPage in Hleaf.
      replace (block_exists spine_example blk) with false in Hleaf; [discriminate Hleaf|].
      symmetry. unfold block_exists. apply andb_false_iff. right. apply Z.ltb_ge.
      change (RelationGetNumberOfBlocks spine_example) with 6. lia.
  - vm_compute. discriminate.
  - lia.
  - exists rel'. split; [exact Hrun | split; [exact Htree | exact Hent]].
Defined.

Lemma cbtbulkdelete_scan_roundtrip_witness :
  exists stats rel' c,
    cbtbulkdelete 4 None (Some (remove_range 2 2)) spine_example = Ok stats rel'
    /\ cbtgettuple 4 cbtbeginscan false 2 rel'
       = Ok (true, Some (heap_tid 3), mkScan false) (mkRel (rd_pages rel') c).
Proof.
  destruct (cbtbulkdelete_scan_roundtrip 3 4 None (remove_range 2 2) spine_example 2)
    as (stats & rel' & c & Hrun & Hscan).
  - vm_compute. reflexivity.
  - vm_compute. discriminate.
  - split; [vm_compute; reflexivity|]. split; [vm_compute; reflexivity|].
    split; [|split; [vm_compute; reflexivity | vm_compute; discriminate]].
    vm_compute.
    repeat (apply NoDup_cons;
            [cbn [In]; intros H; repeat destruct H as [H|H]; try discriminate H; exact H|]).
    apply NoDup_nil.
  - vm_compute. intros H. repeat destruct H as [H|H]; try discriminate H; exact H.
  - intros L HL _. vm_compute in HL.
    repeat destruct HL as [<- | HL]; try (vm_compute; discriminate). contradiction.
  - intros blk Hblk Hnin Hleaf. exfalso.
    destruct (Z_lt_le_dec blk 6) as [Hlt|Hge].
    + apply Hnin. vm_compute.
      assert (Hcases : blk = 1 \/ blk = 2 \/ blk = 3 \/ blk = 4 \/ blk = 5) by lia.
      destruct Hcases as [E|[E|[E|[E|E]]]]; rewrite E; auto 10.
    + unfold BufferGetPage in Hleaf.
      replace (block_exists spine_example blk) with false in Hleaf; [discriminate Hleaf|].
      symmetry. unfold block_exists. apply andb_false_iff. right. apply Z.ltb_ge.
      change (RelationGetNumberOfBlocks spine_example) with 6. lia.
  - vm_compute. discriminate.
  - vm_compute. reflexivity.
  - vm_compute. discriminate.
  - lia.
  - exists stats, rel', c. split; [exact Hrun | exact Hscan].
Defined.

Lemma set_prev_page s v rel b :
  let rel' := modify_opaque s (fun o => set_prev o v) rel in
  pd_items (BufferGetPage rel' b) = pd_items (BufferGetPage rel b)
  /\ pd_meta (BufferGetPage rel' b) = pd_meta (BufferGetPage rel b)
  /\ cbto_flags (pd_opaque (BufferGetPage rel' b)) = cbto_flags (pd_opaque (BufferGetPage rel b))
  /\ level (pd_opaque (BufferGetPage rel' b)) = level (pd_opaque (BufferGetPage rel b))
  /\ cbto_next (pd_opaque (BufferGetPage rel' b)) = cbto_next (pd_opaque (BufferGetPage rel b))
  /\ (cbto_prev (pd_opaque (BufferGetPage rel' b)) = cbto_prev (pd_opaque (BufferGetPage rel b))
      \/ (b = s /\ cbto_prev (pd_opaque (BufferGetPage rel' b)) = v)).
Proof.
  cbv zeta. unfold modify_opaque. rewrite BufferGetPage_modify.
  destruct (s =? b) eqn:E; [|cbn [andb]; repeat split; left; reflexivity].
  apply Z.eqb_eq in E. subst b.
  destruct (block_exists rel s); cbn [andb]; repeat split; [right | left]; auto.
Qed.

Lemma set_prev_page_at s v rel :
  block_exists rel s = true ->
  cbto_prev (pd_opaque (BufferGetPage (modify_opaque s (fun o => set_prev o v) rel) s)) = v.
Proof.
  intros H. unfold modify_opaque. rewrite BufferGetPage_modify, Z.eqb_refl, H. reflexivity.
Qed.

(** The run of [cbt_split_page] on a full leaf whose parent has room. *)
Lemma leaf_split_run BLCKSZ fuel rel L newitem top ptop pparents :
  let p := BufferGetPage rel L in
  let its := page_tuples p in
  let n := Z.of_nat (length its) in
  let N := RelationGetNumberOfBlocks rel in
  let pb := cbts_blkno ptop in
  let s := cbto_next (pd_opaque p) in
  block_exists rel L = true ->
  P_ISLEAF (pd_opaque p) = true ->
  2 <= n -> 48 + 20 * n <= BLCKSZ -> n < 65534 ->
  1 <= cbts_offset top <= n + 1 ->
  N < InvalidBlockNumber ->
  block_exists rel pb = true -> pb <> InvalidBlockNumber -> pb <> L ->
  1 <= cbts_offset ptop <= Z.of_nat (length (pd_items (BufferGetPage rel pb))) ->
  cbts_offset ptop + 1 < 65536 ->
  itemsz <= PageGetFreeSpace BLCKSZ (BufferGetPage rel pb) ->
  (P_RIGHTMOST (pd_opaque p) = true
   \/ (block_exists rel s = true /\ cbto_prev (pd_opaque (BufferGetPage rel s)) = L)) ->
  exists r rel' (Lt Rt : list CBTTupleData),
    cbt_split_page BLCKSZ (S (S fuel)) L newitem (top :: ptop :: pparents) rel = Ok r rel'
    /\ Lt ++ Rt = list_insert (Z.to_nat (cbts_offset top - 1)) newitem its
    /\ leaf_split_state rel rel' L pb (cbts_offset ptop) Lt Rt
         (if cbts_offset top <=? n then uint32 (sum_childcnt Rt)
          else uint32 (sum_childcnt Rt - childcnt newitem + childcnt (last its newitem)))
    /\ n / 2 <= Z.of_nat (length Lt) <= n / 2 + 1
    /\ (s <> L ->
        cbto_prev (pd_opaque (BufferGetPage rel' L)) = cbto_prev (pd_opaque p))
    /\ (P_RIGHTMOST (pd_opaque p) = false ->
        cbto_prev (pd_opaque (BufferGetPage rel' s)) = N).
Proof.
  intros p its n N pb s Hex Hleaf Hn2 Hfit Hn16 Hoff HN Hpex Hpinv HpL Hpoff Hpoff16 Hroom Hsib.
  assert (HLN : L < N) by (apply block_exists_iff in Hex; exact (proj2 Hex)).
  assert (HL0 : 0 <= L) by (apply block_exists_iff in Hex; exact (proj1 Hex)).
  assert (HpN : pb < N) by (apply block_exists_iff in Hpex; exact (proj2 Hpex)).
  assert (Hp0 : 0 <= pb) by (apply block_exists_iff in Hpex; exact (proj1 Hpex)).
  unfold InvalidBlockNumber in HN, Hpinv.
  cbn [cbt_split_page]. unfold bind at 1. rewrite cbt_get_buffer_extend. fold N.
  cbv beta iota. unfold bind at 1. unfold get at 1. cbv beta iota.
  unfold BufferGetBlockNumber.
  set (relA := extend rel (CBTInitPage CBT_LEAF)).
  assert (HAL : BufferGetPage relA L = p).
  { unfold relA. rewrite BufferGetPage_extend. fold N. decide_tests. reflexivity. }
  rewrite HAL.
  set (oopaque := pd_opaque p).
  set (lflags := Z.ldiff (cbto_flags oopaque) CBT_ROOT).
  set (lopaque := mkOpaque (cbto_prev oopaque) N
                    (cbto_parent (pd_opaque (CBTInitPage CBT_LEAF))) (level oopaque) lflags).
  unfold bind at 1. unfold update at 1. cbv beta iota.
  set (relB := modify_opaque N _ relA).
  assert (HBL : BufferGetPage relB L = p).
  { unfold relB. read_pages. fold N. decide_tests. cbn [andb]. exact HAL. }
  assert (HBN : BufferGetPage relB N
                = set_opaque (CBTInitPage CBT_LEAF)
                    (mkOpaque L (cbto_next oopaque)
                       (cbto_parent (pd_opaque (CBTInitPage CBT_LEAF)))
                       (level oopaque) lflags)).
  { unfold relB, relA. read_pages. fold N. decide_tests. reflexivity. }
  assert (HBblocks : RelationGetNumberOfBlocks relB = N + 1).
  { unfold relB, relA. read_pages. reflexivity. }
  assert (HBexL : block_exists relB L = true).
  { rewrite block_exists_blocks, HBblocks. decide_tests. reflexivity. }
  assert (HN0 : 0 <= N) by (unfold N, RelationGetNumberOfBlocks; lia).
  assert (HBexN : block_exists relB N = true).
  { rewrite block_exists_blocks, HBblocks. decide_tests. reflexivity. }
  destruct (cbt_split_distribute_run BLCKSZ relB L N newitem (cbts_offset top) lopaque)
    as (st & relC & Lt & Rt & Hrun & HLt & HRt & Hc & Hl & Hno & Ho & Hopq & Hlc & Hrc);
    rewrite ?HBL, ?HBN; try assumption; try lia; try reflexivity.
  { intros Hnl. fold p in Hnl. congruence. }
  rewrite HBL in Hrun, Hc, Hl, Hno, Hrc. fold its n in Hrun, Hc, Hl, Hno, Hrc.
  destruct (leaf_distribute_rewrites _ _ _ _ _ _ _ _ _ Hrun) as [(its' & Hlive' & EC) HliveL];
    rewrite ?HBL, ?HBN; try assumption; try reflexivity.
  cbn [snd] in HliveL.
  assert (HCN : BufferGetPage relC N
                = mkPage (live_items Rt)
                    (mkOpaque L (cbto_next oopaque)
                       (cbto_parent (pd_opaque (CBTInitPage CBT_LEAF)))
                       (level oopaque) lflags) zero_meta).
  { assert (E : BufferGetPage relC N = set_items (BufferGetPage relB N) its')
      by (rewrite EC; apply BufferGetPage_modify_same; exact HBexN).
    rewrite E in HRt. unfold page_tuples in HRt. cbn [set_items pd_items] in HRt.
    rewrite E, HBN, <- HRt, live_items_tuples by exact Hlive'. reflexivity. }
  assert (HCother : forall b, b <> N -> BufferGetPage relC b = BufferGetPage rel b).
  { intros b Hb. rewrite EC. rewrite BufferGetPage_modify_other by congruence.
    unfold relB, relA. read_pages. fold N. decide_tests. cbn [andb]. reflexivity. }
  assert (HCblocks : RelationGetNumberOfBlocks relC = N + 1).
  { rewrite EC, blocks_modify. exact HBblocks. }
  assert (HCcache : rd_amcache relC = rd_amcache rel).
  { rewrite EC. unfold relB, relA, modify_opaque. rewrite !amcache_modify. reflexivity. }
  assert (HLitems : pd_items (sx_left st) = live_items Lt).
  { rewrite <- HLt. symmetry. apply live_items_tuples. exact HliveL. }
  unfold bind at 1. rewrite Hrun. cbv beta iota. clear Hrun.
  clear EC its' Hlive'.
  (* the tuple of the left half *)
  unfold bind at 1. unfold bind at 1. fold pb.
  rewrite cbt_get_buffer_old.
  2:{ rewrite block_exists_blocks, HCblocks. decide_tests. reflexivity. }
  2:{ unfold InvalidBlockNumber. lia. }
  cbv beta iota. unfold bind at 1.
  rewrite modify_tuple_run.
  2:{ rewrite HCother by lia. unfold PageGetItemId, PageGetMaxOffsetNumber. decide_tests.
      cbn [andb]. intros E. apply nth_error_None in E. lia. }
  cbv beta iota. unfold ret at 1. cbv beta iota.
  set (relD := modify_page pb _ relC).
  assert (HDp : BufferGetPage relD pb
                = set_items (BufferGetPage rel pb)
                    (list_update (Z.to_nat (cbts_offset ptop - 1))
                       (set_childcnt (sx_leftcount st)) (pd_items (BufferGetPage rel pb)))).
  { unfold relD. rewrite BufferGetPage_modify_same.
    - rewrite HCother by lia. reflexivity.
    - rewrite block_exists_blocks, HCblocks. decide_tests. reflexivity. }
  (* the tuple of the right half *)
  unfold bump_offset. cbn [cbts_blkno cbts_offset total_count]. fold pb.
  replace (uint16 (cbts_offset ptop + 1)) with (cbts_offset ptop + 1)
    by (unfold uint16; rewrite Z.mod_small; lia).
  unfold bind at 1. rewrite cbt_insert_on_page_room.
  2:{ rewrite HDp. rewrite (PageGetFreeSpace_length BLCKSZ _ (BufferGetPage rel pb));
        [exact Hroom|]. cbn [set_items pd_items]. apply length_list_update. }
  cbv beta iota. cbn [fst cbts_blkno cbts_offset].
  set (rtuple := CBTFormTuple (ItemPointerSet N P_FIRSTOFFSET) (sx_rightcount st)) in *.
  set (relE := modify_page pb _ relD).
  assert (HEp : pd_items (BufferGetPage relE pb)
                = list_insert (Z.to_nat (cbts_offset ptop)) (mkItem false rtuple)
                    (list_update (Z.to_nat (cbts_offset ptop - 1))
                       (set_childcnt (sx_leftcount st)) (pd_items (BufferGetPage rel pb)))).
  { unfold relE. rewrite BufferGetPage_modify_same.
    - rewrite HDp. rewrite PageAddItem_at.
      + cbn [snd set_items pd_items]. f_equal. lia.
      + cbn [set_items pd_items]. rewrite length_list_update. lia.
      + rewrite (PageGetFreeSpace_length BLCKSZ _ (BufferGetPage rel pb));
          [exact Hroom|]. cbn [set_items pd_items]. apply length_list_update.
    - unfold relD. rewrite block_exists_modify, block_exists_blocks, HCblocks.
      decide_tests. reflexivity. }
  unfold bind at 1, update at 1. cbv beta iota.
  set (relF := modify_opaque N _ relE).
  unfold bind at 1, get at 1. cbv beta iota.
  assert (HFL : BufferGetPage relF L = p).
  { unfold relF, relE, relD. read_pages. rewrite HCblocks. decide_tests. cbn [andb].
    apply HCother. lia. }
  rewrite HFL. fold oopaque.
  assert (HFblocks : RelationGetNumberOfBlocks relF = N + 1).
  { unfold relF, relE, relD. read_pages. exact HCblocks. }
  assert (HFcache : rd_amcache relF = rd_amcache rel).
  { unfold relF, relE, relD, modify_opaque. rewrite !amcache_modify. exact HCcache. }
  assert (HFN : BufferGetPage relF N
                = mkPage (live_items Rt)
                    (mkOpaque L (cbto_next oopaque)
                       (ItemPointerSet pb (cbts_offset ptop + 1))
                       (level oopaque) lflags) zero_meta).
  { unfold relF, relE, relD. read_pages. rewrite HCblocks. decide_tests. cbn [andb].
    rewrite HCN. reflexivity. }
  assert (HFother : forall b, b <> N -> b <> pb -> BufferGetPage relF b = BufferGetPage rel b).
  { intros b Hb1 Hb2. unfold relF, relE, relD. read_pages. rewrite HCblocks.
    replace (N =? b) with false by (symmetry; apply Z.eqb_neq; lia).
    replace (pb =? b) with false by (symmetry; apply Z.eqb_neq; lia).
    cbn [andb]. apply HCother. exact Hb1. }
  assert (HFp : pd_items (BufferGetPage relF pb)
                = list_insert (Z.to_nat (cbts_offset ptop)) (mkItem false rtuple)
                    (list_update (Z.to_nat (cbts_offset ptop - 1))
                       (set_childcnt (sx_leftcount st)) (pd_items (BufferGetPage rel pb)))
                /\ pd_opaque (BufferGetPage relF pb) = pd_opaque (BufferGetPage rel pb)
                /\ pd_meta (BufferGetPage relF pb) = pd_meta (BufferGetPage rel pb)).
  { assert (E : BufferGetPage relF pb = BufferGetPage relE pb).
    { unfold relF. read_pages. decide_tests. reflexivity. }
    rewrite E. split; [exact HEp|].
    unfold relE. rewrite BufferGetPage_modify_same.
    - rewrite HDp. rewrite PageAddItem_at.
      + cbn [snd set_items pd_opaque pd_meta]. auto.
      + cbn [set_items pd_items]. rewrite length_list_update. lia.
      + rewrite (PageGetFreeSpace_length BLCKSZ _ (BufferGetPage rel pb));
          [exact Hroom|]. cbn [set_items pd_items]. apply length_list_update.
    - unfold relD. rewrite block_exists_modify, block_exists_blocks, HCblocks.
      decide_tests. reflexivity. }
  (* the state before the right sibling is relinked *)
  set (relG := write_page L (sx_left st) relF).
  assert (HGstate : leaf_split_state rel relG L pb (cbts_offset ptop) Lt Rt (sx_rightcount st)
                    /\ BufferGetPage relG N = BufferGetPage relF N).
  { assert (HGL : BufferGetPage relG L = sx_left st).
    { unfold relG. read_pages. rewrite HFblocks. decide_tests. reflexivity. }
    assert (HGother : forall b, b <> L -> BufferGetPage relG b = BufferGetPage relF b).
    { intros b Hb. unfold relG. read_pages.
      replace (L =? b) with false by (symmetry; apply Z.eqb_neq; lia). reflexivity. }
    split; [|apply HGother; lia].
    unfold leaf_split_state. fold N. fold p. fold oopaque. fold lflags.
    split; [unfold relG, write_page; rewrite amcache_modify; exact HFcache|].
    split; [unfold relG; read_pages; exact HFblocks|].
    split; [rewrite HGL; exact HLitems|].
    split; [rewrite HGL, Hopq; reflexivity|].
    split; [rewrite HGL, Hopq; reflexivity|].
    split; [rewrite HGother, HFN by lia; reflexivity|].
    split; [rewrite HGother, HFN by lia; reflexivity|].
    split.
    { rewrite HGother by lia. destruct HFp as [E _]. rewrite E, Hlc. reflexivity. }
    split; [rewrite HGother, HFN by lia; reflexivity|].
    split; [rewrite HGother, HFN by lia; reflexivity|].
    intros b HbL HbN. rewrite HGother by exact HbL.
    destruct (Z.eq_dec b pb) as [->|Hbp].
    - destruct HFp as (_ & E2 & E3). rewrite E2, E3.
      repeat split; auto. intros; contradiction.
    - rewrite HFother by assumption. repeat split; auto. }
  destruct HGstate as [HGstate HGN].
  assert (HGL : BufferGetPage relG L = sx_left st).
  { unfold relG. read_pages. rewrite HFblocks. decide_tests. reflexivity. }
  assert (HlenL : n / 2 <= Z.of_nat (length Lt) <= n / 2 + 1)
    by (rewrite Hl; destruct (cbts_offset top <=? n / 2); lia).
  destruct (P_RIGHTMOST oopaque) eqn:Hright.
  - (* no right sibling *)
    cbn [negb]. cbv iota. unfold bind at 1, ret at 1. cbv beta iota.
    unfold bind at 1, update at 1. cbv beta iota. fold relG.
    unfold bind at 1, get at 1. cbv beta iota.
    rewrite HGN, HFN. unfold P_RIGHTMOST at 1. cbn [pd_opaque cbto_next].
    unfold P_RIGHTMOST in Hright. rewrite Hright. cbn [negb]. cbv iota.
    unfold bind at 1, ret at 1. cbv beta iota.
    destruct (cbts_offset top <=? n / 2);
      (eexists; exists relG, Lt, Rt; split; [reflexivity|]; split; [exact Hc|];
       split; [rewrite <- Hrc; exact HGstate|]; split; [exact HlenL|];
       split; [intros _; rewrite HGL, Hopq; reflexivity | discriminate]).
  - (* a right sibling *)
    destruct Hsib as [Hsib|[Hsex Hsprev]]; [fold oopaque in Hsib; congruence|].
    fold oopaque in Hsex, Hsprev. fold s.
    assert (HsN : s < N) by (apply block_exists_iff in Hsex; exact (proj2 Hsex)).
    assert (Hs0 : 0 <= s) by (apply block_exists_iff in Hsex; exact (proj1 Hsex)).
    cbn [negb]. cbv iota. unfold bind at 1. unfold bind at 1.
    change (cbto_next oopaque) with s.
    rewrite cbt_get_buffer_old.
    2:{ rewrite block_exists_blocks, HFblocks. decide_tests. reflexivity. }
    2:{ unfold InvalidBlockNumber. unfold P_RIGHTMOST in Hright. apply Z.eqb_neq in Hright.
        exact Hright. }
    cbv beta iota. unfold bind at 1, get at 1. cbv beta iota.
    assert (HFs : cbto_prev (pd_opaque (BufferGetPage relF s)) = L).
    { destruct (Z.eq_dec s pb) as [E|E].
      - rewrite E. destruct HFp as (_ & E2 & _). rewrite E2, <- E. exact Hsprev.
      - rewrite HFother by lia. exact Hsprev. }
    rewrite HFs, Z.eqb_refl. cbn [negb]. cbv iota. unfold ret at 1. cbv beta iota.
    unfold bind at 1, update at 1. cbv beta iota. fold relG.
    unfold bind at 1, get at 1. cbv beta iota.
    rewrite HGN, HFN. unfold P_RIGHTMOST at 1. cbn [pd_opaque cbto_next].
    unfold P_RIGHTMOST in Hright. fold s. fold s in Hright. rewrite Hright. cbn [negb]. cbv iota.
    unfold bind at 1, update at 1. cbv beta iota.
    set (relH := modify_opaque s _ relG).
    assert (HHstate : leaf_split_state rel relH L pb (cbts_offset ptop) Lt Rt (sx_rightcount st)).
    { unfold leaf_split_state in *. fold N in HGstate |- *.
      destruct HGstate as (G1 & G2 & G3 & G4 & G5 & G6 & G7 & G8 & Ga & Gb & G9).
      assert (Hfr := fun b => set_prev_page s N relG b). cbv zeta in Hfr. fold relH in Hfr.
      split; [unfold relH, modify_opaque; rewrite amcache_modify; exact G1|].
      split; [unfold relH; read_pages; exact G2|].
      destruct (Hfr L) as (A1 & A2 & A3 & A4 & A5 & A6).
      destruct (Hfr N) as (B1 & B2 & B3 & B4 & B5 & B6).
      destruct (Hfr pb) as (C1 & C2 & C3 & C4 & C5 & C6).
      split; [rewrite A1; exact G3|]. split; [rewrite A3; exact G4|].
      split; [rewrite A5; exact G5|]. split; [rewrite B1; exact G6|].
      split; [rewrite B3; exact G7|]. split; [rewrite C1; exact G8|].
      split; [destruct B6 as [B6|[B6 _]]; [rewrite B6; exact Ga | lia]|].
      split; [rewrite B5; exact Gb|].
      intros b HbL HbN. destruct (G9 b HbL HbN) as (D1 & D2 & D3 & D4 & D5 & D6).
      destruct (Hfr b) as (E1 & E2 & E3 & E4 & E5 & E6).
      split; [congruence|]. split; [congruence|]. split; [congruence|].
      split; [congruence|]. split.
      - destruct E6 as [E6|[-> E6]].
        + rewrite E6. exact D5.
        + right. split; [|exact E6].
          destruct D5 as [D5|[D5 _]]; [|exact D5].
          rewrite <- Hsprev. reflexivity.
      - intros Hbp. rewrite E1. apply D6. exact Hbp. }
    assert (HHL : s <> L ->
              cbto_prev (pd_opaque (BufferGetPage relH L)) = cbto_prev oopaque).
    { intros HsL. destruct (set_prev_page s N relG L) as (_ & _ & _ & _ & _ & A6).
      fold relH in A6. destruct A6 as [A6|[A6 _]]; [|congruence].
      rewrite A6, HGL, Hopq. reflexivity. }
    assert (HHs : cbto_prev (pd_opaque (BufferGetPage relH s)) = N).
    { unfold relH. apply set_prev_page_at. unfold relG. read_pages. rewrite HFblocks.
      decide_tests. reflexivity. }
    destruct (cbts_offset top <=? n / 2);
      (eexists; exists relH, Lt, Rt; split; [reflexivity|]; split; [exact Hc|];
       split; [rewrite <- Hrc; exact HHstate|]; split; [exact HlenL|];
       split; [exact HHL | intros _; exact HHs]).
Qed.

(** What lies below a page depends only on which blocks exist, which pages
    are leaves, and the line pointers. *)
Lemma subtree_agree_items h :
  forall rel rel' blk,
    (forall b, In b (tree_blocks h rel blk) ->
       block_exists rel' b = block_exists rel b
       /\ P_ISLEAF (pd_opaque (BufferGetPage rel' b))
          = P_ISLEAF (pd_opaque (BufferGetPage rel b))
       /\ pd_items (BufferGetPage rel' b) = pd_items (BufferGetPage rel b)) ->
    counted h rel' blk = counted h rel blk
    /\ live_entries h rel' blk = live_entries h rel blk
    /\ tree_blocks h rel' blk = tree_blocks h rel blk.
Proof.
  induction h as [|h IH]; intros rel rel' blk Hag; [auto|].
  destruct (Hag blk) as (Hex & Hfl & Hit); [left; reflexivity|].
  rewrite !counted_step, !live_entries_step. cbn [tree_blocks].
  unfold PageGetMaxOffsetNumber. rewrite Hex, Hfl, Hit.
  destruct (P_ISLEAF (pd_opaque (BufferGetPage rel blk))) eqn:Hleaf; [auto|].
  assert (Hkids : forall it, In it (pd_items (BufferGetPage rel blk)) -> lp_dead it = false ->
            counted h rel' (child_of it) = counted h rel (child_of it)
            /\ live_entries h rel' (child_of it) = live_entries h rel (child_of it)
            /\ tree_blocks h rel' (child_of it) = tree_blocks h rel (child_of it)).
  { intros it Hin Hd. apply IH. intros b Hb. apply Hag.
    eapply tree_blocks_child; eauto. }
  split; [|split].
  - f_equal. f_equal. apply forallb_ext_in. intros it Hin.
    destruct (lp_dead it) eqn:Hd; [reflexivity|].
    destruct (Hkids it Hin Hd) as (E1 & E2 & _). rewrite E1, E2. reflexivity.
  - apply flat_map_ext_in'. intros it Hin.
    destruct (lp_dead it) eqn:Hd; [reflexivity|]. apply (Hkids it Hin Hd).
  - f_equal. apply flat_map_ext_in'. intros it Hin.
    destruct (lp_dead it) eqn:Hd; [reflexivity|]. apply (Hkids it Hin Hd).
Qed.

Lemma NoDup_swap_mid {A} (x0 : A) (a B B' c : list A) (N : A) :
  NoDup (x0 :: a ++ B ++ c) ->
  NoDup B' ->
  (forall x, In x B' -> In x B \/ x = N) ->
  ~ In N (x0 :: a ++ B ++ c) ->
  NoDup (x0 :: a ++ B' ++ c).
Proof.
  intros Hnd HB' Hsub HN.
  apply NoDup_cons_iff in Hnd. destruct Hnd as [Hx0 Hnd].
  destruct (NoDup_app_parts _ _ _ Hnd) as [_ Hdisj].
  assert (Hin' : forall x, In x (a ++ B' ++ c) -> In x (a ++ B ++ c) \/ x = N).
  { intros x Hx. apply in_app_or in Hx. destruct Hx as [Hx|Hx];
      [left; apply in_or_app; left; exact Hx|].
    apply in_app_or in Hx. destruct Hx as [Hx|Hx].
    - destruct (Hsub x Hx) as [Hb|Hb]; [left | right; exact Hb].
      apply in_or_app. right. apply in_or_app. left. exact Hb.
    - left. apply in_or_app. right. apply in_or_app. right. exact Hx. }
  apply NoDup_cons.
  - intros Hx. destruct (Hin' _ Hx) as [Hb|Hb]; [contradiction|].
    apply HN. left. exact Hb.
  - apply NoDup_app.
    + apply NoDup_app_remove_r in Hnd. exact Hnd.
    + apply NoDup_app; [exact HB' | |].
      * apply NoDup_app_remove_l in Hnd. apply NoDup_app_remove_l in Hnd. exact Hnd.
      * intros x Hx Hc. destruct (Hsub x Hx) as [Hb|Hb].
        -- destruct (Hdisj x Hb) as [_ D]. contradiction.
        -- subst x. apply HN. right. apply in_or_app. right. apply in_or_app. right. exact Hc.
    + intros x Hx Hbc. apply in_app_or in Hbc. destruct Hbc as [Hb|Hc].
      * destruct (Hsub x Hb) as [Hb'|Hb'].
        -- destruct (Hdisj x Hb') as [D _]. contradiction.
        -- subst x. apply HN. right. apply in_or_app. left. exact Hx.
      * revert Hnd Hx Hc. clear. intros Hnd Hx Hc.
        induction a as [|y a IH]; [contradiction|].
        cbn in Hnd. apply NoDup_cons_iff in Hnd. destruct Hnd as [Hy Hnd].
        destruct Hx as [->|Hx]; [|auto].
        apply Hy. apply in_or_app. right. apply in_or_app. right. exact Hc.
Qed.

(** An internal page some of whose tuples are replaced. *)
Lemma node_rebuilt h rel rel' blk pre mid mid' post :
  counted (S h) rel blk = true ->
  P_ISLEAF (pd_opaque (BufferGetPage rel blk)) = false ->
  pd_items (BufferGetPage rel blk) = pre ++ mid ++ post ->
  block_exists rel' blk = block_exists rel blk ->
  P_ISLEAF (pd_opaque (BufferGetPage rel' blk)) = false ->
  pd_items (BufferGetPage rel' blk) = pre ++ mid' ++ post ->
  Z.of_nat (length (pre ++ mid' ++ post)) < 65535 ->
  (forall x, In x pre \/ In x post -> lp_dead x = false ->
     forall b, In b (tree_blocks h rel (child_of x)) ->
       block_exists rel' b = block_exists rel b
       /\ P_ISLEAF (pd_opaque (BufferGetPage rel' b))
          = P_ISLEAF (pd_opaque (BufferGetPage rel b))
       /\ pd_items (BufferGetPage rel' b) = pd_items (BufferGetPage rel b)) ->
  forallb (fun it => lp_dead it ||
             (counted h rel' (child_of it) &&
              (childcnt (lp_tuple it)
               =? Z.of_nat (length (live_entries h rel' (child_of it)))))) mid' = true ->
  let E := fun r => flat_map (fun x => if lp_dead x then [] else live_entries h r (child_of x)) in
  let B := fun r => flat_map (fun x => if lp_dead x then [] else tree_blocks h r (child_of x)) in
  counted (S h) rel' blk = true
  /\ live_entries (S h) rel' blk = E rel pre ++ E rel' mid' ++ E rel post
  /\ live_entries (S h) rel blk = E rel pre ++ E rel mid ++ E rel post
  /\ tree_blocks (S h) rel' blk = blk :: B rel pre ++ B rel' mid' ++ B rel post
  /\ tree_blocks (S h) rel blk = blk :: B rel pre ++ B rel mid ++ B rel post.
Proof.
  intros Hc Hleaf Hitems Hex Hleaf' Hitems' Hlen Hothers Hmid E B.
  destruct (counted_S _ _ _ Hc) as (Hex0 & Hinv & Hmax & Hcnt). rewrite Hleaf in Hcnt.
  assert (Hin : forall x, In x pre \/ In x post -> In x (pd_items (BufferGetPage rel blk))).
  { intros x [Hx|Hx]; rewrite Hitems; apply in_or_app; [left | right; apply in_or_app; right];
      exact Hx. }
  assert (Hsame : forall x, In x pre \/ In x post -> lp_dead x = false ->
            counted h rel' (child_of x) = counted h rel (child_of x)
            /\ live_entries h rel' (child_of x) = live_entries h rel (child_of x)
            /\ tree_blocks h rel' (child_of x) = tree_blocks h rel (child_of x)).
  { intros x Hx Hd. apply subtree_agree_items. apply (Hothers x Hx Hd). }
  assert (HE : forall l, (forall x, In x l -> In x pre \/ In x post) -> E rel' l = E rel l).
  { intros l Hl. apply flat_map_ext_in'. intros x Hx.
    destruct (lp_dead x) eqn:Hd; [reflexivity|]. apply (Hsame x (Hl x Hx) Hd). }
  assert (HB : forall l, (forall x, In x l -> In x pre \/ In x post) -> B rel' l = B rel l).
  { intros l Hl. apply flat_map_ext_in'. intros x Hx.
    destruct (lp_dead x) eqn:Hd; [reflexivity|]. apply (Hsame x (Hl x Hx) Hd). }
  split; [|split; [|split; [|split]]].
  - rewrite counted_step. unfold PageGetMaxOffsetNumber.
    rewrite Hex, Hex0, Hleaf', Hitems'.
    apply Z.eqb_neq in Hinv. rewrite Hinv.
    replace (Z.of_nat (length (pre ++ mid' ++ post)) <? 65535) with true
      by (symmetry; apply Z.ltb_lt; exact Hlen).
    cbn [negb andb]. rewrite !forallb_app, Hmid.
    assert (Hpart : forall l, (forall x, In x l -> In x pre \/ In x post) ->
              forallb (fun x => lp_dead x ||
                         (counted h rel' (child_of x) &&
                          (childcnt (lp_tuple x)
                           =? Z.of_nat (length (live_entries h rel' (child_of x)))))) l
              = true).
    { intros l Hl. apply forallb_forall. intros x Hx.
      destruct (lp_dead x) eqn:Hd; [reflexivity|]. cbn [orb].
      destruct (Hsame x (Hl x Hx) Hd) as (E1 & E2 & _). rewrite E1, E2.
      destruct (Hcnt x (Hin x (Hl x Hx)) Hd) as [Hxc Hxn]. rewrite Hxc, Hxn.
      rewrite Z.eqb_refl. reflexivity. }
    rewrite (Hpart pre) by auto. rewrite (Hpart post) by auto. reflexivity.
  - rewrite live_entries_step, Hleaf', Hitems'. fold (E rel' (pre ++ mid' ++ post)).
    unfold E at 1. rewrite !flat_map_app. fold (E rel' pre) (E rel' mid') (E rel' post).
    rewrite (HE pre), (HE post) by auto. reflexivity.
  - rewrite live_entries_step, Hleaf, Hitems. unfold E. rewrite !flat_map_app. reflexivity.
  - rewrite tree_blocks_step, Hleaf', Hitems'. f_equal.
    fold (B rel' (pre ++ mid' ++ post)). unfold B at 1. rewrite !flat_map_app.
    fold (B rel' pre) (B rel' mid') (B rel' post).
    rewrite (HB pre), (HB post) by auto. reflexivity.
  - rewrite tree_blocks_step, Hleaf, Hitems. f_equal. unfold B. rewrite !flat_map_app.
    reflexivity.
Qed.

Lemma list_insert_after {A} (x y : A) (pre post : list A) :
  list_insert (S (length pre)) y (pre ++ x :: post) = pre ++ x :: y :: post.
Proof.
  induction pre as [|z pre IH].
  - destruct post; reflexivity.
  - change (z :: list_insert (S (length pre)) y (pre ++ x :: post)
            = z :: pre ++ x :: y :: post).
    f_equal. exact IH.
Qed.

(** The tree below a page of the path after the split of the leaf. *)
Lemma split_on_path rel rel' L N Lt Rt cL cR tid (i : nat) :
  block_exists rel N = false ->
  block_exists rel' N = true -> N <> InvalidBlockNumber ->
  P_ISLEAF (pd_opaque (BufferGetPage rel' N)) = true ->
  pd_items (BufferGetPage rel' N) = live_items Rt ->
  unit_counts (Lt ++ Rt) ->
  map itemptr (Lt ++ Rt) = list_insert i tid (live_tids (pd_items (BufferGetPage rel L))) ->
  (i <= length (live_tids (pd_items (BufferGetPage rel L))))%nat ->
  cL = Z.of_nat (length Lt) -> cR = Z.of_nat (length Rt) ->
  Z.of_nat (length Lt) < 65535 -> Z.of_nat (length Rt) < 65535 ->
  forall h blk parents r,
    on_path rel L h blk parents r ->
    forall pf above,
      parents = pf :: above ->
      Z.of_nat (length (pd_items (BufferGetPage rel (cbts_blkno pf)))) + 1 < 65535 ->
      counted h rel blk = true ->
      NoDup (tree_blocks h rel blk) ->
      Z.of_nat (length (live_entries h rel blk)) + 1 < 4294967296 ->
      (forall b, In b (tree_blocks h rel blk) ->
         block_exists rel' b = block_exists rel b
         /\ P_ISLEAF (pd_opaque (BufferGetPage rel' b))
            = P_ISLEAF (pd_opaque (BufferGetPage rel b))
         /\ pd_items (BufferGetPage rel' b)
            = split_items L N pf above Lt cL cR b (BufferGetPage rel b)) ->
      counted h rel' blk = true
      /\ map en_tid (live_entries h rel' blk)
         = list_insert (r + i) tid (map en_tid (live_entries h rel blk))
      /\ NoDup (tree_blocks h rel' blk)
      /\ forall b, In b (tree_blocks h rel' blk) -> In b (tree_blocks h rel blk) \/ b = N.
Proof.
  intros HNold HNex HNinv HNleaf HNitems Hunit Htids Hi HcL HcR HlenL HlenR.
  induction 1 as [h Hleaf | h blk pre it post fj parents r Hleaf Hitems Hd Hb Ho Hp IH];
    intros pf above Epar Hroom Hc Hnd Hbound Hag.
  - discriminate Epar.
  - pose proof (Forall_app_l := proj1 (Forall_app (fun t => childcnt t = 1) Lt Rt)).
    destruct (proj1 (Forall_app _ Lt Rt) Hunit) as [HuL HuR].
    destruct (counted_S _ _ _ Hc) as (Hexb & Hinvb & Hmaxb & Hkids).
    rewrite Hleaf in Hkids.
    assert (Hin : In it (pd_items (BufferGetPage rel blk)))
      by (rewrite Hitems; apply in_or_app; right; left; reflexivity).
    destruct (Hkids it Hin Hd) as [Hcc Hcnt].
    pose proof Hnd as Hnd0.
    rewrite tree_blocks_step, Hleaf, Hitems in Hnd.
    rewrite flat_map_app in Hnd. cbn [flat_map] in Hnd. rewrite Hd in Hnd.
    apply NoDup_cons_iff in Hnd. destruct Hnd as [Hblk Hkidsnd].
    destruct (NoDup_app_parts _ _ _ Hkidsnd) as [Hndc Hdisj].
    assert (Hsub : forall b, In b (tree_blocks h rel (child_of it)) ->
              In b (tree_blocks (S h) rel blk)).
    { intros b Hbin. eapply tree_blocks_child; eauto. }
    assert (Hnotblk : forall b, In b (tree_blocks h rel (child_of it)) -> b <> blk).
    { intros b Hbin ->. apply Hblk. apply in_or_app. right. apply in_or_app. left.
      exact Hbin. }
    destruct (on_path_blocks _ _ _ _ _ _ Hp) as (HLleaf & HLin & Hframes).
    assert (HNnot : ~ In N (tree_blocks (S h) rel blk)).
    { intros HNin. destruct (tree_blocks_exist _ _ _ _ Hc HNin) as [E _]. congruence. }
    assert (Hlive : live_entries (S h) rel blk
                    = flat_map (fun x => if lp_dead x then []
                                         else live_entries h rel (child_of x)) pre
                      ++ live_entries h rel (child_of it)
                      ++ flat_map (fun x => if lp_dead x then []
                                            else live_entries h rel (child_of x)) post).
    { rewrite live_entries_step, Hleaf, Hitems, flat_map_app. cbn [flat_map].
      rewrite Hd. reflexivity. }
    assert (Hchildlen : Z.of_nat (length (live_entries h rel (child_of it))) + 1
                        < 4294967296).
    { rewrite Hlive, !length_app in Hbound. lia. }
    (* the other children *)
    assert (Hothers : forall x, In x pre \/ In x post -> lp_dead x = false ->
              forall b, In b (tree_blocks h rel (child_of x)) ->
                block_exists rel' b = block_exists rel b
                /\ P_ISLEAF (pd_opaque (BufferGetPage rel' b))
                   = P_ISLEAF (pd_opaque (BufferGetPage rel b))
                /\ pd_items (BufferGetPage rel' b) = pd_items (BufferGetPage rel b)).
    { intros x Hx Hdx b Hbin.
      assert (Hbt : In b (tree_blocks (S h) rel blk)).
      { apply (tree_blocks_child h rel blk x b Hleaf); [|exact Hdx|exact Hbin].
        rewrite Hitems. apply in_or_app. destruct Hx as [Hx|Hx]; [left | right; right]; exact Hx. }
      assert (Hbkids : In b (flat_map (fun it0 => if lp_dead it0 then []
                                        else tree_blocks h rel (child_of it0)) pre)
                       \/ In b (flat_map (fun it0 => if lp_dead it0 then []
                                            else tree_blocks h rel (child_of it0)) post)).
      { destruct Hx as [Hx|Hx]; [left | right]; apply in_flat_map; exists x;
          (split; [exact Hx | rewrite Hdx; exact Hbin]). }
      assert (Hbc : ~ In b (tree_blocks h rel (child_of it))).
      { intros Hbc. destruct (Hdisj b Hbc) as [D1 D2]. destruct Hbkids; auto. }
      assert (Hbb : b <> blk).
      { intros ->. apply Hblk. apply in_or_app.
        destruct Hbkids as [Hk|Hk]; [left; exact Hk|].
        right. apply in_or_app. right. exact Hk. }
      destruct (Hag b Hbt) as (E1 & E2 & E3). split; [exact E1|]. split; [exact E2|].
      rewrite E3. unfold split_items.
      replace (b =? L) with false
        by (symmetry; apply Z.eqb_neq; intros ->; apply Hbc; exact HLin).
      assert (Hfr : forall f, In f (parents ++ [fj]) -> cbts_blkno f <> b).
      { intros f Hf. apply in_app_or in Hf. destruct Hf as [Hf|[<-|[]]].
        - destruct (Hframes f Hf) as (P1 & _). intros E. apply Hbc. rewrite <- E. exact P1.
        - rewrite Hb. auto. }
      rewrite Epar in Hfr.
      replace (b =? cbts_blkno pf) with false
        by (symmetry; apply Z.eqb_neq; intros E;
            apply (Hfr pf (or_introl eq_refl)); symmetry; exact E).
      rewrite bumped_other; [reflexivity|].
      intros f Hf. apply Hfr. right. exact Hf. }
    destruct (Hag blk) as (Hexb' & Hleafb' & Hitemsb'); [cbn [tree_blocks]; left; reflexivity|].
    rewrite Hleaf in Hleafb'.
    assert (HblkL : blk <> L) by (intros E; rewrite E in Hleaf; congruence).
    unfold split_items in Hitemsb'.
    replace (blk =? L) with false in Hitemsb' by (symmetry; apply Z.eqb_neq; exact HblkL).
    destruct parents as [|p0 ps].
    + (* the parent of the leaf *)
      cbn [app] in Epar. injection Epar as Epf Eab. subst pf above.
      inversion Hp as [h0 Hl0 Eh Ech Epars Er|]; [|destruct parents; discriminate].
      subst r h. rename Ech into EL.
      rewrite Hb, Z.eqb_refl, Ho in Hitemsb'.
      replace (Z.to_nat (1 + Z.of_nat (length pre) - 1)) with (length pre) in Hitemsb' by lia.
      replace (Z.to_nat (1 + Z.of_nat (length pre))) with (S (length pre)) in Hitemsb' by lia.
      rewrite Hitems, list_update_mid, list_insert_after in Hitemsb'.
      set (rt := mkItem false (mkTuple (mkItemPointer N 1) cR)) in *.
      destruct (Hag L (Hsub L HLin)) as (HexL' & HleafL' & HitemsL').
      unfold split_items in HitemsL'. rewrite Z.eqb_refl in HitemsL'.
      destruct (counted_S _ _ _ Hcc) as (HexL & HinvL & _ & _). rewrite <- EL in HexL, HinvL.
      rewrite HexL in HexL'. rewrite HLleaf in HleafL'.
      assert (HcL' : counted (S h0) rel' L = true
                     /\ live_entries (S h0) rel' L = leaf_entries L 1 (live_items Lt)
                     /\ tree_blocks (S h0) rel' L = [L]).
      { rewrite counted_step, live_entries_step, tree_blocks_step.
        unfold PageGetMaxOffsetNumber. rewrite HexL', HleafL', HitemsL'.
        split; [|split; reflexivity].
        apply Z.eqb_neq in HinvL. rewrite HinvL.
        replace (Z.of_nat (length (live_items Lt)) <? 65535) with true
          by (symmetry; apply Z.ltb_lt; unfold live_items; rewrite length_map; lia).
        cbn [negb andb]. eapply forallb_weaken; [|apply records_live_items; exact HuL].
        intros x Hx. unfold record_item in Hx. apply andb_true_iff in Hx.
        destruct Hx as [_ Hx]. rewrite Hx. apply orb_true_r. }
      assert (HcN' : counted (S h0) rel' N = true
                     /\ live_entries (S h0) rel' N = leaf_entries N 1 (live_items Rt)
                     /\ tree_blocks (S h0) rel' N = [N]).
      { rewrite counted_step, live_entries_step, tree_blocks_step.
        unfold PageGetMaxOffsetNumber. rewrite HNex, HNleaf, HNitems.
        split; [|split; reflexivity].
        apply Z.eqb_neq in HNinv. rewrite HNinv.
        replace (Z.of_nat (length (live_items Rt)) <? 65535) with true
          by (symmetry; apply Z.ltb_lt; unfold live_items; rewrite length_map; lia).
        cbn [negb andb]. eapply forallb_weaken; [|apply records_live_items; exact HuR].
        intros x Hx. unfold record_item in Hx. apply andb_true_iff in Hx.
        destruct Hx as [_ Hx]. rewrite Hx. apply orb_true_r. }
      destruct HcL' as (L1 & L2 & L3). destruct HcN' as (N1 & N2 & N3).
      assert (Ec1 : child_of (set_childcnt cL it) = L) by (symmetry; exact EL).
      assert (Ec2 : child_of rt = N) by reflexivity.
      assert (Ed1 : lp_dead (set_childcnt cL it) = false) by exact Hd.
      assert (Ed2 : lp_dead rt = false) by reflexivity.
      assert (Ek1 : childcnt (lp_tuple (set_childcnt cL it)) = cL) by reflexivity.
      assert (Ek2 : childcnt (lp_tuple rt) = cR) by reflexivity.
      assert (Hitemsb2 : pd_items (BufferGetPage rel' blk)
                         = pre ++ [set_childcnt cL it; rt] ++ post) by exact Hitemsb'.
      assert (Hitems2 : pd_items (BufferGetPage rel blk) = pre ++ [it] ++ post)
        by exact Hitems.
      clearbody rt.
      destruct (node_rebuilt (S h0) rel rel' blk pre [it] [set_childcnt cL it; rt] post)
        as (R1 & R2 & R3 & R4 & R5); try assumption.
      * rewrite Hb, Hitems in Hroom.
        rewrite !length_app in *. cbn [length] in *. lia.
      * cbn [forallb]. rewrite Ed1, Ed2, Ec1, Ec2, Ek1, Ek2, L1, L2, N1, N2.
        rewrite !length_leaf_entries_live, HcL, HcR, !Z.eqb_refl. reflexivity.
      * split; [exact R1|].
        split.
        { rewrite R2, R3. cbn [flat_map]. rewrite Ed1, Ed2, Ec1, Ec2, Hd, <- EL, L2, N2.
          rewrite !app_nil_r, !map_app.
          rewrite !live_items_tids by assumption.
          rewrite live_entries_step, HLleaf, leaf_entries_tids.
          rewrite <- (map_app itemptr Lt Rt), Htids.
          rewrite Nat.add_0_r.
          rewrite <- (length_map en_tid) at 1.
          rewrite list_insert_inner by exact Hi. reflexivity. }
        rewrite R4, R5. rewrite R5 in Hnd0, HNnot.
        cbn [flat_map] in *. rewrite Ed1, Ed2, Ec1, Ec2, L3, N3.
        rewrite Hd, <- EL, (tree_blocks_step h0 rel L), HLleaf.
        rewrite Hd, <- EL, (tree_blocks_step h0 rel L), HLleaf in Hnd0, HNnot.
        rewrite !app_nil_r in *.
        assert (HLN : L <> N).
        { intros E. apply HNnot. right. apply in_or_app. right. left. exact E. }
        split.
        { apply (NoDup_swap_mid blk _ [L] ([L] ++ [N]) _ N).
          - exact Hnd0.
          - constructor; [intros [E|[]]; congruence | constructor; [intros [] | constructor]].
          - intros x [<-|[<-|[]]]; [left; left; reflexivity | right; reflexivity].
          - exact HNnot. }
        intros b [Hbin|Hbin]; [left; left; exact Hbin|].
        apply in_app_or in Hbin. destruct Hbin as [Hbin|Hbin].
        -- left. right. apply in_or_app. left. exact Hbin.
        -- apply in_app_or in Hbin. destruct Hbin as [[Hbin|[Hbin|[]]]|Hbin].
           ++ left. right. apply in_or_app. right. left. exact Hbin.
           ++ right. symmetry. exact Hbin.
           ++ left. right. apply in_or_app. right. right. exact Hbin.
    + (* an ancestor further up *)
      cbn [app] in Epar. injection Epar as Epf Eab. subst pf above.
      assert (Hnotfr : forall g, In g (p0 :: ps) -> cbts_blkno g <> blk).
      { intros g Hg. destruct (Hframes g Hg) as (P1 & _). apply Hnotblk. exact P1. }
      replace (blk =? cbts_blkno p0) with false in Hitemsb'
        by (symmetry; apply Z.eqb_neq; intros E;
            apply (Hnotfr p0 (or_introl eq_refl)); symmetry; exact E).
      pose proof (bumped_app_last ps fj (BufferGetPage rel blk)) as Hbl.
      rewrite Hb in Hbl.
      rewrite Hbl in Hitemsb' by (intros g Hg; apply Hnotfr; right; exact Hg).
      unfold bump_tuple in Hitemsb'. cbn [pd_items set_items] in Hitemsb'.
      rewrite Ho in Hitemsb'.
      replace (Z.to_nat (1 + Z.of_nat (length pre) - 1)) with (length pre) in Hitemsb' by lia.
      rewrite Hitems, list_update_mid in Hitemsb'.
      destruct (IH p0 ps eq_refl Hroom Hcc Hndc Hchildlen) as (I1 & I2 & I3 & I4).
      { intros b Hbin. destruct (Hag b (Hsub b Hbin)) as (E1 & E2 & E3).
        split; [exact E1|]. split; [exact E2|]. rewrite E3. unfold split_items.
        rewrite bumped_app_other by (rewrite Hb; apply Hnotblk; exact Hbin). reflexivity. }
      pose proof (on_path_rank _ _ _ _ _ _ Hp) as Hrank.
      assert (Hlen' : length (live_entries h rel' (child_of it))
                      = S (length (live_entries h rel (child_of it)))).
      { rewrite <- (length_map en_tid), I2, length_list_insert, length_map. reflexivity. }
      destruct (node_rebuilt h rel rel' blk pre [it] [add_childcnt 1 it] post)
        as (R1 & R2 & R3 & R4 & R5); try assumption.
      * unfold PageGetMaxOffsetNumber in Hmaxb. rewrite Hitems in Hmaxb.
        rewrite !length_app in *. cbn [length] in *. lia.
      * cbn [forallb]. unfold add_childcnt, set_childcnt. cbn [lp_dead lp_tuple childcnt].
        unfold child_of at 1 2. cbn [lp_tuple itemptr]. fold (child_of it).
        rewrite Hd, I1, Hlen', Hcnt. cbn [orb andb].
        unfold uint32. rewrite Z.mod_small by lia.
        rewrite andb_true_r. apply Z.eqb_eq. lia.
      * split; [exact R1|].
        assert (Hch : child_of (add_childcnt 1 it) = child_of it) by reflexivity.
        assert (Hdd : lp_dead (add_childcnt 1 it) = false) by exact Hd.
        split.
        { rewrite R2, R3. cbn [flat_map]. rewrite Hd, Hdd, Hch, !app_nil_r, !map_app, I2.
          rewrite <- (length_map en_tid) at 1. rewrite <- Nat.add_assoc.
          rewrite list_insert_inner; [reflexivity|].
          rewrite length_map. lia. }
        rewrite R4, R5. rewrite R5 in Hnd0, HNnot.
        cbn [flat_map] in *. rewrite Hdd, Hch, Hd. rewrite Hd in Hnd0, HNnot.
        rewrite !app_nil_r in *.
        split.
        { apply (NoDup_swap_mid blk _ (tree_blocks h rel (child_of it)) _ _ N).
          - exact Hnd0.
          - exact I3.
          - exact I4.
          - exact HNnot. }
        intros b [Hbin|Hbin]; [left; left; exact Hbin|].
        apply in_app_or in Hbin. destruct Hbin as [Hbin|Hbin].
        -- left. right. apply in_or_app. left. exact Hbin.
        -- apply in_app_or in Hbin. destruct Hbin as [Hbin|Hbin].
           ++ destruct (I4 b Hbin) as [J|J]; [left | right; exact J].
              right. apply in_or_app. right. apply in_or_app. left. exact J.
           ++ left. right. apply in_or_app. right. apply in_or_app. right. exact Hbin.
Qed.

(** [cbt_insert_on_page] on a page without room for the tuple. *)
Lemma cbt_insert_on_page_full BLCKSZ fuel frame rest t buf rel :
  PageGetFreeSpace BLCKSZ (BufferGetPage rel buf) < itemsz ->
  cbt_insert_on_page BLCKSZ (S fuel) (frame :: rest) t buf rel
  = (r <- cbt_split_page BLCKSZ fuel buf t (frame :: rest) ;; ret (fst r, snd r)) rel.
Proof.
  intros H. cbn [cbt_insert_on_page]. mred.
  replace (PageGetFreeSpace BLCKSZ (BufferGetPage rel buf) <? itemsz) with true
    by (symmetry; apply Z.ltb_lt; exact H).
  reflexivity.
Qed.

(** The run of an insertion that splits the leaf at the top of the stack
    below a parent with room, after the counts went up along the path. *)
Lemma split_along_run BLCKSZ fuel top pf above delta tid rel total :
  let L := cbts_blkno top in
  let p := BufferGetPage rel L in
  let its := page_tuples p in
  let n := Z.of_nat (length its) in
  let N := RelationGetNumberOfBlocks rel in
  let s := cbto_next (pd_opaque p) in
  (forall f, In f (pf :: above) ->
     block_exists rel (cbts_blkno f) = true /\ cbts_blkno f <> InvalidBlockNumber
     /\ cbts_blkno f <> L
     /\ PageGetItemId (BufferGetPage rel (cbts_blkno f)) (cbts_offset f) <> None) ->
  NoDup (map cbts_blkno (pf :: above)) ->
  block_exists rel L = true ->
  P_ISLEAF (pd_opaque p) = true ->
  PageGetFreeSpace BLCKSZ p < itemsz ->
  2 <= n -> 48 + 20 * n <= BLCKSZ -> n < 65534 ->
  1 <= cbts_offset top + delta <= n + 1 ->
  N < InvalidBlockNumber ->
  itemsz <= PageGetFreeSpace BLCKSZ (BufferGetPage rel (cbts_blkno pf)) ->
  cbts_offset pf + 1 < 65536 ->
  (P_RIGHTMOST (pd_opaque p) = true
   \/ (block_exists rel s = true /\ cbto_prev (pd_opaque (BufferGetPage rel s)) = L)) ->
  exists rel' (Lt Rt : list CBTTupleData),
    (cbt_change_parent (pf :: above) 1 ;;;
     cbt_insert_on_page BLCKSZ (S (S (S fuel)))
       (mkFrame L (cbts_offset top + delta) total :: pf :: above)
       (CBTFormTuple tid 1) L ;;;
     ret tt) rel = Ok tt rel'
    /\ Lt ++ Rt
       = list_insert (Z.to_nat (cbts_offset top + delta - 1)) (CBTFormTuple tid 1) its
    /\ rd_amcache rel' = rd_amcache rel
    /\ RelationGetNumberOfBlocks rel' = N + 1
    /\ pd_items (BufferGetPage rel' N) = live_items Rt
    /\ cbto_flags (pd_opaque (BufferGetPage rel' N))
       = Z.ldiff (cbto_flags (pd_opaque p)) CBT_ROOT
    /\ cbto_flags (pd_opaque (BufferGetPage rel' L))
       = Z.ldiff (cbto_flags (pd_opaque p)) CBT_ROOT
    /\ cbto_next (pd_opaque (BufferGetPage rel' L)) = N
    /\ (forall b, b <> N ->
          pd_items (BufferGetPage rel' b)
          = split_items L N pf above Lt (uint32 (sum_childcnt Lt))
              (if cbts_offset top + delta <=? n then uint32 (sum_childcnt Rt)
               else uint32 (sum_childcnt Rt - 1 + childcnt (last its (CBTFormTuple tid 1))))
              b (BufferGetPage rel b))
    /\ (forall b, b <> L -> b <> N ->
         pd_meta (BufferGetPage rel' b) = pd_meta (BufferGetPage rel b)
         /\ cbto_flags (pd_opaque (BufferGetPage rel' b))
            = cbto_flags (pd_opaque (BufferGetPage rel b))
         /\ level (pd_opaque (BufferGetPage rel' b)) = level (pd_opaque (BufferGetPage rel b))
         /\ cbto_next (pd_opaque (BufferGetPage rel' b))
            = cbto_next (pd_opaque (BufferGetPage rel b))
         /\ (cbto_prev (pd_opaque (BufferGetPage rel' b))
             = cbto_prev (pd_opaque (BufferGetPage rel b))
             \/ (cbto_prev (pd_opaque (BufferGetPage rel b)) = L
                 /\ cbto_prev (pd_opaque (BufferGetPage rel' b)) = N)))
    /\ cbto_prev (pd_opaque (BufferGetPage rel' N)) = L
    /\ cbto_next (pd_opaque (BufferGetPage rel' N)) = s
    /\ n / 2 <= Z.of_nat (length Lt) <= n / 2 + 1
    /\ (s <> L -> cbto_prev (pd_opaque (BufferGetPage rel' L)) = cbto_prev (pd_opaque p))
    /\ (P_RIGHTMOST (pd_opaque p) = false ->
        cbto_prev (pd_opaque (BufferGetPage rel' s)) = N).
Proof.
  intros L p its n N s Hfr Hnd Hex Hleaf Hfull Hn2 Hfit Hn16 Hoff HN Hroom Hpoff Hsib.
  destruct (cbt_change_parent_run (pf :: above) rel) as (rel1 & Hrun1 & Hc1 & Hb1 & Hp1).
  { intros f Hf. destruct (Hfr f Hf) as (A & B & _ & D). auto. }
  { exact Hnd. }
  assert (HpL : BufferGetPage rel1 L = p).
  { rewrite Hp1. apply bumped_other. intros f Hf. destruct (Hfr f Hf) as (_ & _ & C & _).
    exact C. }
  assert (Hppb : BufferGetPage rel1 (cbts_blkno pf)
                 = bump_tuple (cbts_offset pf) (BufferGetPage rel (cbts_blkno pf))).
  { rewrite Hp1. cbn [bumped]. rewrite Z.eqb_refl. reflexivity. }
  assert (Hexs : forall b, block_exists rel1 b = block_exists rel b).
  { intros b. rewrite !block_exists_blocks, Hb1. reflexivity. }
  destruct (Hfr pf (or_introl eq_refl)) as (Fex & Finv & FL & Fitem).
  assert (Flen : length (pd_items (BufferGetPage rel1 (cbts_blkno pf)))
                 = length (pd_items (BufferGetPage rel (cbts_blkno pf)))).
  { rewrite Hppb. unfold bump_tuple. cbn [pd_items set_items]. apply length_list_update. }
  destruct (leaf_split_run BLCKSZ fuel rel1 L (CBTFormTuple tid 1)
              (mkFrame L (cbts_offset top + delta) total) pf above)
    as (r & rel' & Lt & Rt & Hsplit & Hcat & Hst & HlenL & HprevL & Hprevs);
    rewrite ?HpL; cbn [cbts_offset]; fold its; fold n; rewrite ?Hexs, ?Hb1; fold N;
    try assumption.
  - rewrite Flen. unfold PageGetItemId in Fitem.
    destruct ((1 <=? cbts_offset pf)
              && (cbts_offset pf
                  <=? PageGetMaxOffsetNumber (BufferGetPage rel (cbts_blkno pf)))) eqn:E;
      [|contradiction].
    apply andb_true_iff in E. destruct E as [E1 E2].
    apply Z.leb_le in E1. apply Z.leb_le in E2. unfold PageGetMaxOffsetNumber in E2. lia.
  - rewrite (PageGetFreeSpace_length BLCKSZ _ (BufferGetPage rel (cbts_blkno pf)) Flen).
    exact Hroom.
  - fold s. destruct Hsib as [Hs|[Hs1 Hs2]]; [left; exact Hs | right].
    split; [exact Hs1|]. rewrite Hp1, bumped_opaque. exact Hs2.
  - unfold leaf_split_state in Hst. cbv zeta in Hst.
    rewrite HpL in Hcat, Hst, HlenL, HprevL, Hprevs.
    fold its in Hcat, Hst, HlenL. fold n in Hst, HlenL. fold s in HprevL, Hprevs.
    cbn [cbts_offset] in Hcat, Hst. rewrite Hb1 in Hst, Hprevs. fold N in Hst, Hprevs.
    destruct Hst as (T1 & T2 & T3 & T4 & T5 & T6 & T7 & T8 & Ta & Tb & T9).
    exists rel', Lt, Rt.
    split.
    { unfold bind at 1. rewrite Hrun1. cbv beta iota.
      unfold bind at 1. rewrite cbt_insert_on_page_full by (rewrite HpL; exact Hfull).
      unfold bind at 1. rewrite Hsplit. reflexivity. }
    split; [exact Hcat|]. split; [congruence|]. split; [exact T2|].
    split; [exact T6|]. split; [exact T7|]. split; [exact T4|]. split; [exact T5|].
    split.
    + intros b HbN. unfold split_items.
      destruct (b =? L) eqn:EL; [apply Z.eqb_eq in EL; subst b; exact T3|].
      apply Z.eqb_neq in EL.
      destruct (b =? cbts_blkno pf) eqn:Epb.
      * apply Z.eqb_eq in Epb. subst b. rewrite T8, Hppb. unfold bump_tuple.
        cbn [pd_items set_items]. rewrite list_update_twice.
        change (childcnt (CBTFormTuple tid 1)) with 1. reflexivity.
      * apply Z.eqb_neq in Epb. destruct (T9 b EL HbN) as (_ & _ & _ & _ & _ & U).
        rewrite (U Epb), Hp1. cbn [bumped]. apply Z.eqb_neq in Epb. rewrite Epb. reflexivity.
    + split.
      * intros b HbL HbN. destruct (T9 b HbL HbN) as (U1 & U2 & U3 & U4 & U5 & _).
        rewrite Hp1, bumped_opaque, bumped_meta in *. auto.
      * split; [exact Ta|]. split; [exact Tb|]. split; [exact HlenL|].
        split; [exact HprevL | exact Hprevs].
Qed.

(** The first frame of a path is the tuple that names the leaf. *)
Lemma on_path_head rel leaf :
  forall h blk parents r,
    on_path rel leaf h blk parents r ->
    forall pf above,
      parents = pf :: above ->
      exists pre it post,
        P_ISLEAF (pd_opaque (BufferGetPage rel (cbts_blkno pf))) = false
        /\ pd_items (BufferGetPage rel (cbts_blkno pf)) = pre ++ it :: post
        /\ cbts_offset pf = 1 + Z.of_nat (length pre)
        /\ lp_dead it = false
        /\ child_of it = leaf.
Proof.
  induction 1 as [h Hleaf | h blk pre it post fj parents r Hleaf Hitems Hd Hb Ho Hp IH];
    intros pf above Epar; [discriminate Epar|].
  destruct parents as [|p0 ps].
  - cbn [app] in Epar. injection Epar as Epf Eab. subst pf above.
    inversion Hp as [h0 Hl0 Eh Ech Epars Er|]; [|destruct parents; discriminate].
    exists pre, it, post. rewrite Hb. auto.
  - cbn [app] in Epar. injection Epar as Epf Eab. subst pf above.
    apply (IH p0 ps eq_refl).
Qed.

Lemma on_path_top rel leaf h blk pf above r :
  on_path rel leaf h blk (pf :: above) r ->
  P_ISLEAF (pd_opaque (BufferGetPage rel blk)) = false.
Proof.
  intros H. inversion H as [|h0 blk0 pre it post fj parents r0 Hleaf]. exact Hleaf.
Qed.

(** The tree after the split of a leaf below a parent with room. *)
Lemma split_tree h rel rel' L pf above Lt Rt cL cR tid (i r : nat) :
  let N := RelationGetNumberOfBlocks rel in
  let root := cbtm_root (metad_of rel) in
  cbt_tree h rel = true ->
  root <> InvalidBlockNumber ->
  N < InvalidBlockNumber ->
  on_path rel L h root (pf :: above) r ->
  NoDup (tree_blocks h rel root) ->
  Z.of_nat (length (live_entries h rel root)) + 1 < 4294967296 ->
  L <> CBT_METAPAGE ->
  Z.of_nat (length (pd_items (BufferGetPage rel (cbts_blkno pf)))) + 1 < 65535 ->
  unit_counts (Lt ++ Rt) ->
  map itemptr (Lt ++ Rt) = list_insert i tid (live_tids (pd_items (BufferGetPage rel L))) ->
  (i <= length (live_tids (pd_items (BufferGetPage rel L))))%nat ->
  cL = Z.of_nat (length Lt) -> cR = Z.of_nat (length Rt) ->
  Z.of_nat (length Lt) < 65535 -> Z.of_nat (length Rt) < 65535 ->
  rd_amcache rel' = rd_amcache rel ->
  RelationGetNumberOfBlocks rel' = N + 1 ->
  pd_items (BufferGetPage rel' N) = live_items Rt ->
  cbto_flags (pd_opaque (BufferGetPage rel' N))
  = Z.ldiff (cbto_flags (pd_opaque (BufferGetPage rel L))) CBT_ROOT ->
  cbto_flags (pd_opaque (BufferGetPage rel' L))
  = Z.ldiff (cbto_flags (pd_opaque (BufferGetPage rel L))) CBT_ROOT ->
  cbto_next (pd_opaque (BufferGetPage rel' L)) = N ->
  (forall b, b <> N ->
     pd_items (BufferGetPage rel' b)
     = split_items L N pf above Lt cL cR b (BufferGetPage rel b)) ->
  (forall b, b <> L -> b <> N ->
     pd_meta (BufferGetPage rel' b) = pd_meta (BufferGetPage rel b)
     /\ cbto_flags (pd_opaque (BufferGetPage rel' b))
        = cbto_flags (pd_opaque (BufferGetPage rel b))
     /\ level (pd_opaque (BufferGetPage rel' b)) = level (pd_opaque (BufferGetPage rel b))
     /\ cbto_next (pd_opaque (BufferGetPage rel' b))
        = cbto_next (pd_opaque (BufferGetPage rel b))
     /\ (cbto_prev (pd_opaque (BufferGetPage rel' b))
         = cbto_prev (pd_opaque (BufferGetPage rel b))
         \/ (cbto_prev (pd_opaque (BufferGetPage rel b)) = L
             /\ cbto_prev (pd_opaque (BufferGetPage rel' b)) = N))) ->
  cbt_tree h rel' = true
  /\ map en_tid (tree_entries h rel')
     = list_insert (r + i) tid (map en_tid (tree_entries h rel))
  /\ cbtm_root (metad_of rel') = root
  /\ NoDup (tree_blocks h rel' root).
Proof.
  intros N root Ht Hr HN Hpath Hnd Hbound HL0 Hroom Hunit Htids Hi HcL HcR HlenL HlenR
         Hcache Hblocks HNitems HNflags HLflags HLnext Hitems Hrest.
  destruct (cbt_tree_facts _ _ Ht) as [Hm Hf Hg Hco Hroot].
  destruct (Hroot Hr) as (Hig & Hlev & Hc). fold root in Hig, Hlev, Hc.
  assert (HN0 : 0 <= N) by (unfold N, RelationGetNumberOfBlocks; lia).
  assert (HNold : block_exists rel N = false).
  { destruct (block_exists rel N) eqn:E; [|reflexivity].
    apply block_exists_iff in E. fold (RelationGetNumberOfBlocks rel) in E. fold N in E. lia. }
  assert (Hold : forall b, block_exists rel b = true -> b <> N /\ block_exists rel' b = true).
  { intros b E. split; [intros ->; congruence|].
    apply block_exists_iff in E. fold (RelationGetNumberOfBlocks rel) in E. fold N in E.
    apply block_exists_iff. fold (RelationGetNumberOfBlocks rel'). rewrite Hblocks. lia. }
  assert (HNex : block_exists rel' N = true).
  { apply block_exists_iff. fold (RelationGetNumberOfBlocks rel'). rewrite Hblocks. lia. }
  assert (HNinv : N <> InvalidBlockNumber) by lia.
  destruct (on_path_blocks _ _ _ _ _ _ Hpath) as (HLleaf & HLin & Hframes).
  destruct (tree_blocks_exist _ _ _ _ Hc HLin) as [HLex HLinv].
  destruct (Hold L HLex) as [HLN _].
  assert (HNleaf : P_ISLEAF (pd_opaque (BufferGetPage rel' N)) = true).
  { unfold P_ISLEAF. rewrite HNflags, leaf_flag_kept. exact HLleaf. }
  assert (Hrootleaf : P_ISLEAF (pd_opaque (BufferGetPage rel root)) = false)
    by (eapply on_path_top; exact Hpath).
  assert (HrootL : root <> L) by (intros E; rewrite E in Hrootleaf; congruence).
  destruct (split_on_path rel rel' L N Lt Rt cL cR tid i HNold HNex HNinv HNleaf HNitems
              Hunit Htids Hi HcL HcR HlenL HlenR h root (pf :: above) r Hpath pf above
              eq_refl Hroom Hc Hnd Hbound) as (S1 & S2 & S3 & S4).
  { intros b Hb. destruct (tree_blocks_exist _ _ _ _ Hc Hb) as [Hbex _].
    destruct (Hold b Hbex) as [HbN Hbex']. split; [congruence|].
    split; [|apply Hitems; exact HbN].
    destruct (Z.eq_dec b L) as [->|HbL].
    - unfold P_ISLEAF. rewrite HLflags, leaf_flag_kept. reflexivity.
    - destruct (Hrest b HbL HbN) as (_ & U & _). unfold P_ISLEAF. rewrite U. reflexivity. }
  assert (Hrootex : block_exists rel root = true).
  { destruct h as [|h']; [discriminate Hc|]. destruct (counted_S _ _ _ Hc) as (E & _).
    exact E. }
  destruct (Hold root Hrootex) as [HrootN _].
  destruct (Hold CBT_METAPAGE Hm) as [HmN _].
  destruct (Hrest CBT_METAPAGE (fun E => HL0 (eq_sym E)) HmN) as (M1 & M2 & _).
  destruct (Hrest root HrootL HrootN) as (_ & Q2 & Q3 & _).
  assert (Hmeta : metad_of rel' = metad_of rel) by exact M1.
  split; [|split; [|split; [rewrite Hmeta; reflexivity | exact S3]]].
  - unfold cbt_tree. rewrite Hmeta. fold root.
    unfold P_ISMETA, P_IGNORE. rewrite M2, Q2, Q3.
    fold (P_ISMETA (pd_opaque (BufferGetPage rel CBT_METAPAGE))).
    fold (P_IGNORE (pd_opaque (BufferGetPage rel root))).
    rewrite Hblocks, Hf, Hg, Hig, Hlev, S1.
    replace (0 <? N + 1) with true by (symmetry; apply Z.ltb_lt; lia).
    rewrite !Z.eqb_refl. cbn [negb andb]. rewrite orb_true_r, andb_true_r.
    unfold cache_ok. rewrite Hcache. unfold cache_ok in Hco.
    destruct (rd_amcache rel) as [c|]; [|reflexivity].
    apply andb_true_iff in Hco. destruct Hco as [Hco Hacc].
    apply andb_true_iff in Hco. destruct Hco as [Hcinv Hcex].
    destruct (Hold _ Hcex) as [HcN Hcex']. rewrite Hcinv, Hcex', Hmeta. cbn [andb].
    destruct (cbtm_root c =? cbtm_root (metad_of rel)); [apply orb_true_r|].
    rewrite orb_false_r in *. apply negb_true_iff in Hacc. apply negb_true_iff.
    unfold cache_accepts in *.
    destruct (Z.eq_dec (cbtm_root c) L) as [EcL|EcL].
    + rewrite EcL. unfold P_RIGHTMOST at 1. rewrite HLnext.
      apply Z.eqb_neq in HNinv. rewrite HNinv. apply andb_false_r.
    + destruct (Hrest _ EcL HcN) as (_ & U2 & U3 & U4 & U5).
      unfold P_IGNORE, P_RIGHTMOST, P_LEFTMOST in *. rewrite U2, U3, U4.
      destruct U5 as [U5|[U5 U6]]; [rewrite U5; exact Hacc|].
      rewrite U6. rewrite U5 in Hacc.
      apply Z.eqb_neq in HNinv. apply Z.eqb_neq in HLinv. rewrite HNinv.
      rewrite HLinv in Hacc. exact Hacc.
  - unfold tree_entries. rewrite Hmeta. fold root. apply Z.eqb_neq in Hr. rewrite Hr.
    exact S2.
Qed.

Lemma live_tids_records items :
  forallb record_item items = true ->
  live_tids items = map itemptr (map lp_tuple items).
Proof.
  intros H. rewrite <- (leaf_entries_tids 0 items 1), (leaf_entries_records 0 items 1 H).
  rewrite map_map. reflexivity.
Qed.

Lemma itemptr_CBTFormTuple tid c : itemptr (CBTFormTuple tid c) = tid.
Proof. destruct tid; reflexivity. Qed.

(** The descent to the [k]-th entry, the run of the insertion that splits
    its leaf, and the tree it leaves. *)
Lemma split_at_entry BLCKSZ h rel fuel k delta tid e :
  let root := cbtm_root (metad_of rel) in
  let L := en_blkno e in
  let p := BufferGetPage rel L in
  let n := Z.of_nat (length (pd_items p)) in
  let N := RelationGetNumberOfBlocks rel in
  let s := cbto_next (pd_opaque p) in
  cbt_tree h rel = true ->
  root <> InvalidBlockNumber ->
  NoDup (tree_blocks h rel root) ->
  (h <= S (S (S fuel)))%nat ->
  1 <= k ->
  Z.of_nat (length (live_entries h rel root)) + 1 < 4294967296 ->
  nth_error (live_entries h rel root) (Z.to_nat (k - 1)) = Some e ->
  P_ISLEAF (pd_opaque (BufferGetPage rel root)) = false ->
  L <> CBT_METAPAGE ->
  forallb record_item (pd_items p) = true ->
  PageGetFreeSpace BLCKSZ p < itemsz ->
  2 <= n -> 0 <= page_hole BLCKSZ p -> BLCKSZ <= 32768 ->
  (forall b it,
     In b (tree_blocks h rel root) ->
     P_ISLEAF (pd_opaque (BufferGetPage rel b)) = false ->
     In it (pd_items (BufferGetPage rel b)) -> lp_dead it = false -> child_of it = L ->
     itemsz <= PageGetFreeSpace BLCKSZ (BufferGetPage rel b)) ->
  N < InvalidBlockNumber ->
  (P_RIGHTMOST (pd_opaque p) = true
   \/ (block_exists rel s = true /\ cbto_prev (pd_opaque (BufferGetPage rel s)) = L)) ->
  0 <= delta <= 1 ->
  exists parents rel',
    cbt_search_descend (S (S (S fuel))) k root [] rel
    = Ok (mkFrame L (en_offset e) (k - 1) :: parents, L) rel
    /\ BufferIsInvalid L = false
    /\ 1 <= en_offset e < 65534
    /\ (cbt_change_parent parents 1 ;;;
        cbt_insert_on_page BLCKSZ (S (S (S fuel)))
          (mkFrame L (en_offset e + delta) (k - 1) :: parents)
          (CBTFormTuple tid 1) L ;;;
        ret tt) rel = Ok tt rel'
    /\ cbt_tree h rel' = true
    /\ map en_tid (tree_entries h rel')
       = list_insert (Z.to_nat (k - 1 + delta)) tid (map en_tid (tree_entries h rel))
    /\ cbtm_root (metad_of rel') = root
    /\ NoDup (tree_blocks h rel' root)
    /\ RelationGetNumberOfBlocks rel' = N + 1
    /\ leaf_divided h rel rel' L.
Proof.
  intros root L p n N s Ht Hr Hnd Hfuel Hk Htot He Hrootleaf HL0 Hrec Hfull Hn2 Hhole Hblck
         Hparent HN Hsib Hdelta.
  destruct (cbt_tree_facts _ _ Ht) as [_ _ _ _ Hroot].
  destruct (Hroot Hr) as (_ & _ & Hc). fold root in Hc.
  assert (Hfit : 48 + 20 * n <= BLCKSZ).
  { revert Hhole. unfold page_hole, SizeOfPageHeaderData, SizeOfSpecial, sizeof_ItemIdData,
      itemsz. fold n. lia. }
  destruct (search_path h rel root [] k (S (S (S fuel))) e Hc Hfuel) as
    (parents & r & pre & it & post & Hdesc & Hpath & Hitems & Hoff & Hd & Htid & Hrank);
    [cbn [stack_count]; lia | cbn [stack_count]; lia
    | cbn [stack_count]; rewrite Z.sub_0_r; exact He |].
  destruct (insert_along_path h rel root [] k (S (S (S fuel))) e Hc Hnd Hfuel) as
    (parents1 & Hdesc1 & Hin & Hoff1 & Hpar & Hndp & _);
    [cbn [stack_count]; lia | cbn [stack_count]; lia
    | cbn [stack_count]; rewrite Z.sub_0_r; exact He |].
  rewrite Hdesc in Hdesc1.
  assert (Epar : parents1 = parents).
  { rewrite !app_nil_r in Hdesc1. congruence. }
  subst parents1. rewrite app_nil_r in Hdesc. cbn [stack_count] in Hrank.
  fold L in Hdesc, Hpath, Hitems, Hin, Hoff1, Hpar. fold p in Hitems, Hoff1. fold n in Hoff1.
  destruct (tree_blocks_exist h rel root _ Hc Hin) as [Hex Hinv].
  destruct (on_path_blocks _ _ _ _ _ _ Hpath) as (HLleaf & _ & _). fold p in HLleaf.
  destruct parents as [|pf above].
  { exfalso. inversion Hpath as [h0 Hl0 Eh Ech|h0 blk0 pre0 it0 post0 fj ps r0 A B C D E F G];
      [|destruct ps; discriminate].
    unfold L in HLleaf. rewrite <- Ech in Hrootleaf. unfold p, L in HLleaf. congruence. }
  destruct (on_path_head _ _ _ _ _ _ Hpath pf above eq_refl)
    as (ppre & pit & ppost & Pleaf & Pitems & Poff & Pd & Pch).
  destruct (Hpar pf (or_introl eq_refl)) as (Pin & PL & Pitem).
  assert (Hroomp : itemsz <= PageGetFreeSpace BLCKSZ (BufferGetPage rel (cbts_blkno pf))).
  { apply (Hparent _ pit Pin Pleaf); [|exact Pd|exact Pch].
    rewrite Pitems. apply in_or_app. right. left. reflexivity. }
  pose proof (records_fit BLCKSZ _ Hblck Hroomp) as Hplen.
  assert (Hlenits : Z.of_nat (length (page_tuples p)) = n)
    by (unfold page_tuples; rewrite length_map; reflexivity).
  destruct (split_along_run BLCKSZ fuel (mkFrame L (en_offset e) (k - 1)) pf above delta tid
              rel (k - 1))
    as (rel' & Lt & Rt & Hrun & Hcat & Hcache & Hblocks & HNitems & HNflags & HLflags
        & HLnext & Hsplit & Hrest & HNprev & HNnext & HlenL & HprevL & Hprevs);
    cbn [cbts_blkno cbts_offset]; fold p; rewrite ?Hlenits; fold N; try assumption; try lia.
  { intros f Hf. destruct (Hpar f Hf) as (A & B & C).
    destruct (tree_blocks_exist h rel root _ Hc A) as [A1 A2]. auto. }
  { rewrite Pitems, length_app in Hplen. cbn [length] in Hplen. lia. }
  cbn [cbts_blkno cbts_offset] in Hrun, Hcat, Hsplit, Hrest, HNprev, HNnext, HlenL, HprevL,
    Hprevs, HNitems, HNflags, HLflags, HLnext.
  fold N in HNitems, HNflags, HLnext, HNprev.
  fold p in Hcat, HNflags, HLflags, Hsplit, HNnext, HlenL, HprevL, Hprevs.
  rewrite Hlenits in Hsplit, HlenL. fold N in Hrest. fold s in HNnext, HprevL, Hprevs.
  assert (Hunit0 : unit_counts (page_tuples p)) by (apply unit_counts_records; exact Hrec).
  assert (Hunit : unit_counts (Lt ++ Rt)).
  { rewrite Hcat. apply unit_counts_insert; [reflexivity | exact Hunit0]. }
  assert (Hlen : Z.of_nat (length Lt) + Z.of_nat (length Rt) = n + 1).
  { rewrite <- Nat2Z.inj_add, <- length_app, Hcat, length_list_insert.
    unfold page_tuples. rewrite length_map. fold n. lia. }
  destruct (proj1 (Forall_app _ Lt Rt) Hunit) as [HuL HuR].
  assert (Hn16 : n < 1700).
  { revert Hfit Hblck. clear. lia. }
  assert (HcL : uint32 (sum_childcnt Lt) = Z.of_nat (length Lt)).
  { rewrite (sum_unit_counts _ HuL). unfold uint32. apply Z.mod_small. lia. }
  assert (HcR : (if en_offset e + delta <=? n then uint32 (sum_childcnt Rt)
                 else uint32 (sum_childcnt Rt - 1
                              + childcnt (last (page_tuples p) (CBTFormTuple tid 1))))
                = Z.of_nat (length Rt)).
  { rewrite (unit_counts_last _ (CBTFormTuple tid 1) eq_refl Hunit0).
    replace (sum_childcnt Rt - 1 + 1) with (sum_childcnt Rt) by lia.
    rewrite (sum_unit_counts _ HuR).
    destruct (_ <=? _); unfold uint32; apply Z.mod_small; lia. }
  assert (Hprelive : length (live_tids pre) = length pre).
  { rewrite Hitems, forallb_app in Hrec. apply andb_true_iff in Hrec.
    destruct Hrec as [Hrec _]. rewrite (live_tids_records _ Hrec), !length_map.
    reflexivity. }
  assert (Hpre_n : Z.of_nat (length pre) < n).
  { unfold n. rewrite Hitems, length_app. cbn [length]. lia. }
  set (cR := if en_offset e + delta <=? n then uint32 (sum_childcnt Rt)
             else uint32 (sum_childcnt Rt - 1
                          + childcnt (last (page_tuples p) (CBTFormTuple tid 1)))) in *.
  destruct (split_tree h rel rel' L pf above Lt Rt (uint32 (sum_childcnt Lt)) cR tid
              (Z.to_nat (en_offset e + delta - 1)) r Ht Hr HN Hpath Hnd Htot HL0 Hplen Hunit)
    as (T1 & T2 & T3 & T4); try assumption; try lia.
  { rewrite Hcat, map_list_insert, itemptr_CBTFormTuple.
    change (BufferGetPage rel L) with p.
    rewrite (live_tids_records _ Hrec). reflexivity. }
  { change (BufferGetPage rel L) with p.
    rewrite (live_tids_records _ Hrec), !length_map. fold n. lia. }
  exists (pf :: above), rel'.
  split; [exact Hdesc|].
  split; [apply block_exists_iff in Hex; unfold BufferIsInvalid, InvalidBuffer;
          apply Z.eqb_neq; lia|].
  split; [lia|]. split; [exact Hrun|]. split; [exact T1|].
  split; [rewrite T2; f_equal; lia|].
  split; [exact T3|]. split; [exact T4|]. split; [exact Hblocks|].
  (* the pages *)
  destruct (on_path_blocks _ _ _ _ _ _ Hpath) as (_ & _ & Hframes).
  assert (HLN : L <> N).
  { apply block_exists_iff in Hex. fold (RelationGetNumberOfBlocks rel) in Hex. fold N in Hex.
    lia. }
  unfold leaf_divided. fold L. fold N. fold p. fold n. fold s. fold root.
  split.
  { exists Lt, Rt. split; [exact Hunit|]. split; [exact Hlen|]. split; [exact HlenL|].
    split; [|exact HNitems]. rewrite (Hsplit L HLN). unfold split_items.
    rewrite Z.eqb_refl. reflexivity. }
  split; [unfold P_ISLEAF; rewrite HLflags, leaf_flag_kept; exact HLleaf|].
  split; [unfold P_ISLEAF; rewrite HNflags, leaf_flag_kept; exact HLleaf|].
  split; [exact HLnext|]. split; [exact HprevL|]. split; [exact HNprev|].
  split; [exact HNnext|]. split; [exact Hprevs|].
  split.
  { intros b HbL HbN. destruct (Hrest b HbL HbN) as (_ & U2 & _ & U4 & U5). auto. }
  split.
  { intros b HbL HbN Hbleaf. rewrite (Hsplit b HbN). unfold split_items.
    replace (b =? L) with false by (symmetry; apply Z.eqb_neq; exact HbL).
    replace (b =? cbts_blkno pf) with false
      by (symmetry; apply Z.eqb_neq; intros E; rewrite E in Hbleaf; congruence).
    rewrite bumped_other; [reflexivity|].
    intros f Hf E. destruct (Hframes f (or_intror Hf)) as (_ & Hnl).
    rewrite E in Hnl. congruence. }
  exists (cbts_blkno pf), ppre, pit, ppost.
  split; [exact Pin|]. split; [exact Pleaf|]. split; [exact Pitems|].
  split; [exact Pd|]. split; [exact Pch|].
  assert (HpN : cbts_blkno pf <> N).
  { destruct (tree_blocks_exist h rel root _ Hc Pin) as [E _].
    apply block_exists_iff in E. fold (RelationGetNumberOfBlocks rel) in E. fold N in E. lia. }
  split.
  { rewrite (Hsplit _ HpN). unfold split_items.
    replace (cbts_blkno pf =? L) with false by (symmetry; apply Z.eqb_neq; exact PL).
    rewrite Z.eqb_refl, Pitems, Poff.
    replace (Z.to_nat (1 + Z.of_nat (length ppre) - 1)) with (length ppre) by lia.
    replace (Z.to_nat (1 + Z.of_nat (length ppre))) with (S (length ppre)) by lia.
    rewrite list_update_mid, list_insert_after, !map_app. reflexivity. }
  intros b Hbp HbN Hbnl. rewrite (Hsplit b HbN). unfold split_items.
  replace (b =? L) with false
    by (symmetry; apply Z.eqb_neq; intros E; rewrite E in Hbnl; unfold p in HLleaf;
        congruence).
  replace (b =? cbts_blkno pf) with false by (symmetry; apply Z.eqb_neq; exact Hbp).
  apply bumped_shape.
Qed.

Lemma cbtinsert_split_path BLCKSZ h rel fuel pos tid e :
  let root := cbtm_root (metad_of rel) in
  let total := Z.of_nat (length (tree_entries h rel)) in
  let L := en_blkno e in
  let p := BufferGetPage rel L in
  let s := cbto_next (pd_opaque p) in
  cbt_tree h rel = true ->
  NoDup (tree_blocks h rel root) ->
  (h <= S (S (S fuel)))%nat ->
  1 <= uint32 pos ->
  total + 1 < 4294967296 ->
  nth_error (tree_entries h rel) (Z.to_nat (Z.min (uint32 pos) total - 1)) = Some e ->
  P_ISLEAF (pd_opaque (BufferGetPage rel root)) = false ->
  L <> CBT_METAPAGE ->
  forallb record_item (pd_items p) = true ->
  PageGetFreeSpace BLCKSZ p < itemsz ->
  2 <= Z.of_nat (length (pd_items p)) -> 0 <= page_hole BLCKSZ p -> BLCKSZ <= 32768 ->
  (forall b it,
     In b (tree_blocks h rel root) ->
     P_ISLEAF (pd_opaque (BufferGetPage rel b)) = false ->
     In it (pd_items (BufferGetPage rel b)) -> lp_dead it = false -> child_of it = L ->
     itemsz <= PageGetFreeSpace BLCKSZ (BufferGetPage rel b)) ->
  RelationGetNumberOfBlocks rel < InvalidBlockNumber ->
  (P_RIGHTMOST (pd_opaque p) = true
   \/ (block_exists rel s = true /\ cbto_prev (pd_opaque (BufferGetPage rel s)) = L)) ->
  exists rel',
    cbtinsert BLCKSZ (S (S (S fuel))) pos tid rel = Ok true rel'
    /\ cbt_tree h rel' = true
    /\ map en_tid (tree_entries h rel')
       = list_insert (Z.to_nat (Z.min (uint32 pos) (total + 1) - 1)) tid
           (map en_tid (tree_entries h rel))
    /\ NoDup (tree_blocks h rel' (cbtm_root (metad_of rel')))
    /\ RelationGetNumberOfBlocks rel' = RelationGetNumberOfBlocks rel + 1
    /\ cbtm_root (metad_of rel') = root
    /\ leaf_divided h rel rel' L.
Proof.
  intros root total L p s Ht Hnd Hfuel Hpos Htot He Hrootleaf HL0 Hrec Hfull Hn2 Hhole Hblck
         Hparent HN Hsib.
  assert (Hr : cbtm_root (metad_of rel) <> InvalidBlockNumber).
  { intros E. unfold tree_entries in He. apply Z.eqb_eq in E. rewrite E in He.
    destruct (Z.to_nat _); discriminate He. }
  destruct (getroot_settles h rel (S fuel) Ht Hr) as (c & Htc & Hg1 & Hg2).
  destruct rel as [pages c0]. cbn [rd_pages] in *.
  set (relc := mkRel pages c) in *.
  change (cbtm_root (metad_of (mkRel pages c0))) with (cbtm_root (metad_of relc)) in Hg2.
  assert (Hrc : cbtm_root (metad_of relc) <> InvalidBlockNumber) by exact Hr.
  destruct (tree_amcache h pages c0 c root) as (Ac & Ae & Ab). fold relc in Ac, Ae, Ab.
  assert (Hents : tree_entries h relc = tree_entries h (mkRel pages c0)).
  { unfold tree_entries. change (cbtm_root (metad_of relc)) with root.
    fold root. rewrite Ae. reflexivity. }
  assert (Hlive : live_entries h relc root = tree_entries h relc).
  { unfold tree_entries. change (cbtm_root (metad_of relc)) with root.
    apply Z.eqb_neq in Hr. fold root in Hr. rewrite Hr. reflexivity. }
  assert (Hndc : NoDup (tree_blocks h relc (cbtm_root (metad_of relc))))
    by (change (cbtm_root (metad_of relc)) with root; rewrite Ab; exact Hnd).
  assert (Hroot0 : 0 <= cbtm_root (metad_of relc)).
  { destruct (cbt_tree_facts _ _ Htc) as [_ _ _ _ Hroot].
    destruct (Hroot Hrc) as (_ & _ & Hc).
    destruct h as [|h']; [discriminate Hc|].
    destruct (counted_S _ _ _ Hc) as (Hex & _). apply block_exists_iff in Hex. lia. }
  assert (Htotc : Z.of_nat (length (live_entries h relc (cbtm_root (metad_of relc)))) + 1
                  < 4294967296).
  { change (cbtm_root (metad_of relc)) with root. rewrite Hlive, Hents. exact Htot. }
  assert (Hparentc : forall b it,
            In b (tree_blocks h relc (cbtm_root (metad_of relc))) ->
            P_ISLEAF (pd_opaque (BufferGetPage relc b)) = false ->
            In it (pd_items (BufferGetPage relc b)) -> lp_dead it = false ->
            child_of it = en_blkno e ->
            itemsz <= PageGetFreeSpace BLCKSZ (BufferGetPage relc b)).
  { intros b it Hb. change (cbtm_root (metad_of relc)) with root in Hb. rewrite Ab in Hb.
    exact (Hparent b it Hb). }
  assert (Hdiv : forall rel', leaf_divided h relc rel' (en_blkno e) ->
                 leaf_divided h (mkRel pages c0) rel' (en_blkno e)).
  { intros rel' Hd. unfold leaf_divided in *.
    change (cbtm_root (metad_of (mkRel pages c0))) with root.
    change (cbtm_root (metad_of relc)) with root in Hd.
    rewrite Ab in Hd. exact Hd. }
  assert (Hsearch1 : forall k, cbt_search (S (S (S fuel))) k CBT_WRITE (mkRel pages c0)
                     = cbt_search_descend (S (S (S fuel))) k root [] relc).
  { intros k. unfold cbt_search. unfold bind at 1. rewrite Hg1. cbv beta iota.
    unfold BufferIsValid, InvalidBuffer.
    replace (cbtm_root (metad_of (mkRel pages c0)) =? -1) with false
      by (symmetry; apply Z.eqb_neq;
          change (cbtm_root (metad_of (mkRel pages c0))) with (cbtm_root (metad_of relc));
          lia).
    reflexivity. }
  unfold cbtinsert. unfold bind at 1.
  unfold cbt_insert_tuple. unfold bind at 1. rewrite Hsearch1.
  destruct (uint32 pos <=? total) eqn:Ecase.
  - apply Z.leb_le in Ecase.
    replace (Z.min (uint32 pos) total) with (uint32 pos) in He by lia.
    replace (Z.min (uint32 pos) (total + 1)) with (uint32 pos) by lia.
    destruct (split_at_entry BLCKSZ h relc fuel (uint32 pos) 0 tid e Htc Hrc Hndc)
      as (parents & rel' & Hdesc & Hinv & Hoff & Hrun & T1 & T2 & T3 & T4 & T5 & T6);
      try assumption; try lia.
    { change (cbtm_root (metad_of relc)) with root. rewrite Hlive, Hents. exact He. }
    change (cbtm_root (metad_of relc)) with root in Hdesc.
    rewrite Hdesc. cbv beta iota.
    rewrite Hinv. cbn [orb]. unfold bind at 1. unfold ret at 1. cbv beta iota.
    rewrite Z.add_0_r in Hrun. rewrite Hrun. cbv beta iota.
    exists rel'. split; [reflexivity|]. split; [exact T1|].
    split; [rewrite T2, Hents, Z.add_0_r; reflexivity|].
    split; [rewrite T3; exact T4|]. split; [exact T5|]. split; [exact T3|].
    exact (Hdiv rel' T6).
  - apply Z.leb_gt in Ecase.
    replace (Z.min (uint32 pos) total) with total in He by lia.
    replace (Z.min (uint32 pos) (total + 1)) with (total + 1) by lia.
    assert (Htot1 : 1 <= total).
    { destruct (Z.to_nat (total - 1)) eqn:E0;
        destruct (tree_entries h (mkRel pages c0)) eqn:E1; try discriminate He;
        unfold total; cbn [length]; lia. }
    destruct (cbt_tree_facts _ _ Htc) as [_ _ _ _ Hroot].
    destruct (Hroot Hrc) as (_ & _ & Hc).
    pose proof (cbt_search_descend_spec h relc root [] (uint32 pos) (S (S (S fuel))) Hc Hfuel)
      as Hnone.
    cbn [stack_count] in Hnone.
    change (cbtm_root (metad_of relc)) with root in Htotc.
    specialize (Hnone ltac:(lia) ltac:(lia)).
    rewrite Hlive, Hents in Hnone.
    replace (nth_error (tree_entries h (mkRel pages c0)) (Z.to_nat (uint32 pos - 0 - 1)))
      with (@None entry) in Hnone
      by (symmetry; apply nth_error_None; fold total; unfold total in *; lia).
    destruct Hnone as (buf & Hnone). rewrite Hnone. cbv beta iota.
    rewrite orb_true_r. unfold bind at 1. unfold bind at 1.
    rewrite (cbt_find_totalcnt_settled h relc (S (S (S fuel))) Htc Hrc Hg2)
      by (rewrite Hents; fold total; lia).
    cbv beta iota. rewrite Hents. fold total.
    replace (total =? 0) with false by (symmetry; apply Z.eqb_neq; lia).
    unfold bind at 1.
    rewrite (cbt_search_settled relc (S (S (S fuel))) total CBT_WRITE Hg2 Hroot0).
    destruct (split_at_entry BLCKSZ h relc fuel total 1 tid e Htc Hrc Hndc)
      as (parents & rel' & Hdesc & Hinv & Hoff & Hrun & T1 & T2 & T3 & T4 & T5 & T6);
      try assumption; try lia.
    { change (cbtm_root (metad_of relc)) with root. rewrite Hlive, Hents. exact He. }
    rewrite Hdesc. cbn [fst snd]. unfold ret at 1. cbv beta iota.
    unfold bump_offset. cbn [cbts_blkno cbts_offset total_count].
    replace (uint16 (en_offset e + 1)) with (en_offset e + 1)
      by (unfold uint16; rewrite Z.mod_small; lia).
    rewrite Hrun. cbv beta iota.
    exists rel'. split; [reflexivity|]. split; [exact T1|].
    split; [rewrite T2, Hents; f_equal; f_equal; lia|].
    split; [rewrite T3; exact T4|]. split; [exact T5|]. split; [exact T3|].
    exact (Hdiv rel' T6).
Qed.

(** X20.  [cbtinsert] on a counted tree of height two or more whose pages are
    each reached once from the root, when the leaf that holds the entry of
    rank [min pos total] is full and the internal page whose tuple names that
    leaf has room for one more tuple ([pos >= 1] the 32-bit value of the key,
    [total >= 1] the number of live entries): the leaf is split onto one new
    block.  The leaf holds live records only,
    at least two, is not block 0, and its right sibling, if it has one, links
    back to it.  The insert returns true and leaves a counted tree of the
    same height on one block more, again with every page reached once, whose
    heap pointers in rank order are the former ones with the new one put in
    at rank [min pos (total + 1)]. *)
Theorem cbtinsert_leaf_split (BLCKSZ : Z) (h : nat) (rel : Relation) (fuel : nat) (pos : Z)
  (tid : ItemPointerData) (e : entry) :
  let root := cbtm_root (metad_of rel) in
  let total := Z.of_nat (length (tree_entries h rel)) in
  let leaf := BufferGetPage rel (en_blkno e) in
  let next := cbto_next (pd_opaque leaf) in
  cbt_tree h rel = true ->
  NoDup (tree_blocks h rel root) ->
  1 <= uint32 pos ->
  total + 1 < 4294967296 ->
  nth_error (tree_entries h rel) (Z.to_nat (Z.min (uint32 pos) total - 1)) = Some e ->
  P_ISLEAF (pd_opaque (BufferGetPage rel root)) = false ->
  en_blkno e <> CBT_METAPAGE ->
  forallb record_item (pd_items leaf) = true ->
  PageGetFreeSpace BLCKSZ leaf < itemsz ->
  2 <= Z.of_nat (length (pd_items leaf)) -> 0 <= page_hole BLCKSZ leaf -> BLCKSZ <= 32768 ->
  (forall b it,
     In b (tree_blocks h rel root) ->
     P_ISLEAF (pd_opaque (BufferGetPage rel b)) = false ->
     In it (pd_items (BufferGetPage rel b)) -> lp_dead it = false ->
     child_of it = en_blkno e ->
     itemsz <= PageGetFreeSpace BLCKSZ (BufferGetPage rel b)) ->
  RelationGetNumberOfBlocks rel < InvalidBlockNumber ->
  (P_RIGHTMOST (pd_opaque leaf) = true
   \/ (block_exists rel next = true
       /\ cbto_prev (pd_opaque (BufferGetPage rel next)) = en_blkno e)) ->
  (h <= fuel)%nat -> (3 <= fuel)%nat ->
  exists rel',
    cbtinsert BLCKSZ fuel pos tid rel = Ok true rel'
    /\ cbt_tree h rel' = true
    /\ map en_tid (tree_entries h rel')
       = list_insert (Z.to_nat (Z.min (uint32 pos) (total + 1) - 1)) tid
           (map en_tid (tree_entries h rel))
    /\ NoDup (tree_blocks h rel' (cbtm_root (metad_of rel')))
    /\ RelationGetNumberOfBlocks rel' = RelationGetNumberOfBlocks rel + 1.
Proof.
  intros root total leaf next Ht Hnd Hpos Htot He Hrootleaf HL0 Hrec Hfull Hn2 Hhole Hblck
         Hparent HN Hsib Hfuel H3.
  destruct fuel as [|[|[|fuel]]]; try lia.
  destruct (cbtinsert_split_path BLCKSZ h rel fuel pos tid e Ht Hnd Hfuel Hpos Htot He
              Hrootleaf HL0 Hrec Hfull Hn2 Hhole Hblck Hparent HN Hsib)
    as (rel' & H1 & H2 & H4 & H5 & H6 & _).
  exists rel'. auto.
Qed.

(** X21.  Insertion and scan compose across a leaf split: after a [cbtinsert]
    that splits a full leaf below an internal page with room, a scan for rank
    [min pos (total + 1)] returns the inserted heap pointer; a record that
    had a rank below that keeps it, and a record that had that rank or a
    higher one is found one rank further, whichever half of the leaf it is
    on. *)
Theorem cbtinsert_leaf_split_scan_roundtrip (BLCKSZ : Z) (h : nat) (rel : Relation)
  (fuel : nat) (pos : Z) (tid : ItemPointerData) (e : entry) :
  let root := cbtm_root (metad_of rel) in
  let total := Z.of_nat (length (tree_entries h rel)) in
  let o := Z.min (uint32 pos) (total + 1) in
  let leaf := BufferGetPage rel (en_blkno e) in
  let next := cbto_next (pd_opaque leaf) in
  cbt_tree h rel = true ->
  NoDup (tree_blocks h rel root) ->
  1 <= uint32 pos ->
  total + 1 < 4294967296 ->
  nth_error (tree_entries h rel) (Z.to_nat (Z.min (uint32 pos) total - 1)) = Some e ->
  P_ISLEAF (pd_opaque (BufferGetPage rel root)) = false ->
  en_blkno e <> CBT_METAPAGE ->
  forallb record_item (pd_items leaf) = true ->
  PageGetFreeSpace BLCKSZ leaf < itemsz ->
  2 <= Z.of_nat (length (pd_items leaf)) -> 0 <= page_hole BLCKSZ leaf -> BLCKSZ <= 32768 ->
  (forall b it,
     In b (tree_blocks h rel root) ->
     P_ISLEAF (pd_opaque (BufferGetPage rel b)) = false ->
     In it (pd_items (BufferGetPage rel b)) -> lp_dead it = false ->
     child_of it = en_blkno e ->
     itemsz <= PageGetFreeSpace BLCKSZ (BufferGetPage rel b)) ->
  RelationGetNumberOfBlocks rel < InvalidBlockNumber ->
  (P_RIGHTMOST (pd_opaque leaf) = true
   \/ (block_exists rel next = true
       /\ cbto_prev (pd_opaque (BufferGetPage rel next)) = en_blkno e)) ->
  (h < fuel)%nat -> (3 <= fuel)%nat ->
  exists rel',
    cbtinsert BLCKSZ fuel pos tid rel = Ok true rel'
    /\ (exists c, cbtgettuple fuel cbtbeginscan false o rel'
                  = Ok (true, Some tid, mkScan false) (mkRel (rd_pages rel') c))
    /\ forall k t,
         1 <= k ->
         nth_error (map en_tid (tree_entries h rel)) (Z.to_nat (k - 1)) = Some t ->
         exists c, cbtgettuple fuel cbtbeginscan false (if k <? o then k else k + 1) rel'
                   = Ok (true, Some t, mkScan false) (mkRel (rd_pages rel') c).
Proof.
  intros root total o leaf next Ht Hnd Hpos Htot He Hrootleaf HL0 Hrec Hfull Hn2 Hhole Hblck
         Hparent HN Hsib Hfuel H3.
  destruct fuel as [|[|[|fuel]]]; try lia.
  destruct (cbtinsert_split_path BLCKSZ h rel fuel pos tid e Ht Hnd ltac:(lia) Hpos Htot He
              Hrootleaf HL0 Hrec Hfull Hn2 Hhole Hblck Hparent HN Hsib)
    as (rel' & Hrun & Htree & Hent & _).
  fold total in Hent. fold o in Hent.
  exists rel'. split; [exact Hrun|].
  assert (Hlen : Z.of_nat (length (map en_tid (tree_entries h rel))) = total)
    by (rewrite length_map; reflexivity).
  assert (Ho : 1 <= o <= total + 1) by (unfold o; lia).
  assert (Eo : Z.of_nat (Z.to_nat (o - 1)) + 1 = o) by lia.
  pose proof (scan_after_insert h rel' _ _ tid (S (S (S fuel))) Htree Hent) as Hs.
  rewrite Eo in Hs. unfold cbtgettuple, cbtbeginscan. apply Hs; lia.
Qed.

Lemma cbtinsert_leaf_split_witness :
  exists rel',
    cbtinsert 100 3 3 (heap_tid 9) spine_example = Ok true rel'
    /\ cbt_tree 3 rel' = true
    /\ map en_tid (tree_entries 3 rel') = [heap_tid 1; heap_tid 2; heap_tid 9; heap_tid 3]
    /\ RelationGetNumberOfBlocks rel' = 7.
Proof.
  destruct (cbtinsert_leaf_split 100 3 spine_example 3 3 (heap_tid 9)
              (mkEntry 4 2 (heap_tid 3)))
    as (rel' & Hrun & Htree & Hent & _ & Hblocks).
  - vm_compute. reflexivity.
  - vm_compute.
    repeat (apply NoDup_cons;
            [cbn [In]; intros H; repeat destruct H as [H|H]; try discriminate H; exact H|]).
    apply NoDup_nil.
  - vm_compute. discriminate.
  - vm_compute. reflexivity.
  - vm_compute. reflexivity.
  - vm_compute. reflexivity.
  - vm_compute. discriminate.
  - vm_compute. reflexivity.
  - vm_compute. reflexivity.
  - vm_compute. discriminate.
  - vm_compute. discriminate.
  - lia.
  - intros b it Hb. vm_compute in Hb.
    repeat destruct Hb as [<- | Hb]; try contradiction;
      try (vm_compute; discriminate);
      intros _ Hit _ Hch; vm_compute in Hit;
      repeat destruct Hit as [<- | Hit]; try contradiction; vm_compute in Hch;
      discriminate Hch.
  - vm_compute. reflexivity.
  - left. vm_compute. reflexivity.
  - lia.
  - lia.
  - exists rel'. split; [exact Hrun|]. split; [exact Htree|]. split; [exact Hent|].
    exact Hblocks.
Defined.

Lemma cbtinsert_leaf_split_scan_roundtrip_witness :
  exists rel',
    cbtinsert 100 4 3 (heap_tid 9) spine_example = Ok true rel'
    /\ (exists c, cbtgettuple 4 cbtbeginscan false 3 rel'
                  = Ok (true, Some (heap_tid 9), mkScan false) (mkRel (rd_pages rel') c))
    /\ exists c, cbtgettuple 4 cbtbeginscan false 4 rel'
                 = Ok (true, Some (heap_tid 3), mkScan false) (mkRel (rd_pages rel') c).
Proof.
  destruct (cbtinsert_leaf_split_scan_roundtrip 100 3 spine_example 4 3 (heap_tid 9)
              (mkEntry 4 2 (heap_tid 3)))
    as (rel' & Hrun & Hscan & Hold).
  - vm_compute. reflexivity.
  - vm_compute.
    repeat (apply NoDup_cons;
            [cbn [In]; intros H; repeat destruct H as [H|H]; try discriminate H; exact H|]).
    apply NoDup_nil.
  - vm_compute. discriminate.
  - vm_compute. reflexivity.
  - vm_compute. reflexivity.
  - vm_compute. reflexivity.
  - vm_compute. discriminate.
  - vm_compute. reflexivity.
  - vm_compute. reflexivity.
  - vm_compute. discriminate.
  - vm_compute. discriminate.
  - lia.
  - intros b it Hb. vm_compute in Hb.
    repeat destruct Hb as [<- | Hb]; try contradiction;
      try (vm_compute; discriminate);
      intros _ Hit _ Hch; vm_compute in Hit;
      repeat destruct Hit as [<- | Hit]; try contradiction; vm_compute in Hch;
      discriminate Hch.
  - vm_compute. reflexivity.
  - left. vm_compute. reflexivity.
  - lia.
  - lia.
  - assert (H13 : 1 <= 3) by lia.
    exists rel'. split; [exact Hrun|]. split; [exact Hscan|].
    exact (Hold 3 (heap_tid 3) H13 eq_refl).
Defined.

(** ** Capacity *)

Lemma leaf_capacity_spec BLCKSZ :
  20 * leaf_capacity BLCKSZ <= BLCKSZ - 48 < 20 * leaf_capacity BLCKSZ + 20.
Proof.
  unfold leaf_capacity.
  pose proof (Z.div_mod (BLCKSZ - 48) 20 ltac:(lia)) as E.
  pose proof (Z.mod_pos_bound (BLCKSZ - 48) 20 ltac:(lia)) as B. lia.
Qed.

Lemma room_iff BLCKSZ p :
  itemsz <= PageGetFreeSpace BLCKSZ p
  <-> Z.of_nat (length (pd_items p)) + 1 <= leaf_capacity BLCKSZ.
Proof.
  pose proof (leaf_capacity_spec BLCKSZ) as Hc.
  unfold PageGetFreeSpace, page_hole, itemsz, sizeof_ItemIdData, SizeOfPageHeaderData,
    SizeOfSpecial.
  destruct (_ <? 4) eqn:E; [apply Z.ltb_lt in E | apply Z.ltb_ge in E]; lia.
Qed.

Lemma fits_iff BLCKSZ p :
  0 <= page_hole BLCKSZ p <-> Z.of_nat (length (pd_items p)) <= leaf_capacity BLCKSZ.
Proof.
  pose proof (leaf_capacity_spec BLCKSZ) as Hc.
  unfold page_hole, itemsz, sizeof_ItemIdData, SizeOfPageHeaderData, SizeOfSpecial. lia.
Qed.

Lemma leaf_capacity_bounds BLCKSZ :
  88 <= BLCKSZ <= 32768 -> 2 <= leaf_capacity BLCKSZ <= 1636.
Proof. intros H. pose proof (leaf_capacity_spec BLCKSZ). lia. Qed.

(** ** Lists *)

Lemma leaf_entries_blkno blk items :
  forall off e, In e (leaf_entries blk off items) -> en_blkno e = blk.
Proof.
  induction items as [|it items IH]; intros off e H; [contradiction|].
  cbn [leaf_entries] in H. apply in_app_or in H. destruct H as [H|H]; [|eauto].
  destruct (lp_dead it); [contradiction|]. destruct H as [<-|[]]. reflexivity.
Qed.

Lemma shape_all_live l l' :
  map shape l' = map shape l -> all_live l' = all_live l.
Proof.
  revert l'. induction l as [|x l IH]; intros [|y l'] H; try discriminate; [reflexivity|].
  cbn in H. injection H as Hd Hp Hl. unfold all_live in *. cbn [forallb].
  rewrite Hd, (IH l' Hl). reflexivity.
Qed.

Lemma shape_in l l' it' :
  map shape l' = map shape l -> In it' l' -> exists it, In it l /\ shape it = shape it'.
Proof.
  intros H Hin. assert (Hs : In (shape it') (map shape l)) by (rewrite <- H; apply in_map; auto).
  apply in_map_iff in Hs. destruct Hs as (it & E & Hit). eauto.
Qed.

Lemma shape_child it it' : shape it = shape it' -> child_of it = child_of it'.
Proof. unfold shape, child_of. intros H. injection H as _ E. rewrite E. reflexivity. Qed.

Lemma flat_map_at_least {A B} (f : A -> list B) (m : Z) l :
  0 <= m ->
  (forall x, In x l -> m <= Z.of_nat (length (f x))) ->
  m * Z.of_nat (length l) <= Z.of_nat (length (flat_map f l)).
Proof.
  intros Hm. induction l as [|x l IH]; intros H; [cbn; lia|].
  cbn [flat_map length]. rewrite length_app.
  pose proof (H x (or_introl eq_refl)).
  assert (m * Z.of_nat (length l) <= Z.of_nat (length (flat_map f l)))
    by (apply IH; intros y Hy; apply H; right; exact Hy).
  lia.
Qed.

(** ** The pages of an internal root over leaves *)

Lemma leaves_below_root_blocks BLCKSZ rel b :
  leaves_below_root BLCKSZ rel ->
  In b (tree_blocks 2 rel (cbtm_root (metad_of rel))) ->
  b = cbtm_root (metad_of rel)
  \/ exists it, In it (pd_items (BufferGetPage rel (cbtm_root (metad_of rel))))
                /\ b = child_of it.
Proof.
  intros (_ & _ & Hnl & _ & _ & _ & Hkids) Hb.
  rewrite tree_blocks_step, Hnl in Hb. destruct Hb as [Hb|Hb]; [left; auto|].
  right. apply in_flat_map in Hb. destruct Hb as (it & Hit & Hb). exists it.
  split; [exact Hit|]. destruct (lp_dead it); [contradiction|].
  destruct (Hkids it Hit) as (_ & Hleaf & _).
  rewrite tree_blocks_step, Hleaf in Hb. destruct Hb as [Hb|[]]. auto.
Qed.

Lemma leaves_below_root_entries BLCKSZ rel :
  leaves_below_root BLCKSZ rel ->
  forall e, In e (tree_entries 2 rel) ->
    exists it, In it (pd_items (BufferGetPage rel (cbtm_root (metad_of rel))))
               /\ en_blkno e = child_of it.
Proof.
  intros (_ & Hr & Hnl & _ & _ & _ & Hkids) e He.
  unfold tree_entries in He. apply Z.eqb_neq in Hr. rewrite Hr in He.
  rewrite live_entries_step, Hnl in He.
  apply in_flat_map in He. destruct He as (it & Hit & He). exists it.
  split; [exact Hit|]. destruct (lp_dead it); [contradiction|].
  destruct (Hkids it Hit) as (_ & Hleaf & _).
  rewrite live_entries_step, Hleaf in He. apply leaf_entries_blkno in He. exact He.
Qed.

(** The entries of an internal root over leaves are at least as many as
    half the capacity of a leaf for each tuple of the root. *)
Lemma leaves_below_root_total BLCKSZ rel :
  0 <= leaf_capacity BLCKSZ ->
  leaves_below_root BLCKSZ rel ->
  leaf_capacity BLCKSZ / 2
  * Z.of_nat (length (pd_items (BufferGetPage rel (cbtm_root (metad_of rel)))))
  <= Z.of_nat (length (tree_entries 2 rel)).
Proof.
  intros Hc (_ & Hr & Hnl & _ & _ & Hlive & Hkids).
  unfold tree_entries. apply Z.eqb_neq in Hr. rewrite Hr.
  rewrite live_entries_step, Hnl.
  apply flat_map_at_least; [apply Z.div_pos; lia|].
  intros it Hit.
  assert (Hd : lp_dead it = false).
  { unfold all_live in Hlive. rewrite forallb_forall in Hlive.
    apply negb_true_iff. apply Hlive. exact Hit. }
  rewrite Hd. destruct (Hkids it Hit) as (_ & Hleaf & Hrec & Hocc & _).
  rewrite live_entries_step, Hleaf.
  rewrite <- (length_map en_tid), (leaf_entries_records _ _ 1 Hrec), length_map. lia.
Qed.

(** ** Insertion into a root leaf *)

Lemma single_leaf_entries rel :
  root_leaf_of_records rel = true ->
  tree_entries 2 rel = tree_entries 1 rel
  /\ Z.of_nat (length (tree_entries 1 rel))
     = Z.of_nat (length (pd_items (BufferGetPage rel (cbtm_root (metad_of rel))))).
Proof.
  intros H. destruct (root_leaf_of_records_facts _ H) as (Ht & Hr & Hl & Hi & Hex & Hn).
  split.
  - unfold tree_entries. destruct (_ =? _); [reflexivity|].
    rewrite !live_entries_step, Hl. reflexivity.
  - rewrite <- (length_map en_tid), (tree_entries_records _ H), length_map. reflexivity.
Qed.

Lemma single_room_step BLCKSZ rel fuel pos tid :
  BLCKSZ <= 32768 ->
  single_leaf BLCKSZ rel ->
  1 <= uint32 pos ->
  itemsz <= PageGetFreeSpace BLCKSZ (BufferGetPage rel (cbtm_root (metad_of rel))) ->
  let total := Z.of_nat (length (tree_entries 2 rel)) in
  exists rel',
    cbtinsert BLCKSZ (S (S fuel)) pos tid rel = Ok true rel'
    /\ single_leaf BLCKSZ rel'
    /\ map en_tid (tree_entries 2 rel')
       = list_insert (Z.to_nat (Z.min (uint32 pos) (total + 1) - 1)) tid
           (map en_tid (tree_entries 2 rel))
    /\ RelationGetNumberOfBlocks rel' = RelationGetNumberOfBlocks rel.
Proof.
  intros Hblck (Hleaf & Hroot0 & Hright & Hcap) Hpos Hroom total.
  destruct (root_leaf_of_records_facts _ Hleaf) as (Ht & Hr & Hl & Hi & Hex & Hn).
  destruct (single_leaf_entries _ Hleaf) as [E21 Elen].
  destruct (cbtinsert_records BLCKSZ rel fuel pos tid Hleaf Hroom Hblck) as (c & Hrun).
  cbv zeta in Hrun. destruct Hrun as (Hrun & Hleaf' & Hent).
  set (root := cbtm_root (metad_of rel)) in *.
  set (n := Z.of_nat (length (pd_items (BufferGetPage rel root)))) in *.
  set (i := Z.to_nat (insert_offset (uint32 pos) n - 1)) in *.
  set (rel' := modify_page root _ (mkRel (rd_pages rel) c)) in *.
  assert (Epage : forall b, BufferGetPage (mkRel (rd_pages rel) c) b = BufferGetPage rel b)
    by (intros b; destruct rel; reflexivity).
  assert (Hex1 : block_exists (mkRel (rd_pages rel) c) root = true) by exact Hex.
  assert (Hroot' : cbtm_root (metad_of rel') = root).
  { unfold metad_of, rel'. rewrite BufferGetPage_modify_other by exact Hroot0.
    rewrite Epage. reflexivity. }
  assert (Hpage' : BufferGetPage rel' root
                   = set_items (BufferGetPage rel root)
                       (list_insert i (mkItem false (mkTuple tid 1))
                          (pd_items (BufferGetPage rel root)))).
  { unfold rel'. rewrite BufferGetPage_modify_same by exact Hex1. rewrite Epage.
    reflexivity. }
  exists rel'. split; [exact Hrun|].
  destruct (single_leaf_entries _ Hleaf') as [E21' _].
  split.
  - unfold single_leaf. rewrite Hroot', Hpage'. cbn [set_items pd_opaque pd_items].
    split; [exact Hleaf'|]. split; [exact Hroot0|]. split; [exact Hright|].
    rewrite length_list_insert. apply room_iff in Hroom. fold n in Hroom. lia.
  - split; [|unfold rel'; rewrite blocks_modify; reflexivity].
    rewrite E21', Hent, E21. f_equal. unfold i, insert_offset, total.
    rewrite E21, Elen. fold n. lia.
Qed.

Lemma single_full_step BLCKSZ rel fuel pos tid :
  88 <= BLCKSZ <= 32768 ->
  single_leaf BLCKSZ rel ->
  1 <= uint32 pos ->
  PageGetFreeSpace BLCKSZ (BufferGetPage rel (cbtm_root (metad_of rel))) < itemsz ->
  RelationGetNumberOfBlocks rel + 1 < InvalidBlockNumber ->
  let total := Z.of_nat (length (tree_entries 2 rel)) in
  exists rel',
    cbtinsert BLCKSZ (S (S (S fuel))) pos tid rel = Ok true rel'
    /\ leaves_below_root BLCKSZ rel'
    /\ map en_tid (tree_entries 2 rel')
       = list_insert (Z.to_nat (Z.min (uint32 pos) (total + 1) - 1)) tid
           (map en_tid (tree_entries 2 rel))
    /\ RelationGetNumberOfBlocks rel' = RelationGetNumberOfBlocks rel + 2.
Proof.
  intros Hblck (Hleaf & Hroot0 & Hright & Hcap) Hpos Hfull HN total.
  destruct (root_leaf_of_records_facts _ Hleaf) as (Ht & Hr & Hl & Hi & Hex & Hn).
  destruct (single_leaf_entries _ Hleaf) as [E21 Elen].
  pose proof (leaf_capacity_bounds BLCKSZ Hblck) as HC.
  set (root := cbtm_root (metad_of rel)) in *.
  set (p := BufferGetPage rel root) in *.
  set (n := Z.of_nat (length (pd_items p))) in *.
  set (C := leaf_capacity BLCKSZ) in *.
  assert (HnC : n = C).
  { destruct (Z_lt_le_dec n C) as [Hlt|Hge]; [|lia].
    exfalso. assert (itemsz <= PageGetFreeSpace BLCKSZ p) by (apply room_iff; fold n C; lia).
    lia. }
  destruct (cbtinsert_root_split_pages BLCKSZ rel fuel pos tid Hleaf) as
    (rel' & Hrun & Htree & Hent & Hblocks & Lt & Rt & Hdiv);
    fold root; fold p; fold n; try assumption; try lia.
  { apply fits_iff. fold n C. lia. }
  unfold root_leaf_divided in Hdiv. fold root in Hdiv. fold p in Hdiv. fold n in Hdiv.
  set (N := RelationGetNumberOfBlocks rel) in *.
  destruct Hdiv as (Hroot' & Hunit & Hlen & HlenL & HLitems & HLopq & HNitems & HNopq
                    & Hpshape & Hpflags).
  rewrite length_app, Nat2Z.inj_add in Hlen. rewrite HnC in Hlen, HlenL.
  destruct (proj1 (Forall_app _ Lt Rt) Hunit) as [HuL HuR].
  assert (HrN : 0 <= root < N).
  { apply block_exists_iff in Hex. fold (RelationGetNumberOfBlocks rel) in Hex. exact Hex. }
  assert (Hex' : forall b, 0 <= b < N + 2 -> block_exists rel' b = true).
  { intros b Hb. apply block_exists_iff. fold (RelationGetNumberOfBlocks rel').
    rewrite Hblocks. exact Hb. }
  assert (HC2 : 1 <= C / 2 /\ C / 2 + C / 2 <= C /\ C <= C / 2 + C / 2 + 1).
  { pose proof (Z.div_mod C 2 ltac:(lia)). pose proof (Z.mod_pos_bound C 2 ltac:(lia)).
    lia. }
  (* the tuples of the new root *)
  destruct (pd_items (BufferGetPage rel' (N + 1))) as [|a [|b [|]]] eqn:Eitems;
    try discriminate Hpshape.
  cbn [map] in Hpshape. unfold shape in Hpshape.
  injection Hpshape as Had Hap Hbd Hbp.
  assert (Hca : child_of a = root) by (unfold child_of; rewrite Hap; reflexivity).
  assert (Hcb : child_of b = N) by (unfold child_of; rewrite Hbp; reflexivity).
  assert (HLleaf : P_ISLEAF (pd_opaque (BufferGetPage rel' root)) = true).
  { rewrite HLopq. unfold P_ISLEAF. cbn [cbto_flags]. rewrite leaf_flag_kept. exact Hl. }
  assert (HNleaf : P_ISLEAF (pd_opaque (BufferGetPage rel' N)) = true).
  { rewrite HNopq. unfold P_ISLEAF. cbn [cbto_flags]. rewrite leaf_flag_kept. exact Hl. }
  assert (Hpleaf : P_ISLEAF (pd_opaque (BufferGetPage rel' (N + 1))) = false).
  { unfold P_ISLEAF. rewrite Hpflags. reflexivity. }
  exists rel'. split; [exact Hrun|].
  split.
  - unfold leaves_below_root. rewrite Hroot', Eitems.
    split; [exact Htree|]. split; [unfold InvalidBlockNumber in *; lia|].
    split; [exact Hpleaf|].
    split.
    { rewrite tree_blocks_step, Hpleaf, Eitems. cbn [flat_map]. rewrite Had, Hbd, Hca, Hcb.
      rewrite !tree_blocks_step, HLleaf, HNleaf. cbn [app].
      repeat (apply NoDup_cons; [cbn [In]; lia|]). apply NoDup_nil. }
    split; [discriminate|].
    split; [unfold all_live; cbn [forallb]; rewrite Had, Hbd; reflexivity|].
    intros it [<-|[<-|[]]].
    + rewrite Hca. unfold leaf_ok. rewrite HLitems, HLopq. cbn [cbto_next cbto_prev].
      fold C. split; [exact Hroot0|]. split; [rewrite <- HLopq; exact HLleaf|].
      split; [apply records_live_items; exact HuL|].
      split; [unfold live_items; rewrite length_map; lia|].
      split; [lia|]. right. split; [apply Hex'; lia|].
      rewrite HNopq. reflexivity.
    + rewrite Hcb. unfold leaf_ok. rewrite HNitems, HNopq. cbn [cbto_next cbto_prev].
      fold C. split; [unfold CBT_METAPAGE; lia|]. split; [rewrite <- HNopq; exact HNleaf|].
      split; [apply records_live_items; exact HuR|].
      split; [unfold live_items; rewrite length_map; lia|].
      split; [unfold InvalidBlockNumber in *; lia|]. left. reflexivity.
  - split; [|exact Hblocks].
    rewrite Hent, E21. f_equal. unfold insert_offset, total.
    rewrite E21, Elen. fold root. fold p. fold n. lia.
Qed.

(** ** Insertion below an internal root over leaves *)

Lemma leaves_below_root_leaf BLCKSZ rel e :
  leaves_below_root BLCKSZ rel ->
  In e (tree_entries 2 rel) ->
  leaf_ok BLCKSZ rel (en_blkno e)
  /\ In (en_blkno e) (tree_blocks 2 rel (cbtm_root (metad_of rel)))
  /\ en_blkno e <> cbtm_root (metad_of rel).
Proof.
  intros Hinv He.
  destruct (leaves_below_root_entries _ _ Hinv e He) as (it & Hit & Eb).
  destruct Hinv as (_ & _ & Hnl & _ & _ & Hlive & Hkids).
  pose proof (Hkids it Hit) as Hok. rewrite <- Eb in Hok.
  split; [exact Hok|]. split.
  - rewrite Eb. apply (tree_blocks_child 1 rel _ it); [exact Hnl | exact Hit | |].
    + unfold all_live in Hlive. rewrite forallb_forall in Hlive.
      apply negb_true_iff. apply Hlive. exact Hit.
    + rewrite tree_blocks_step. left. reflexivity.
  - intros E. destruct Hok as (_ & Hleaf & _). rewrite E in Hleaf. congruence.
Qed.

Lemma leaves_below_root_nonleaf BLCKSZ rel b :
  leaves_below_root BLCKSZ rel ->
  In b (tree_blocks 2 rel (cbtm_root (metad_of rel))) ->
  P_ISLEAF (pd_opaque (BufferGetPage rel b)) = false ->
  b = cbtm_root (metad_of rel).
Proof.
  intros Hinv Hb Hnl.
  destruct (leaves_below_root_blocks _ _ _ Hinv Hb) as [E|(it & Hit & E)]; [exact E|].
  destruct Hinv as (_ & _ & _ & _ & _ & _ & Hkids).
  destruct (Hkids it Hit) as (_ & Hleaf & _). rewrite <- E in Hleaf. congruence.
Qed.

Lemma grown_room_step BLCKSZ rel fuel pos tid e :
  88 <= BLCKSZ <= 32768 ->
  leaves_below_root BLCKSZ rel ->
  let total := Z.of_nat (length (tree_entries 2 rel)) in
  1 <= uint32 pos ->
  total + 1 < 4294967296 ->
  nth_error (tree_entries 2 rel) (Z.to_nat (Z.min (uint32 pos) total - 1)) = Some e ->
  itemsz <= PageGetFreeSpace BLCKSZ (BufferGetPage rel (en_blkno e)) ->
  exists rel',
    cbtinsert BLCKSZ (S (S (S fuel))) pos tid rel = Ok true rel'
    /\ leaves_below_root BLCKSZ rel'
    /\ map en_tid (tree_entries 2 rel')
       = list_insert (Z.to_nat (Z.min (uint32 pos) (total + 1) - 1)) tid
           (map en_tid (tree_entries 2 rel))
    /\ RelationGetNumberOfBlocks rel' = RelationGetNumberOfBlocks rel.
Proof.
  intros Hblck Hinv total Hpos Htot He Hroom.
  destruct (leaves_below_root_leaf _ _ e Hinv (nth_error_In _ _ He)) as (HokL & HinL & HLroot).
  pose proof Hinv as (Ht & Hr & Hnl & Hnd & Hne & Hlive & Hkids).
  destruct (cbtinsert_along_pages BLCKSZ 2 rel (S fuel) pos tid e Ht Hnd ltac:(lia) Hpos Htot
              He Hroom ltac:(lia))
    as (rel' & Hrun & Htree & Hent & Hnd' & Hblocks & Hroot' & G1 & (i & G2) & G3 & G4).
  set (root := cbtm_root (metad_of rel)) in *.
  set (L := en_blkno e) in *.
  assert (Hexs : forall b, block_exists rel' b = block_exists rel b)
    by (intros b; rewrite !block_exists_blocks, Hblocks; reflexivity).
  exists rel'. split; [exact Hrun|]. split; [|split; [exact Hent | exact Hblocks]].
  unfold leaves_below_root. rewrite Hroot'. fold root.
  split; [exact Htree|]. split; [exact Hr|]. split; [rewrite G1; exact Hnl|].
  split; [rewrite Hroot' in Hnd'; exact Hnd'|].
  pose proof (G3 root (not_eq_sym HLroot)) as Hshape.
  split.
  { intros E. rewrite E in Hshape. destruct (pd_items (BufferGetPage rel root));
      [apply Hne; reflexivity | discriminate Hshape]. }
  split; [rewrite (shape_all_live _ _ Hshape); exact Hlive|].
  intros it' Hit'.
  destruct (shape_in _ _ it' Hshape Hit') as (it & Hit & Es).
  rewrite <- (shape_child _ _ Es).
  destruct (Hkids it Hit) as (K1 & K2 & K3 & K4 & K5 & K6).
  set (b := child_of it) in *.
  unfold leaf_ok. rewrite !G1, Hexs.
  split; [exact K1|]. split; [exact K2|].
  destruct (Z.eq_dec b L) as [E|E].
  - rewrite E in *. rewrite G2, length_list_insert.
    split; [apply forallb_list_insert; [reflexivity | exact K3]|].
    apply room_iff in Hroom. fold L in Hroom.
    split; [lia|]. split; [exact K5 | exact K6].
  - rewrite (G4 b E K2). auto.
Qed.

Lemma grown_full_step BLCKSZ rel fuel pos tid e :
  88 <= BLCKSZ <= 32768 ->
  leaves_below_root BLCKSZ rel ->
  let total := Z.of_nat (length (tree_entries 2 rel)) in
  1 <= uint32 pos ->
  total < leaf_capacity BLCKSZ / 2 * leaf_capacity BLCKSZ ->
  nth_error (tree_entries 2 rel) (Z.to_nat (Z.min (uint32 pos) total - 1)) = Some e ->
  PageGetFreeSpace BLCKSZ (BufferGetPage rel (en_blkno e)) < itemsz ->
  RelationGetNumberOfBlocks rel < InvalidBlockNumber ->
  exists rel',
    cbtinsert BLCKSZ (S (S (S fuel))) pos tid rel = Ok true rel'
    /\ leaves_below_root BLCKSZ rel'
    /\ map en_tid (tree_entries 2 rel')
       = list_insert (Z.to_nat (Z.min (uint32 pos) (total + 1) - 1)) tid
           (map en_tid (tree_entries 2 rel))
    /\ RelationGetNumberOfBlocks rel' = RelationGetNumberOfBlocks rel + 1.
Proof.
  intros Hblck Hinv total Hpos Htot He Hfull HN.
  destruct (leaves_below_root_leaf _ _ e Hinv (nth_error_In _ _ He)) as (HokL & HinL & HLroot).
  pose proof (leaf_capacity_bounds BLCKSZ Hblck) as HC.
  pose proof (leaves_below_root_total BLCKSZ rel ltac:(lia) Hinv) as Hsum.
  pose proof Hinv as (Ht & Hr & Hnl & Hnd & Hne & Hlive & Hkids).
  set (root := cbtm_root (metad_of rel)) in *.
  set (L := en_blkno e) in *.
  set (C := leaf_capacity BLCKSZ) in *.
  set (N := RelationGetNumberOfBlocks rel) in *.
  fold total in Hsum.
  assert (HC2 : 1 <= C / 2 /\ C / 2 + C / 2 <= C /\ C <= C / 2 + C / 2 + 1).
  { pose proof (Z.div_mod C 2 ltac:(lia)). pose proof (Z.mod_pos_bound C 2 ltac:(lia)).
    lia. }
  assert (Hfan : Z.of_nat (length (pd_items (BufferGetPage rel root))) + 1 <= C).
  { destruct (Z_lt_le_dec (Z.of_nat (length (pd_items (BufferGetPage rel root)))) C)
      as [Hlt|Hge]; [lia|].
    exfalso. assert (C / 2 * C <= C / 2 * Z.of_nat (length (pd_items (BufferGetPage rel root))))
      by (apply Z.mul_le_mono_nonneg_l; lia).
    lia. }
  assert (Htot32 : total + 1 < 4294967296).
  { assert (C / 2 * C <= 1636 * 1636) by (apply Z.mul_le_mono_nonneg; lia). lia. }
  destruct HokL as (L1 & L2 & L3 & L4 & L5 & L6).
  set (p := BufferGetPage rel L) in *.
  set (n := Z.of_nat (length (pd_items p))) in *.
  set (s := cbto_next (pd_opaque p)) in *.
  assert (HnC : n = C).
  { destruct (Z_lt_le_dec n C) as [Hlt|Hge]; [|lia].
    exfalso. assert (itemsz <= PageGetFreeSpace BLCKSZ p) by (apply room_iff; fold n C; lia).
    lia. }
  destruct (cbtinsert_split_path BLCKSZ 2 rel fuel pos tid e Ht Hnd ltac:(lia) Hpos Htot32 He
              Hnl L1 L3 Hfull)
    as (rel' & Hrun & Htree & Hent & Hnd' & Hblocks & Hroot' & Hdiv);
    fold L; fold p; fold n; try assumption; try lia.
  { apply fits_iff. fold n C. lia. }
  { intros b it Hb Hbnl _ _ _.
    rewrite (leaves_below_root_nonleaf _ _ _ Hinv Hb Hbnl). fold root.
    apply room_iff. fold C. exact Hfan. }
  fold root in Hroot', Hnd'. fold N in Hblocks. fold L in Hdiv.
  unfold leaf_divided in Hdiv. fold N in Hdiv. fold p in Hdiv. fold n in Hdiv.
  fold s in Hdiv. fold root in Hdiv.
  destruct Hdiv as ((Lt & Rt & Hunit & Hlen & HlenL & HLitems & HNitems) & HLleaf' & HNleaf'
                    & HLnext & HLprev & HNprev & HNnext & Hsprev & Hothers & Hleaves
                    & pb & pre & it0 & post & Hpb & Hpbnl & Hpitems & Hd0 & Hch0 & Hpshape
                    & _).
  rewrite HnC in Hlen, HlenL.
  destruct (proj1 (Forall_app _ Lt Rt) Hunit) as [HuL HuR].
  assert (Epb : pb = root) by (apply (leaves_below_root_nonleaf _ _ _ Hinv Hpb Hpbnl)).
  subst pb.
  destruct (cbt_tree_facts _ _ Ht) as [Hm _ _ _ _].
  assert (HN1 : 1 <= N).
  { apply block_exists_iff in Hm. fold (RelationGetNumberOfBlocks rel) in Hm. fold N in Hm.
    unfold CBT_METAPAGE in Hm. lia. }
  assert (Hold : forall b, block_exists rel b = true -> b <> N /\ block_exists rel' b = true).
  { intros b E. apply block_exists_iff in E. fold (RelationGetNumberOfBlocks rel) in E.
    fold N in E. split; [lia|].
    apply block_exists_iff. fold (RelationGetNumberOfBlocks rel'). rewrite Hblocks. lia. }
  assert (HNex : block_exists rel' N = true).
  { apply block_exists_iff. fold (RelationGetNumberOfBlocks rel'). rewrite Hblocks. lia. }
  destruct (tree_blocks_exist 2 rel root L) as [HLex _]; [|exact HinL|].
  { destruct (cbt_tree_facts _ _ Ht) as [_ _ _ _ Hroot]. destruct (Hroot Hr) as (_ & _ & Hc).
    exact Hc. }
  destruct (Hold L HLex) as [HLN _].
  assert (Hrootex : block_exists rel root = true).
  { destruct (cbt_tree_facts _ _ Ht) as [_ _ _ _ Hroot]. destruct (Hroot Hr) as (_ & _ & Hc).
    destruct (counted_S _ _ _ Hc) as (E & _). exact E. }
  destruct (Hold root Hrootex) as [HrootN _].
  assert (HsN : s <> N).
  { destruct L6 as [L6|[L6 _]].
    - unfold P_RIGHTMOST in L6. apply Z.eqb_eq in L6. fold p in L6. fold s in L6. lia.
    - fold p in L6. fold s in L6. destruct (Hold s L6) as [E _]. exact E. }
  exists rel'. split; [exact Hrun|]. split; [|split; [exact Hent | exact Hblocks]].
  unfold leaves_below_root. rewrite Hroot'.
  split; [exact Htree|]. split; [exact Hr|].
  split.
  { destruct (Hothers root (not_eq_sym HLroot) HrootN) as (U & _).
    unfold P_ISLEAF in *. rewrite U. exact Hnl. }
  split; [rewrite Hroot' in Hnd'; exact Hnd'|].
  set (rt0 := mkItem false (mkTuple (mkItemPointer N 1) 0)) in *.
  split.
  { intros E. rewrite E in Hpshape. destruct pre; discriminate Hpshape. }
  split.
  { rewrite (shape_all_live _ _ Hpshape). rewrite Hpitems in Hlive.
    unfold all_live in *. rewrite forallb_app in *. cbn [forallb] in *.
    apply andb_true_iff in Hlive. destruct Hlive as [Hl1 Hl2].
    apply andb_true_iff in Hl2. destruct Hl2 as [Hl2 Hl3].
    rewrite Hl1, Hl2, Hl3. reflexivity. }
  (* the links of a leaf that keeps its records *)
  assert (Hkept : forall b, b <> L -> leaf_ok BLCKSZ rel b -> block_exists rel b = true ->
                            leaf_ok BLCKSZ rel' b).
  { intros b HbL (K1 & K2 & K3 & K4 & K5 & K6) Hbex.
    destruct (Hold b Hbex) as [HbN _].
    destruct (Hothers b HbL HbN) as (U1 & U2 & U3).
    unfold leaf_ok. rewrite (Hleaves b HbL HbN K2), U2.
    split; [exact K1|]. split; [unfold P_ISLEAF in *; rewrite U1; exact K2|].
    split; [exact K3|]. split; [exact K4|]. split; [exact K5|].
    destruct K6 as [K6|[K6 K7]]; [left; unfold P_RIGHTMOST in *; rewrite U2; exact K6|].
    right. destruct (Hold _ K6) as [HsN' Hsex']. split; [exact Hsex'|].
    destruct (Z.eq_dec (cbto_next (pd_opaque (BufferGetPage rel b))) L) as [E|E].
    - rewrite E in *. rewrite (HLprev L5). exact K7.
    - destruct (Hothers _ E HsN') as (_ & _ & [V|[V _]]); [rewrite V; exact K7|].
      congruence. }
  intros it' Hit'.
  destruct (shape_in _ _ it' Hpshape Hit') as (x & Hx & Es).
  rewrite <- (shape_child _ _ Es).
  assert (Hcases : x = rt0 \/ In x (pd_items (BufferGetPage rel root))).
  { rewrite Hpitems. apply in_app_or in Hx. destruct Hx as [Hx|[Hx|[Hx|Hx]]].
    - right. apply in_or_app. left. exact Hx.
    - right. apply in_or_app. right. left. exact Hx.
    - left. symmetry. exact Hx.
    - right. apply in_or_app. right. right. exact Hx. }
  destruct Hcases as [->|Hxold].
  - (* the new leaf *)
    change (child_of rt0) with N. unfold leaf_ok. rewrite HNitems, HNnext. fold C.
    split; [unfold CBT_METAPAGE; lia|]. split; [exact HNleaf'|].
    split; [apply records_live_items; exact HuR|].
    split; [unfold live_items; rewrite length_map; lia|].
    split; [exact HsN|].
    destruct (P_RIGHTMOST (pd_opaque p)) eqn:Eright.
    + left. unfold P_RIGHTMOST in *. rewrite HNnext. exact Eright.
    + right. destruct L6 as [L6|[L6 _]]; [discriminate L6|].
      destruct (Hold s L6) as [_ E]. split; [exact E|]. apply Hsprev. reflexivity.
  - destruct (Z.eq_dec (child_of x) L) as [E|E].
    + (* the leaf that was split *)
      rewrite E. unfold leaf_ok. rewrite HLitems, HLnext. fold C.
      split; [exact L1|]. split; [exact HLleaf'|].
      split; [apply records_live_items; exact HuL|].
      split; [unfold live_items; rewrite length_map; lia|].
      split; [lia|]. right. split; [exact HNex | exact HNprev].
    + apply Hkept; [exact E | apply Hkids; exact Hxold|].
      destruct (tree_blocks_exist 2 rel root (child_of x)) as [Hbex _]; [| |exact Hbex].
      * destruct (cbt_tree_facts _ _ Ht) as [_ _ _ _ Hroot].
        destruct (Hroot Hr) as (_ & _ & Hc). exact Hc.
      * apply (tree_blocks_child 1 rel root x); [exact Hnl | exact Hxold | |].
        -- unfold all_live in Hlive. rewrite forallb_forall in Hlive.
           apply negb_true_iff. apply Hlive. exact Hxold.
        -- rewrite tree_blocks_step. left. reflexivity.
Qed.

Lemma cbt_tree_positional BLCKSZ rel : positional BLCKSZ rel -> cbt_tree 2 rel = true.
Proof.
  intros [(Hleaf & _)|(Ht & _)]; [|exact Ht].
  destruct (root_leaf_of_records_facts _ Hleaf) as (Ht & Hr & Hl & Hi & Hex & Hn).
  destruct (cbt_tree_facts _ _ Ht) as [Hm Hf Hg Hco Hroot].
  destruct (Hroot Hr) as (Hig & Hlev & Hc).
  unfold cbt_tree in *. rewrite Hf, Hg, Hco, Hig, Hlev.
  apply block_exists_iff in Hm. unfold CBT_METAPAGE in Hm.
  replace (0 <? RelationGetNumberOfBlocks rel) with true
    by (symmetry; apply Z.ltb_lt; unfold RelationGetNumberOfBlocks; lia).
  rewrite !Z.eqb_refl. cbn [negb andb].
  rewrite counted_step in *. rewrite Hl in *. rewrite Hc. apply orb_true_r.
Qed.

(** One insertion into a tree that insertions left, while the root has
    room. *)
Lemma positional_step BLCKSZ rel fuel pos tid :
  88 <= BLCKSZ <= 32768 ->
  positional BLCKSZ rel ->
  let total := Z.of_nat (length (tree_entries 2 rel)) in
  1 <= uint32 pos ->
  total < leaf_capacity BLCKSZ / 2 * leaf_capacity BLCKSZ ->
  RelationGetNumberOfBlocks rel + 1 < InvalidBlockNumber ->
  exists rel',
    cbtinsert BLCKSZ (S (S (S fuel))) pos tid rel = Ok true rel'
    /\ positional BLCKSZ rel'
    /\ map en_tid (tree_entries 2 rel')
       = list_insert (Z.to_nat (Z.min (uint32 pos) (total + 1) - 1)) tid
           (map en_tid (tree_entries 2 rel))
    /\ RelationGetNumberOfBlocks rel' <= RelationGetNumberOfBlocks rel + 2.
Proof.
  intros Hblck [Hs|Hg] total Hpos Htot HN.
  - destruct (Z_le_gt_dec itemsz
                (PageGetFreeSpace BLCKSZ (BufferGetPage rel (cbtm_root (metad_of rel)))))
      as [Hroom|Hfull].
    + destruct (single_room_step BLCKSZ rel (S fuel) pos tid ltac:(lia) Hs Hpos Hroom)
        as (rel' & H1 & H2 & H3 & H4).
      exists rel'. split; [exact H1|]. split; [left; exact H2|]. split; [exact H3 | lia].
    + destruct (single_full_step BLCKSZ rel fuel pos tid Hblck Hs Hpos ltac:(lia) HN)
        as (rel' & H1 & H2 & H3 & H4).
      exists rel'. split; [exact H1|]. split; [right; exact H2|]. split; [exact H3 | lia].
  - pose proof (leaf_capacity_bounds BLCKSZ Hblck) as HC.
    pose proof (leaves_below_root_total BLCKSZ rel ltac:(lia) Hg) as Hsum.
    fold total in Hsum.
    assert (Htot1 : 1 <= total).
    { destruct Hg as (_ & _ & _ & _ & Hne & _).
      destruct (pd_items (BufferGetPage rel (cbtm_root (metad_of rel)))) as [|x l];
        [congruence|].
      cbn [length] in Hsum.
      assert (1 <= leaf_capacity BLCKSZ / 2).
      { pose proof (Z.div_mod (leaf_capacity BLCKSZ) 2 ltac:(lia)).
        pose proof (Z.mod_pos_bound (leaf_capacity BLCKSZ) 2 ltac:(lia)). lia. }
      nia. }
    destruct (nth_error (tree_entries 2 rel) (Z.to_nat (Z.min (uint32 pos) total - 1)))
      as [e|] eqn:He.
    2:{ apply nth_error_None in He. fold total in He. unfold total in *. lia. }
    destruct (Z_le_gt_dec itemsz (PageGetFreeSpace BLCKSZ (BufferGetPage rel (en_blkno e))))
      as [Hroom|Hfull].
    + assert (Htot32 : total + 1 < 4294967296).
      { pose proof (Z.div_mod (leaf_capacity BLCKSZ) 2 ltac:(lia)).
        pose proof (Z.mod_pos_bound (leaf_capacity BLCKSZ) 2 ltac:(lia)).
        assert (leaf_capacity BLCKSZ / 2 * leaf_capacity BLCKSZ <= 1636 * 1636)
          by (apply Z.mul_le_mono_nonneg; lia).
        lia. }
      destruct (grown_room_step BLCKSZ rel fuel pos tid e Hblck Hg Hpos Htot32 He Hroom)
        as (rel' & H1 & H2 & H3 & H4).
      exists rel'. split; [exact H1|]. split; [right; exact H2|]. split; [exact H3 | lia].
    + destruct (grown_full_step BLCKSZ rel fuel pos tid e Hblck Hg Hpos Htot He ltac:(lia)
                  ltac:(lia)) as (rel' & H1 & H2 & H3 & H4).
      exists rel'. split; [exact H1|]. split; [right; exact H2|]. split; [exact H3 | lia].
Qed.

(** Insertions by position into a tree that insertions left. *)
Lemma cbtinsert_each_positional BLCKSZ fuel :
  88 <= BLCKSZ <= 32768 ->
  forall ops rel,
    positional BLCKSZ rel ->
    Forall (fun op => 1 <= uint32 (fst op)) ops ->
    Z.of_nat (length (tree_entries 2 rel)) + Z.of_nat (length ops)
    <= leaf_capacity BLCKSZ / 2 * leaf_capacity BLCKSZ ->
    RelationGetNumberOfBlocks rel + 2 * Z.of_nat (length ops) < InvalidBlockNumber ->
    exists rel',
      cbtinsert_each BLCKSZ (S (S (S fuel))) ops rel = Ok tt rel'
      /\ positional BLCKSZ rel'
      /\ map en_tid (tree_entries 2 rel') = inserted_at ops (map en_tid (tree_entries 2 rel)).
Proof.
  intros Hblck. induction ops as [|[pos tid] ops IH]; intros rel Hinv Hpos Htot HN.
  - exists rel. cbn. auto.
  - cbn [length] in Htot, HN. inversion Hpos as [|op l Hp Hps]; subst. cbn [fst] in Hp.
    destruct (positional_step BLCKSZ rel fuel pos tid Hblck Hinv Hp ltac:(lia) ltac:(lia))
      as (rel1 & Hrun & Hinv1 & Hent & Hblocks).
    assert (Hlen1 : Z.of_nat (length (tree_entries 2 rel1))
                    = Z.of_nat (length (tree_entries 2 rel)) + 1).
    { rewrite <- (length_map en_tid (tree_entries 2 rel1)), Hent, length_list_insert,
        length_map. lia. }
    destruct (IH rel1 Hinv1 Hps ltac:(lia) ltac:(lia)) as (rel' & Hrun' & Hinv' & Hent').
    exists rel'. cbn [cbtinsert_each fst snd]. unfold bind at 1. rewrite Hrun. cbv beta iota.
    split; [exact Hrun'|]. split; [exact Hinv'|].
    rewrite Hent', Hent. cbn [inserted_at fst snd]. rewrite length_map. reflexivity.
Qed.

Lemma cbtinsert_each_empty BLCKSZ fuel ops :
  88 <= BLCKSZ <= 32768 ->
  Forall (fun op => 1 <= uint32 (fst op)) ops ->
  Z.of_nat (length ops) <= leaf_capacity BLCKSZ / 2 * leaf_capacity BLCKSZ ->
  exists rel',
    cbtinsert_each BLCKSZ (S (S (S fuel))) ops cbt_empty_index = Ok tt rel'
    /\ cbt_tree 2 rel' = true
    /\ map en_tid (tree_entries 2 rel') = inserted_at ops [].
Proof.
  intros Hblck Hpos Hlen.
  pose proof (leaf_capacity_bounds BLCKSZ Hblck) as HC.
  destruct ops as [|[pos tid] ops].
  - exists cbt_empty_index. split; [reflexivity|]. split; reflexivity.
  - cbn [length] in Hlen. inversion Hpos as [|op l Hp Hps]; subst.
    set (rel1 := mkRel [set_meta (CBTFillMetaPage InvalidBlockNumber 0)
                          (mkMeta CBT_MAGIC 1 1);
                        set_items fresh_root [mkItem false (mkTuple tid 1)]]
                   (Some (mkMeta CBT_MAGIC 1 1))).
    assert (Hrun : cbtinsert BLCKSZ (S (S (S fuel))) pos tid cbt_empty_index = Ok true rel1).
    { unfold cbtinsert, cbt_empty_index. unfold bind at 1.
      rewrite insert_into_empty; try reflexivity; lia. }
    assert (Hs : single_leaf BLCKSZ rel1).
    { split; [reflexivity|]. split; [discriminate|]. split; [reflexivity|].
      change (Z.of_nat (length (pd_items (BufferGetPage rel1 (cbtm_root (metad_of rel1))))))
        with 1. lia. }
    assert (Hbound : leaf_capacity BLCKSZ / 2 * leaf_capacity BLCKSZ <= 1636 * 1636).
    { pose proof (Z.div_mod (leaf_capacity BLCKSZ) 2 ltac:(lia)).
      pose proof (Z.mod_pos_bound (leaf_capacity BLCKSZ) 2 ltac:(lia)).
      apply Z.mul_le_mono_nonneg; lia. }
    destruct (cbtinsert_each_positional BLCKSZ fuel Hblck ops rel1 (or_introl Hs) Hps)
      as (rel' & Hrun' & Hinv' & Hent').
    { change (Z.of_nat (length (tree_entries 2 rel1))) with 1. lia. }
    { change (RelationGetNumberOfBlocks rel1) with 2. unfold InvalidBlockNumber. lia. }
    exists rel'. cbn [cbtinsert_each fst snd]. unfold bind at 1. rewrite Hrun. cbv beta iota.
    split; [exact Hrun'|]. split; [apply (cbt_tree_positional BLCKSZ); exact Hinv'|].
    rewrite Hent'. cbn [inserted_at fst snd length].
    replace (map en_tid (tree_entries 2 rel1)) with [tid] by (destruct tid; reflexivity).
    destruct (Z.to_nat _); reflexivity.
Qed.

(** X22.  Insertions by position into the empty index.  Let a page of [BLCKSZ]
    bytes ([88 <= BLCKSZ <= 32768]) take [C = (BLCKSZ - 48) / 20] tuples.
    Any sequence of at most [(C / 2) * C] calls of [cbtinsert], each with a
    key of 32-bit value at least 1, completes on the empty index, however
    the positions are chosen; this includes the runs that split the full
    root leaf and, later, full leaves below the root.  The result is a
    counted tree of height at most two whose heap pointers in rank order are
    the list obtained by putting each record at its position, or at the end
    when the position is past the end. *)
Theorem cbtinsert_each_by_position (BLCKSZ : Z) (fuel : nat)
  (ops : list (Z * ItemPointerData)) :
  88 <= BLCKSZ <= 32768 ->
  Forall (fun op => 1 <= uint32 (fst op)) ops ->
  Z.of_nat (length ops) <= leaf_capacity BLCKSZ / 2 * leaf_capacity BLCKSZ ->
  (3 <= fuel)%nat ->
  exists rel',
    cbtinsert_each BLCKSZ fuel ops cbt_empty_index = Ok tt rel'
    /\ cbt_tree 2 rel' = true
    /\ map en_tid (tree_entries 2 rel') = inserted_at ops [].
Proof.
  intros Hblck Hpos Hlen Hfuel.
  destruct fuel as [|[|[|fuel]]]; try lia.
  exact (cbtinsert_each_empty BLCKSZ fuel ops Hblck Hpos Hlen).
Qed.

(** X23.  Insertions and scans compose over any such sequence: after at most
    [(C / 2) * C] insertions by position into the empty index, a new scan for
    a key of 32-bit value [k >= 1] returns the [k]-th record of the list that
    the insertions build, and nothing when the list has fewer than [k]
    records. *)
Theorem cbtinsert_each_scan (BLCKSZ : Z) (fuel : nat) (ops : list (Z * ItemPointerData))
  (key : Z) :
  88 <= BLCKSZ <= 32768 ->
  Forall (fun op => 1 <= uint32 (fst op)) ops ->
  Z.of_nat (length ops) <= leaf_capacity BLCKSZ / 2 * leaf_capacity BLCKSZ ->
  1 <= uint32 key ->
  (3 <= fuel)%nat ->
  exists rel' c,
    cbtinsert_each BLCKSZ fuel ops cbt_empty_index = Ok tt rel'
    /\ cbtgettuple fuel cbtbeginscan false key rel'
       = Ok match nth_error (inserted_at ops []) (Z.to_nat (uint32 key - 1)) with
            | Some t => (true, Some t, mkScan false)
            | None => (false, None, mkScan true)
            end (mkRel (rd_pages rel') c).
Proof.
  intros Hblck Hpos Hlen Hkey Hfuel.
  destruct fuel as [|[|[|fuel]]]; try lia.
  destruct (cbtinsert_each_empty BLCKSZ fuel ops Hblck Hpos Hlen) as (rel' & Hrun & Ht & Hent).
  pose proof (leaf_capacity_bounds BLCKSZ Hblck) as HC.
  assert (Hbound : leaf_capacity BLCKSZ / 2 * leaf_capacity BLCKSZ <= 1636 * 1636).
  { pose proof (Z.div_mod (leaf_capacity BLCKSZ) 2 ltac:(lia)).
    pose proof (Z.mod_pos_bound (leaf_capacity BLCKSZ) 2 ltac:(lia)).
    apply Z.mul_le_mono_nonneg; lia. }
  assert (Hmodel : forall l o, length (inserted_at o l) = (length l + length o)%nat).
  { intros l o. revert l. induction o as [|op o IH]; intros l; cbn [inserted_at length];
      [lia|]. rewrite IH, length_list_insert. lia. }
  destruct (cbt_first_tids 2 rel' key (S (S (S fuel))) Ht Hkey) as [c Hscan]; [|lia|].
  { rewrite <- (length_map en_tid), Hent, Hmodel. cbn [length]. lia. }
  exists rel', c. split; [exact Hrun|].
  unfold cbtgettuple, cbtbeginscan. rewrite Hscan, Hent. reflexivity.
Qed.

Lemma cbtinsert_each_by_position_witness :
  exists rel',
    cbtinsert_each 128 3
      [(1, heap_tid 1); (9, heap_tid 2); (1, heap_tid 3); (9, heap_tid 4);
       (2, heap_tid 5); (9, heap_tid 6); (3, heap_tid 7); (5, heap_tid 8)]
      cbt_empty_index = Ok tt rel'
    /\ cbt_tree 2 rel' = true
    /\ map en_tid (tree_entries 2 rel')
       = [heap_tid 3; heap_tid 5; heap_tid 7; heap_tid 1; heap_tid 8; heap_tid 2;
          heap_tid 4; heap_tid 6].
Proof.
  destruct (cbtinsert_each_by_position 128 3
              [(1, heap_tid 1); (9, heap_tid 2); (1, heap_tid 3); (9, heap_tid 4);
               (2, heap_tid 5); (9, heap_tid 6); (3, heap_tid 7); (5, heap_tid 8)])
    as (rel' & Hrun & Htree & Hent).
  - lia.
  - repeat (apply Forall_cons; [vm_compute; discriminate|]). apply Forall_nil.
  - vm_compute. discriminate.
  - lia.
  - exists rel'. split; [exact Hrun|]. split; [exact Htree | exact Hent].
Defined.

Lemma cbtinsert_each_scan_witness :
  exists rel' c,
    cbtinsert_each 128 3
      [(1, heap_tid 1); (9, heap_tid 2); (1, heap_tid 3); (9, heap_tid 4);
       (2, heap_tid 5); (9, heap_tid 6); (3, heap_tid 7); (5, heap_tid 8)]
      cbt_empty_index = Ok tt rel'
    /\ cbtgettuple 3 cbtbeginscan false 5 rel'
       = Ok (true, Some (heap_tid 8), mkScan false) (mkRel (rd_pages rel') c).
Proof.
  destruct (cbtinsert_each_scan 128 3
              [(1, heap_tid 1); (9, heap_tid 2); (1, heap_tid 3); (9, heap_tid 4);
               (2, heap_tid 5); (9, heap_tid 6); (3, heap_tid 7); (5, heap_tid 8)] 5)
    as (rel' & c & Hrun & Hscan).
  - lia.
  - repeat (apply Forall_cons; [vm_compute; discriminate|]). apply Forall_nil.
  - vm_compute. discriminate.
  - vm_compute. discriminate.
  - lia.
  - exists rel', c. split; [exact Hrun | exact Hscan].
Defined.
